(** * UnifiedLogReader: the dsc and tracev3 parsers, embedded and verified

    A shallow embedding of the parts of [UnifiedLog/dsc_file.py] and
    [UnifiedLog/tracev3_file.py] that decide the parser's documented
    properties.  Python integers are [Z], [bytes] are [list byte], dicts are
    [gmap]s, exceptions are carried by the [result] type, and Python floats are
    IEEE-754 binary64 values of the Standard Library's [SpecFloat]. *)

From Stdlib Require Import ZArith List Lia Bool Strings.Byte String Ascii QArith SpecFloat.
From stdpp Require Import base option list gmap sorting.

Local Open Scope Z_scope.

(** ** Python effects: exceptions as values *)

Module Py.

(** The exception classes that the modelled code raises or catches. *)
Inductive exn : Type :=
| StructError | AttributeError | NameError | ValueError | UserWarning
| IndexError | KeyError | ZeroDivisionError | OverflowError
| ImportError | UnboundLocalError | IOError | OSError | TypeError.

Inductive result (A : Type) : Type :=
| Ret (a : A)
| Raise (e : exn).
Arguments Ret {A} a.
Arguments Raise {A} e.

Definition bind {A B} (m : result A) (k : A -> result B) : result B :=
  match m with
  | Ret a => k a
  | Raise e => Raise e
  end.

Definition exn_eqb (a b : exn) : bool :=
  match a, b with
  | StructError, StructError | AttributeError, AttributeError
  | NameError, NameError | ValueError, ValueError
  | UserWarning, UserWarning | IndexError, IndexError
  | KeyError, KeyError | ZeroDivisionError, ZeroDivisionError
  | OverflowError, OverflowError | ImportError, ImportError
  | UnboundLocalError, UnboundLocalError | IOError, IOError
  | OSError, OSError | TypeError, TypeError => true
  | _, _ => false
  end.

(** [except (e1, e2, ...)]: does the clause catch [e]?  [struct.error],
    [ValueError], ... are unrelated classes, so membership is by name. *)
Definition caught_by (classes : list exn) (e : exn) : bool :=
  existsb (exn_eqb e) classes.

End Py.

Import Py.

Notation "'let*' x ':=' m 'in' k" := (Py.bind m (fun x => k))
  (at level 10, x pattern, m at level 100, k at level 200).

(** ** Python floats: IEEE-754 binary64 *)

Module PyFloat.

Definition prec : Z := 53.
Definition emax : Z := 1024.

Definition float := spec_float.

(** int -> float conversion, round-half-even; CPython raises
    [OverflowError] when the integer is beyond the largest double. *)
Definition of_int (n : Z) : result float :=
  match binary_normalize prec emax n 0 false with
  | S754_infinity _ => Raise OverflowError
  | f => Ret f
  end.

Definition one : float := binary_normalize prec emax 1 0 false.

Definition mul (x y : float) : float := SFmul prec emax x y.
Definition add (x y : float) : float := SFadd prec emax x y.

Definition is_zero (x : float) : bool :=
  match x with S754_zero _ => true | _ => false end.

(** [x / y] on floats raises [ZeroDivisionError] on a zero divisor. *)
Definition div (x y : float) : result float :=
  if is_zero y then Raise ZeroDivisionError else Ret (SFdiv prec emax x y).

(** The exact rational value of a finite float. *)
Definition to_Q (x : float) : option Q :=
  match x with
  | S754_zero _ => Some (0 # 1)%Q
  | S754_finite s m e =>
      let mz := if s then Z.neg m else Z.pos m in
      Some (if 0 <=? e then inject_Z (mz * 2 ^ e)
            else (mz # Pos.pow 2 (Z.to_pos (- e))))%Q
  | _ => None
  end.

End PyFloat.

(** ** Timesync: closest item and wall-clock conversion *)

(** A timesync item, with the attributes [tracev3_file.py] reads from it. *)
Record TimesyncItem : Type := mkTimesyncItem {
  continuousTime : Z;
  time_stamp : Z;
  ts_numerator : Z;
  ts_denominator : Z
}.

(** The [for item in ts_items] loop of [_FindClosestTimesyncItemInList]:
    [break] at the first item beyond [ct], otherwise remember the item. *)
Fixpoint closest_loop (ts_items : list TimesyncItem) (ct : Z)
    (closest_tsi : TimesyncItem) : TimesyncItem :=
  match ts_items with
  | [] => closest_tsi
  | item :: rest =>
      if continuousTime item >? ct then closest_tsi
      else closest_loop rest ct item
  end.

(** [ts_items] is [None] or a list; [not ts_items] holds for both [None] and
    the empty list. *)
Definition _FindClosestTimesyncItemInList
    (ts_items : option (list TimesyncItem)) (ct : Z) : option TimesyncItem :=
  match ts_items with
  | None | Some [] => None
  | Some (first :: rest) => Some (closest_loop (first :: rest) ct first)
  end.

(** [ts.time_stamp + (ct - ts.continuousTime) * (1.0 * ts.ts_numerator)
      / ts.ts_denominator], evaluated as Python does: left to right, each
    integer operand converted to a double, each operation rounded. *)
Definition wall_clock (ts : TimesyncItem) (ct : Z) : result PyFloat.float :=
  let* num := PyFloat.of_int (ts_numerator ts) in
  let rate := PyFloat.mul PyFloat.one num in
  let* delta := PyFloat.of_int (ct - continuousTime ts) in
  let scaled := PyFloat.mul delta rate in
  let* den := PyFloat.of_int (ts_denominator ts) in
  let* quot := PyFloat.div scaled den in
  let* stamp := PyFloat.of_int (time_stamp ts) in
  Ret (PyFloat.add stamp quot).

(** [time_from_continuoustime(ct, ts=None)]; [boot_uuid_ts_list] is the
    per-file timesync list.  A missing item makes [ts.time_stamp] fail. *)
Definition time_from_continuoustime
    (boot_uuid_ts_list : option (list TimesyncItem)) (ct : Z)
    (ts : option TimesyncItem) : result PyFloat.float :=
  let ts := match ts with
            | Some t => Some t
            | None => _FindClosestTimesyncItemInList boot_uuid_ts_list ct
            end in
  match ts with
  | None => Raise AttributeError
  | Some t => wall_clock t ct
  end.

(** The exact value that the documented formula denotes. *)
Definition wall_clock_exact (ts : TimesyncItem) (ct : Z) : Q :=
  (inject_Z (time_stamp ts)
   + inject_Z ((ct - continuousTime ts) * ts_numerator ts)
     / inject_Z (ts_denominator ts))%Q.

Definition sorted_by_ct (items : list TimesyncItem) : Prop :=
  Sorted (fun a b => continuousTime a <= continuousTime b) items.

(** What "the last item at or before [ct], or else the first item" means. *)
Inductive closest_spec (items : list TimesyncItem) (ct : Z)
    (tsi : TimesyncItem) : Prop :=
| closest_last (pre post : list TimesyncItem) :
    items = pre ++ tsi :: post ->
    continuousTime tsi <= ct ->
    Forall (fun j => ct < continuousTime j) post ->
    closest_spec items ct tsi
| closest_first (rest : list TimesyncItem) :
    items = tsi :: rest ->
    Forall (fun j => ct < continuousTime j) items ->
    closest_spec items ct tsi.

(** Scenario 6 of the specification. *)
Definition scenario6_item : TimesyncItem :=
  mkTimesyncItem 1000 1600000000000000000 1 1.

(** ** Bytes, slices and [struct.unpack] *)

Abbreviation bytes := (list byte).

Definition byte_val (b : byte) : Z := Z.of_N (Byte.to_N b).

(** Little-endian unsigned and signed integers ([<B], [<H], [<I], [<Q] and
    [<h]). *)
Fixpoint le_uint (bs : bytes) : Z :=
  match bs with
  | [] => 0
  | b :: rest => byte_val b + 256 * le_uint rest
  end.

Definition le_sint (bs : bytes) : Z :=
  let v := le_uint bs in
  let w := 256 ^ Z.of_nat (length bs) in
  if v <? w / 2 then v else v - w.

(** The little-endian encoding, used to write down concrete files. *)
Fixpoint le_bytes (n : nat) (v : Z) : bytes :=
  match n with
  | O => []
  | S n' =>
      match Byte.of_N (Z.to_N (v mod 256)) with
      | Some b => b
      | None => x00
      end :: le_bytes n' (v / 256)
  end.

Definition bytes_eqb (a b : bytes) : bool :=
  (length a =? length b)%nat
  && forallb (fun p => Byte.eqb (fst p) (snd p)) (combine a b).

(** Python's clamping of a slice bound: negative bounds count from the end. *)
Definition py_norm (len i : Z) : Z :=
  if i <? 0 then Z.max (i + len) 0 else Z.min i len.

(** [l[lo:hi]] *)
Definition py_slice {A} (l : list A) (lo hi : Z) : list A :=
  let len := Z.of_nat (length l) in
  let lo' := py_norm len lo in
  let hi' := py_norm len hi in
  take (Z.to_nat (hi' - lo')) (drop (Z.to_nat lo') l).

(** [l[lo:]] *)
Definition py_slice_from {A} (l : list A) (lo : Z) : list A :=
  drop (Z.to_nat (py_norm (Z.of_nat (length l)) lo)) l.

(** [l[i]] for a Python list: negative indices count from the end, anything
    out of range raises [IndexError]. *)
Definition py_index {A} (l : list A) (i : Z) : result A :=
  let len := Z.of_nat (length l) in
  let j := if i <? 0 then i + len else i in
  if (0 <=? j) && (j <? len) then
    match l !! Z.to_nat j with
    | Some x => Ret x
    | None => Raise IndexError
    end
  else Raise IndexError.

(** [struct.unpack] raises [struct.error] unless the buffer has exactly the
    size of the format. *)
Definition struct_size (data : bytes) (n : Z) : result unit :=
  if Z.of_nat (length data) =? n then Ret tt else Raise StructError.

Definition uint_at (data : bytes) (off n : Z) : Z :=
  le_uint (py_slice data off (off + n)).

Definition sint_at (data : bytes) (off n : Z) : Z :=
  le_sint (py_slice data off (off + n)).

(** [struct.unpack(fmt, data[pos:pos+n])[0]] for one unsigned field. *)
Definition unpack_uint (data : bytes) (pos n : Z) : result Z :=
  let field := py_slice data pos (pos + n) in
  let* _ := struct_size field n in
  Ret (le_uint field).

Definition unpack_sint (data : bytes) (pos n : Z) : result Z :=
  let field := py_slice data pos (pos + n) in
  let* _ := struct_size field n in
  Ret (le_sint field).

(** ** File objects *)

(** A binary file opened for reading: its contents and the read position. *)
Record FileObj : Type := mkFileObj {
  contents : bytes;
  offset : Z
}.

(** What [file_object.read(n)] gives when it returns: the bytes read (fewer
    than [n] at end of file) and the file object afterwards. *)
Definition file_read (f : FileObj) (n : Z) : bytes * FileObj :=
  let data := py_slice (contents f) (offset f) (offset f + n) in
  (data, mkFileObj (contents f) (offset f + Z.of_nat (length data))).

(** [sys.maxsize], the largest [Py_ssize_t]. *)
Definition PY_SSIZE_T_MAX : Z := 9223372036854775807.

(** [file_object.read(n)] for a size [n >= 0], which is what every caller
    passes: a size above [sys.maxsize] raises [OverflowError] ("cannot fit
    'int' into an index-sized integer"), any other size gives the bytes
    that are there.  A [MemoryError] for a size that the machine cannot
    allocate is outside the model. *)
Definition file_object_read (f : FileObj) (n : Z)
    : result (bytes * FileObj) :=
  if n >? PY_SSIZE_T_MAX then Raise OverflowError else Ret (file_read f n).

(** [file_object.seek(pos)]; the positions that the parsers seek to are
    32-bit fields of the file or lie below the size of the file, within
    [sys.maxsize]. *)
Definition file_seek (f : FileObj) (pos : Z) : FileObj :=
  mkFileObj (contents f) pos.

(** Modelled from the spec: [data_format.BinaryDataFormat._ReadCString] is not
    among the sources; the specification describes the strings it reads as
    NUL-terminated, optionally bounded by a maximum length. *)
Fixpoint cstring_bytes (data : bytes) : bytes :=
  match data with
  | [] => []
  | b :: rest => if Byte.eqb b x00 then [] else b :: cstring_bytes rest
  end.

Definition _ReadCString (data : bytes) (max_len : option Z) : string :=
  let bounded := match max_len with
                 | Some n => py_slice data 0 n
                 | None => data
                 end in
  string_of_list_byte (cstring_bytes bounded).

(** [posixpath.basename]: what follows the last slash. *)
Fixpoint basename_from (acc : string) (s : string) : string :=
  match s with
  | EmptyString => acc
  | String c rest =>
      if Ascii.eqb c "/"%char then basename_from rest rest
      else basename_from acc rest
  end.

Definition basename (path : string) : string := basename_from path path.

(** ** The dsc file parser ([dsc_file.py]) *)

Module DscFile.

(** [[uuid_index, v_off, data_offset, data_len]] *)
Record RangeEntry : Type := mkRangeEntry {
  uuid_index : Z;
  v_off : Z;
  data_offset : Z;
  data_len : Z
}.

(** [[v_off, size, uuid, lib_path, lib_name]] *)
Record UuidEntry : Type := mkUuidEntry {
  u_v_off : Z;
  u_size : Z;
  u_uuid : bytes;
  lib_path : string;
  lib_name : string
}.

(** The attributes of a [Dsc] object.  [fmt_cache], which only memoizes
    [ReadFmtStringAndEntriesFromVirtualOffset], is left out. *)
Record Dsc : Type := mkDsc {
  format_version : option (Z * Z);
  uuid_entries : list UuidEntry;
  uuid_entry_dict : gmap Z UuidEntry;
  uuid_entry_offsets : list Z;
  num_uuid_entries : Z;
  range_entries : gmap Z RangeEntry;
  range_entry_offsets : list Z;
  num_range_entries : Z
}.

(** [Dsc.__init__] *)
Definition Dsc_init : Dsc := mkDsc None [] ∅ [] 0 ∅ [] 0.

(** The names bound in the module [dsc_file]: its imports ([os],
    [posixpath], [struct], [UUID], [bisect_right], [data_format], [logger])
    and its class. *)
Definition module_globals : list string :=
  ["os"; "posixpath"; "struct"; "UUID"; "bisect_right"; "data_format";
   "logger"; "Dsc"]%string.

(** Evaluating a global name that the module does not bind raises
    [NameError]. *)
Definition load_global (name : string) : result unit :=
  if existsb (String.eqb name) module_globals then Ret tt
  else Raise NameError.

Definition hcsd : bytes := list_byte_of_string "hcsd".

(** [sorted([k for k in d.keys()])] *)
Definition sorted_keys {V} (d : gmap Z V) : list Z :=
  merge_sort Z.le (map fst (map_to_list d)).

(** One iteration's read of a range record: 16 bytes [<IIII] in version
    1, 24 bytes [<QIIQ] in version 2. *)
Definition read_range_entry (major_version : Z) (f : FileObj)
    : result (RangeEntry * FileObj) :=
  if major_version =? 1 then
    let* (range_entry_data, f) := file_object_read f 16 in
    let* _ := struct_size range_entry_data 16 in
    Ret (mkRangeEntry (uint_at range_entry_data 0 4)
                      (uint_at range_entry_data 4 4)
                      (uint_at range_entry_data 8 4)
                      (uint_at range_entry_data 12 4), f)
  else if major_version =? 2 then
    let* (range_entry_data, f) := file_object_read f 24 in
    let* _ := struct_size range_entry_data 24 in
    Ret (mkRangeEntry (uint_at range_entry_data 16 8)
                      (uint_at range_entry_data 0 8)
                      (uint_at range_entry_data 8 4)
                      (uint_at range_entry_data 12 4), f)
  else Raise UserWarning.

(** [while len(self.range_entries) < num_range_entries]: an iteration
    either raises or adds one new key, so from a dict of [k] entries the
    body runs [num_range_entries - k] times; [n] counts the iterations
    that remain. *)
Fixpoint range_entries_loop (n : nat) (major_version : Z) (f : FileObj)
    (entries : gmap Z RangeEntry) : result (gmap Z RangeEntry * FileObj) :=
  match n with
  | O => Ret (entries, f)
  | S n' =>
      let* (range_entry, f) := read_range_entry major_version f in
      match entries !! v_off range_entry with
      | Some _ => Raise ValueError
      | None =>
          range_entries_loop n' major_version f
            (<[v_off range_entry := range_entry]> entries)
      end
  end.

(** [UUID(bytes=b)] raises [ValueError] unless [b] has 16 bytes. *)
Definition UUID_of_bytes (b : bytes) : result bytes :=
  if Z.of_nat (length b) =? 16 then Ret b else Raise ValueError.

(** One iteration's read of a uuid record and of the path it points to. *)
Definition read_uuid_entry (major_version : Z) (uuid_entry_offset : Z)
    (f : FileObj) : result (UuidEntry * Z * FileObj) :=
  if major_version =? 1 then
    let f := file_seek f uuid_entry_offset in
    let* (uuid_entry_data, f) := file_object_read f 28 in
    let uuid_entry_offset := uuid_entry_offset + 28 in
    let head := py_slice uuid_entry_data 0 8 in
    let* _ := struct_size head 8 in
    let* uuid_object := UUID_of_bytes (py_slice uuid_entry_data 8 24) in
    let tail := py_slice_from uuid_entry_data 24 in
    let* _ := struct_size tail 4 in
    let f := file_seek f (le_uint tail) in
    let* (path_data, f) := file_object_read f 1024 in
    let path := _ReadCString path_data None in
    Ret (mkUuidEntry (uint_at head 0 4) (uint_at head 4 4) uuid_object
                     path (basename path), uuid_entry_offset, f)
  else if major_version =? 2 then
    let f := file_seek f uuid_entry_offset in
    let* (uuid_entry_data, f) := file_object_read f 32 in
    let uuid_entry_offset := uuid_entry_offset + 32 in
    let head := py_slice uuid_entry_data 0 12 in
    let* _ := struct_size head 12 in
    let* uuid_object := UUID_of_bytes (py_slice uuid_entry_data 12 28) in
    let tail := py_slice_from uuid_entry_data 28 in
    let* _ := struct_size tail 4 in
    let f := file_seek f (le_uint tail) in
    let* (path_data, f) := file_object_read f 1024 in
    let path := _ReadCString path_data None in
    Ret (mkUuidEntry (uint_at head 0 8) (uint_at head 8 4) uuid_object
                     path (basename path), uuid_entry_offset, f)
  else Raise UserWarning.

(** [while len(self.uuid_entries) < num_uuid_entries]: every iteration
    appends one entry (before the uniqueness check), so the body runs
    [num_uuid_entries] times from the empty list. *)
Fixpoint uuid_entries_loop (n : nat) (major_version : Z)
    (uuid_entry_offset : Z) (f : FileObj) (entries : list UuidEntry)
    (dict : gmap Z UuidEntry)
    : result (list UuidEntry * gmap Z UuidEntry * FileObj) :=
  match n with
  | O => Ret (entries, dict, f)
  | S n' =>
      let* (uuid_entry, uuid_entry_offset, f) :=
        read_uuid_entry major_version uuid_entry_offset f in
      let entries := entries ++ [uuid_entry] in
      match dict !! u_v_off uuid_entry with
      | Some _ => Raise ValueError
      | None =>
          uuid_entries_loop n' major_version uuid_entry_offset f entries
            (<[u_v_off uuid_entry := uuid_entry]> dict)
      end
  end.

(** [Dsc._ParseFileObject] on a freshly constructed [Dsc]: the value
    returned and the object's attributes afterwards. *)
Definition _ParseFileObject (f : FileObj) : result (bool * Dsc) :=
  let* (file_header_data, f) := file_object_read f 16 in
  if negb (bytes_eqb (py_slice file_header_data 0 4) hcsd) then
    (* signature_base16 = binascii.hexlify(file_header_data[0:4]) *)
    let* _ := load_global "binascii" in
    Ret (false, Dsc_init)
  else
    let fields := py_slice file_header_data 4 16 in
    let* _ := struct_size fields 12 in
    let major_version := uint_at fields 0 2 in
    let minor_version := uint_at fields 2 2 in
    let num_range_entries := uint_at fields 4 4 in
    let num_uuid_entries := uint_at fields 8 4 in
    if major_version >? 2 then Raise UserWarning
    else
      let* (ranges, f) :=
        range_entries_loop (Z.to_nat num_range_entries) major_version f ∅ in
      let range_offsets := sorted_keys ranges in
      let uuid_entry_offset := offset f in
      let* (uuids, dict, f) :=
        uuid_entries_loop (Z.to_nat num_uuid_entries) major_version
          uuid_entry_offset f [] ∅ in
      let uuid_offsets := sorted_keys dict in
      Ret (true,
           mkDsc (Some (major_version, minor_version))
                 uuids dict uuid_offsets (Z.of_nat (length uuid_offsets))
                 ranges range_offsets (Z.of_nat (length range_offsets))).

(** The virtual file behind a parser: [open()] gives a file object or
    nothing, and [is_valid] records whether parsing succeeded. *)
Record VirtualFile : Type := mkVirtualFile {
  file_data : option bytes;
  is_valid : bool
}.

(** [Dsc.Parse]: the value returned, the virtual file and the parsed
    object.  Only [IOError], [OSError] and [struct.error] are caught. *)
Definition Parse (v_file : VirtualFile)
    : result (bool * VirtualFile * Dsc) :=
  match file_data v_file with
  | None => Ret (false, v_file, Dsc_init)
  | Some data =>
      let* (result, dsc) :=
        match _ParseFileObject (mkFileObj data 0) with
        | Ret r => Ret r
        | Raise e =>
            if caught_by [IOError; OSError; StructError] e
            then Ret (false, Dsc_init)
            else Raise e
        end in
      let v_file :=
        if result then v_file else mkVirtualFile (file_data v_file) false in
      Ret (result, v_file, dsc)
  end.

(** [bisect.bisect_right(a, x, lo, hi)]: halve [lo, hi) until it is
    empty.  [fuel] bounds the iterations; [hi - lo] is always enough. *)
Fixpoint bisect_loop (fuel : nat) (a : list Z) (x lo hi : Z) : result Z :=
  if lo <? hi then
    match fuel with
    | O => Ret lo
    | S fuel' =>
        let mid := (lo + hi) / 2 in
        let* a_mid := py_index a mid in
        if x <? a_mid then bisect_loop fuel' a x lo mid
        else bisect_loop fuel' a x (mid + 1) hi
    end
  else Ret lo.

Definition bisect_right (a : list Z) (x lo hi : Z) : result Z :=
  if lo <? 0 then Raise ValueError
  else bisect_loop (Z.to_nat (hi - lo)) a x lo hi.

(** [Dsc.FindVirtualOffsetEntries]: [Some (range_entry, uuid_entry)], or
    [None] for the pair [(None, None)]. *)
Definition FindVirtualOffsetEntries (d : Dsc) (v_offset : Z)
    : result (option (RangeEntry * UuidEntry)) :=
  let* pos :=
    bisect_right (range_entry_offsets d) v_offset 0 (num_range_entries d) in
  if pos >? 0 then
    let* range_offset := py_index (range_entry_offsets d) (pos - 1) in
    match range_entries d !! range_offset with
    | None => Raise KeyError
    | Some a =>
        if v_off a + data_len a >? v_offset then
          let* ret_uuid_entry := py_index (uuid_entries d) (uuid_index a) in
          Ret (Some (a, ret_uuid_entry))
        else Ret None
    end
  else Ret None.

(** [Dsc.ReadFmtStringAndEntriesFromVirtualOffset], reading from the
    contents [file] of the dsc file; the memoization is transparent. *)
Definition ReadFmtStringAndEntriesFromVirtualOffset (d : Dsc) (file : bytes)
    (v_offset : Z) : result (string * RangeEntry * UuidEntry) :=
  let* found := FindVirtualOffsetEntries d v_offset in
  match found with
  | None => Raise KeyError
  | Some (range_entry, uuid_entry) =>
      let rel_offset := v_offset - v_off range_entry in
      let f := file_seek (mkFileObj file 0)
                 (data_offset range_entry + rel_offset) in
      let* (cstring_data, _) :=
        file_object_read f (data_len range_entry - rel_offset) in
      Ret (_ReadCString cstring_data
             (Some (data_len range_entry - rel_offset)),
           range_entry, uuid_entry)
  end.

(** [Dsc.GetUuidEntryFromVirtualOffset] *)
Definition GetUuidEntryFromVirtualOffset (d : Dsc) (v_offset : Z)
    : result (option UuidEntry) :=
  let* pos :=
    bisect_right (uuid_entry_offsets d) v_offset 0 (num_uuid_entries d) in
  if pos >? 0 then
    let* uuid_offset := py_index (uuid_entry_offsets d) (pos - 1) in
    match uuid_entry_dict d !! uuid_offset with
    | None => Raise KeyError
    | Some b =>
        if u_v_off b + u_size b >? v_offset then Ret (Some b)
        else Ret None
    end
  else Ret None.

(** *** Concrete dsc files *)

Definition dsc_header (major minor ranges uuids : Z) : bytes :=
  hcsd ++ le_bytes 2 major ++ le_bytes 2 minor
       ++ le_bytes 4 ranges ++ le_bytes 4 uuids.

Definition range_v1 (e : RangeEntry) : bytes :=
  le_bytes 4 (uuid_index e) ++ le_bytes 4 (v_off e)
    ++ le_bytes 4 (data_offset e) ++ le_bytes 4 (data_len e).

Definition uuid_v1 (v size : Z) (uuid : bytes) (path_offset : Z) : bytes :=
  le_bytes 4 v ++ le_bytes 4 size ++ uuid ++ le_bytes 4 path_offset.

(** A version-1 file with two ranges, [0, 100) and [50, 60), that share
    one uuid entry whose path is "/usr/lib/libA.dylib". *)
Definition overlapping_dsc : bytes :=
  dsc_header 1 0 2 1
    ++ range_v1 (mkRangeEntry 0 0 200 100)
    ++ range_v1 (mkRangeEntry 0 50 300 10)
    ++ uuid_v1 0 100 (le_bytes 16 7) 76
    ++ list_byte_of_string "/usr/lib/libA.dylib" ++ [x00].

(** A file that does not start with the signature. *)
Definition not_a_dsc : bytes :=
  list_byte_of_string "XXXX" ++ le_bytes 12 0.

(** A file whose header announces major version 3. *)
Definition dsc_version3 : bytes := dsc_header 3 0 0 0.

End DscFile.

(** *** What [FindVirtualOffsetEntries] is documented to compute *)

Module DscSpec.
Import DscFile.

(** [g] is the range entry with the greatest [v_off] at or below
    [v_offset], or [None] when every range starts beyond it. *)
Inductive greatest_at_or_below (d : Dsc) (v_offset : Z)
    : option RangeEntry -> Prop :=
| greatest_some (a : RangeEntry) :
    range_entries d !! v_off a = Some a ->
    v_off a <= v_offset ->
    (forall k, is_Some (range_entries d !! k) -> k <= v_offset ->
               k <= v_off a) ->
    greatest_at_or_below d v_offset (Some a)
| greatest_none :
    (forall k, is_Some (range_entries d !! k) -> v_offset < k) ->
    greatest_at_or_below d v_offset None.

(** Accept the candidate only if its range reaches beyond [v_offset], and
    pair it with [uuid_entries[uuid_index]]. *)
Definition accept (d : Dsc) (v_offset : Z) (g : option RangeEntry)
    : result (option (RangeEntry * UuidEntry)) :=
  match g with
  | Some a =>
      if v_off a + data_len a >? v_offset then
        let* u := py_index (uuid_entries d) (uuid_index a) in
        Ret (Some (a, u))
      else Ret None
  | None => Ret None
  end.

(** [a] is one of the ranges of [d]. *)
Definition known_range (d : Dsc) (a : RangeEntry) : Prop :=
  range_entries d !! v_off a = Some a.

Definition inside (a : RangeEntry) (v_offset : Z) : Prop :=
  v_off a <= v_offset < v_off a + data_len a.

Definition non_overlapping (d : Dsc) : Prop :=
  forall a b, known_range d a -> known_range d b ->
              v_off a < v_off b -> v_off a + data_len a <= v_off b.

(** Every range entry is stored under its own [v_off]. *)
Definition own_key (m : gmap Z RangeEntry) : Prop :=
  forall k e, m !! k = Some e -> v_off e = k.

(** What a successful parse leaves in the object, as far as the range
    table goes. *)
Record parsed_inv (d : Dsc) : Prop := mk_parsed_inv {
  inv_offsets : range_entry_offsets d = sorted_keys (range_entries d);
  inv_num : num_range_entries d = Z.of_nat (length (range_entry_offsets d));
  inv_own_key : own_key (range_entries d)
}.

End DscSpec.

(** The dsc object that parsing [overlapping_dsc] leaves behind. *)
Definition parsed_overlapping_dsc : DscFile.Dsc :=
  match DscFile._ParseFileObject (mkFileObj DscFile.overlapping_dsc 0) with
  | Ret (_, d) => d
  | Raise _ => DscFile.Dsc_init
  end.

(** A version-1 file whose two range records carry the same [v_off]. *)
Definition duplicate_dsc : bytes :=
  DscFile.dsc_header 1 0 2 0
    ++ DscFile.range_v1 (DscFile.mkRangeEntry 0 64 200 16)
    ++ DscFile.range_v1 (DscFile.mkRangeEntry 0 64 300 16).

(** ** [while] loops *)

(** [while cond(s): s = body(s)].  Every loop of the parser moves a position
    forward until it passes a bound, so the distance to the bound is enough
    fuel; [while_loop_fuel] shows that the result then does not depend on
    the fuel, and the exhausted case is never reached. *)
Fixpoint while_loop {S : Type} (fuel : nat) (cond : S -> bool)
    (body : S -> result S) (s : S) : result S :=
  if cond s then
    match fuel with
    | O => Ret s
    | S fuel' =>
        match body s with
        | Ret s' => while_loop fuel' cond body s'
        | Raise e => Raise e
        end
    end
  else Ret s.

(** ** The tracev3 parser ([tracev3_file.py]): data *)

Module Tracev3.

Local Open Scope string_scope.
Local Open Scope list_scope.
Local Open Scope Z_scope.
Local Infix "+s+" := String.append (at level 60, right associativity).

Definition _CHUNK_TAG_FIREHOSE : Z := 0x6001.
Definition _CHUNK_TAG_OVERSIZE : Z := 0x6002.
Definition _CHUNK_TAG_STATEDUMP : Z := 0x6003.
Definition _CHUNK_TAG_SIMPLEDUMP : Z := 0x6004.
Definition _CHUNK_TAG_METADATA : Z := 0x600B.
Definition _CHUNK_TAG_COMPRESSED : Z := 0x600D.

Definition _TRACEPOINT_FLAG_HAS_ACTIVITY_ID : Z := 0x0001.
Definition _TRACEPOINT_FLAG_HAS_UNIQUE_PID : Z := 0x0010.
Definition _TRACEPOINT_FLAG_HAS_LARGE_OFFSET : Z := 0x0020.
Definition _TRACEPOINT_FLAG_HAS_PRIVATE_STRINGS_RANGE : Z := 0x0100.
Definition _TRACEPOINT_FLAG_HAS_OTHER_AID : Z := 0x0200.
Definition _TRACEPOINT_FLAG_HAS_TTL : Z := 0x0400.
Definition _TRACEPOINT_FLAG_HAS_OVERSIZE_DATA_REFERENCE : Z := 0x0800.
Definition _TRACEPOINT_FLAG_HAS_BACKTRACE : Z := 0x1000.
Definition _TRACEPOINT_FLAG_HAS_SIGNPOST_NAME_REFERENCE : Z := 0x8000.

(** [bool(flags & mask)] *)
Definition has_flag (flags mask : Z) : bool := negb (Z.land flags mask =? 0).

(** A parsed uuidtext file, as the tracepoint decoder uses it.  The module
    [uuidtext_file] is not among the sources, so its one method is a field. *)
Record Uuidtext : Type := mkUuidtext {
  ut_filename : string;
  library_name : string;
  library_path : string;
  Uuid : bytes;
  ReadFmtStringFromVirtualOffset : Z -> result string
}.

(** An element of [catalog.FileObjects]: a dsc file or a uuidtext file. *)
Inductive FileObject : Type :=
| DscObject (filename : string) (d : DscFile.Dsc) (file : bytes)
| UuidtextObject (u : Uuidtext).

(** Attribute access on a file object; a [Dsc] has none of the uuidtext
    attributes and a [Uuidtext] none of the dsc methods. *)
Definition as_uuidtext (o : FileObject) : result Uuidtext :=
  match o with
  | UuidtextObject u => Ret u
  | DscObject _ _ _ => Raise AttributeError
  end.

Definition as_dsc (o : option FileObject) : result (DscFile.Dsc * bytes) :=
  match o with
  | Some (DscObject _ d file) => Ret (d, file)
  | _ => Raise AttributeError
  end.

Definition object_filename (o : FileObject) : string :=
  match o with
  | DscObject name _ _ => name
  | UuidtextObject u => ut_filename u
  end.

Record ExtraFileReference : Type := mkExtraFileReference {
  ref_data_size : Z;
  ref_uuid_file_index : Z;
  ref_v_offset : Z;
  ref_id : Z
}.

Record ProcInfo : Type := mkProcInfo {
  proc_id1 : Z;
  proc_id2 : Z;
  pid : Z;
  euid : Z;
  dsc_file_index : Z;
  uuid_file_index : Z;
  extra_file_refs : list ExtraFileReference;
  items : gmap Z (string * string)
}.

Record ChunkMeta : Type := mkChunkMeta {
  c_time_first : Z;
  c_time_last : Z;
  ProcInfos : gmap Z ProcInfo
}.

Record Catalog : Type := mkCatalog {
  FileObjects : list FileObject;
  ChunkMetaInfo : list ChunkMeta
}.

(** [resources.LogEntry], with the constructor's argument order. *)
Record LogEntry : Type := mkLogEntry {
  le_filename : string;
  le_log_file_pos : Z;
  le_ct : Z;
  le_time : PyFloat.float;
  le_thread : Z;
  le_log_type : string;
  le_act_id : Z;
  le_parentActivityIdentifier : Z;
  le_pid : Z;
  le_euid : Z;
  le_ttl : Z;
  le_p_name : string;
  le_lib : string;
  le_sub_sys : string;
  le_cat : string;
  le_signpost_name : string;
  le_signpost_string : string;
  le_imageOffset : Z;
  le_imageUUID : option bytes;
  le_processImageUUID : option bytes;
  le_senderImagePath : string;
  le_processImagePath : string;
  le_log_msg : string
}.

(** *** Text formatting *)

Definition hex_digit (upper : bool) (d : Z) : ascii :=
  if d <? 10 then ascii_of_nat (Z.to_nat (48 + d))
  else ascii_of_nat (Z.to_nat ((if upper then 55 else 87) + d)).

Fixpoint hex_digits (fuel : nat) (upper : bool) (n : Z) (acc : string)
    : string :=
  match fuel with
  | O => acc
  | S fuel' =>
      let acc := String (hex_digit upper (n mod 16)) acc in
      if n / 16 =? 0 then acc else hex_digits fuel' upper (n / 16) acc
  end.

(** ['%x' % n] for a non-negative [n]. *)
Definition format_x (n : Z) : string :=
  hex_digits (S (Z.to_nat (Z.log2 n))) false n EmptyString.

(** [binascii.hexlify(data).decode('utf8').upper()] *)
Fixpoint hexlify_upper (data : bytes) : string :=
  match data with
  | [] => EmptyString
  | b :: rest =>
      String (hex_digit true (byte_val b / 16))
        (String (hex_digit true (byte_val b mod 16)) (hexlify_upper rest))
  end.

(** [template % (n)] for a template whose only conversion is one [%x]. *)
Fixpoint percent_x (template : string) (n : Z) : string :=
  match template with
  | String "%"%char (String "x"%char rest) => format_x n +s+ rest
  | String c rest => String c (percent_x rest n)
  | EmptyString => EmptyString
  end.

(** *** Level derivation (the [logtype] block of the tracepoint decoder) *)

Record Level : Type := mkLevel {
  log_type : string;
  is_activity : bool;
  is_signpost : bool;
  signpost_string : string
}.

Definition derive_level (record_type logtype : Z) : Level :=
  let log_type := "Default" in
  let signpost_string := "spid 0x%x," in
  if negb (Z.land logtype 0x80 =? 0) then
    let signpost_string :=
      if Z.land logtype 0xC0 =? 0xC0 then signpost_string +s+ " system,"
      else signpost_string +s+ " process," in
    let signpost_string :=
      if Z.land logtype 0x82 =? 0x82 then signpost_string +s+ " end"
      else if Z.land logtype 0x81 =? 0x81 then signpost_string +s+ " begin"
      else signpost_string +s+ " event" in
    mkLevel log_type false true signpost_string
  else if logtype =? 0x01 then
    if Z.land record_type 0x0F =? 0x02
    then mkLevel "Activity" true false signpost_string
    else mkLevel "Info" false false signpost_string
  else if logtype =? 0x02 then mkLevel "Debug" false false signpost_string
  else if logtype =? 0x10 then mkLevel "Error" false false signpost_string
  else if logtype =? 0x11 then mkLevel "Fault" false false signpost_string
  else mkLevel log_type false false signpost_string.

(** *** The firehose tracepoint decoder *)

(** The attributes of the [TraceV3] object that decoding reads. *)
Record TraceV3 : Type := mkTraceV3 {
  filename : string;
  boot_uuid_ts_list : option (list TimesyncItem);
  large_data : gmap Z bytes
}.

(** [TraceV3.__init__]: no timesync list yet and an empty store. *)
Definition TraceV3_init (name : string) : TraceV3 := mkTraceV3 name None ∅.

(** The 24-byte fixed header, [<BBHIQIHH]. *)
Record TracepointHeader : Type := mkTracepointHeader {
  record_type : Z;
  logtype : Z;
  flags : Z;
  fmt_str_v_offset : Z;
  thread : Z;
  ct_rel : Z;
  ct_rel_upper : Z;
  log_data_len : Z
}.

Definition unpack_tracepoint_header (tracepoint_data : bytes)
    : result TracepointHeader :=
  let header := py_slice tracepoint_data 0 24 in
  let* _ := struct_size header 24 in
  Ret (mkTracepointHeader
         (uint_at header 0 1) (uint_at header 1 1) (uint_at header 2 2)
         (uint_at header 4 4) (uint_at header 8 8) (uint_at header 16 4)
         (uint_at header 20 2) (uint_at header 22 2)).

(** [ct = continuousTime + (ct_rel | (ct_rel_upper << 32))] *)
Definition tracepoint_ct (continuousTime : Z) (h : TracepointHeader) : Z :=
  continuousTime + Z.lor (ct_rel h) (Z.shiftl (ct_rel_upper h) 32).

(** [pos3] and [log_data_len2], which always move together. *)
Record Cursor : Type := mkCursor {
  pos3 : Z;
  log_data_len2 : Z
}.

Definition advance (c : Cursor) (n : Z) : Cursor :=
  mkCursor (pos3 c + n) (log_data_len2 c - n).

(** [try: m  except classes: handler] *)
Definition try_except {A} (m : result A) (classes : list exn)
    (handler : result A) : result A :=
  match m with
  | Ret a => Ret a
  | Raise e => if caught_by classes e then handler else Raise e
  end.

(** The locals that name the sender image and the format string. *)
Record Resolved : Type := mkResolved {
  format_str : string;
  ut : option FileObject;
  p_name : string;
  lib : string;
  imageUUID : option bytes;
  senderImagePath : string;
  imageOffset : Z;
  signpost_name : string
}.

Section Decoder.

(** Parts of the parser that the properties below do not look into: the
    log-data buffer readers, the message reconstructor, the lookup of
    [ProcInfo.GetSubSystemAndCategory] (module [resources]) and the search
    for an individually referenced uuidtext file (in [other_uuidtext], else
    opened through the virtual file system). *)
Variable LogDataItem : Type.
Variable ReadLogDataBuffer :
  bytes -> Z -> bytes -> bool -> result (list LogDataItem).
Variable ReadLogDataBuffer2 : bytes -> Z -> bytes -> result (list LogDataItem).
Variable RecreateMsgFromFmtStringAndData :
  string -> list LogDataItem -> Z -> result string.
Variable GetSubSystemAndCategory : ProcInfo -> Z -> result (string * string).
Variable find_other_uuidtext : string -> result (option Uuidtext).

(** The identifiers read first: for an activity the current, unique-pid,
    other and new activity ids; otherwise the current activity id and the
    private-strings range.  Returns the cursor, [act_id],
    [priv_str_v_offset] and [priv_str_len]. *)
Definition read_identifiers (lv : Level) (h : TracepointHeader)
    (tracepoint_data private_strings : bytes)
    : result (Cursor * list Z * Z * Z) :=
  let c := mkCursor 24 (log_data_len h) in
  let act_id := [0] in
  if is_activity lv then
    let* (c, act_id) :=
      if has_flag (flags h) _TRACEPOINT_FLAG_HAS_ACTIVITY_ID then
        let* current_aid := unpack_uint tracepoint_data (pos3 c) 8 in
        Ret (advance c 8, act_id ++ [Z.land current_aid 0xffffffff])
      else Ret (c, act_id) in
    let* c :=
      if has_flag (flags h) _TRACEPOINT_FLAG_HAS_UNIQUE_PID then
        let* unique_pid := unpack_uint tracepoint_data (pos3 c) 8 in
        Ret (advance c 8)
      else Ret c in
    let* (c, act_id) :=
      if has_flag (flags h) _TRACEPOINT_FLAG_HAS_OTHER_AID then
        let* other_aid := unpack_uint tracepoint_data (pos3 c) 8 in
        Ret (advance c 8, act_id ++ [Z.land other_aid 0xffffffff])
      else Ret (c, act_id) in
    let* (c, act_id) :=
      if negb (logtype h =? 0x03) then
        let field := py_slice tracepoint_data (pos3 c) (pos3 c + 8) in
        let* _ := struct_size field 8 in
        if uint_at field 4 4 =? 0x80000000
        then Ret (advance c 8, act_id ++ [uint_at field 0 4])
        else Ret (c, act_id)
      else Ret (c, act_id) in
    Ret (c, act_id, 0, 0)
  else
    let* (c, act_id) :=
      if has_flag (flags h) _TRACEPOINT_FLAG_HAS_ACTIVITY_ID then
        let field := py_slice tracepoint_data (pos3 c) (pos3 c + 8) in
        let* _ := struct_size field 8 in
        if uint_at field 4 4 =? 0x80000000
        then Ret (advance c 8, act_id ++ [uint_at field 0 4])
        else Ret (c, act_id)
      else Ret (c, act_id) in
    if has_flag (flags h) _TRACEPOINT_FLAG_HAS_PRIVATE_STRINGS_RANGE then
      match private_strings with
      | _ :: _ =>
          let field := py_slice tracepoint_data (pos3 c) (pos3 c + 4) in
          let* _ := struct_size field 4 in
          Ret (advance c 4, act_id, uint_at field 0 2, uint_at field 2 2)
      | [] => Ret (c, act_id, 0, 0)
      end
    else Ret (c, act_id, 0, 0).

(** [if has_large_offset: ...] *)
Definition read_large_offset (h : TracepointHeader) (tracepoint_data : bytes)
    (c : Cursor) : result (Cursor * Z) :=
  if has_flag (flags h) _TRACEPOINT_FLAG_HAS_LARGE_OFFSET then
    let* large_offset := unpack_uint tracepoint_data (pos3 c) 2 in
    let fmt_str_v_offset :=
      if large_offset <=? 0x7fff
      then fmt_str_v_offset h + Z.shiftl large_offset 31
      else fmt_str_v_offset h in
    Ret (advance c 2, fmt_str_v_offset)
  else Ret (c, fmt_str_v_offset h).

(** [if has_alternate_uuid: ...]: a file reference id into
    [proc_info.extra_file_refs], or the 16-byte UUID of a uuidtext file. *)
Definition read_alternate_uuid (h : TracepointHeader) (tracepoint_data : bytes)
    (catalog : Catalog) (proc_info : ProcInfo) (ut_cache : Uuidtext)
    (UUID_entry_load_address fmt_offset : Z) (c : Cursor) (r : Resolved)
    : result (Cursor * Resolved) :=
  if has_flag (flags h) 0x0008 then
    if negb (has_flag (flags h) 0x0002) then
      let* uuid_file_id := unpack_sint tracepoint_data (pos3 c) 2 in
      let c := advance c 2 in
      match
        List.find
          (fun extra_ref =>
             (ref_id extra_ref =? uuid_file_id)
             && (UUID_entry_load_address >=? ref_v_offset extra_ref)
             && (UUID_entry_load_address - ref_v_offset extra_ref
                 <? ref_data_size extra_ref))
          (extra_file_refs proc_info)
      with
      | Some extra_ref =>
          let* o := py_index (FileObjects catalog)
                      (ref_uuid_file_index extra_ref) in
          let* u := as_uuidtext o in
          let* fs := ReadFmtStringFromVirtualOffset u fmt_offset in
          Ret (c, mkResolved fs (Some o) (p_name r) (lib r) (Some (Uuid u))
                    (library_path u)
                    (UUID_entry_load_address - ref_v_offset extra_ref)
                    (signpost_name r))
      | None =>
          Ret (c, mkResolved "<compose failure [missing precomposed log]>"
                    (ut r) (p_name r) (lib r) (imageUUID r)
                    (senderImagePath r) (imageOffset r) (signpost_name r))
      end
    else
      let file_path :=
        hexlify_upper (py_slice tracepoint_data (pos3 c) (pos3 c + 16)) in
      let c := advance c 16 in
      let* found :=
        match
          List.find (fun obj => String.eqb (object_filename obj) file_path)
            (FileObjects catalog)
        with
        | Some obj => Ret (Some obj)
        | None =>
            let* other := find_other_uuidtext file_path in
            Ret (option_map UuidtextObject other)
        end in
      match found with
      | Some o =>
          let* u := as_uuidtext o in
          let* fs := ReadFmtStringFromVirtualOffset u fmt_offset in
          Ret (c, mkResolved fs (Some o) (library_name ut_cache)
                    (library_name u) (Some (Uuid u)) (library_path u)
                    (imageOffset r) (signpost_name r))
      | None =>
          Ret (c, mkResolved (format_str r) None (p_name r) (lib r)
                    (imageUUID r) (senderImagePath r) (imageOffset r)
                    (signpost_name r))
      end
  else Ret (c, r).

(** The fields of a non-activity tracepoint that follow: subsystem id, ttl,
    oversize data reference, signpost id and signpost name reference. *)
Record Trailer : Type := mkTrailer {
  sub_sys : string;
  cat : string;
  ttl : Z;
  data_ref_id : option Z;
  sp_name_ref : option Z;
  final_signpost_string : string
}.

Definition read_trailer (lv : Level) (h : TracepointHeader)
    (tracepoint_data : bytes) (proc_info : ProcInfo) (c : Cursor)
    : result (Cursor * Trailer) :=
  if negb (is_activity lv) then
    let* (c, subsystem) :=
      if has_flag (flags h) _TRACEPOINT_FLAG_HAS_OTHER_AID then
        let* item_id := unpack_uint tracepoint_data (pos3 c) 2 in
        let* names := GetSubSystemAndCategory proc_info item_id in
        Ret (advance c 2, names)
      else Ret (c, ("", "")) in
    let* (c, ttl) :=
      if has_flag (flags h) _TRACEPOINT_FLAG_HAS_TTL then
        let* ttl := unpack_uint tracepoint_data (pos3 c) 1 in
        Ret (advance c 1, ttl)
      else Ret (c, 0) in
    let* (c, data_ref_id) :=
      if has_flag (flags h) _TRACEPOINT_FLAG_HAS_OVERSIZE_DATA_REFERENCE then
        let* data_ref_id := unpack_uint tracepoint_data (pos3 c) 2 in
        Ret (advance c 2, Some data_ref_id)
      else Ret (c, None) in
    let* (c, signpost_string) :=
      if is_signpost lv then
        let* spid_val := unpack_uint tracepoint_data (pos3 c) 8 in
        Ret (advance c 8, percent_x (signpost_string lv) spid_val)
      else Ret (c, signpost_string lv) in
    let* (c, sp_name_ref) :=
      if has_flag (flags h) _TRACEPOINT_FLAG_HAS_SIGNPOST_NAME_REFERENCE then
        let* sp_name_ref := unpack_uint tracepoint_data (pos3 c) 4 in
        Ret (advance c 4, Some sp_name_ref)
      else Ret (c, None) in
    Ret (c, mkTrailer (fst subsystem) (snd subsystem) ttl data_ref_id
              sp_name_ref signpost_string)
  else Ret (c, mkTrailer "" "" 0 None None (signpost_string lv)).

(** "Get format_str and lib now": from the process's uuidtext, from its
    dsc, or already done through the alternate uuidtext. *)
Definition resolve_format (h : TracepointHeader) (dsc_cache : option FileObject)
    (ut_cache : Uuidtext) (UUID_entry_load_address fmt_offset : Z)
    (sp_name_ref : option Z) (r : Resolved) : result Resolved :=
  if has_flag (flags h) 0x0002 then
    let imageOffset := UUID_entry_load_address in
    if has_flag (flags h) 0x0008 then
      match sp_name_ref with
      | Some ref =>
          let* u := match ut r with
                    | Some o => as_uuidtext o
                    | None => Raise AttributeError
                    end in
          let* name := ReadFmtStringFromVirtualOffset u ref in
          Ret (mkResolved (format_str r) (ut r) (p_name r) (lib r)
                 (imageUUID r) (senderImagePath r) imageOffset name)
      | None =>
          Ret (mkResolved (format_str r) (ut r) (p_name r) (lib r)
                 (imageUUID r) (senderImagePath r) imageOffset
                 (signpost_name r))
      end
    else
      let* fs := ReadFmtStringFromVirtualOffset ut_cache fmt_offset in
      let* name :=
        match sp_name_ref with
        | Some ref => ReadFmtStringFromVirtualOffset ut_cache ref
        | None => Ret (signpost_name r)
        end in
      Ret (mkResolved fs (ut r) (p_name r) (lib r) (Some (Uuid ut_cache))
             (library_path ut_cache) imageOffset name)
  else if has_flag (flags h) 0x0004 then
    let* name :=
      match sp_name_ref with
      | Some ref =>
          try_except
            (let* (d, file) := as_dsc dsc_cache in
             let* found :=
               DscFile.ReadFmtStringAndEntriesFromVirtualOffset d file ref in
             Ret (fst (fst found)))
            [KeyError; IOError] (Ret (signpost_name r))
      | None => Ret (signpost_name r)
      end in
    let* (d, file) := as_dsc dsc_cache in
    let* cache_b1 :=
      DscFile.GetUuidEntryFromVirtualOffset d UUID_entry_load_address in
    let r :=
      match cache_b1 with
      | Some b =>
          mkResolved (format_str r) (ut r) (p_name r) (DscFile.lib_name b)
            (Some (DscFile.u_uuid b)) (DscFile.lib_path b)
            (UUID_entry_load_address - DscFile.u_v_off b) name
      | None =>
          mkResolved (format_str r) (ut r) (p_name r) (lib r) (imageUUID r)
            (senderImagePath r) (imageOffset r) name
      end in
    let* fs :=
      try_except
        (if negb (Z.land (fmt_str_v_offset h) 0x80000000 =? 0) then Ret "%s"
         else
           let* found :=
             DscFile.ReadFmtStringAndEntriesFromVirtualOffset d file
               fmt_offset in
           Ret (fst (fst found)))
        [KeyError; IOError] (Ret (format_str r)) in
    Ret (mkResolved fs (ut r) (p_name r) (lib r) (imageUUID r)
           (senderImagePath r) (imageOffset r) (signpost_name r))
  else Ret r.

(** [log_data], read from what remains of the tracepoint. *)
Definition read_log_data (h : TracepointHeader)
    (tracepoint_data private_strings : bytes) (strings_v_offset : Z)
    (priv_str_v_offset priv_str_len : Z) (c : Cursor)
    : result (option (list LogDataItem)) :=
  if negb (log_data_len2 c =? 0) then
    let strings_slice :=
      if negb (priv_str_len =? 0) then
        match private_strings with
        | _ :: _ =>
            let strings_start_offset := priv_str_v_offset - strings_v_offset in
            py_slice private_strings strings_start_offset
              (strings_start_offset + priv_str_len)
        | [] => []
        end
      else [] in
    let buffer :=
      py_slice tracepoint_data (pos3 c) (pos3 c + log_data_len2 c) in
    if Z.land (record_type h) 0x3 =? 0x3 then
      let* log_data :=
        ReadLogDataBuffer2 buffer (log_data_len2 c) strings_slice in
      Ret (Some log_data)
    else
      let* log_data :=
        ReadLogDataBuffer buffer (log_data_len2 c) strings_slice
          (has_flag (flags h) _TRACEPOINT_FLAG_HAS_BACKTRACE) in
      Ret (Some log_data)
  else Ret None.

(** [if data_ref_id is not None: ...]: the oversize payload replaces the
    log data, or the format string becomes "<decode: missing data>".  The
    test is [if log_data:], so a stored payload of length zero counts as
    missing; [None] stands for either false value of [log_data]. *)
Definition join_oversize (self : TraceV3) (h : TracepointHeader) (ct : Z)
    (data_ref_id : option Z) (log_data : option (list LogDataItem))
    (format_str : string) : result (option (list LogDataItem) * string) :=
  match data_ref_id with
  | Some data_ref_id =>
      let unique_ref := Z.lor (Z.shiftl data_ref_id 64) ct in
      match large_data self !! unique_ref with
      | Some (b :: payload) =>
          let* log_data :=
            ReadLogDataBuffer (b :: payload)
              (Z.of_nat (length (b :: payload))) []
              (has_flag (flags h) _TRACEPOINT_FLAG_HAS_BACKTRACE) in
          Ret (Some log_data, format_str)
      | Some [] | None => Ret (None, "<decode: missing data>")
      end
  | None => Ret (log_data, format_str)
  end.

End Decoder.

Section Firehose.

Variable LogDataItem : Type.
Variable ReadLogDataBuffer :
  bytes -> Z -> bytes -> bool -> result (list LogDataItem).
Variable ReadLogDataBuffer2 : bytes -> Z -> bytes -> result (list LogDataItem).
Variable RecreateMsgFromFmtStringAndData :
  string -> list LogDataItem -> Z -> result string.
Variable GetSubSystemAndCategory : ProcInfo -> Z -> result (string * string).
Variable find_other_uuidtext : string -> result (option Uuidtext).
(** [data_format.BinaryDataFormat._ReadAPFSTime], used by the debug output;
    the module is not among the sources. *)
Variable _ReadAPFSTime : PyFloat.float -> result string.

(** The locals that are live when the fields of the tracepoint have been
    read and its format string has been resolved. *)
Record Fields : Type := mkFields {
  f_level : Level;
  f_act_id : list Z;
  f_trailer : Trailer;
  f_resolved : Resolved;
  f_log_data : option (list LogDataItem);
  f_ut_cache : Uuidtext
}.

(** The first part of the "big exception block" of
    [_ParseFirehoseTracepointData]: from [try:] to the reading of the
    log-data buffer. *)
Definition decode_fields (h : TracepointHeader) (tracepoint_data : bytes)
    (catalog : Catalog) (proc_info : ProcInfo) (private_strings : bytes)
    (strings_v_offset : Z) : result Fields :=
  let* dsc_cache :=
    if negb (dsc_file_index proc_info =? -1) then
      let* o := py_index (FileObjects catalog) (dsc_file_index proc_info) in
      Ret (Some o)
    else Ret None in
  let* ut_object := py_index (FileObjects catalog) (uuid_file_index proc_info) in
  let* ut_cache := as_uuidtext ut_object in
  let r := mkResolved "" None (library_name ut_cache) "" None "" 0 "" in
  let lv := derive_level (record_type h) (logtype h) in
  let* (c, act_id, priv_str_v_offset, priv_str_len) :=
    read_identifiers lv h tracepoint_data private_strings in
  let* UUID_entry_load_address := unpack_uint tracepoint_data (pos3 c) 4 in
  let c := advance c 4 in
  let* (c, fmt_offset) := read_large_offset h tracepoint_data c in
  let* (c, r) :=
    read_alternate_uuid find_other_uuidtext h tracepoint_data catalog
      proc_info ut_cache UUID_entry_load_address fmt_offset c r in
  let* (c, t) :=
    read_trailer GetSubSystemAndCategory lv h tracepoint_data proc_info c in
  let* r :=
    resolve_format h dsc_cache ut_cache UUID_entry_load_address fmt_offset
      (sp_name_ref t) r in
  let* log_data :=
    read_log_data LogDataItem ReadLogDataBuffer ReadLogDataBuffer2 h
      tracepoint_data private_strings strings_v_offset priv_str_v_offset
      priv_str_len c in
  Ret (mkFields lv act_id t r log_data ut_cache).

(** The second part: the oversize join, the message and the log entry. *)
Definition build_entry (self : TraceV3) (h : TracepointHeader)
    (log_file_pos ct : Z) (time : PyFloat.float) (proc_info : ProcInfo)
    (fl : Fields) : result LogEntry :=
  let lv := f_level fl in
  let t := f_trailer fl in
  let r := f_resolved fl in
  let act_id := f_act_id fl in
  let* (log_data, format_str) :=
    join_oversize LogDataItem ReadLogDataBuffer self h ct (data_ref_id t)
      (f_log_data fl) (format_str r) in
  let* log_msg :=
    match log_data with
    | Some (item :: rest) =>
        RecreateMsgFromFmtStringAndData format_str (item :: rest) log_file_pos
    | _ => Ret format_str
    end in
  let* parentActivityIdentifier :=
    if Z.of_nat (length act_id) >? 2 then py_index act_id (-2) else Ret 0 in
  let* last_act_id := py_index act_id (-1) in
  Ret (mkLogEntry (filename self) log_file_pos ct time (thread h)
         (log_type lv) last_act_id parentActivityIdentifier
         (pid proc_info) (euid proc_info) (ttl t) (p_name r) (lib r)
         (sub_sys t) (cat t) (signpost_name r)
         (if is_signpost lv then final_signpost_string t else "")
         (imageOffset r) (imageUUID r) (Some (Uuid (f_ut_cache fl)))
         (senderImagePath r) (library_path (f_ut_cache fl)) log_msg).

Definition tracepoint_body (self : TraceV3) (h : TracepointHeader)
    (tracepoint_data : bytes) (log_file_pos ct : Z) (time : PyFloat.float)
    (catalog : Catalog) (proc_info : ProcInfo) (private_strings : bytes)
    (strings_v_offset : Z) : result LogEntry :=
  let* fl :=
    decode_fields h tracepoint_data catalog proc_info private_strings
      strings_v_offset in
  build_entry self h log_file_pos ct time proc_info fl.

(** [_ParseFirehoseTracepointData]: the announced size and the log entry,
    or [None] in its place.  The header and the time conversion come before
    [try:]; [ImportError], [NameError] and [UnboundLocalError] are raised
    again, every other exception is logged and swallowed. *)
Definition _ParseFirehoseTracepointData (self : TraceV3)
    (tracepoint_data : bytes) (log_file_pos continuousTime : Z)
    (catalog : Catalog) (proc_info : ProcInfo) (private_strings : bytes)
    (strings_v_offset : Z) : result (Z * option LogEntry) :=
  let* h := unpack_tracepoint_header tracepoint_data in
  let ct := tracepoint_ct continuousTime h in
  let* time := time_from_continuoustime (boot_uuid_ts_list self) ct None in
  match
    tracepoint_body self h tracepoint_data log_file_pos ct time catalog
      proc_info private_strings strings_v_offset
  with
  | Ret log_entry => Ret (24 + log_data_len h, Some log_entry)
  | Raise e =>
      if caught_by [ImportError; NameError; UnboundLocalError] e
      then Raise e
      else Ret (24 + log_data_len h, None)
  end.

(** [DebugPrintTimestampFromContTime]: prints, but computes the time first. *)
Definition DebugPrintTimestampFromContTime (self : TraceV3) (ct : Z)
    : result unit :=
  match _FindClosestTimesyncItemInList (boot_uuid_ts_list self) ct with
  | Some ts =>
      let* time := time_from_continuoustime (boot_uuid_ts_list self) ct
                     (Some ts) in
      let* time_string := _ReadAPFSTime time in
      Ret tt
  | None => Ret tt
  end.

(** One pass of the [while pos2 < logs_end_offset] loop over [(pos2, logs)]. *)
Definition firehose_step (self : TraceV3) (chunk_data : bytes)
    (debug_file_pos continuousTime : Z) (catalog : Catalog)
    (proc_info : ProcInfo) (private_strings : bytes) (strings_v_offset : Z)
    (s : Z * list LogEntry) : result (Z * list LogEntry) :=
  let (pos2, logs) := s in
  let start_skew := pos2 mod 8 in
  let log_file_pos := debug_file_pos + pos2 in
  let* (tracepoint_data_size, log_entry) :=
    _ParseFirehoseTracepointData self (py_slice_from chunk_data pos2)
      log_file_pos continuousTime catalog proc_info private_strings
      strings_v_offset in
  let pos2 := pos2 + tracepoint_data_size in
  let logs := match log_entry with
              | Some entry => logs ++ [entry]
              | None => logs
              end in
  let pos2 :=
    if negb ((pos2 - start_skew) mod 8 =? 0)
    then pos2 + (8 - (pos2 - start_skew) mod 8)
    else pos2 in
  Ret (pos2, logs).

(** [_ParseFirehoseChunkData]: the list [logs] after the chunk. *)
Definition _ParseFirehoseChunkData (self : TraceV3) (chunk_data : bytes)
    (debug_file_pos : Z) (catalog : Catalog) (proc_info : ProcInfo)
    (logs : list LogEntry) : result (list LogEntry) :=
  let header := py_slice chunk_data 16 32 in
  let* _ := struct_size header 16 in
  let offset_strings := uint_at header 0 2 in
  let strings_v_offset := uint_at header 2 2 in
  let continuousTime := uint_at header 8 8 in
  let private_strings :=
    if strings_v_offset <? 4096
    then py_slice_from chunk_data (- (4096 - strings_v_offset))
    else [] in
  let* _ := DebugPrintTimestampFromContTime self continuousTime in
  let logs_end_offset := offset_strings + 16 in
  let* (pos2, logs) :=
    while_loop (Z.to_nat logs_end_offset)
      (fun s => fst s <? logs_end_offset)
      (firehose_step self chunk_data debug_file_pos continuousTime catalog
         proc_info private_strings strings_v_offset)
      (32, logs) in
  Ret logs.

(** [_ParseOversizeChunkData]: the object with the payload stored.  The
    debug output that follows computes the time of the chunk. *)
Definition _ParseOversizeChunkData (self : TraceV3) (chunk_data : bytes)
    (log_file_pos : Z) : result TraceV3 :=
  let header := py_slice chunk_data 16 32 in
  let* _ := struct_size header 16 in
  let ct := uint_at header 0 8 in
  let data_ref_id := uint_at header 8 4 in
  let data_len := uint_at header 12 4 in
  let data_end_offset := 32 + data_len in
  let large_data_key := Z.lor (Z.shiftl data_ref_id 64) ct in
  let self :=
    mkTraceV3 (filename self) (boot_uuid_ts_list self)
      (<[large_data_key := py_slice chunk_data 32 data_end_offset]>
         (large_data self)) in
  let* time := time_from_continuoustime (boot_uuid_ts_list self) ct None in
  let* time_string := _ReadAPFSTime time in
  Ret self.

End Firehose.

Arguments f_level {LogDataItem} _.
Arguments f_act_id {LogDataItem} _.
Arguments f_trailer {LogDataItem} _.
Arguments f_resolved {LogDataItem} _.
Arguments f_log_data {LogDataItem} _.
Arguments f_ut_cache {LogDataItem} _.

(** *** Data chunks, the chunk loop and [Parse] *)

(** [_ParseChunkHeaderData]: tag, subtag and data size, [<IIQ]. *)
Definition _ParseChunkHeaderData (chunk_header_data : bytes)
    : result (Z * Z * Z) :=
  let* _ := struct_size chunk_header_data 16 in
  Ret (uint_at chunk_header_data 0 4, uint_at chunk_header_data 4 4,
       uint_at chunk_header_data 8 8).

(** [GetProcInfo]: [None] when the pair is not in the chunk meta. *)
Definition GetProcInfo (proc_id1 proc_id2 : Z) (chunk_meta : ChunkMeta)
    : option ProcInfo :=
  ProcInfos chunk_meta !! Z.lor proc_id2 (Z.shiftl proc_id1 32).

(** The padding after a sub-chunk: none after a firehose chunk that is not
    followed by a zero byte. *)
Definition pad_after (chunk_data : bytes) (chunk_data_size pos start_skew : Z)
    (only_before_zero : bool) : Z :=
  if negb ((pos - start_skew) mod 8 =? 0) then
    if only_before_zero then
      if (pos + 1 <? chunk_data_size)
         && bytes_eqb (py_slice chunk_data pos (pos + 1)) [x00]
      then pos + (8 - (pos - start_skew) mod 8)
      else pos
    else pos + (8 - (pos - start_skew) mod 8)
  else pos.

(** A timesync boot record: [header.boot_uuid] and [items]. *)
Record Timesync : Type := mkTimesync {
  boot_uuid : bytes;
  ts_items : list TimesyncItem
}.

(** [_GetBootUuidTimeSyncList] *)
Fixpoint _GetBootUuidTimeSyncList (ts_list : list Timesync) (uuid : bytes)
    : option (list TimesyncItem) :=
  match ts_list with
  | [] => None
  | ts :: rest =>
      if bytes_eqb (boot_uuid ts) uuid then Some (ts_items ts)
      else _GetBootUuidTimeSyncList rest uuid
  end.

(** One pass of the header-item loop of [_ParseFileHeader] over
    [(pos, system_boot_uuid)]. *)
Definition header_item_step (file_header_data : bytes)
    (s : Z * option bytes) : result (Z * option bytes) :=
  let (pos, system_boot_uuid) := s in
  let field := py_slice file_header_data pos (pos + 8) in
  let* _ := struct_size field 8 in
  let item_id := uint_at field 0 4 in
  let item_length := uint_at field 4 4 in
  let pos := pos + 8 in
  let* system_boot_uuid :=
    if item_id =? 0x6100 then
      let* _ :=
        struct_size (py_slice file_header_data pos (pos + item_length)) 8 in
      Ret system_boot_uuid
    else if item_id =? 0x6101 then
      let value_data := py_slice file_header_data pos (pos + item_length) in
      let* _ := struct_size (py_slice value_data 0 8) 8 in
      let* _ := struct_size (py_slice_from value_data 8) 48 in
      Ret system_boot_uuid
    else if item_id =? 0x6102 then
      let* uuid :=
        DscFile.UUID_of_bytes (py_slice file_header_data pos (pos + 16)) in
      let* _ :=
        struct_size
          (py_slice file_header_data (pos + 16) (pos + item_length)) 8 in
      Ret (Some uuid)
    else if item_id =? 0x6103 then
      let* _ :=
        struct_size (py_slice file_header_data pos (pos + item_length)) 48 in
      Ret system_boot_uuid
    else Ret system_boot_uuid in
  Ret (pos + item_length, system_boot_uuid).

(** [_ParseFileHeader]: of the attributes it sets, [system_boot_uuid] is
    the one that parsing depends on.  It runs on the object as
    [__init__] left it, so its closing debug output finds no timesync list
    and computes nothing. *)
Definition _ParseFileHeader (file_header_data : bytes)
    : result (option bytes) :=
  let file_header_data_size := Z.of_nat (length file_header_data) in
  let* _ := struct_size (py_slice file_header_data 0 40) 40 in
  let* (pos, system_boot_uuid) :=
    while_loop (Z.to_nat file_header_data_size)
      (fun s => fst s <? file_header_data_size)
      (header_item_step file_header_data) (40, None) in
  Ret system_boot_uuid.

(** The state of the block loop of [_DecompressChunkData]. *)
Record Lz4State : Type := mkLz4State {
  uncompressed : bytes;
  last_uncompressed : bytes;
  comp_start : Z;
  comp_header : bytes;
  stopped : bool
}.

Section FileLoop.

Variable LogDataItem : Type.
Variable ReadLogDataBuffer :
  bytes -> Z -> bytes -> bool -> result (list LogDataItem).
Variable ReadLogDataBuffer2 : bytes -> Z -> bytes -> result (list LogDataItem).
Variable RecreateMsgFromFmtStringAndData :
  string -> list LogDataItem -> Z -> result string.
Variable GetSubSystemAndCategory : ProcInfo -> Z -> result (string * string).
Variable find_other_uuidtext : string -> result (option Uuidtext).
Variable _ReadAPFSTime : PyFloat.float -> result string.

(** The decoders of statedump and simpledump chunks, each giving the
    entries it appends to [logs]; the catalog decoder; and
    [lz4.block.decompress(data, uncompressed_size, dict=...)]. *)
Variable _ParseStateChunkData :
  TraceV3 -> bytes -> Catalog -> ProcInfo -> Z -> result (list LogEntry).
Variable _ParseSimpleDumpData :
  TraceV3 -> bytes -> Catalog -> ProcInfo -> Z -> result (list LogEntry).
Variable _ParseMetaChunk : TraceV3 -> bytes -> result Catalog.
Variable lz4_block_decompress : bytes -> Z -> bytes -> result bytes.

Definition bv41 : bytes := list_byte_of_string "bv41".
Definition bv4_dash : bytes := list_byte_of_string "bv4-".
Definition bv4_end : bytes := list_byte_of_string "bv4$".

Definition lz4_step (chunk_data : bytes) (s : Lz4State) : result Lz4State :=
  let start := comp_start s in
  if bytes_eqb (comp_header s) bv41 then
    let field := py_slice chunk_data (start + 4) (start + 12) in
    let* _ := struct_size field 8 in
    let uncompressed_size := uint_at field 0 4 in
    let compressed_size := uint_at field 4 4 in
    let* block :=
      lz4_block_decompress
        (py_slice chunk_data (start + 12) (start + 12 + compressed_size))
        uncompressed_size (last_uncompressed s) in
    let start := start + (12 + compressed_size) in
    Ret (mkLz4State (uncompressed s ++ block) block start
           (py_slice chunk_data start (start + 4)) false)
  else if bytes_eqb (comp_header s) bv4_dash then
    let* uncompressed_size := unpack_uint chunk_data (start + 4) 4 in
    let raw :=
      py_slice chunk_data (start + 8) (start + 8 + uncompressed_size) in
    let start := start + (8 + uncompressed_size) in
    Ret (mkLz4State (uncompressed s ++ raw) (last_uncompressed s) start
           (py_slice chunk_data start (start + 4)) false)
  else
    Ret (mkLz4State (uncompressed s) (last_uncompressed s) start
           (comp_header s) true).

(** [_DecompressChunkData] *)
Definition _DecompressChunkData (chunk_data : bytes) (data_len : Z)
    : result bytes :=
  let first := py_slice chunk_data 0 4 in
  if bytes_eqb first bv41 || bytes_eqb first bv4_dash then
    let* s :=
      while_loop (Z.to_nat data_len)
        (fun s => negb (stopped s) && (data_len >? comp_start s)
                  && negb (bytes_eqb (comp_header s) bv4_end))
        (lz4_step chunk_data)
        (mkLz4State [] [] 0 first false) in
    Ret (uncompressed s)
  else Ret [].

(** The state of the sub-chunk loop of [ProcessDataChunk]: the position,
    the object (for [large_data]) and the list [logs]. *)
Record DataChunkState : Type := mkDataChunkState {
  dc_pos : Z;
  dc_self : TraceV3;
  dc_logs : list LogEntry
}.

(** The [if tag == ...] part of a pass of the sub-chunk loop. *)
Definition dispatch_sub_chunk (self : TraceV3) (catalog : Catalog)
    (proc_info : ProcInfo) (logs : list LogEntry) (tag : Z)
    (sub_chunk : bytes) (log_file_pos : Z)
    : result (TraceV3 * list LogEntry) :=
  if tag =? _CHUNK_TAG_FIREHOSE then
    let* logs :=
      _ParseFirehoseChunkData LogDataItem ReadLogDataBuffer
        ReadLogDataBuffer2 RecreateMsgFromFmtStringAndData
        GetSubSystemAndCategory find_other_uuidtext _ReadAPFSTime
        self sub_chunk log_file_pos catalog proc_info logs in
    Ret (self, logs)
  else if tag =? _CHUNK_TAG_OVERSIZE then
    let* self :=
      _ParseOversizeChunkData _ReadAPFSTime self sub_chunk log_file_pos in
    Ret (self, logs)
  else if tag =? _CHUNK_TAG_STATEDUMP then
    let* entries :=
      _ParseStateChunkData self sub_chunk catalog proc_info log_file_pos in
    Ret (self, logs ++ entries)
  else if tag =? _CHUNK_TAG_SIMPLEDUMP then
    let* entries :=
      _ParseSimpleDumpData self sub_chunk catalog proc_info log_file_pos in
    Ret (self, logs ++ entries)
  else Ret (self, logs).

(** One pass of the [while (pos + 16) < chunk_data_size] loop. *)
Definition data_chunk_step (chunk_data : bytes) (chunk_data_size : Z)
    (catalog : Catalog) (chunk_meta : ChunkMeta) (debug_file_pos : Z)
    (s : DataChunkState) : result DataChunkState :=
  let pos := dc_pos s in
  let* (tag, subtag, data_size) :=
    _ParseChunkHeaderData (py_slice chunk_data pos (pos + 16)) in
  let pos := pos + 16 in
  let start_skew := pos mod 8 in
  let ids := py_slice chunk_data pos (pos + 16) in
  let* _ := struct_size ids 16 in
  let proc_info := GetProcInfo (uint_at ids 0 8) (uint_at ids 8 4) chunk_meta in
  let log_file_pos := debug_file_pos + pos + 16 - 32 in
  match proc_info with
  | None =>
      (* "skipping that chunk entry, so we can parse the rest" *)
      let pos :=
        pad_after chunk_data chunk_data_size (pos + data_size) start_skew
          true in
      (* pid = proc_info.pid *)
      Raise AttributeError
  | Some proc_info =>
      let end_pos := pos + data_size in
      let* (self, logs) :=
        dispatch_sub_chunk (dc_self s) catalog proc_info (dc_logs s) tag
          (py_slice chunk_data pos end_pos) (debug_file_pos + pos) in
      let pos :=
        pad_after chunk_data chunk_data_size end_pos start_skew
          (tag =? _CHUNK_TAG_FIREHOSE) in
      Ret (mkDataChunkState pos self logs)
  end.

(** [ProcessDataChunk]; [catalog] is [None] until a catalog chunk was
    seen. *)
Definition ProcessDataChunk (self : TraceV3) (chunk_data : bytes)
    (chunk_data_size : Z) (catalog : option Catalog) (meta_chunk_index : Z)
    (debug_file_pos : Z) (logs : list LogEntry)
    : result (TraceV3 * list LogEntry) :=
  match catalog with
  | None => Raise AttributeError
  | Some catalog =>
      let* chunk_meta := py_index (ChunkMetaInfo catalog) meta_chunk_index in
      let* s :=
        while_loop (Z.to_nat chunk_data_size)
          (fun s => dc_pos s + 16 <? chunk_data_size)
          (data_chunk_step chunk_data chunk_data_size catalog chunk_meta
             debug_file_pos)
          (mkDataChunkState 0 self logs) in
      Ret (dc_self s, dc_logs s)
  end.

(** The state of the chunk loop of [_ParseFileObject].  [fl_delivered] is
    the state of the sink, which only a call of [log_list_process_func]
    changes. *)
Record FileLoopState : Type := mkFileLoopState {
  fl_pos : Z;
  fl_self : TraceV3;
  fl_catalog : option Catalog;
  fl_meta_chunk_index : Z;
  fl_uncompressed_file_pos : Z;
  fl_logs : list LogEntry;
  fl_delivered : list (list LogEntry)
}.

(** The position counter after a chunk: the chunk's contribution, then
    the two alignment statements. *)
Definition next_uncompressed_file_pos (uncompressed_file_pos : Z)
    (advance_by chunk_data_size : Z) : Z :=
  let uncompressed_file_pos := uncompressed_file_pos + advance_by in
  let chunk_data_size :=
    if negb (chunk_data_size mod 8 =? 0)
    then chunk_data_size + (8 - chunk_data_size mod 8)
    else chunk_data_size in
  if negb (uncompressed_file_pos mod 8 =? 0)
  then uncompressed_file_pos + (8 - chunk_data_size mod 8)
  else uncompressed_file_pos.

(** The file position after a chunk. *)
Definition next_pos (pos chunk_data_size : Z) : Z :=
  let chunk_data_size :=
    if negb (chunk_data_size mod 8 =? 0)
    then chunk_data_size + (8 - chunk_data_size mod 8)
    else chunk_data_size in
  pos + 16 + chunk_data_size.

(** What the callback works on is its own (the rows of an output file, a
    database) and out of the parser's reach: the state of the sink, held
    as the batches that the sink has made its own since the run began. *)
Definition SinkState : Type := list (list LogEntry).

(** [log_list_process_func(logs, self)]: the callback takes the state of
    the sink to the state after the call, or raises. *)
Definition Sink : Type :=
  list LogEntry -> TraceV3 -> SinkState -> result SinkState.

(** [if log_list_process_func and (len(logs) > 100000): ...] *)
Definition flush_if_full (log_list_process_func : option Sink)
    (self : TraceV3) (logs : list LogEntry) (delivered : SinkState)
    : result (list LogEntry * SinkState) :=
  match log_list_process_func with
  | Some func =>
      if Z.of_nat (length logs) >? 100000 then
        let* delivered := func logs self delivered in
        Ret ([], delivered)
      else Ret (logs, delivered)
  | None => Ret (logs, delivered)
  end.

(** [if log_list_process_func and (len(logs) > 0): ...] *)
Definition final_flush (log_list_process_func : option Sink)
    (self : TraceV3) (logs : list LogEntry) (delivered : SinkState)
    : result SinkState :=
  match log_list_process_func with
  | Some func =>
      if Z.of_nat (length logs) >? 0 then func logs self delivered
      else Ret delivered
  | None => Ret delivered
  end.

(** The [if tag == ...] part of a pass of the chunk loop: the object, the
    catalog, [meta_chunk_index], [logs] and the amount that the chunk adds
    to [uncompressed_file_pos]. *)
Definition dispatch_chunk (self : TraceV3) (catalog : option Catalog)
    (meta_chunk_index uncompressed_file_pos : Z) (logs : list LogEntry)
    (tag : Z) (chunk_data : bytes) (chunk_data_size : Z)
    : result (TraceV3 * option Catalog * Z * list LogEntry * Z) :=
  if tag =? _CHUNK_TAG_METADATA then
    let* catalog := _ParseMetaChunk self chunk_data in
    Ret (self, Some catalog, 0, logs, 16 + chunk_data_size)
  else if tag =? _CHUNK_TAG_COMPRESSED then
    let* uncompressed_chunk_data :=
      _DecompressChunkData chunk_data chunk_data_size in
    let uncompressed_chunk_data_size :=
      Z.of_nat (length uncompressed_chunk_data) in
    let* (self, logs) :=
      ProcessDataChunk self uncompressed_chunk_data
        uncompressed_chunk_data_size catalog meta_chunk_index
        (uncompressed_file_pos + 16) logs in
    Ret (self, catalog, meta_chunk_index + 1, logs,
         16 + uncompressed_chunk_data_size)
  else
    Ret (self, catalog, meta_chunk_index, logs, 16 + chunk_data_size).

(** One pass of the [while pos < self._file_size] loop. *)
Definition file_loop_step (file : bytes)
    (log_list_process_func : option Sink) (s : FileLoopState)
    : result FileLoopState :=
  let pos := fl_pos s in
  let f := file_seek (mkFileObj file 0) pos in
  let* (chunk_header_data, f) := file_object_read f 16 in
  let* (tag, subtag, chunk_data_size) :=
    _ParseChunkHeaderData chunk_header_data in
  let* (chunk_data, f) := file_object_read f chunk_data_size in
  let* (self, catalog, meta_chunk_index, logs, advance_by) :=
    dispatch_chunk (fl_self s) (fl_catalog s) (fl_meta_chunk_index s)
      (fl_uncompressed_file_pos s) (fl_logs s) tag chunk_data
      chunk_data_size in
  let uncompressed_file_pos :=
    next_uncompressed_file_pos (fl_uncompressed_file_pos s) advance_by
      chunk_data_size in
  let pos := next_pos pos chunk_data_size in
  let* (logs, delivered) :=
    flush_if_full log_list_process_func self logs (fl_delivered s) in
  Ret (mkFileLoopState pos self catalog meta_chunk_index
         uncompressed_file_pos logs delivered).

(** [TraceV3._ParseFileObject] on a freshly constructed object for the
    file called [name]: the state when the function returns (it returns no
    value).  [ts_list] is the reader's list of timesync boot records and
    [file_size] is [self._file_size]. *)
Definition _ParseFileObject (name : string) (ts_list : list Timesync)
    (file : bytes) (file_size : Z) (log_list_process_func : option Sink)
    : result FileLoopState :=
  let self := TraceV3_init name in
  let* (chunk_header_data, f) := file_object_read (mkFileObj file 0) 16 in
  let* (tag, subtag, chunk_data_size) :=
    _ParseChunkHeaderData chunk_header_data in
  if negb (tag =? 0x1000) then Raise ValueError
  else if negb (subtag =? 0x11) then Raise ValueError
  else
    let* (file_header_data, f) := file_object_read f chunk_data_size in
    let* system_boot_uuid := _ParseFileHeader file_header_data in
    let* self :=
      match system_boot_uuid with
      | Some uuid =>
          match _GetBootUuidTimeSyncList ts_list uuid with
          | Some items =>
              Ret (mkTraceV3 (filename self) (Some items) (large_data self))
          | None => Raise ValueError
          end
      | None => Ret self
      end in
    let pos := 16 + chunk_data_size in
    let* s :=
      while_loop (Z.to_nat file_size)
        (fun s => fl_pos s <? file_size)
        (file_loop_step file log_list_process_func)
        (mkFileLoopState pos self None 0 pos [] []) in
    let* delivered :=
      final_flush log_list_process_func (fl_self s) (fl_logs s)
        (fl_delivered s) in
    Ret (mkFileLoopState (fl_pos s) (fl_self s) (fl_catalog s)
           (fl_meta_chunk_index s) (fl_uncompressed_file_pos s) (fl_logs s)
           delivered).

(** What [TraceV3.Parse] hands back: like [_ParseFileObject] it returns
    [None] after a complete run, and [False] when the file could not be
    opened or a caught exception ended the run. *)
Inductive ParseResult : Type :=
| ReturnsNone (final : FileLoopState)
| ReturnsFalse.

(** [TraceV3.Parse]; [file] is what [self._file.open()] gives. *)
Definition Parse (name : string) (ts_list : list Timesync)
    (file : option bytes) (log_list_process_func : option Sink)
    : result ParseResult :=
  match file with
  | None => Ret ReturnsFalse
  | Some data =>
      match
        _ParseFileObject name ts_list data (Z.of_nat (length data))
          log_list_process_func
      with
      | Ret final => Ret (ReturnsNone final)
      | Raise e =>
          if caught_by
               [AttributeError; IOError; OSError; ValueError; StructError] e
          then Ret ReturnsFalse
          else Raise e
      end
  end.

End FileLoop.

End Tracev3.

(** ** Concrete inputs *)

Module Scenario.
Import Tracev3.

Local Open Scope string_scope.
Local Open Scope list_scope.
Local Open Scope Z_scope.

(** Stand-ins for the collaborators, so that the decoder runs on concrete
    inputs: a log-data item is a raw buffer, and the reconstructed message
    shows the format string and the buffers. *)
Definition Item : Type := bytes.

Definition read_items (buffer : bytes) (buf_size : Z) (strings : bytes)
    (has_context_data : bool) : result (list Item) := Ret [buffer].

Definition read_items2 (buffer : bytes) (buf_size : Z) (strings : bytes)
    : result (list Item) := Ret [buffer].

Definition recreate (format_str : string) (data : list Item)
    (log_file_pos : Z) : result string :=
  Ret (String.append format_str
         (String.append " <- " (string_of_list_byte (List.concat data)))).

Definition no_subsystem (p : ProcInfo) (item_id : Z)
    : result (string * string) := Ret ("", "").

Definition no_other_uuidtext (file_path : string)
    : result (option Uuidtext) := Ret None.

Definition apfs_time (t : PyFloat.float) : result string := Ret "".

Definition no_entries (self : TraceV3) (chunk_data : bytes) (c : Catalog)
    (p : ProcInfo) (log_file_pos : Z) : result (list LogEntry) := Ret [].

Definition no_lz4 (data : bytes) (uncompressed_size : Z) (dict : bytes)
    : result bytes := Raise ValueError.

(** The uuidtext file of the demo process; every format string in it reads
    "v=%s". *)
Definition demo_uuidtext : Uuidtext :=
  mkUuidtext "0123456789ABCDEF0123456789ABCDEF" "demo" "/usr/bin/demo"
    (le_bytes 16 1) (fun _ => Ret "v=%s").

Definition demo_proc_info : ProcInfo :=
  mkProcInfo 7 8 55 501 (-1) 0 [] ∅.

(** A catalog whose only chunk meta knows the demo process. *)
Definition demo_catalog : Catalog :=
  mkCatalog [UuidtextObject demo_uuidtext]
    [mkChunkMeta 0 0 {[ Z.lor 8 (Z.shiftl 7 32) := demo_proc_info ]}].

(** A catalog decoder that always answers with the demo catalog. *)
Definition demo_meta (self : TraceV3) (chunk_data : bytes)
    : result Catalog := Ret demo_catalog.

Definition demo_self (store : gmap Z bytes) : TraceV3 :=
  mkTraceV3 "demo.tracev3" (Some [scenario6_item]) store.

(** The 24-byte fixed header of a tracepoint. *)
Definition tracepoint_header (record_type logtype flags fmt thread ct_rel
    ct_rel_upper log_data_len : Z) : bytes :=
  le_bytes 1 record_type ++ le_bytes 1 logtype ++ le_bytes 2 flags
    ++ le_bytes 4 fmt ++ le_bytes 8 thread ++ le_bytes 4 ct_rel
    ++ le_bytes 2 ct_rel_upper ++ le_bytes 2 log_data_len.

(** Scenario 5: a signpost tracepoint, [logtype = 0x81], message in the
    uuidtext file, load address [0x10], signpost id [0xDEADBEEF]. *)
Definition signpost_tracepoint : bytes :=
  tracepoint_header 0x04 0x81 0x0002 0x20 7 500 0 12
    ++ le_bytes 4 0x10 ++ le_bytes 8 0xDEADBEEF.

(** A tracepoint with an oversize data reference, [data_ref_id = 1], at
    continuous time [100 + 0]. *)
Definition oversize_tracepoint : bytes :=
  tracepoint_header 0x04 0x00 0x0802 0x20 7 0 0 6
    ++ le_bytes 4 0x10 ++ le_bytes 2 1.

Definition oversize_key : Z := Z.lor (Z.shiftl 1 64) 100.

(** An oversize chunk for [data_ref_id = 1] at continuous time [100] with a
    payload of [data_len] bytes. *)
Definition oversize_chunk (payload : bytes) : bytes :=
  le_bytes 8 7 ++ le_bytes 4 8 ++ le_bytes 4 0
    ++ le_bytes 8 100 ++ le_bytes 4 1
    ++ le_bytes 4 (Z.of_nat (length payload)) ++ payload.

(** A tracepoint that ends with its fixed header although a load address
    must follow. *)
Definition header_only_tracepoint : bytes :=
  tracepoint_header 0x04 0x00 0x0002 0x20 7 0 0 0.

(** The object of a file whose header carried no boot UUID: there is no
    timesync list. *)
Definition self_without_timesync : TraceV3 := TraceV3_init "demo.tracev3".

(** A tracepoint cut short after ten bytes. *)
Definition truncated_tracepoint : bytes := le_bytes 10 0.

(** A firehose chunk that announces tracepoints up to offset 116 but ends
    after 40 bytes. *)
Definition truncated_firehose_chunk : bytes :=
  le_bytes 8 7 ++ le_bytes 4 8 ++ le_bytes 4 0
    ++ le_bytes 2 100 ++ le_bytes 2 4096 ++ le_bytes 2 0 ++ le_bytes 2 0
    ++ le_bytes 8 1000 ++ le_bytes 8 0.

(** A top-level chunk: 16-byte header, data, padding to 8 bytes. *)
Definition chunk (tag subtag : Z) (data : bytes) : bytes :=
  let n := Z.of_nat (length data) in
  le_bytes 4 tag ++ le_bytes 4 subtag ++ le_bytes 8 n ++ data
    ++ le_bytes (Z.to_nat ((8 - n mod 8) mod 8)) 0.

(** The leading chunk with a 40-byte file header and no header items. *)
Definition bare_header_chunk : bytes := chunk 0x1000 0x11 (le_bytes 40 0).

(** The boot UUID of the demo system and its timesync boot record. *)
Definition demo_boot_uuid : bytes := le_bytes 16 0xB007.

Definition demo_ts_list : list Timesync :=
  [mkTimesync demo_boot_uuid [scenario6_item]].

(** The leading chunk with a 40-byte file header and the header item
    [0x6102]: boot UUID, logd pid and exit status. *)
Definition header_chunk : bytes :=
  chunk 0x1000 0x11
    (le_bytes 40 0 ++ le_bytes 4 0x6102 ++ le_bytes 4 24 ++ demo_boot_uuid
       ++ le_bytes 4 1 ++ le_bytes 4 0).

(** A file whose only chunk after the header has an unknown tag and three
    bytes of data. *)
Definition three_byte_chunk_file : bytes :=
  bare_header_chunk ++ chunk 0x1234 0 (le_bytes 3 0).

(** A sub-chunk of a data chunk: header, process ids, ttl and body. *)
Definition sub_chunk (tag proc_id1 proc_id2 : Z) (body : bytes) : bytes :=
  le_bytes 4 tag ++ le_bytes 4 0
    ++ le_bytes 8 (16 + Z.of_nat (length body))
    ++ le_bytes 8 proc_id1 ++ le_bytes 4 proc_id2 ++ le_bytes 4 0 ++ body.

(** A compressed chunk holding one uncompressed ([bv4-]) block. *)
Definition raw_data_chunk (data : bytes) : bytes :=
  chunk 0x600D 0
    (list_byte_of_string "bv4-" ++ le_bytes 4 (Z.of_nat (length data))
       ++ data ++ list_byte_of_string "bv4$").

(** A file with a catalog chunk and a data chunk whose firehose sub-chunk
    names the process (9, 9), which the catalog does not know. *)
Definition unknown_proc_file : bytes :=
  header_chunk ++ chunk 0x600B 0 []
    ++ raw_data_chunk (sub_chunk 0x6001 9 9 (le_bytes 16 0)).

(** The body of a firehose sub-chunk with the one tracepoint [tp]. *)
Definition firehose_body (tp : bytes) : bytes :=
  le_bytes 2 (32 + Z.of_nat (length tp) - 16) ++ le_bytes 2 4096
    ++ le_bytes 2 0 ++ le_bytes 2 0 ++ le_bytes 8 1000 ++ tp.

(** A file with a catalog chunk and a data chunk whose firehose sub-chunk
    carries the signpost tracepoint of the demo process. *)
Definition signpost_file : bytes :=
  header_chunk ++ chunk 0x600B 0 []
    ++ raw_data_chunk (sub_chunk 0x6001 7 8 (firehose_body signpost_tracepoint)).

(** The header of [signpost_tracepoint] and the entry decoded from it at
    base time 1000. *)
Definition signpost_header : TracepointHeader :=
  mkTracepointHeader 0x04 0x81 0x0002 0x20 7 500 0 12.

Definition signpost_entry : LogEntry :=
  mkLogEntry "demo.tracev3" 0 1500 (S754_finite false 6250000000000002 8) 7
    "Default" 0 0 55 501 0 "demo" "" "" "" ""
    "spid 0xdeadbeef, process, begin" 16 (Some (le_bytes 16 1))
    (Some (le_bytes 16 1)) "/usr/bin/demo" "/usr/bin/demo" "v=%s".

(** A firehose chunk whose first tracepoint, at offset 32, is
    [header_only_tracepoint]. *)
Definition header_only_chunk : bytes :=
  le_bytes 32 0 ++ header_only_tracepoint.

Definition header_only_header : TracepointHeader :=
  mkTracepointHeader 0x04 0x00 0x0002 0x20 7 0 0 0.

Definition oversize_header : TracepointHeader :=
  mkTracepointHeader 0x04 0x00 0x0802 0x20 7 0 0 6.

(** The three bytes "BIG". *)
Definition big_payload : bytes := list_byte_of_string "BIG".

(** What the decoder has read from [oversize_tracepoint] when it reaches
    the oversize join. *)
Definition oversize_fields : Fields Item :=
  mkFields Item (mkLevel "Default" false false "spid 0x%x,") [0]
    (mkTrailer "" "" 0 (Some 1) None "spid 0x%x,")
    (mkResolved "v=%s" None "demo" "" (Some (le_bytes 16 1)) "/usr/bin/demo"
       16 "")
    None demo_uuidtext.

(** The decoder and the parser with the stand-ins plugged in. *)
Definition parse_tracepoint (self : TraceV3) (tracepoint_data : bytes)
    (continuousTime : Z) : result (Z * option LogEntry) :=
  _ParseFirehoseTracepointData Item read_items read_items2 recreate
    no_subsystem no_other_uuidtext self tracepoint_data 0 continuousTime
    demo_catalog demo_proc_info [] 4096.

Definition parse_firehose_chunk (self : TraceV3) (chunk_data : bytes)
    : result (list LogEntry) :=
  _ParseFirehoseChunkData Item read_items read_items2 recreate no_subsystem
    no_other_uuidtext apfs_time self chunk_data 0 demo_catalog
    demo_proc_info [].

(** A callback that keeps every batch, in the order of the calls. *)
Definition accept_all : Sink :=
  fun logs _ delivered => Ret (delivered ++ [logs]).

Definition parse_file_object (file : bytes) (func : option Sink)
    : result FileLoopState :=
  _ParseFileObject Item read_items read_items2 recreate no_subsystem
    no_other_uuidtext apfs_time no_entries no_entries demo_meta no_lz4
    "demo.tracev3" demo_ts_list file (Z.of_nat (length file)) func.

Definition parse_file (file : bytes) (func : option Sink)
    : result ParseResult :=
  Parse Item read_items read_items2 recreate no_subsystem no_other_uuidtext
    apfs_time no_entries no_entries demo_meta no_lz4
    "demo.tracev3" demo_ts_list (Some file) func.

Definition loop_step (file : bytes) (func : option Sink) (s : FileLoopState)
    : result FileLoopState :=
  file_loop_step Item read_items read_items2 recreate no_subsystem
    no_other_uuidtext apfs_time no_entries no_entries demo_meta no_lz4
    file func s.

(** The record of [signpost_file]: [signpost_entry] at file position 168. *)
Definition signpost_file_entry : LogEntry :=
  mkLogEntry "demo.tracev3" 168 1500 (S754_finite false 6250000000000002 8) 7
    "Default" 0 0 55 501 0 "demo" "" "" "" ""
    "spid 0xdeadbeef, process, begin" 16 (Some (le_bytes 16 1))
    (Some (le_bytes 16 1)) "/usr/bin/demo" "/usr/bin/demo" "v=%s".

(** The chunk loop of [signpost_file] before and after the data chunk,
    which starts at position 104, with [logs] pending and the sink in the
    state [delivered]. *)
Definition at_data_chunk (logs : list LogEntry) (delivered : SinkState)
    : FileLoopState :=
  mkFileLoopState 104 (demo_self ∅) (Some demo_catalog) 0 104 logs delivered.

Definition after_data_chunk (logs : list LogEntry) (delivered : SinkState)
    : FileLoopState :=
  mkFileLoopState 216 (demo_self ∅) (Some demo_catalog) 1 212 logs delivered.

(** A pending list that is at the threshold: 100,000 records. *)
Definition pending_records : list LogEntry :=
  repeat signpost_entry (Z.to_nat 100000).

End Scenario.

(** ** The documented level derivation *)

Module LevelSpec.

Local Open Scope string_scope.
Local Open Scope Z_scope.

(** The level as the specification words it. *)
Definition claimed_level (record_type logtype : Z) : string :=
  if (0x80 <=? logtype) && (logtype <=? 0xFF) then "Signpost"
  else if logtype =? 0x01 then
    if Z.land record_type 0x0F =? 0x02 then "Activity" else "Info"
  else if logtype =? 0x02 then "Debug"
  else if logtype =? 0x10 then "Error"
  else if logtype =? 0x11 then "Fault"
  else "Default".

(** The same derivation, except that a signpost keeps the level Default. *)
Definition emitted_level (record_type logtype : Z) : string :=
  if (0x80 <=? logtype) && (logtype <=? 0xFF) then "Default"
  else if logtype =? 0x01 then
    if Z.land record_type 0x0F =? 0x02 then "Activity" else "Info"
  else if logtype =? 0x02 then "Debug"
  else if logtype =? 0x10 then "Error"
  else if logtype =? 0x11 then "Fault"
  else "Default".

Definition signpost_scope (logtype : Z) : string :=
  if Z.land logtype 0xC0 =? 0xC0 then "system" else "process".

Definition signpost_type (logtype : Z) : string :=
  if Z.land logtype 0x82 =? 0x82 then "end"
  else if Z.land logtype 0x81 =? 0x81 then "begin"
  else "event".

(** "spid 0x<id in hex>, <scope>, <type>" *)
Definition signpost_info (logtype spid : Z) : string :=
  String.append "spid 0x"
    (String.append (Tracev3.format_x spid)
       (String.append ", "
          (String.append (signpost_scope logtype)
             (String.append ", " (signpost_type logtype))))).

End LevelSpec.

(** The entry that a decoder run emits, for naming it in examples. *)
Definition emitted_entry (r : result (Z * option Tracev3.LogEntry))
    : option Tracev3.LogEntry :=
  match r with
  | Ret (_, entry) => entry
  | Raise _ => None
  end.

(** The decompressed data chunk of [unknown_proc_file] and the chunk meta
    that the catalog gives for it. *)
Definition unknown_proc_chunk : bytes :=
  Scenario.sub_chunk 0x6001 9 9 (le_bytes 16 0).

Definition demo_chunk_meta : Tracev3.ChunkMeta :=
  Tracev3.mkChunkMeta 0 0
    {[ Z.lor 8 (Z.shiftl 7 32) := Scenario.demo_proc_info ]}.

(** ** Batching: the run with a sink against the run without *)

Module Batching.
Import Tracev3.

Local Open Scope list_scope.
Local Open Scope Z_scope.

(** The callback called on one batch after the other, each with the
    object that is passed along with it. *)
Fixpoint deliver (func : Sink) (calls : list (list LogEntry * TraceV3))
    (state : SinkState) : result SinkState :=
  match calls with
  | [] => Ret state
  | (logs, self) :: rest =>
      let* state := func logs self state in
      deliver func rest state
  end.

(** [t] is the state of the run without a callback that corresponds to the
    state [s] of the run with the callback [func], which has been called on
    [calls] so far: the same position, object and catalog, the sink of [t]
    untouched, and in the [logs] of [t] everything that [s] has handed to the
    callback or still holds.  In [s] every batch handed over was above the
    threshold and the pending list is not. *)
Record corresponds (func : Sink) (calls : list (list LogEntry * TraceV3))
    (s t : FileLoopState) : Prop := mk_corresponds {
  same_pos : fl_pos t = fl_pos s;
  same_self : fl_self t = fl_self s;
  same_catalog : fl_catalog t = fl_catalog s;
  same_index : fl_meta_chunk_index t = fl_meta_chunk_index s;
  same_counter : fl_uncompressed_file_pos t = fl_uncompressed_file_pos s;
  nothing_delivered : fl_delivered t = [];
  delivered_by_calls : deliver func calls [] = Ret (fl_delivered s);
  same_records : fl_logs t = List.concat (map fst calls) ++ fl_logs s;
  batches_full :
    Forall (fun call => 100000 < Z.of_nat (length (fst call))) calls;
  pending_small : Z.of_nat (length (fl_logs s)) <= 100000
}.

(** The state [s] with [logs] in place of its pending list. *)
Definition with_logs (s : FileLoopState) (logs : list LogEntry)
    : FileLoopState :=
  mkFileLoopState (fl_pos s) (fl_self s) (fl_catalog s)
    (fl_meta_chunk_index s) (fl_uncompressed_file_pos s) logs
    (fl_delivered s).

End Batching.

(** ** More of the parsers: inputs written down by layout *)

(** *** The blocks of a compressed chunk *)

Module Lz4Blocks.
Import Tracev3.

(** A block of a [0x600D] chunk as [_DecompressChunkData] reads it: an LZ4
    block ([bv41], the two sizes, the compressed bytes) or a stored block
    ([bv4-], the size, the bytes themselves). *)
Inductive Block : Type :=
| Lz4Block (uncompressed_size : Z) (compressed : bytes)
| StoredBlock (raw : bytes).

Definition encode_block (b : Block) : bytes :=
  match b with
  | Lz4Block uncompressed_size compressed =>
      bv41 ++ le_bytes 4 uncompressed_size
        ++ le_bytes 4 (Z.of_nat (length compressed)) ++ compressed
  | StoredBlock raw =>
      bv4_dash ++ le_bytes 4 (Z.of_nat (length raw)) ++ raw
  end.

(** The blocks one after the other, closed by the end marker [bv4$]. *)
Definition encode_blocks (blocks : list Block) : bytes :=
  concat (map encode_block blocks) ++ bv4_end.

(** The sizes fit their 32-bit fields. *)
Definition block_fits (b : Block) : Prop :=
  match b with
  | Lz4Block uncompressed_size compressed =>
      0 <= uncompressed_size < 2 ^ 32
      /\ Z.of_nat (length compressed) < 2 ^ 32
  | StoredBlock raw => Z.of_nat (length raw) < 2 ^ 32
  end.

Section Contents.

Variable lz4_block_decompress : bytes -> Z -> bytes -> result bytes.

(** What a sequence of blocks holds: an LZ4 block is decompressed with the
    output of the LZ4 block before it as dictionary (nothing for the first
    one), a stored block is copied; a stored block in between leaves the
    dictionary as it is. *)
Fixpoint decode_blocks (dict : bytes) (blocks : list Block) : result bytes :=
  match blocks with
  | [] => Ret []
  | Lz4Block uncompressed_size compressed :: rest =>
      let* out := lz4_block_decompress compressed uncompressed_size dict in
      let* tail := decode_blocks out rest in
      Ret (out ++ tail)
  | StoredBlock raw :: rest =>
      let* tail := decode_blocks dict rest in
      Ret (raw ++ tail)
  end.

End Contents.

End Lz4Blocks.

(** *** The records of a dsc file *)

Module DscLayout.
Import DscFile.

(** The size of a range record and of a uuid record, by major version. *)
Definition range_record_size (major_version : Z) : Z :=
  if major_version =? 1 then 16 else 24.

Definition uuid_record_size (major_version : Z) : Z :=
  if major_version =? 1 then 28 else 32.

(** A version-2 range record, [<QIIQ]: [v_off], [data_offset], [data_len],
    [uuid_index]. *)
Definition range_v2 (e : RangeEntry) : bytes :=
  le_bytes 8 (v_off e) ++ le_bytes 4 (data_offset e)
    ++ le_bytes 4 (data_len e) ++ le_bytes 8 (uuid_index e).

Definition range_record (major_version : Z) (e : RangeEntry) : bytes :=
  if major_version =? 1 then range_v1 e else range_v2 e.

(** The fields of [e] fit the widths of a record of that version. *)
Definition range_fits (major_version : Z) (e : RangeEntry) : Prop :=
  let wide := if major_version =? 1 then 2 ^ 32 else 2 ^ 64 in
  0 <= uuid_index e < wide /\ 0 <= v_off e < wide
  /\ 0 <= data_offset e < 2 ^ 32 /\ 0 <= data_len e < 2 ^ 32.

(** A file that holds a header and a range table, followed by anything. *)
Definition range_table_file (major minor : Z) (entries : list RangeEntry)
    (uuids : Z) (rest : bytes) : bytes :=
  dsc_header major minor (Z.of_nat (length entries)) uuids
    ++ concat (map (range_record major) entries) ++ rest.

End DscLayout.

(** *** A concrete version-2 dsc file *)

(** A version-2 uuid record, [<QI], the UUID and [<I]. *)
Definition uuid_v2 (v size : Z) (uuid : bytes) (path_offset : Z) : bytes :=
  le_bytes 8 v ++ le_bytes 4 size ++ uuid ++ le_bytes 4 path_offset.

(** A version-2 file with one range and two uuid entries, [0, 4096) for
    "/usr/lib/libA.dylib" and [4096, 12288) for "/usr/lib/libB.dylib". *)
Definition two_library_dsc : bytes :=
  DscFile.dsc_header 2 0 1 2
    ++ DscLayout.range_v2 (DscFile.mkRangeEntry 1 4096 200 32)
    ++ uuid_v2 0 4096 (le_bytes 16 7) 104
    ++ uuid_v2 4096 8192 (le_bytes 16 9) 124
    ++ list_byte_of_string "/usr/lib/libA.dylib" ++ [x00]
    ++ list_byte_of_string "/usr/lib/libB.dylib" ++ [x00].

Definition parsed_two_library_dsc : DscFile.Dsc :=
  match DscFile._ParseFileObject (mkFileObj two_library_dsc 0) with
  | Ret (_, d) => d
  | Raise _ => DscFile.Dsc_init
  end.

(** *** The timesync search by boot identifier *)

Module TimesyncSearch.
Import Tracev3.

(** [_FindClosestTimesyncItem]: the closest item of the first timesync
    record with the boot identifier [uuid], or [None] when no record has
    it. *)
Fixpoint _FindClosestTimesyncItem (ts_list : list Timesync) (uuid : bytes)
    (ct : Z) : option TimesyncItem :=
  match ts_list with
  | [] => None
  | ts :: rest =>
      if bytes_eqb (boot_uuid ts) uuid
      then _FindClosestTimesyncItemInList (Some (ts_items ts)) ct
      else _FindClosestTimesyncItem rest uuid ct
  end.

End TimesyncSearch.

(** *** The items of a file header *)

Module HeaderLayout.

(** A header item as it lies in the file: [<II] item id and length, then
    the value. *)
Definition encode_item (item : Z * bytes) : bytes :=
  le_bytes 4 (fst item) ++ le_bytes 4 (Z.of_nat (length (snd item)))
    ++ snd item.

(** The value has the size that [_ParseFileHeader] unpacks for the item id:
    8 bytes of continuous time ([0x6100]), 56 bytes of build and hardware
    ([0x6101]), 24 bytes of boot UUID, pid and exit status ([0x6102]),
    48 bytes of time zone ([0x6103]); any size for another id. *)
Definition item_fits (item : Z * bytes) : Prop :=
  let (item_id, value) := item in
  0 <= item_id < 2 ^ 32 /\ Z.of_nat (length value) < 2 ^ 32
  /\ (item_id = 0x6100 -> length value = 8%nat)
  /\ (item_id = 0x6101 -> length value = 56%nat)
  /\ (item_id = 0x6102 -> length value = 24%nat)
  /\ (item_id = 0x6103 -> length value = 48%nat).

(** The boot UUID that a sequence of items leaves: that of the last
    [0x6102] item. *)
Definition boot_uuid_after (system_boot_uuid : option bytes)
    (items : list (Z * bytes)) : option bytes :=
  foldl (fun acc item =>
           if fst item =? 0x6102 then Some (take 16 (snd item)) else acc)
    system_boot_uuid items.

(** A file header: the 40 fixed bytes, then the items. *)
Definition encode_header (fixed : bytes) (items : list (Z * bytes)) : bytes :=
  fixed ++ concat (map encode_item items).

End HeaderLayout.

(** *** The log-data buffers of a tracepoint ([ReadLogDataBuffer2],
    [ReadLogDataBuffer]) *)

Module LogData.

(** An element of the list that the readers return: [[type, size, bytes]];
    the same with a text in place of the bytes (['<private>'] or
    ['(null)']); or the empty string that holds the place of a string item
    until its descriptor is resolved. *)
Inductive Item : Type :=
| Raw (item_type item_size : Z) (raw : bytes)
| Text (item_type item_size : Z) (text : string)
| Pending.

Definition item_bytes (item : Item) : bytes :=
  match item with
  | Raw _ _ raw => raw
  | _ => []
  end.

Definition is_pending (item : Item) : bool :=
  match item with
  | Pending => true
  | _ => false
  end.

(** [l[i] = x] for a Python list. *)
Definition py_setitem {A} (l : list A) (i : Z) (x : A) : result (list A) :=
  let len := Z.of_nat (length l) in
  let j := if i <? 0 then i + len else i in
  if (0 <=? j) && (j <? len) then Ret (<[Z.to_nat j := x]> l)
  else Raise IndexError.

(** The first loop of [ReadLogDataBuffer2], [while items_read <
    total_items]: a pass reads one size byte or leaves the loop at
    [pos <= 0]; [n] counts the passes that remain. *)
Fixpoint read_descriptors (n : nat) (buffer : bytes) (pos : Z)
    (descriptors : list Z) : result (list Z) :=
  match n with
  | O => Ret descriptors
  | S n' =>
      if pos <=? 0 then Ret descriptors
      else
        let* item_size := unpack_uint buffer pos 1 in
        read_descriptors n' buffer (pos + 1) (descriptors ++ [item_size])
  end.

(** The second loop: the items lie one after the other from the start of
    the buffer. *)
Fixpoint read_data (n : nat) (buffer : bytes) (descriptors : list Z)
    (items_read pos : Z) (data : list Item) : result (list Item) :=
  match n with
  | O => Ret data
  | S n' =>
      let* size := py_index descriptors items_read in
      let item_data := py_slice buffer pos (pos + size) in
      read_data n' buffer descriptors (items_read + 1) (pos + size)
        (data ++ [Raw 0 size item_data])
  end.

(** Where item [n] of [ReadLogDataBuffer2] starts: the sum of the [n] size
    bytes from [base] on. *)
Fixpoint item_start (buffer : bytes) (base : Z) (n : nat) : Z :=
  match n with
  | O => 0
  | S n' => item_start buffer base n' + uint_at buffer (base + Z.of_nat n') 1
  end.

(** [ReadLogDataBuffer2]: the data descriptors are at the end of the
    buffer. *)
Definition ReadLogDataBuffer2 (buffer : bytes) (buf_size : Z)
    (strings_buffer : bytes) : result (list Item) :=
  if buf_size =? 0 then Ret []
  else
    let last := py_slice_from buffer (-1) in
    let* _ := struct_size last 1 in
    let total_items := le_uint last in
    let pos := buf_size - 1 in
    if buf_size =? 1 then Ret []
    else
      let pos := pos - total_items in
      let* descriptors :=
        read_descriptors (Z.to_nat total_items) buffer pos [] in
      read_data (Z.to_nat total_items) buffer descriptors 0 0 [].

(** The item types that announce a string by offset and size. *)
Definition string_item_types : list Z :=
  [0x20; 0x21; 0x22; 0x25; 0x40; 0x41; 0x42; 0x45; 0x31; 0x32; 0xF2].

(** [(data_index, offset, size, data_type)] *)
Definition Descriptor : Type := (Z * Z * Z * Z)%type.

(** The first loop of [ReadLogDataBuffer] over [(pos, data,
    data_descriptors)]; it is left at [pos >= buf_size] and after an item
    of size zero. *)
Fixpoint read_items_loop (n : nat) (buffer : bytes) (buf_size pos : Z)
    (data : list Item) (data_descriptors : list Descriptor)
    : result (Z * list Item * list Descriptor) :=
  match n with
  | O => Ret (pos, data, data_descriptors)
  | S n' =>
      if pos >=? buf_size then Ret (pos, data, data_descriptors)
      else
        let field := py_slice buffer pos (pos + 2) in
        let* _ := struct_size field 2 in
        let item_type := uint_at field 0 1 in
        let item_size := uint_at field 1 1 in
        let pos := pos + 2 in
        let* (data, data_descriptors) :=
          if (item_type =? 0) || (item_type =? 1) then
            Ret (data ++ [Raw item_type item_size
                            (py_slice buffer pos (pos + item_size))],
                 data_descriptors)
          else if item_type =? 2 then
            Ret (data ++ [Raw item_type item_size
                            (py_slice buffer pos (pos + item_size))],
                 data_descriptors)
          else if existsb (Z.eqb item_type) string_item_types then
            let place := py_slice buffer pos (pos + 4) in
            let* _ := struct_size place 4 in
            Ret (data ++ [Pending],
                 data_descriptors
                   ++ [(Z.of_nat (length data), uint_at place 0 2,
                        uint_at place 2 2, item_type)])
          else if Z.land item_type 0xF0 =? 0x10 then
            let* _ := struct_size (py_slice buffer pos (pos + 4)) 4 in
            Ret (data, data_descriptors)
          else
            Ret (data ++ [Raw item_type item_size
                            (py_slice buffer pos (pos + item_size))],
                 data_descriptors) in
        if item_size =? 0 then Ret (pos, data, data_descriptors)
        else
          read_items_loop n' buffer buf_size (pos + item_size) data
            data_descriptors
  end.

(** What a descriptor is replaced by. *)
Definition resolve (buffer strings_buffer : bytes) (pos : Z)
    (desc : Descriptor) : Item :=
  let '(data_index, offset, size, data_type) := desc in
  if data_type =? 0x21 then
    if negb (size =? 0)
    then Raw data_type size (py_slice strings_buffer offset (offset + size))
    else Text data_type size "<private>"
  else if data_type =? 0x40 then
    if negb (size =? 0)
    then Raw data_type size
           (py_slice buffer (pos + offset) (pos + offset + size))
    else Text data_type size "(null)"
  else if data_type =? 0x41 then
    if negb (size =? 0)
    then Raw data_type size (py_slice strings_buffer offset (offset + size))
    else Text data_type size "<private>"
  else
    Raw data_type size (py_slice buffer (pos + offset) (pos + offset + size)).

(** [for desc in data_descriptors: data[data_index] = ...] *)
Fixpoint resolve_loop (buffer strings_buffer : bytes) (pos : Z)
    (data_descriptors : list Descriptor) (data : list Item)
    : result (list Item) :=
  match data_descriptors with
  | [] => Ret data
  | desc :: rest =>
      let* data :=
        py_setitem data (fst (fst (fst desc)))
          (resolve buffer strings_buffer pos desc) in
      resolve_loop buffer strings_buffer pos rest data
  end.

(** [ReadLogDataBuffer]; the context data that [has_context_data] announces
    is not read. *)
Definition ReadLogDataBuffer (buffer : bytes) (buf_size : Z)
    (strings_buffer : bytes) (has_context_data : bool) : result (list Item) :=
  let head := py_slice buffer 0 2 in
  let* _ := struct_size head 2 in
  let total_items := uint_at head 1 1 in
  let* (pos, data, data_descriptors) :=
    read_items_loop (Z.to_nat total_items) buffer buf_size 2 [] [] in
  resolve_loop buffer strings_buffer pos data_descriptors data.

End LogData.

(** *** Simpledump chunks ([_ParseSimpleDumpData]) *)

Module SimpleDump.
Import Tracev3.

Local Open Scope string_scope.
Local Open Scope list_scope.
Local Open Scope Z_scope.

(** The arguments of the [resources.LogEntry(...)] call of
    [_ParseSimpleDumpData], in the constructor's order.  The subsystem is
    [None] when the chunk holds no subsystem string, and the image UUID is
    always present. *)
Record Entry : Type := mkEntry {
  e_filename : string;
  e_log_file_pos : Z;
  e_ct : Z;
  e_time : PyFloat.float;
  e_thread : Z;
  e_log_type : string;
  e_act_id : Z;
  e_parentActivityIdentifier : Z;
  e_pid : Z;
  e_euid : Z;
  e_ttl : Z;
  e_p_name : string;
  e_lib : string;
  e_sub_sys : option string;
  e_cat : string;
  e_signpost_name : string;
  e_signpost_string : string;
  e_imageOffset : Z;
  e_imageUUID : bytes;
  e_processImageUUID : bytes;
  e_senderImagePath : string;
  e_processImagePath : string;
  e_log_msg : string
}.

(** The [try] block up to the statement that binds [ct]: the header
    [<QIbbh] and [<Q]; of the header's fields only [ttl] is used. *)
Definition read_ct (chunk_data : bytes) : result (Z * Z) :=
  let head := py_slice chunk_data 0 16 in
  let* _ := struct_size head 16 in
  let ttl := sint_at head 12 1 in
  let* ct := unpack_uint chunk_data 16 8 in
  Ret (ttl, ct).

(** The rest of the [try] block, to the construction of the entry.  The
    formats ["16s16s"] and ["I"] are in native order, little-endian where
    the parser runs. *)
Definition build_entry (self : TraceV3) (chunk_data : bytes)
    (catalog : Catalog) (proc_info : ProcInfo) (log_file_pos ttl ct : Z)
    : result Entry :=
  let* time := time_from_continuoustime (boot_uuid_ts_list self) ct None in
  let threads := py_slice chunk_data 24 40 in
  let* _ := struct_size threads 16 in
  let Thread_identifier := uint_at threads 0 8 in
  let images := py_slice chunk_data 40 72 in
  let* _ := struct_size images 32 in
  let* sender_image_id := DscFile.UUID_of_bytes (py_slice images 0 16) in
  let* shared_Cache_strings :=
    DscFile.UUID_of_bytes (py_slice images 16 32) in
  let* unknown2 := unpack_uint chunk_data 72 4 in
  let* subsystem_string_size := unpack_uint chunk_data 76 4 in
  let* message_string_size := unpack_uint chunk_data 80 4 in
  let pos := 84 in
  let subsystem_string :=
    if negb (subsystem_string_size =? 0)
    then Some (_ReadCString
                 (py_slice chunk_data pos (pos + subsystem_string_size)) None)
    else None in
  let pos := pos + subsystem_string_size in
  let log_msg :=
    _ReadCString (py_slice chunk_data pos (pos + message_string_size)) None in
  let* ut_object :=
    py_index (FileObjects catalog) (uuid_file_index proc_info) in
  let* ut_cache := as_uuidtext ut_object in
  Ret (mkEntry (filename self) log_file_pos ct time Thread_identifier
         "Default" 0 0 (pid proc_info) (euid proc_info) ttl
         (library_name ut_cache) "" subsystem_string "" "" "" 0
         sender_image_id (Uuid ut_cache) "" (library_path ut_cache) log_msg).

(** [_ParseSimpleDumpData]: the entries appended to [logs].
    [ImportError], [NameError] and [UnboundLocalError] are raised again.
    The handler of every other exception formats a message from
    [log_file_pos] and [ct]; when the exception came before [ct] was bound,
    evaluating [ct] there raises [UnboundLocalError], and this one leaves the
    function. *)
Definition _ParseSimpleDumpData (self : TraceV3) (chunk_data : bytes)
    (catalog : Catalog) (proc_info : ProcInfo) (log_file_pos : Z)
    : result (list Entry) :=
  match read_ct chunk_data with
  | Raise e =>
      if caught_by [ImportError; NameError; UnboundLocalError] e
      then Raise e
      else Raise UnboundLocalError
  | Ret (ttl, ct) =>
      match
        build_entry self chunk_data catalog proc_info log_file_pos ttl ct
      with
      | Ret log_entry => Ret [log_entry]
      | Raise e =>
          if caught_by [ImportError; NameError; UnboundLocalError] e
          then Raise e
          else Ret []
      end
  end.

End SimpleDump.

(** A simpledump chunk of the demo process: ttl 3, continuous time 2000,
    thread 99, subsystem "sub" and message "hello". *)
Definition demo_simple_dump : bytes :=
  le_bytes 8 7 ++ le_bytes 4 8 ++ le_bytes 1 3 ++ le_bytes 1 0 ++ le_bytes 2 0
    ++ le_bytes 8 2000 ++ le_bytes 8 99 ++ le_bytes 8 0
    ++ le_bytes 16 5 ++ le_bytes 16 6
    ++ le_bytes 4 1 ++ le_bytes 4 4 ++ le_bytes 4 6
    ++ list_byte_of_string "sub" ++ [x00]
    ++ list_byte_of_string "hello" ++ [x00].

(** An oversize chunk for any reference id and continuous time. *)
Definition oversize_chunk_for (data_ref_id ct : Z) (payload : bytes) : bytes :=
  le_bytes 8 7 ++ le_bytes 4 8 ++ le_bytes 4 0
    ++ le_bytes 8 ct ++ le_bytes 4 data_ref_id
    ++ le_bytes 4 (Z.of_nat (length payload)) ++ payload.

(** ** Files written chunk by chunk *)

Module ChunkLayout.
Import Tracev3.

Local Open Scope Z_scope.

(** A top-level chunk: tag, subtag and data. *)
Definition Chunk : Type := (Z * Z * bytes)%type.

Definition chunk_tag (c : Chunk) : Z := fst (fst c).

(** The fields fit the [<IIQ] chunk header. *)
Definition chunk_fits (c : Chunk) : Prop :=
  let '(tag, subtag, data) := c in
  0 <= tag < 2 ^ 32 /\ 0 <= subtag < 2 ^ 32
  /\ Z.of_nat (length data) < 2 ^ 64.

Definition encode_chunk (c : Chunk) : bytes :=
  let '(tag, subtag, data) := c in Scenario.chunk tag subtag data.

(** A tracev3 file: the header chunk (tag [0x1000], subtag [0x11]), which
    the parser does not expect to be padded, and the chunks after it. *)
Definition encode_file (file_header_data : bytes) (chunks : list Chunk)
    : bytes :=
  le_bytes 4 0x1000 ++ le_bytes 4 0x11
    ++ le_bytes 8 (Z.of_nat (length file_header_data)) ++ file_header_data
    ++ concat (map encode_chunk chunks).

(** The 16-byte header of a chunk that announces [size] bytes of data. *)
Definition chunk_header (tag subtag size : Z) : bytes :=
  le_bytes 4 tag ++ le_bytes 4 subtag ++ le_bytes 8 size.

(** A chunk that is neither a catalog nor a compressed data chunk. *)
Definition is_other (c : Chunk) : Prop :=
  chunk_fits c
  /\ chunk_tag c <> _CHUNK_TAG_METADATA
  /\ chunk_tag c <> _CHUNK_TAG_COMPRESSED.

(** The timesync list that [_ParseFileObject] stores for the boot UUID of
    the file header. *)
Definition timesync_of (ts_list : list Timesync)
    (system_boot_uuid : option bytes) : option (list TimesyncItem) :=
  match system_boot_uuid with
  | Some uuid => _GetBootUuidTimeSyncList ts_list uuid
  | None => None
  end.

End ChunkLayout.

(** The file header of [Scenario.header_chunk] and a file with three
    chunks of other kinds after it. *)
Definition demo_file_header : bytes :=
  le_bytes 40 0 ++ le_bytes 4 0x6102 ++ le_bytes 4 24
    ++ Scenario.demo_boot_uuid ++ le_bytes 4 1 ++ le_bytes 4 0.

Definition other_chunks : list ChunkLayout.Chunk :=
  [(0x1234, 0, le_bytes 3 0); (0x6001, 7, le_bytes 16 1); (0, 0, [])].

(** * Part II: properties *)

Section TimesyncProofs.

Local Instance ct_le_trans :
  Transitive (fun a b : TimesyncItem => continuousTime a <= continuousTime b).
Proof. intros a b c; lia. Qed.

Lemma sorted_tail_after (item : TimesyncItem) rest ct :
  sorted_by_ct (item :: rest) -> ct < continuousTime item ->
  Forall (fun j => ct < continuousTime j) (item :: rest).
Proof.
  intros Hs Hlt. constructor; [exact Hlt|].
  apply Sorted_extends in Hs; [|apply ct_le_trans].
  eapply Forall_impl; [exact Hs|]. simpl. intros j Hj. lia.
Qed.

Lemma closest_loop_spec l ct c :
  sorted_by_ct l ->
  (exists pre post,
      l = pre ++ closest_loop l ct c :: post
      /\ continuousTime (closest_loop l ct c) <= ct
      /\ Forall (fun j => ct < continuousTime j) post)
  \/ (closest_loop l ct c = c
      /\ Forall (fun j => ct < continuousTime j) l).
Proof.
  revert c. induction l as [|item rest IH]; intros c Hs; simpl.
  - right. split; [reflexivity|constructor].
  - destruct (Z.gtb_spec (continuousTime item) ct) as [Hgt|Hle].
    + right. split; [reflexivity|]. now apply sorted_tail_after.
    + assert (Hs' : sorted_by_ct rest) by (now inversion Hs).
      destruct (IH item Hs') as [(pre & post & Heq & Hc & Hpost)|[Heq Hall]].
      * left. exists (item :: pre), post. split; [|now split].
        simpl. now rewrite <- Heq.
      * left. exists [], rest. rewrite Heq. now repeat split.
Qed.

End TimesyncProofs.

Example scenario6_time :
  (let* f := time_from_continuoustime (Some [scenario6_item]) 1500 None in
   Ret (PyFloat.to_Q f)) = Ret (Some (inject_Z 1600000000000000512)).
Proof. vm_compute. reflexivity. Qed.

(** C1 (as amended).  On a list sorted by [continuousTime] the lookup returns
    the last item whose [continuousTime] is at most [ct], or the first item
    when [ct] precedes all of them (and [None] exactly on the empty list); the
    wall-clock time of [ct] is the formula
    [stamp + (ct - continuousTime) * (1.0 * numerator) / denominator] of that
    item evaluated in binary64 arithmetic, every operand converted and every
    operation rounded. *)
Theorem closest_item_and_wall_clock (items : list TimesyncItem) (ct : Z) :
  sorted_by_ct items ->
  match _FindClosestTimesyncItemInList (Some items) ct with
  | Some tsi =>
      closest_spec items ct tsi
      /\ time_from_continuoustime (Some items) ct None =
         (let* num := PyFloat.of_int (ts_numerator tsi) in
          let* delta := PyFloat.of_int (ct - continuousTime tsi) in
          let* den := PyFloat.of_int (ts_denominator tsi) in
          let* quot :=
            PyFloat.div (PyFloat.mul delta (PyFloat.mul PyFloat.one num)) den in
          let* stamp := PyFloat.of_int (time_stamp tsi) in
          Ret (PyFloat.add stamp quot))
  | None =>
      items = []
      /\ time_from_continuoustime (Some items) ct None = Raise AttributeError
  end.
Proof.
  intros Hs. unfold time_from_continuoustime.
  destruct items as [|first rest].
  - now split.
  - change (_FindClosestTimesyncItemInList (Some (first :: rest)) ct)
      with (Some (closest_loop (first :: rest) ct first)).
    cbv iota beta. split.
    + destruct (closest_loop_spec (first :: rest) ct first Hs)
        as [(pre & post & Heq & Hc & Hpost)|[Heq Hall]].
      * eapply closest_last; eassumption.
      * rewrite Heq. eapply closest_first; [reflexivity|exact Hall].
    + unfold wall_clock.
      destruct (PyFloat.of_int (ts_numerator _)); reflexivity.
Qed.

Lemma closest_item_and_wall_clock_witness :
  match _FindClosestTimesyncItemInList (Some [scenario6_item]) 1500 with
  | Some tsi =>
      closest_spec [scenario6_item] 1500 tsi
      /\ time_from_continuoustime (Some [scenario6_item]) 1500 None =
         (let* num := PyFloat.of_int (ts_numerator tsi) in
          let* delta := PyFloat.of_int (1500 - continuousTime tsi) in
          let* den := PyFloat.of_int (ts_denominator tsi) in
          let* quot :=
            PyFloat.div (PyFloat.mul delta (PyFloat.mul PyFloat.one num)) den in
          let* stamp := PyFloat.of_int (time_stamp tsi) in
          Ret (PyFloat.add stamp quot))
  | None =>
      [scenario6_item] = []
      /\ time_from_continuoustime (Some [scenario6_item]) 1500 None
         = Raise AttributeError
  end.
Proof.
  apply (closest_item_and_wall_clock [scenario6_item] 1500).
  repeat constructor.
Defined.

(** C1 as stated fails: in scenario 6 the list is sorted and the lookup
    returns the expected item, but the computed time is the double nearest to
    the exact value, 1600000000000000512, not 1600000000000000500. *)
Lemma wall_clock_not_exact :
  sorted_by_ct [scenario6_item]
  /\ _FindClosestTimesyncItemInList (Some [scenario6_item]) 1500
     = Some scenario6_item
  /\ exists f q,
       time_from_continuoustime (Some [scenario6_item]) 1500 None = Ret f
       /\ PyFloat.to_Q f = Some q
       /\ ~ (q == wall_clock_exact scenario6_item 1500)%Q.
Proof.
  split; [repeat constructor|]. split; [reflexivity|].
  eexists. eexists. split; [vm_compute; reflexivity|].
  split; [vm_compute; reflexivity|].
  intros H. vm_compute in H. discriminate H.
Qed.

(** ** Generic facts about the Python primitives *)

Lemma bind_ret_inv {A B} (m : result A) (k : A -> result B) (b : B) :
  Py.bind m k = Ret b -> exists a, m = Ret a /\ k a = Ret b.
Proof. destruct m as [a|e]; simpl; [eauto|discriminate]. Qed.

Ltac bind_inv H :=
  let a := fresh "a" in
  let Hm := fresh "Hm" in
  apply bind_ret_inv in H; destruct H as (a & Hm & H).

(** A read of a size within [sys.maxsize] gives the bytes that are there. *)
Lemma file_object_read_small (f : FileObj) (n : Z) :
  n <= PY_SSIZE_T_MAX -> file_object_read f n = Ret (file_read f n).
Proof.
  intros Hn. unfold file_object_read.
  destruct (Z.gtb_spec n PY_SSIZE_T_MAX); [lia|reflexivity].
Qed.

Lemma file_object_read_inv (f : FileObj) (n : Z) (p : bytes * FileObj) :
  file_object_read f n = Ret p -> n <= PY_SSIZE_T_MAX /\ p = file_read f n.
Proof.
  unfold file_object_read.
  destruct (Z.gtb_spec n PY_SSIZE_T_MAX); [discriminate|].
  intros [= <-]. split; [lia|reflexivity].
Qed.

Lemma file_object_read_raise (f : FileObj) (n : Z) (e : exn) :
  file_object_read f n = Raise e -> e = OverflowError /\ PY_SSIZE_T_MAX < n.
Proof.
  unfold file_object_read.
  destruct (Z.gtb_spec n PY_SSIZE_T_MAX); [|discriminate].
  intros [= <-]. split; [reflexivity|lia].
Qed.

(** Reads of a fixed size, and reads that are known to have returned. *)
Ltac read_fixed :=
  rewrite ?file_object_read_small by (unfold PY_SSIZE_T_MAX; lia);
  cbn [Py.bind].

Ltac read_fixed_in H :=
  rewrite ?file_object_read_small in H by (unfold PY_SSIZE_T_MAX; lia);
  cbn [Py.bind] in H.

Ltac read_inv H :=
  let rd := fresh "rd" in
  let Hrd := fresh "Hrd" in
  let Hsz := fresh "Hsz" in
  apply bind_ret_inv in H; destruct H as (rd & Hrd & H);
  apply file_object_read_inv in Hrd; destruct Hrd as [Hsz Hrd].

Lemma py_index_nonneg {A} (l : list A) (i : Z) (x : A) :
  0 <= i -> l !! Z.to_nat i = Some x -> py_index l i = Ret x.
Proof.
  intros Hi Hl. unfold py_index.
  assert (Hlen : (Z.to_nat i < length l)%nat) by (eapply lookup_lt_Some; eauto).
  destruct (Z.ltb_spec i 0) as [?|_]; [lia|].
  destruct (Z.leb_spec 0 i) as [_|?]; [|lia].
  destruct (Z.ltb_spec i (Z.of_nat (length l))) as [_|?]; [|lia].
  simpl. now rewrite Hl.
Qed.

Lemma py_index_ret_nonneg {A} (l : list A) (i : Z) (x : A) :
  0 <= i -> py_index l i = Ret x ->
  l !! Z.to_nat i = Some x /\ i < Z.of_nat (length l).
Proof.
  intros Hi. unfold py_index.
  destruct (Z.ltb_spec i 0) as [?|_]; [lia|].
  destruct (Z.leb_spec 0 i) as [_|?]; [|lia].
  destruct (Z.ltb_spec i (Z.of_nat (length l))) as [Hlt|?];
    simpl; [|discriminate].
  destruct (l !! Z.to_nat i) eqn:E; [|discriminate].
  intros [= ->]. split; [reflexivity|exact Hlt].
Qed.

Lemma sorted_lookup_le (a : list Z) (i j : nat) (x y : Z) :
  StronglySorted Z.le a -> (i <= j)%nat ->
  a !! i = Some x -> a !! j = Some y -> x <= y.
Proof.
  intros Hs. revert i j x y.
  induction Hs as [|h t Hs IH Hall]; intros i j x y Hij Hi Hj.
  - discriminate.
  - destruct i as [|i], j as [|j]; simpl in *.
    + injection Hi as <-. injection Hj as <-. lia.
    + injection Hi as <-. rewrite Forall_forall in Hall.
      apply Hall. eapply list_elem_of_lookup_2; eauto.
    + lia.
    + eapply IH; [|eassumption|eassumption]. lia.
Qed.

(** ** The dsc parser *)

Module DscProofs.
Import DscFile.
Import DscSpec.

(** *** [bisect_right] on a sorted list *)

Lemma bisect_loop_spec (fuel : nat) (a : list Z) (x lo hi : Z) :
  StronglySorted Z.le a ->
  0 <= lo <= hi -> hi <= Z.of_nat (length a) ->
  hi - lo <= Z.of_nat fuel ->
  (forall i y, 0 <= i < lo -> a !! Z.to_nat i = Some y -> y <= x) ->
  (forall i y, hi <= i -> a !! Z.to_nat i = Some y -> x < y) ->
  exists pos,
    bisect_loop fuel a x lo hi = Ret pos
    /\ lo <= pos <= hi
    /\ (forall i y, 0 <= i < pos -> a !! Z.to_nat i = Some y -> y <= x)
    /\ (forall i y, pos <= i -> a !! Z.to_nat i = Some y -> x < y).
Proof.
  intros Hs. revert lo hi.
  induction fuel as [|fuel IH]; intros lo hi Hlo Hhi Hfuel Hbelow Habove;
    simpl; destruct (Z.ltb_spec lo hi) as [Hlt|Hge].
  - lia.
  - exists lo. split; [reflexivity|]. split; [lia|]. split; [exact Hbelow|].
    intros i y Hi. apply Habove. lia.
  - set (mid := (lo + hi) / 2).
    assert (Hmid : lo <= mid < hi).
    { subst mid. split.
      - apply Z.div_le_lower_bound; lia.
      - apply Z.div_lt_upper_bound; lia. }
    destruct (lookup_lt_is_Some_2 a (Z.to_nat mid)) as [m Hm]; [lia|].
    rewrite (py_index_nonneg a mid m) by (lia || exact Hm). simpl.
    destruct (Z.ltb_spec x m) as [Hxm|Hmx].
    + destruct (IH lo mid) as (pos & Hr & Hp & Hb & Ha); try lia; auto.
      { intros i y Hi Hy.
        assert (m <= y); [|lia].
        eapply (sorted_lookup_le a (Z.to_nat mid) (Z.to_nat i)); eauto. lia. }
      exists pos. repeat split; (lia || auto).
    + destruct (IH (mid + 1) hi) as (pos & Hr & Hp & Hb & Ha); try lia; auto.
      { intros i y Hi Hy.
        assert (y <= m); [|lia].
        eapply (sorted_lookup_le a (Z.to_nat i) (Z.to_nat mid)); eauto. lia. }
      exists pos. repeat split; (lia || auto).
  - exists lo. split; [reflexivity|]. split; [lia|]. split; [exact Hbelow|].
    intros i y Hi. apply Habove. lia.
Qed.

(** The result does not depend on the fuel, once there is enough of it. *)
Lemma bisect_right_spec (a : list Z) (x : Z) :
  StronglySorted Z.le a ->
  exists pos,
    bisect_right a x 0 (Z.of_nat (length a)) = Ret pos
    /\ 0 <= pos <= Z.of_nat (length a)
    /\ (forall i y, 0 <= i < pos -> a !! Z.to_nat i = Some y -> y <= x)
    /\ (forall i y, pos <= i -> a !! Z.to_nat i = Some y -> x < y).
Proof.
  intros Hs. unfold bisect_right. simpl.
  apply bisect_loop_spec; auto; try lia.
  intros i y Hi Hy. apply lookup_lt_Some in Hy. lia.
Qed.

(** *** The sorted key list *)

Lemma sorted_keys_perm {V} (m : gmap Z V) :
  sorted_keys m ≡ₚ (map_to_list m).*1.
Proof. unfold sorted_keys. apply merge_sort_Permutation. Qed.

Lemma elem_of_sorted_keys {V} (m : gmap Z V) (k : Z) :
  k ∈ sorted_keys m <-> is_Some (m !! k).
Proof.
  rewrite sorted_keys_perm, list_elem_of_fmap. split.
  - intros ([k' v] & -> & Hin). apply elem_of_map_to_list in Hin. eauto.
  - intros [v Hv]. exists (k, v). split; [reflexivity|].
    now apply elem_of_map_to_list.
Qed.

Lemma sorted_keys_le {V} (m : gmap Z V) :
  StronglySorted Z.le (sorted_keys m).
Proof. unfold sorted_keys. apply StronglySorted_merge_sort; apply _. Qed.

Lemma sorted_keys_NoDup {V} (m : gmap Z V) : NoDup (sorted_keys m).
Proof. rewrite sorted_keys_perm. apply NoDup_fst_map_to_list. Qed.

Lemma sorted_nodup_strict (l : list Z) :
  StronglySorted Z.le l -> NoDup l -> StronglySorted Z.lt l.
Proof.
  induction 1 as [|h t Hs IH Hall]; intros Hnd; constructor.
  - apply IH. now inversion Hnd.
  - inversion Hnd as [|? ? Hnotin Hnd']; subst.
    rewrite Forall_forall in *. intros y Hy.
    specialize (Hall y Hy). assert (h <> y) by (intros ->; contradiction).
    lia.
Qed.

Lemma sorted_keys_lt {V} (m : gmap Z V) :
  StronglySorted Z.lt (sorted_keys m).
Proof.
  apply sorted_nodup_strict; [apply sorted_keys_le|apply sorted_keys_NoDup].
Qed.

(** *** What a successful parse establishes *)

Lemma range_entries_loop_own_key n major f entries entries' f' :
  range_entries_loop n major f entries = Ret (entries', f') ->
  own_key entries -> own_key entries'.
Proof.
  revert f entries. induction n as [|n IH]; intros f entries Hrun Hown.
  - simpl in Hrun. now injection Hrun as <- <-.
  - simpl in Hrun. bind_inv Hrun. destruct a as [range_entry f1].
    destruct (entries !! v_off range_entry) eqn:Hdup; [discriminate|].
    eapply IH; [exact Hrun|].
    intros k e. rewrite lookup_insert. case_decide as Hk.
    + now intros [= <-].
    + apply Hown.
Qed.

Lemma range_entries_loop_size n major f entries entries' f' :
  range_entries_loop n major f entries = Ret (entries', f') ->
  size entries' = (size entries + n)%nat.
Proof.
  revert f entries. induction n as [|n IH]; intros f entries Hrun.
  - simpl in Hrun. injection Hrun as <- <-. lia.
  - simpl in Hrun. bind_inv Hrun. destruct a as [range_entry f1].
    destruct (entries !! v_off range_entry) eqn:Hdup; [discriminate|].
    apply IH in Hrun. rewrite Hrun, map_size_insert_None by exact Hdup. lia.
Qed.

Lemma parse_inv (f : FileObj) (d : Dsc) :
  _ParseFileObject f = Ret (true, d) -> parsed_inv d.
Proof.
  unfold _ParseFileObject. read_fixed.
  destruct (file_read f 16) as [hdr f0].
  destruct (negb _).
  - simpl. discriminate.
  - intros H. bind_inv H.
    destruct (_ >? 2); [discriminate|].
    bind_inv H. destruct a0 as [ranges f1].
    bind_inv H. destruct a0 as [[uuids dict] f2].
    injection H as <-. split; simpl; [reflexivity|reflexivity|].
    eapply range_entries_loop_own_key; [exact Hm0|].
    intros k e. rewrite lookup_empty. discriminate.
Qed.

Lemma find_characterised (d : Dsc) (v_offset : Z) :
  parsed_inv d ->
  exists g, greatest_at_or_below d v_offset g
            /\ FindVirtualOffsetEntries d v_offset = accept d v_offset g.
Proof.
  intros [Hoff Hnum Hown]. unfold FindVirtualOffsetEntries.
  rewrite Hnum, Hoff.
  destruct (bisect_right_spec (sorted_keys (range_entries d)) v_offset)
    as (pos & Hr & Hpos & Hbelow & Habove); [apply sorted_keys_le|].
  rewrite Hr. simpl.
  destruct (Z.gtb_spec pos 0) as [Hgt|Hle].
  - destruct (lookup_lt_is_Some_2 (sorted_keys (range_entries d))
                (Z.to_nat (pos - 1))) as [k Hk]; [lia|].
    rewrite (py_index_nonneg _ (pos - 1) k) by (lia || exact Hk). simpl.
    assert (Hin : k ∈ sorted_keys (range_entries d))
      by (eapply list_elem_of_lookup_2; eauto).
    apply elem_of_sorted_keys in Hin. destruct Hin as [a Ha].
    rewrite Ha. pose proof (Hown k a Ha) as Hka.
    exists (Some a). split; [|reflexivity].
    constructor.
    + now rewrite Hka.
    + rewrite Hka. apply (Hbelow (pos - 1)); [lia|exact Hk].
    + intros k' Hk' Hle. rewrite Hka.
      apply elem_of_sorted_keys, list_elem_of_lookup_1 in Hk'.
      destruct Hk' as [i Hi].
      destruct (Z.lt_ge_cases (Z.of_nat i) pos) as [Hlt|Hge].
      * eapply (sorted_lookup_le (sorted_keys (range_entries d)) i
                  (Z.to_nat (pos - 1)));
          [apply sorted_keys_le| |exact Hi|exact Hk]. lia.
      * specialize (Habove (Z.of_nat i) k' Hge).
        rewrite Nat2Z.id in Habove. specialize (Habove Hi). lia.
  - exists None. split; [|reflexivity]. constructor.
    intros k Hk. apply elem_of_sorted_keys, list_elem_of_lookup_1 in Hk.
    destruct Hk as [i Hi]. apply (Habove (Z.of_nat i)); [lia|].
    now rewrite Nat2Z.id.
Qed.

Lemma greatest_unique (d : Dsc) (v_offset : Z) (a : RangeEntry) g :
  own_key (range_entries d) ->
  greatest_at_or_below d v_offset g ->
  known_range d a -> v_off a <= v_offset ->
  (forall b, known_range d b -> v_off a < v_off b -> v_offset < v_off b) ->
  g = Some a.
Proof.
  intros Hown Hg Ha Hle Hlater. destruct Hg as [b Hb Hble Hmax|Hnone].
  - assert (v_off a <= v_off b) by (apply Hmax; [rewrite Ha; eauto|lia]).
    destruct (Z.eq_dec (v_off a) (v_off b)) as [Heq|Hne].
    + unfold known_range in Ha. rewrite Heq, Hb in Ha. congruence.
    + assert (v_offset < v_off b) by (apply Hlater; [exact Hb|lia]). lia.
  - assert (v_offset < v_off a) by (apply Hnone; rewrite Ha; eauto). lia.
Qed.

Lemma sorted_keys_length {V} (m : gmap Z V) :
  length (sorted_keys m) = size m.
Proof.
  rewrite (Permutation_length (sorted_keys_perm m)), length_fmap.
  apply length_map_to_list.
Qed.

(** The header fields that [_ParseFileObject] reads from [f]. *)
Lemma parse_announced (f : FileObj) (d : Dsc) :
  _ParseFileObject f = Ret (true, d) ->
  size (range_entries d)
  = Z.to_nat (uint_at (py_slice (fst (file_read f 16)) 4 16) 4 4).
Proof.
  unfold _ParseFileObject. read_fixed.
  destruct (file_read f 16) as [hdr f0].
  destruct (negb _).
  - simpl. discriminate.
  - intros H. bind_inv H.
    destruct (_ >? 2); [discriminate|].
    bind_inv H. destruct a0 as [ranges f1].
    bind_inv H. destruct a0 as [[uuids dict] f2].
    injection H as <-. simpl.
    apply range_entries_loop_size in Hm0. rewrite Hm0, map_size_empty.
    reflexivity.
Qed.

Lemma duplicate_v_off_raises n major f entries e f' :
  read_range_entry major f = Ret (e, f') ->
  is_Some (entries !! v_off e) ->
  range_entries_loop (S n) major f entries = Raise ValueError.
Proof.
  intros Hread [x Hx]. simpl. rewrite Hread. simpl. now rewrite Hx.
Qed.

End DscProofs.

(** C3 (as amended).  For a dsc file that parsed successfully, [find]
    takes the range entry with the greatest [v_off] at or below [v_offset],
    accepts it only if [v_off + data_len > v_offset], and returns it paired
    with [uuid_entries[uuid_index]].  Hence a [v_offset] inside a known range
    is answered with that range whenever no other range starts after it at or
    below [v_offset], in particular whenever the ranges do not overlap. *)
Theorem find_virtual_offset_entries (f : FileObj) (d : DscFile.Dsc)
    (v_offset : Z) :
  DscFile._ParseFileObject f = Ret (true, d) ->
  (exists g, DscSpec.greatest_at_or_below d v_offset g
             /\ DscFile.FindVirtualOffsetEntries d v_offset
                = DscSpec.accept d v_offset g)
  /\ (forall a,
        DscSpec.known_range d a -> DscSpec.inside a v_offset ->
        (forall b, DscSpec.known_range d b ->
                   DscFile.v_off a < DscFile.v_off b ->
                   v_offset < DscFile.v_off b) ->
        DscFile.FindVirtualOffsetEntries d v_offset
        = (let* u := py_index (DscFile.uuid_entries d) (DscFile.uuid_index a) in
           Ret (Some (a, u))))
  /\ (DscSpec.non_overlapping d ->
      forall a,
        DscSpec.known_range d a -> DscSpec.inside a v_offset ->
        DscFile.FindVirtualOffsetEntries d v_offset
        = (let* u := py_index (DscFile.uuid_entries d) (DscFile.uuid_index a) in
           Ret (Some (a, u)))).
Proof.
  intros Hparse. apply DscProofs.parse_inv in Hparse.
  assert (Hstrict : forall a,
    DscSpec.known_range d a -> DscSpec.inside a v_offset ->
    (forall b, DscSpec.known_range d b -> DscFile.v_off a < DscFile.v_off b ->
               v_offset < DscFile.v_off b) ->
    DscFile.FindVirtualOffsetEntries d v_offset
    = (let* u := py_index (DscFile.uuid_entries d) (DscFile.uuid_index a) in
       Ret (Some (a, u)))).
  { intros a Ha [Hlo Hhi] Hlater.
    destruct (DscProofs.find_characterised d v_offset Hparse) as (g & Hg & ->).
    rewrite (DscProofs.greatest_unique d v_offset a g); auto.
    - simpl. destruct (Z.gtb_spec (DscFile.v_off a + DscFile.data_len a)
                         v_offset); [reflexivity|lia].
    - apply Hparse. }
  split; [now apply DscProofs.find_characterised|].
  split; [exact Hstrict|].
  intros Hno a Ha Hin. apply Hstrict; auto.
  intros b Hb Hlt. specialize (Hno a b Ha Hb Hlt).
  destruct Hin. lia.
Qed.

Lemma find_virtual_offset_entries_witness :
  DscFile._ParseFileObject (mkFileObj DscFile.overlapping_dsc 0)
  = Ret (true, parsed_overlapping_dsc)
  /\ exists g,
       DscSpec.greatest_at_or_below parsed_overlapping_dsc 55 g
       /\ DscFile.FindVirtualOffsetEntries parsed_overlapping_dsc 55
          = DscSpec.accept parsed_overlapping_dsc 55 g.
Proof.
  assert (H : DscFile._ParseFileObject (mkFileObj DscFile.overlapping_dsc 0)
              = Ret (true, parsed_overlapping_dsc))
    by (vm_compute; reflexivity).
  split; [exact H|].
  exact (proj1 (find_virtual_offset_entries _ _ 55 H)).
Defined.

(** C3 as stated fails: [overlapping_dsc] parses, 70 lies inside its range
    [0, 100), yet [find] looks only at the later range [50, 60) and reports
    that nothing was found. *)
Lemma find_misses_enclosing_range :
  DscFile._ParseFileObject (mkFileObj DscFile.overlapping_dsc 0)
  = Ret (true, parsed_overlapping_dsc)
  /\ DscSpec.known_range parsed_overlapping_dsc
       (DscFile.mkRangeEntry 0 0 200 100)
  /\ DscSpec.inside (DscFile.mkRangeEntry 0 0 200 100) 70
  /\ DscFile.FindVirtualOffsetEntries parsed_overlapping_dsc 70 = Ret None.
Proof.
  split; [vm_compute; reflexivity|].
  split; [vm_compute; reflexivity|].
  split; [unfold DscSpec.inside; simpl; lia|].
  vm_compute; reflexivity.
Qed.

(** C6 (as amended).  After a successful parse the [v_off] values of
    [range_entries] are pairwise distinct: every entry is stored under its
    own [v_off], [range_entry_offsets] lists exactly these keys in strictly
    increasing order, and all the records that the header announces are
    there.  A record whose [v_off] was already seen makes parsing fail with
    [ValueError].  Whether ranges overlap is not checked. *)
Theorem parsed_range_entries_unique_sorted (f : FileObj) (d : DscFile.Dsc) :
  DscFile._ParseFileObject f = Ret (true, d) ->
  StronglySorted Z.lt (DscFile.range_entry_offsets d)
  /\ (forall k, k ∈ DscFile.range_entry_offsets d
                <-> is_Some (DscFile.range_entries d !! k))
  /\ (forall k e, DscFile.range_entries d !! k = Some e -> DscFile.v_off e = k)
  /\ DscFile.num_range_entries d = Z.of_nat (size (DscFile.range_entries d))
  /\ size (DscFile.range_entries d)
     = Z.to_nat (uint_at (py_slice (fst (file_read f 16)) 4 16) 4 4)
  /\ (forall n major g entries e g',
        DscFile.read_range_entry major g = Ret (e, g') ->
        is_Some (entries !! DscFile.v_off e) ->
        DscFile.range_entries_loop (S n) major g entries = Raise ValueError).
Proof.
  intros Hparse. pose proof (DscProofs.parse_inv f d Hparse) as [Hoff Hnum Hown].
  rewrite Hnum, Hoff. repeat split.
  - apply DscProofs.sorted_keys_lt.
  - apply DscProofs.elem_of_sorted_keys.
  - apply DscProofs.elem_of_sorted_keys.
  - exact Hown.
  - now rewrite DscProofs.sorted_keys_length.
  - now apply DscProofs.parse_announced.
  - intros. eapply DscProofs.duplicate_v_off_raises; eauto.
Qed.

Lemma parsed_range_entries_unique_sorted_witness :
  DscFile._ParseFileObject (mkFileObj DscFile.overlapping_dsc 0)
  = Ret (true, parsed_overlapping_dsc)
  /\ StronglySorted Z.lt (DscFile.range_entry_offsets parsed_overlapping_dsc).
Proof.
  assert (H : DscFile._ParseFileObject (mkFileObj DscFile.overlapping_dsc 0)
              = Ret (true, parsed_overlapping_dsc))
    by (vm_compute; reflexivity).
  split; [exact H|].
  exact (proj1 (parsed_range_entries_unique_sorted _ _ H)).
Defined.

(** C6 as stated fails: [overlapping_dsc] parses although its consecutive
    ranges [0, 100) and [50, 60) overlap. *)
Lemma parsed_ranges_may_overlap :
  DscFile._ParseFileObject (mkFileObj DscFile.overlapping_dsc 0)
  = Ret (true, parsed_overlapping_dsc)
  /\ DscFile.range_entry_offsets parsed_overlapping_dsc = [0; 50]
  /\ exists a b,
       DscFile.range_entries parsed_overlapping_dsc !! 0 = Some a
       /\ DscFile.range_entries parsed_overlapping_dsc !! 50 = Some b
       /\ DscFile.v_off b < DscFile.v_off a + DscFile.data_len a.
Proof.
  split; [vm_compute; reflexivity|].
  split; [vm_compute; reflexivity|].
  exists (DscFile.mkRangeEntry 0 0 200 100), (DscFile.mkRangeEntry 0 50 300 10).
  split; [vm_compute; reflexivity|].
  split; [vm_compute; reflexivity|].
  simpl. lia.
Qed.

Example duplicate_v_off_rejected :
  DscFile.Parse (DscFile.mkVirtualFile (Some duplicate_dsc) true)
  = Raise ValueError.
Proof. vm_compute. reflexivity. Qed.

(** C7, first part: the code diverges from the claim.  A file that does not
    start with [hcsd] makes [Parse] raise [NameError], because the branch
    that reports the wrong signature uses [binascii], which [dsc_file] never
    imports; [Parse] neither returns [False] nor marks the file invalid. *)
Theorem bad_signature_raises_NameError :
  DscFile.Parse (DscFile.mkVirtualFile (Some DscFile.not_a_dsc) true)
  = Raise NameError.
Proof. vm_compute. reflexivity. Qed.

(** The same holds for every file with a wrong signature. *)
Lemma bad_signature_always_raises (data : bytes) (valid : bool) :
  bytes_eqb (py_slice (fst (file_read (mkFileObj data 0) 16)) 0 4)
            DscFile.hcsd = false ->
  DscFile.Parse (DscFile.mkVirtualFile (Some data) valid) = Raise NameError.
Proof.
  intros Hsig. unfold DscFile.Parse, DscFile._ParseFileObject. cbn [DscFile.file_data].
  read_fixed.
  destruct (file_read (mkFileObj data 0) 16) as [hdr f0]. simpl in Hsig.
  rewrite Hsig. reflexivity.
Qed.

(** C7, second part: a major version above 2 is rejected with the
    [UserWarning] "Unsupported DSC Format". *)
Example version3_rejected :
  DscFile.Parse (DscFile.mkVirtualFile (Some DscFile.dsc_version3) true)
  = Raise UserWarning.
Proof. vm_compute. reflexivity. Qed.

(** ** [while] loops *)

Section WhileLoop.

Context {S : Type}.
Variable cond : S -> bool.
Variable body : S -> result S.

(** With a measure that every pass decreases, any fuel at or above the
    measure gives the same result. *)
Lemma while_loop_fuel (measure : S -> nat) :
  (forall s, cond s = true -> (0 < measure s)%nat) ->
  (forall s s', cond s = true -> body s = Ret s' ->
                (measure s' < measure s)%nat) ->
  forall fuel fuel' s,
    (measure s <= fuel)%nat -> (measure s <= fuel')%nat ->
    while_loop fuel cond body s = while_loop fuel' cond body s.
Proof.
  intros Hpos Hdec fuel.
  induction fuel as [|fuel IH]; intros fuel' s Hf Hf'.
  - destruct fuel' as [|fuel']; [reflexivity|]. simpl.
    destruct (cond s) eqn:Hc; [|reflexivity].
    specialize (Hpos s Hc). lia.
  - destruct fuel' as [|fuel']; simpl; destruct (cond s) eqn:Hc;
      try reflexivity.
    + specialize (Hpos s Hc). lia.
    + destruct (body s) as [s'|e] eqn:Hb; [|reflexivity].
      specialize (Hdec s s' Hc Hb). apply IH; lia.
Qed.

(** An invariant of the body holds when the loop returns. *)
Lemma while_loop_inv (P : S -> Prop) :
  (forall s s', P s -> cond s = true -> body s = Ret s' -> P s') ->
  forall fuel s s', P s -> while_loop fuel cond body s = Ret s' -> P s'.
Proof.
  intros Hstep fuel. induction fuel as [|fuel IH]; intros s s' HP; simpl.
  - destruct (cond s); now intros [= <-].
  - destruct (cond s) eqn:Hc; [|now intros [= <-]].
    destruct (body s) as [s1|e] eqn:Hb; [|discriminate].
    apply IH. eapply Hstep; eauto.
Qed.

(** A pass that raises ends the loop with that exception. *)
Lemma while_loop_raise (fuel : nat) (s : S) (e : exn) :
  cond s = true -> body s = Raise e ->
  while_loop (Datatypes.S fuel) cond body s = Raise e.
Proof. intros Hc Hb. simpl. now rewrite Hc, Hb. Qed.

End WhileLoop.

(** Two loops that step in lockstep return related states. *)
Lemma while_loop_sim {S T : Type} (R : S -> T -> Prop)
    (cond1 : S -> bool) (body1 : S -> result S)
    (cond2 : T -> bool) (body2 : T -> result T) :
  (forall s t, R s t -> cond1 s = cond2 t) ->
  (forall s t s', R s t -> cond1 s = true -> body1 s = Ret s' ->
                  exists t', body2 t = Ret t' /\ R s' t') ->
  forall fuel s t s',
    R s t -> while_loop fuel cond1 body1 s = Ret s' ->
    exists t', while_loop fuel cond2 body2 t = Ret t' /\ R s' t'.
Proof.
  intros Hcond Hstep fuel.
  induction fuel as [|fuel IH]; intros s t s' HR; simpl;
    rewrite <- (Hcond s t HR).
  - destruct (cond1 s); intros [= <-]; eauto.
  - destruct (cond1 s) eqn:Hc; [|intros [= <-]; eauto].
    destruct (body1 s) as [s1|e] eqn:Hb; [|discriminate].
    destruct (Hstep s t s1 HR Hc Hb) as (t1 & -> & HR1).
    now apply IH.
Qed.

(** ** The tracepoint decoder *)

Module Tracev3Proofs.
Import Tracev3.

Local Open Scope string_scope.
Local Open Scope list_scope.
Local Open Scope Z_scope.

Lemma byte_val_range (b : byte) : 0 <= byte_val b < 256.
Proof.
  unfold byte_val. pose proof (Byte.to_N_bounded b) as H. lia.
Qed.

Lemma le_uint_one_byte (bs : bytes) :
  (length bs <= 1)%nat -> 0 <= le_uint bs < 256.
Proof.
  destruct bs as [|b [|b' rest]]; simpl; intros H; try lia.
  pose proof (byte_val_range b). lia.
Qed.

Lemma py_slice_length_le {A} (l : list A) (lo hi : Z) :
  0 <= lo -> lo <= hi ->
  Z.of_nat (length (py_slice l lo hi)) <= hi - lo.
Proof.
  intros Hlo Hhi. unfold py_slice, py_norm. rewrite length_take.
  destruct (Z.ltb_spec lo 0); [lia|]. destruct (Z.ltb_spec hi 0); [lia|].
  lia.
Qed.

Lemma header_logtype_range (data : bytes) (h : TracepointHeader) :
  unpack_tracepoint_header data = Ret h -> 0 <= logtype h < 256.
Proof.
  unfold unpack_tracepoint_header. intros H. bind_inv H.
  injection H as <-. simpl. unfold uint_at. apply le_uint_one_byte.
  pose proof (py_slice_length_le (py_slice data 0 24) 1 (1 + 1)
                ltac:(lia) ltac:(lia)). lia.
Qed.

(** Bit 7 of a byte is set exactly from 0x80 on. *)
Lemma signpost_bit (logtype : Z) :
  0 <= logtype < 256 ->
  negb (Z.land logtype 0x80 =? 0) = (0x80 <=? logtype) && (logtype <=? 0xFF).
Proof.
  intros H.
  assert (Hall :
    List.forallb
      (fun l => Bool.eqb (negb (Z.land l 0x80 =? 0))
                         ((0x80 <=? l) && (l <=? 0xFF)))
      (List.map Z.of_nat (List.seq 0 256)) = true)
    by (vm_compute; reflexivity).
  rewrite List.forallb_forall in Hall.
  apply Bool.eqb_prop, Hall, List.in_map_iff.
  exists (Z.to_nat logtype). split; [lia|]. apply List.in_seq. lia.
Qed.

Lemma derive_level_emitted (record_type logtype : Z) :
  0 <= logtype < 256 ->
  log_type (derive_level record_type logtype)
  = LevelSpec.emitted_level record_type logtype.
Proof.
  intros H. unfold derive_level, LevelSpec.emitted_level.
  rewrite (signpost_bit logtype H).
  destruct ((0x80 <=? logtype) && (logtype <=? 0xFF)); [reflexivity|].
  repeat match goal with
         | |- context [if ?b then _ else _] => destruct b
         end; reflexivity.
Qed.

Lemma derive_level_is_signpost (record_type logtype : Z) :
  is_signpost (derive_level record_type logtype)
  = negb (Z.land logtype 0x80 =? 0).
Proof.
  unfold derive_level.
  repeat match goal with
         | |- context [if ?b then _ else _] => destruct b
         end; reflexivity.
Qed.

Lemma derive_level_signpost_not_activity (record_type logtype : Z) :
  is_signpost (derive_level record_type logtype) = true ->
  is_activity (derive_level record_type logtype) = false.
Proof.
  unfold derive_level.
  repeat match goal with
         | |- context [if ?b then _ else _] => destruct b
         end; simpl; congruence.
Qed.

Lemma signpost_template (record_type logtype spid : Z) :
  is_signpost (derive_level record_type logtype) = true ->
  percent_x (signpost_string (derive_level record_type logtype)) spid
  = LevelSpec.signpost_info logtype spid.
Proof.
  unfold derive_level, LevelSpec.signpost_info, LevelSpec.signpost_scope,
    LevelSpec.signpost_type.
  destruct (negb (Z.land logtype 128 =? 0)).
  - intros _.
    destruct (Z.land logtype 192 =? 192), (Z.land logtype 130 =? 130),
      (Z.land logtype 129 =? 129); reflexivity.
  - repeat match goal with
           | |- context [if ?b then _ else _] => destruct b
           end; simpl; discriminate.
Qed.

(** *** Taking apart a run of the tracepoint decoder *)

Section TracepointRuns.

Variable LogDataItem : Type.
Variable ReadLogDataBuffer :
  bytes -> Z -> bytes -> bool -> result (list LogDataItem).
Variable ReadLogDataBuffer2 : bytes -> Z -> bytes -> result (list LogDataItem).
Variable RecreateMsgFromFmtStringAndData :
  string -> list LogDataItem -> Z -> result string.
Variable GetSubSystemAndCategory : ProcInfo -> Z -> result (string * string).
Variable find_other_uuidtext : string -> result (option Uuidtext).

Local Abbreviation decode :=
  (decode_fields LogDataItem ReadLogDataBuffer ReadLogDataBuffer2
     GetSubSystemAndCategory find_other_uuidtext).
Local Abbreviation build :=
  (build_entry LogDataItem ReadLogDataBuffer RecreateMsgFromFmtStringAndData).
Local Abbreviation body :=
  (tracepoint_body LogDataItem ReadLogDataBuffer ReadLogDataBuffer2
     RecreateMsgFromFmtStringAndData GetSubSystemAndCategory
     find_other_uuidtext).
Local Abbreviation parse :=
  (_ParseFirehoseTracepointData LogDataItem ReadLogDataBuffer
     ReadLogDataBuffer2 RecreateMsgFromFmtStringAndData
     GetSubSystemAndCategory find_other_uuidtext).

Lemma parse_unfold self data log_file_pos continuousTime catalog proc_info
    private_strings strings_v_offset h time :
  unpack_tracepoint_header data = Ret h ->
  time_from_continuoustime (boot_uuid_ts_list self)
    (tracepoint_ct continuousTime h) None = Ret time ->
  parse self data log_file_pos continuousTime catalog proc_info
    private_strings strings_v_offset
  = match
      body self h data log_file_pos (tracepoint_ct continuousTime h) time
        catalog proc_info private_strings strings_v_offset
    with
    | Ret log_entry => Ret (24 + log_data_len h, Some log_entry)
    | Raise e =>
        if caught_by [ImportError; NameError; UnboundLocalError] e
        then Raise e
        else Ret (24 + log_data_len h, None)
    end.
Proof.
  intros Hh Ht. unfold _ParseFirehoseTracepointData.
  rewrite Hh. simpl. rewrite Ht. reflexivity.
Qed.

Lemma parse_emits_inv self data log_file_pos continuousTime catalog proc_info
    private_strings strings_v_offset size entry :
  parse self data log_file_pos continuousTime catalog proc_info
    private_strings strings_v_offset = Ret (size, Some entry) ->
  exists h time fl,
    unpack_tracepoint_header data = Ret h
    /\ time_from_continuoustime (boot_uuid_ts_list self)
         (tracepoint_ct continuousTime h) None = Ret time
    /\ decode h data catalog proc_info private_strings strings_v_offset
       = Ret fl
    /\ build self h log_file_pos (tracepoint_ct continuousTime h) time
         proc_info fl = Ret entry
    /\ size = 24 + log_data_len h.
Proof.
  intros H.
  destruct (unpack_tracepoint_header data) as [h|e] eqn:Hh;
    [|unfold _ParseFirehoseTracepointData in H; rewrite Hh in H;
      discriminate].
  destruct (time_from_continuoustime (boot_uuid_ts_list self)
              (tracepoint_ct continuousTime h) None) as [time|e] eqn:Ht;
    [|unfold _ParseFirehoseTracepointData in H;
      rewrite Hh in H; simpl in H; rewrite Ht in H; discriminate].
  rewrite (parse_unfold _ _ _ _ _ _ _ _ h time Hh Ht) in H.
  destruct (body _ _ _ _ _ _ _ _ _ _) as [log_entry|e] eqn:Hb.
  - injection H as <- <-. unfold tracepoint_body in Hb. bind_inv Hb.
    exists h, time, a. repeat split; assumption.
  - destruct (caught_by _ e); discriminate.
Qed.

Lemma build_entry_inv self h log_file_pos ct time proc_info fl entry :
  build self h log_file_pos ct time proc_info fl = Ret entry ->
  le_log_type entry = log_type (f_level fl)
  /\ le_signpost_string entry
     = (if is_signpost (f_level fl)
        then final_signpost_string (f_trailer fl) else "").
Proof.
  unfold build_entry. intros H. bind_inv H. destruct a as [log_data fs].
  bind_inv H. bind_inv H. bind_inv H. injection H as <-. now split.
Qed.

Lemma read_trailer_signpost lv h data proc_info c c' t :
  read_trailer GetSubSystemAndCategory lv h data proc_info c = Ret (c', t) ->
  is_signpost lv = true -> is_activity lv = false ->
  exists pos spid,
    unpack_uint data pos 8 = Ret spid
    /\ final_signpost_string t = percent_x (signpost_string lv) spid.
Proof.
  unfold read_trailer. intros H Hsp Hact. rewrite Hact, Hsp in H. simpl in H.
  bind_inv H. destruct a as [c1 subsystem].
  bind_inv H. destruct a as [c2 ttl1].
  bind_inv H. destruct a as [c3 ref].
  bind_inv H. destruct a as [c4 sp].
  bind_inv H. destruct a as [c5 name].
  injection H as <- <-. simpl.
  bind_inv Hm2. injection Hm2 as <- <-. eauto.
Qed.

(** The oversize data reference is read exactly when the flag is set on a
    tracepoint that is not an activity. *)
Lemma read_trailer_oversize lv h data proc_info c c' t :
  read_trailer GetSubSystemAndCategory lv h data proc_info c = Ret (c', t) ->
  has_flag (flags h) _TRACEPOINT_FLAG_HAS_OVERSIZE_DATA_REFERENCE = true ->
  is_activity lv = false ->
  exists pos id,
    unpack_uint data pos 2 = Ret id /\ data_ref_id t = Some id.
Proof.
  unfold read_trailer. intros H Hflag Hact. rewrite Hact, Hflag in H.
  simpl in H.
  bind_inv H. destruct a as [c1 subsystem].
  bind_inv H. destruct a as [c2 ttl1].
  bind_inv H. destruct a as [c3 ref].
  bind_inv H. destruct a as [c4 sp].
  bind_inv H. destruct a as [c5 name].
  injection H as <- <-. simpl.
  bind_inv Hm1. injection Hm1 as <- <-. eauto.
Qed.

Lemma decode_fields_inv h data catalog proc_info private_strings
    strings_v_offset fl :
  decode h data catalog proc_info private_strings strings_v_offset = Ret fl ->
  f_level fl = derive_level (record_type h) (logtype h)
  /\ exists c c',
       read_trailer GetSubSystemAndCategory (f_level fl) h data proc_info c
       = Ret (c', f_trailer fl).
Proof.
  unfold decode_fields. intros H.
  bind_inv H. bind_inv H. bind_inv H.
  bind_inv H. destruct a2 as [[[c1 act_id] pv] pl].
  bind_inv H.
  bind_inv H. destruct a3 as [c2 fmt_offset].
  bind_inv H. destruct a3 as [c3 r].
  bind_inv H. destruct a3 as [c4 t].
  bind_inv H. bind_inv H.
  injection H as <-. simpl. split; [reflexivity|]. eauto.
Qed.

End TracepointRuns.

Lemma py_index_from_end {A} (l : list A) (i : Z) :
  - Z.of_nat (length l) <= i < 0 -> exists x, py_index l i = Ret x.
Proof.
  intros Hi. unfold py_index.
  destruct (Z.ltb_spec i 0) as [_|?]; [|lia].
  destruct (Z.leb_spec 0 (i + Z.of_nat (length l))) as [_|?]; [|lia].
  destruct (Z.ltb_spec (i + Z.of_nat (length l)) (Z.of_nat (length l)))
    as [_|?]; [|lia].
  simpl.
  destruct (lookup_lt_is_Some_2 l (Z.to_nat (i + Z.of_nat (length l))))
    as [x Hx]; [lia|].
  rewrite Hx. eauto.
Qed.

Section TracepointFacts.

Variable LogDataItem : Type.
Variable ReadLogDataBuffer :
  bytes -> Z -> bytes -> bool -> result (list LogDataItem).
Variable ReadLogDataBuffer2 : bytes -> Z -> bytes -> result (list LogDataItem).
Variable RecreateMsgFromFmtStringAndData :
  string -> list LogDataItem -> Z -> result string.
Variable GetSubSystemAndCategory : ProcInfo -> Z -> result (string * string).
Variable find_other_uuidtext : string -> result (option Uuidtext).

Local Abbreviation decode :=
  (decode_fields LogDataItem ReadLogDataBuffer ReadLogDataBuffer2
     GetSubSystemAndCategory find_other_uuidtext).
Local Abbreviation build :=
  (build_entry LogDataItem ReadLogDataBuffer RecreateMsgFromFmtStringAndData).

(** [act_id] starts as [[0]] and is only appended to. *)
Lemma read_identifiers_act_id lv h data private_strings c act_id pv pl :
  read_identifiers lv h data private_strings = Ret (c, act_id, pv, pl) ->
  (0 < length act_id)%nat.
Proof.
  unfold read_identifiers. intros H.
  destruct (is_activity lv).
  - bind_inv H. destruct a as [c1 a1].
    bind_inv H.
    bind_inv H. destruct a0 as [c2 a2].
    bind_inv H. destruct a0 as [c3 a3].
    injection H as <- <- <- <-.
    assert (H1 : (0 < length a1)%nat).
    { destruct (has_flag (flags h) _TRACEPOINT_FLAG_HAS_ACTIVITY_ID).
      - bind_inv Hm. injection Hm as <- <-. rewrite ?length_app; simpl; lia.
      - injection Hm as <- <-. simpl. lia. }
    assert (H2 : (0 < length a2)%nat).
    { destruct (has_flag (flags h) _TRACEPOINT_FLAG_HAS_OTHER_AID).
      - bind_inv Hm1. injection Hm1 as <- <-. rewrite ?length_app; simpl; lia.
      - injection Hm1 as <- <-. exact H1. }
    destruct (negb _).
    + bind_inv Hm2. destruct (_ =? _).
      * injection Hm2 as <- <-. rewrite ?length_app; simpl; lia.
      * injection Hm2 as <- <-. exact H2.
    + injection Hm2 as <- <-. exact H2.
  - bind_inv H. destruct a as [c1 a1].
    assert (H1 : (0 < length a1)%nat).
    { destruct (has_flag (flags h) _TRACEPOINT_FLAG_HAS_ACTIVITY_ID).
      - bind_inv Hm. destruct (_ =? _).
        + injection Hm as <- <-. rewrite ?length_app; simpl; lia.
        + injection Hm as <- <-. simpl. lia.
      - injection Hm as <- <-. simpl. lia. }
    destruct (has_flag (flags h) _TRACEPOINT_FLAG_HAS_PRIVATE_STRINGS_RANGE).
    + destruct private_strings.
      * injection H as <- <- <- <-. exact H1.
      * bind_inv H. injection H as <- <- <- <-. exact H1.
    + injection H as <- <- <- <-. exact H1.
Qed.

Lemma decode_fields_act_id h data catalog proc_info private_strings
    strings_v_offset fl :
  decode h data catalog proc_info private_strings strings_v_offset = Ret fl ->
  (0 < length (f_act_id fl))%nat.
Proof.
  unfold decode_fields. intros H.
  bind_inv H. bind_inv H. bind_inv H.
  bind_inv H. destruct a2 as [[[c1 act_id] pv] pl].
  bind_inv H.
  bind_inv H. destruct a3 as [c2 fmt_offset].
  bind_inv H. destruct a3 as [c3 r].
  bind_inv H. destruct a3 as [c4 t].
  bind_inv H. bind_inv H.
  injection H as <-. simpl. eapply read_identifiers_act_id; eauto.
Qed.

(** Once the oversize join and the message are through, the entry is
    built: the two look-ups in [act_id] cannot fail. *)
Lemma build_entry_emits self h log_file_pos ct time proc_info
    (fl : Fields LogDataItem) log_data fs msg :
  (0 < length (f_act_id fl))%nat ->
  join_oversize LogDataItem ReadLogDataBuffer self h ct
    (data_ref_id (f_trailer fl)) (f_log_data fl) (format_str (f_resolved fl))
  = Ret (log_data, fs) ->
  match log_data with
  | Some (item :: rest) =>
      RecreateMsgFromFmtStringAndData fs (item :: rest) log_file_pos
  | _ => Ret fs
  end = Ret msg ->
  exists entry,
    build self h log_file_pos ct time proc_info fl = Ret entry
    /\ le_log_msg entry = msg.
Proof.
  intros Hlen Hjoin Hmsg. unfold build_entry. rewrite Hjoin. simpl.
  rewrite Hmsg. simpl.
  destruct (py_index_from_end (f_act_id fl) (-1)) as [last Hlast]; [lia|].
  destruct (Z.gtb_spec (Z.of_nat (length (f_act_id fl))) 2) as [Hgt|Hle].
  - destruct (py_index_from_end (f_act_id fl) (-2)) as [prev Hprev]; [lia|].
    rewrite Hprev. simpl. rewrite Hlast. simpl. eauto.
  - simpl. rewrite Hlast. simpl. eauto.
Qed.

End TracepointFacts.

(** *** The chunk decoders only append to [logs] *)

Section AppendOnly.

Variable LogDataItem : Type.
Variable ReadLogDataBuffer :
  bytes -> Z -> bytes -> bool -> result (list LogDataItem).
Variable ReadLogDataBuffer2 : bytes -> Z -> bytes -> result (list LogDataItem).
Variable RecreateMsgFromFmtStringAndData :
  string -> list LogDataItem -> Z -> result string.
Variable GetSubSystemAndCategory : ProcInfo -> Z -> result (string * string).
Variable find_other_uuidtext : string -> result (option Uuidtext).
Variable _ReadAPFSTime : PyFloat.float -> result string.
Variable _ParseStateChunkData :
  TraceV3 -> bytes -> Catalog -> ProcInfo -> Z -> result (list LogEntry).
Variable _ParseSimpleDumpData :
  TraceV3 -> bytes -> Catalog -> ProcInfo -> Z -> result (list LogEntry).
Variable _ParseMetaChunk : TraceV3 -> bytes -> result Catalog.
Variable lz4_block_decompress : bytes -> Z -> bytes -> result bytes.

Local Abbreviation step :=
  (firehose_step LogDataItem ReadLogDataBuffer ReadLogDataBuffer2
     RecreateMsgFromFmtStringAndData GetSubSystemAndCategory
     find_other_uuidtext).
Local Abbreviation firehose_chunk :=
  (_ParseFirehoseChunkData LogDataItem ReadLogDataBuffer ReadLogDataBuffer2
     RecreateMsgFromFmtStringAndData GetSubSystemAndCategory
     find_other_uuidtext _ReadAPFSTime).
Local Abbreviation chunk_step :=
  (data_chunk_step LogDataItem ReadLogDataBuffer ReadLogDataBuffer2
     RecreateMsgFromFmtStringAndData GetSubSystemAndCategory
     find_other_uuidtext _ReadAPFSTime _ParseStateChunkData
     _ParseSimpleDumpData).
Local Abbreviation process_data_chunk :=
  (ProcessDataChunk LogDataItem ReadLogDataBuffer ReadLogDataBuffer2
     RecreateMsgFromFmtStringAndData GetSubSystemAndCategory
     find_other_uuidtext _ReadAPFSTime _ParseStateChunkData
     _ParseSimpleDumpData).

Lemma firehose_step_appends self chunk_data debug_file_pos continuousTime
    catalog proc_info private_strings strings_v_offset pos2 logs pos2' logs' :
  step self chunk_data debug_file_pos continuousTime catalog proc_info
    private_strings strings_v_offset (pos2, logs) = Ret (pos2', logs') ->
  exists new,
    logs' = logs ++ new
    /\ forall l,
         step self chunk_data debug_file_pos continuousTime catalog proc_info
           private_strings strings_v_offset (pos2, l) = Ret (pos2', l ++ new).
Proof.
  unfold firehose_step. intros H. bind_inv H.
  destruct a as [size [entry|]]; injection H as <- <-.
  - exists [entry]. split; [reflexivity|]. intros l. rewrite Hm. reflexivity.
  - exists []. split; [now rewrite app_nil_r|]. intros l. rewrite Hm.
    simpl. now rewrite app_nil_r.
Qed.

Lemma firehose_chunk_appends self chunk_data debug_file_pos catalog proc_info
    logs logs' :
  firehose_chunk self chunk_data debug_file_pos catalog proc_info logs
  = Ret logs' ->
  exists new,
    logs' = logs ++ new
    /\ forall l,
         firehose_chunk self chunk_data debug_file_pos catalog proc_info l
         = Ret (l ++ new).
Proof.
  unfold _ParseFirehoseChunkData. intros H.
  bind_inv H. bind_inv H. bind_inv H. destruct a1 as [pos2 out].
  injection H as <-.
  assert (Hsim : forall l, exists t',
    while_loop
      (Z.to_nat (uint_at (py_slice chunk_data 16 32) 0 2 + 16))
      (fun s => fst s <? uint_at (py_slice chunk_data 16 32) 0 2 + 16)
      (step self chunk_data debug_file_pos
         (uint_at (py_slice chunk_data 16 32) 8 8) catalog proc_info
         (if uint_at (py_slice chunk_data 16 32) 2 2 <? 4096
          then py_slice_from chunk_data
                 (- (4096 - uint_at (py_slice chunk_data 16 32) 2 2))
          else [])
         (uint_at (py_slice chunk_data 16 32) 2 2))
      (32, l) = Ret t'
    /\ fst t' = pos2
    /\ exists new, out = logs ++ new /\ snd t' = l ++ new).
  { intros l.
    eapply (while_loop_sim
              (fun s t => fst t = fst s
                          /\ exists new, snd s = logs ++ new
                                         /\ snd t = l ++ new)) in Hm1.
    - destruct Hm1 as (t' & Ht' & Hfst & Hnew). exists t'. eauto.
    - intros s t [Hfst _]. now rewrite Hfst.
    - intros [p1 l1] [p2 l2] [p1' l1'] [Hfst (new & Hs & Ht)] _ Hstep.
      simpl in *. subst.
      destruct (firehose_step_appends _ _ _ _ _ _ _ _ _ _ _ _ Hstep)
        as (new' & -> & Hl).
      exists (p1', (l ++ new) ++ new'). split; [apply Hl|].
      simpl. split; [reflexivity|].
      exists (new ++ new'). now rewrite !app_assoc.
    - simpl. split; [reflexivity|]. exists []. now rewrite !app_nil_r. }
  destruct (Hsim logs) as (t0 & _ & _ & new & -> & _).
  exists new. split; [reflexivity|]. intros l.
  destruct (Hsim l) as (t' & Ht' & _ & new' & Heq & Hsnd).
  apply app_inv_head in Heq. subst new'.
  rewrite Hm. simpl. rewrite Hm0. simpl. rewrite Ht'. simpl.
  destruct t' as [p out']. simpl in Hsnd. now rewrite Hsnd.
Qed.

Lemma dispatch_sub_chunk_appends self catalog proc_info logs tag sub_chunk
    log_file_pos self' logs' :
  dispatch_sub_chunk LogDataItem ReadLogDataBuffer ReadLogDataBuffer2
    RecreateMsgFromFmtStringAndData GetSubSystemAndCategory
    find_other_uuidtext _ReadAPFSTime _ParseStateChunkData
    _ParseSimpleDumpData self catalog proc_info logs tag sub_chunk
    log_file_pos = Ret (self', logs') ->
  exists new,
    logs' = logs ++ new
    /\ forall l,
         dispatch_sub_chunk LogDataItem ReadLogDataBuffer ReadLogDataBuffer2
           RecreateMsgFromFmtStringAndData GetSubSystemAndCategory
           find_other_uuidtext _ReadAPFSTime _ParseStateChunkData
           _ParseSimpleDumpData self catalog proc_info l tag sub_chunk
           log_file_pos = Ret (self', l ++ new).
Proof.
  unfold dispatch_sub_chunk. intros H.
  destruct (tag =? _CHUNK_TAG_FIREHOSE).
  - bind_inv H. injection H as <- <-.
    destruct (firehose_chunk_appends _ _ _ _ _ _ _ Hm) as (new & -> & Hl).
    exists new. split; [reflexivity|]. intros l. now rewrite Hl.
  - destruct (tag =? _CHUNK_TAG_OVERSIZE).
    + bind_inv H. injection H as <- <-. exists [].
      split; [now rewrite app_nil_r|]. intros l. rewrite Hm. simpl.
      now rewrite app_nil_r.
    + destruct (tag =? _CHUNK_TAG_STATEDUMP).
      * bind_inv H. injection H as <- <-. exists a.
        split; [reflexivity|]. intros l. now rewrite Hm.
      * destruct (tag =? _CHUNK_TAG_SIMPLEDUMP).
        -- bind_inv H. injection H as <- <-. exists a.
           split; [reflexivity|]. intros l. now rewrite Hm.
        -- injection H as <- <-. exists [].
           split; [now rewrite app_nil_r|]. intros l.
           now rewrite app_nil_r.
Qed.

Lemma data_chunk_step_appends chunk_data chunk_data_size catalog chunk_meta
    debug_file_pos s s' :
  chunk_step chunk_data chunk_data_size catalog chunk_meta debug_file_pos s
  = Ret s' ->
  exists new,
    dc_logs s' = dc_logs s ++ new
    /\ forall l,
         chunk_step chunk_data chunk_data_size catalog chunk_meta
           debug_file_pos (mkDataChunkState (dc_pos s) (dc_self s) l)
         = Ret (mkDataChunkState (dc_pos s') (dc_self s') (l ++ new)).
Proof.
  unfold data_chunk_step. cbn [dc_pos dc_self dc_logs]. intros H.
  bind_inv H. destruct a as [[tag subtag] data_size].
  bind_inv H.
  destruct (GetProcInfo _ _ chunk_meta) as [proc_info|]; [|discriminate].
  bind_inv H. destruct a0 as [self1 logs1]. injection H as <-.
  cbn [dc_pos dc_self dc_logs].
  destruct (dispatch_sub_chunk_appends _ _ _ _ _ _ _ _ _ Hm1)
    as (new & -> & Hl).
  exists new. split; [reflexivity|]. intros l.
  rewrite Hm. cbn [Py.bind]. rewrite Hm0. cbn [Py.bind].
  rewrite Hl. reflexivity.
Qed.

Lemma process_data_chunk_appends self chunk_data chunk_data_size catalog
    meta_chunk_index debug_file_pos logs self' logs' :
  process_data_chunk self chunk_data chunk_data_size catalog meta_chunk_index
    debug_file_pos logs = Ret (self', logs') ->
  exists new,
    logs' = logs ++ new
    /\ forall l,
         process_data_chunk self chunk_data chunk_data_size catalog
           meta_chunk_index debug_file_pos l = Ret (self', l ++ new).
Proof.
  unfold ProcessDataChunk. intros H.
  destruct catalog as [catalog|]; [|discriminate].
  bind_inv H. bind_inv H. injection H as <- <-.
  assert (Hsim : forall l, exists t',
    while_loop (Z.to_nat chunk_data_size)
      (fun s => dc_pos s + 16 <? chunk_data_size)
      (chunk_step chunk_data chunk_data_size catalog a debug_file_pos)
      (mkDataChunkState 0 self l) = Ret t'
    /\ dc_self t' = dc_self a0
    /\ exists new, dc_logs a0 = logs ++ new /\ dc_logs t' = l ++ new).
  { intros l.
    eapply (while_loop_sim
              (fun s t => dc_pos t = dc_pos s /\ dc_self t = dc_self s
                          /\ exists new, dc_logs s = logs ++ new
                                         /\ dc_logs t = l ++ new)) in Hm0.
    - destruct Hm0 as (t' & Ht' & _ & Hself & Hnew). exists t'. eauto.
    - intros s t (Hpos & _). now rewrite Hpos.
    - intros s t s1 (Hpos & Hself & new & Hs & Ht) _ Hstep.
      destruct (data_chunk_step_appends _ _ _ _ _ _ _ Hstep)
        as (new' & Hlogs & Hl).
      exists (mkDataChunkState (dc_pos s1) (dc_self s1)
                (dc_logs t ++ new')).
      split.
      + destruct t as [tp ts tl]. simpl in *. subst tp ts. apply Hl.
      + simpl. repeat split. exists (new ++ new').
        rewrite Hlogs, Hs, Ht. now rewrite !app_assoc.
    - simpl. repeat split. exists []. now rewrite !app_nil_r. }
  destruct (Hsim logs) as (t0 & _ & _ & new & Hnew & _).
  exists new. split; [exact Hnew|]. intros l.
  destruct (Hsim l) as (t' & Ht' & Hself & new' & Heq & Hlogs).
  rewrite Hnew in Heq. apply app_inv_head in Heq. subst new'.
  rewrite Hm. cbn [Py.bind]. rewrite Ht'. cbn [Py.bind].
  now rewrite Hself, Hlogs.
Qed.

End AppendOnly.

(** *** The fuel of every loop is enough *)

Lemma le_uint_nonneg (bs : bytes) : 0 <= le_uint bs.
Proof.
  induction bs as [|b rest IH]; simpl; [lia|].
  pose proof (byte_val_range b). lia.
Qed.

Lemma uint_at_nonneg (data : bytes) (off n : Z) : 0 <= uint_at data off n.
Proof. apply le_uint_nonneg. Qed.

Lemma unpack_uint_nonneg (data : bytes) (pos n v : Z) :
  unpack_uint data pos n = Ret v -> 0 <= v.
Proof.
  unfold unpack_uint. intros H. bind_inv H. injection H as <-.
  apply le_uint_nonneg.
Qed.

Lemma chunk_header_size_nonneg (data : bytes) (tag subtag size : Z) :
  _ParseChunkHeaderData data = Ret (tag, subtag, size) -> 0 <= size.
Proof.
  unfold _ParseChunkHeaderData. intros H. bind_inv H.
  injection H as <- <- <-. apply uint_at_nonneg.
Qed.

Lemma pad_after_ge (chunk_data : bytes) (size pos skew : Z) (b : bool) :
  pos <= pad_after chunk_data size pos skew b.
Proof.
  unfold pad_after.
  pose proof (Z.mod_pos_bound (pos - skew) 8 ltac:(lia)).
  repeat match goal with
         | |- context [if ?c then _ else _] => destruct c
         end; lia.
Qed.

Lemma next_pos_ge (pos size : Z) : 0 <= size -> pos + 16 <= next_pos pos size.
Proof.
  intros H. unfold next_pos.
  pose proof (Z.mod_pos_bound size 8 ltac:(lia)).
  destruct (negb _); lia.
Qed.

Section Fuel.

Variable LogDataItem : Type.
Variable ReadLogDataBuffer :
  bytes -> Z -> bytes -> bool -> result (list LogDataItem).
Variable ReadLogDataBuffer2 : bytes -> Z -> bytes -> result (list LogDataItem).
Variable RecreateMsgFromFmtStringAndData :
  string -> list LogDataItem -> Z -> result string.
Variable GetSubSystemAndCategory : ProcInfo -> Z -> result (string * string).
Variable find_other_uuidtext : string -> result (option Uuidtext).
Variable _ReadAPFSTime : PyFloat.float -> result string.
Variable _ParseStateChunkData :
  TraceV3 -> bytes -> Catalog -> ProcInfo -> Z -> result (list LogEntry).
Variable _ParseSimpleDumpData :
  TraceV3 -> bytes -> Catalog -> ProcInfo -> Z -> result (list LogEntry).
Variable _ParseMetaChunk : TraceV3 -> bytes -> result Catalog.
Variable lz4_block_decompress : bytes -> Z -> bytes -> result bytes.

Local Abbreviation parse :=
  (_ParseFirehoseTracepointData LogDataItem ReadLogDataBuffer
     ReadLogDataBuffer2 RecreateMsgFromFmtStringAndData
     GetSubSystemAndCategory find_other_uuidtext).
Local Abbreviation step :=
  (firehose_step LogDataItem ReadLogDataBuffer ReadLogDataBuffer2
     RecreateMsgFromFmtStringAndData GetSubSystemAndCategory
     find_other_uuidtext).
Local Abbreviation chunk_step :=
  (data_chunk_step LogDataItem ReadLogDataBuffer ReadLogDataBuffer2
     RecreateMsgFromFmtStringAndData GetSubSystemAndCategory
     find_other_uuidtext _ReadAPFSTime _ParseStateChunkData
     _ParseSimpleDumpData).
Local Abbreviation loop_step :=
  (file_loop_step LogDataItem ReadLogDataBuffer ReadLogDataBuffer2
     RecreateMsgFromFmtStringAndData GetSubSystemAndCategory
     find_other_uuidtext _ReadAPFSTime _ParseStateChunkData
     _ParseSimpleDumpData _ParseMetaChunk lz4_block_decompress).

(** A tracepoint is at least its 24-byte header long. *)
Lemma tracepoint_size_ge self data log_file_pos continuousTime catalog
    proc_info private_strings strings_v_offset size entry :
  parse self data log_file_pos continuousTime catalog proc_info
    private_strings strings_v_offset = Ret (size, entry) ->
  24 <= size.
Proof.
  unfold _ParseFirehoseTracepointData. intros H.
  bind_inv H. bind_inv H.
  assert (Hlen : 0 <= log_data_len a).
  { unfold unpack_tracepoint_header in Hm. bind_inv Hm.
    injection Hm as <-. apply uint_at_nonneg. }
  destruct (tracepoint_body _ _ _ _ _ _ _ _ _ _ _ _ _ _ _ _).
  - injection H as <- _. lia.
  - destruct (caught_by _ e); [discriminate|]. injection H as <- _. lia.
Qed.

Lemma firehose_step_advances self chunk_data debug_file_pos continuousTime
    catalog proc_info private_strings strings_v_offset s s' :
  step self chunk_data debug_file_pos continuousTime catalog proc_info
    private_strings strings_v_offset s = Ret s' ->
  fst s + 24 <= fst s'.
Proof.
  unfold firehose_step. destruct s as [pos2 logs]. intros H.
  bind_inv H. destruct a as [size entry].
  apply tracepoint_size_ge in Hm. injection H as <-. simpl.
  pose proof (Z.mod_pos_bound (pos2 + size - pos2 mod 8) 8 ltac:(lia)).
  destruct (negb _); lia.
Qed.

Lemma firehose_loop_fuel self chunk_data debug_file_pos continuousTime
    catalog proc_info private_strings strings_v_offset logs_end_offset logs
    fuel :
  (Z.to_nat logs_end_offset <= fuel)%nat ->
  while_loop fuel (fun s => fst s <? logs_end_offset)
    (step self chunk_data debug_file_pos continuousTime catalog proc_info
       private_strings strings_v_offset) (32, logs)
  = while_loop (Z.to_nat logs_end_offset) (fun s => fst s <? logs_end_offset)
      (step self chunk_data debug_file_pos continuousTime catalog proc_info
         private_strings strings_v_offset) (32, logs).
Proof.
  intros Hfuel.
  apply (while_loop_fuel _ _
           (fun s => Z.to_nat (logs_end_offset - fst s))).
  - intros s Hc. apply Z.ltb_lt in Hc. lia.
  - intros s s' Hc Hstep. apply Z.ltb_lt in Hc.
    apply firehose_step_advances in Hstep. lia.
  - simpl. lia.
  - simpl. lia.
Qed.

Lemma header_item_step_advances data s s' :
  header_item_step data s = Ret s' -> fst s + 8 <= fst s'.
Proof.
  unfold header_item_step. destruct s as [pos uuid]. intros H.
  bind_inv H. bind_inv H. injection H as <-. simpl.
  pose proof (uint_at_nonneg (py_slice data pos (pos + 8)) 4 4). lia.
Qed.

Lemma header_loop_fuel data fuel :
  (length data <= fuel)%nat ->
  while_loop fuel (fun s => fst s <? Z.of_nat (length data))
    (header_item_step data) (40, None)
  = while_loop (Z.to_nat (Z.of_nat (length data)))
      (fun s => fst s <? Z.of_nat (length data))
      (header_item_step data) (40, None).
Proof.
  intros Hfuel.
  apply (while_loop_fuel _ _
           (fun s => Z.to_nat (Z.of_nat (length data) - fst s))).
  - intros s Hc. apply Z.ltb_lt in Hc. lia.
  - intros s s' Hc Hstep. apply Z.ltb_lt in Hc.
    apply header_item_step_advances in Hstep. lia.
  - simpl. lia.
  - simpl. lia.
Qed.

Lemma lz4_step_advances chunk_data s s' :
  lz4_step lz4_block_decompress chunk_data s = Ret s' ->
  stopped s' = true \/ comp_start s + 8 <= comp_start s'.
Proof.
  unfold lz4_step. intros H.
  destruct (bytes_eqb (comp_header s) bv41).
  - bind_inv H. bind_inv H. injection H as <-. right. simpl.
    pose proof (uint_at_nonneg
                  (py_slice chunk_data (comp_start s + 4) (comp_start s + 12))
                  4 4). lia.
  - destruct (bytes_eqb (comp_header s) bv4_dash).
    + bind_inv H. injection H as <-. right. simpl.
      apply unpack_uint_nonneg in Hm. lia.
    + injection H as <-. now left.
Qed.

Lemma lz4_loop_fuel chunk_data data_len first fuel :
  (Z.to_nat data_len <= fuel)%nat ->
  while_loop fuel
    (fun s => negb (stopped s) && (data_len >? comp_start s)
              && negb (bytes_eqb (comp_header s) bv4_end))
    (lz4_step lz4_block_decompress chunk_data)
    (mkLz4State [] [] 0 first false)
  = while_loop (Z.to_nat data_len)
      (fun s => negb (stopped s) && (data_len >? comp_start s)
                && negb (bytes_eqb (comp_header s) bv4_end))
      (lz4_step lz4_block_decompress chunk_data)
      (mkLz4State [] [] 0 first false).
Proof.
  intros Hfuel.
  apply (while_loop_fuel _ _
           (fun s => if stopped s then O
                     else Z.to_nat (data_len - comp_start s))).
  - intros s Hc. apply andb_prop in Hc. destruct Hc as [Hc _].
    apply andb_prop in Hc. destruct Hc as [Hs Hlt].
    destruct (stopped s); [discriminate|]. apply Z.gtb_lt in Hlt. lia.
  - intros s s' Hc Hstep. apply andb_prop in Hc. destruct Hc as [Hc _].
    apply andb_prop in Hc. destruct Hc as [Hs Hlt].
    destruct (stopped s); [discriminate|]. apply Z.gtb_lt in Hlt.
    destruct (lz4_step_advances _ _ _ Hstep) as [Hstop|Hadv].
    + rewrite Hstop. lia.
    + destruct (stopped s'); lia.
  - simpl. lia.
  - simpl. lia.
Qed.

Lemma data_chunk_step_advances chunk_data chunk_data_size catalog chunk_meta
    debug_file_pos s s' :
  chunk_step chunk_data chunk_data_size catalog chunk_meta debug_file_pos s
  = Ret s' ->
  dc_pos s + 16 <= dc_pos s'.
Proof.
  unfold data_chunk_step. intros H.
  bind_inv H. destruct a as [[tag subtag] data_size].
  apply chunk_header_size_nonneg in Hm.
  bind_inv H.
  destruct (GetProcInfo _ _ chunk_meta) as [proc_info|]; [|discriminate].
  bind_inv H. destruct a0 as [self1 logs1]. injection H as <-. simpl.
  pose proof (pad_after_ge chunk_data chunk_data_size
                (dc_pos s + 16 + data_size) ((dc_pos s + 16) mod 8)
                (tag =? _CHUNK_TAG_FIREHOSE)).
  lia.
Qed.

Lemma data_chunk_loop_fuel chunk_data chunk_data_size catalog chunk_meta
    debug_file_pos self logs fuel :
  (Z.to_nat chunk_data_size <= fuel)%nat ->
  while_loop fuel (fun s => dc_pos s + 16 <? chunk_data_size)
    (chunk_step chunk_data chunk_data_size catalog chunk_meta debug_file_pos)
    (mkDataChunkState 0 self logs)
  = while_loop (Z.to_nat chunk_data_size)
      (fun s => dc_pos s + 16 <? chunk_data_size)
      (chunk_step chunk_data chunk_data_size catalog chunk_meta
         debug_file_pos)
      (mkDataChunkState 0 self logs).
Proof.
  intros Hfuel.
  apply (while_loop_fuel _ _
           (fun s => Z.to_nat (chunk_data_size - dc_pos s))).
  - intros s Hc. apply Z.ltb_lt in Hc. lia.
  - intros s s' Hc Hstep. apply Z.ltb_lt in Hc.
    apply data_chunk_step_advances in Hstep. lia.
  - simpl. lia.
  - simpl. lia.
Qed.

Lemma file_loop_step_advances file func s s' :
  loop_step file func s = Ret s' -> fl_pos s + 16 <= fl_pos s'.
Proof.
  unfold file_loop_step. read_fixed.
  destruct (file_read (file_seek (mkFileObj file 0) (fl_pos s)) 16)
    as [chunk_header_data f1].
  intros H. bind_inv H. destruct a as [[tag subtag] chunk_data_size].
  apply chunk_header_size_nonneg in Hm.
  read_inv H. destruct rd as [chunk_data f2].
  bind_inv H. destruct a as [[[[self1 catalog1] index1] logs1] advance_by].
  bind_inv H. destruct a as [logs2 delivered2]. injection H as <-. simpl.
  now apply next_pos_ge.
Qed.

Lemma file_loop_fuel file func file_size s fuel :
  0 <= fl_pos s ->
  (Z.to_nat file_size <= fuel)%nat ->
  while_loop fuel (fun s => fl_pos s <? file_size) (loop_step file func) s
  = while_loop (Z.to_nat file_size) (fun s => fl_pos s <? file_size)
      (loop_step file func) s.
Proof.
  intros Hpos Hfuel.
  apply (while_loop_fuel _ _ (fun s => Z.to_nat (file_size - fl_pos s))).
  - intros s0 Hc. apply Z.ltb_lt in Hc. lia.
  - intros s0 s' Hc Hstep. apply Z.ltb_lt in Hc.
    apply file_loop_step_advances in Hstep. lia.
  - lia.
  - lia.
Qed.

End Fuel.

End Tracev3Proofs.

(** ** Properties of the tracepoint decoder *)

Import Tracev3.

Section TracepointClaims.

Local Open Scope string_scope.
Local Open Scope list_scope.
Local Open Scope Z_scope.

Variable LogDataItem : Type.
Variable ReadLogDataBuffer :
  bytes -> Z -> bytes -> bool -> result (list LogDataItem).
Variable ReadLogDataBuffer2 : bytes -> Z -> bytes -> result (list LogDataItem).
Variable RecreateMsgFromFmtStringAndData :
  string -> list LogDataItem -> Z -> result string.
Variable GetSubSystemAndCategory : ProcInfo -> Z -> result (string * string).
Variable find_other_uuidtext : string -> result (option Uuidtext).
Variable _ReadAPFSTime : PyFloat.float -> result string.

Local Abbreviation decode :=
  (decode_fields LogDataItem ReadLogDataBuffer ReadLogDataBuffer2
     GetSubSystemAndCategory find_other_uuidtext).
Local Abbreviation body :=
  (tracepoint_body LogDataItem ReadLogDataBuffer ReadLogDataBuffer2
     RecreateMsgFromFmtStringAndData GetSubSystemAndCategory
     find_other_uuidtext).
Local Abbreviation parse :=
  (_ParseFirehoseTracepointData LogDataItem ReadLogDataBuffer
     ReadLogDataBuffer2 RecreateMsgFromFmtStringAndData
     GetSubSystemAndCategory find_other_uuidtext).
Local Abbreviation step :=
  (firehose_step LogDataItem ReadLogDataBuffer ReadLogDataBuffer2
     RecreateMsgFromFmtStringAndData GetSubSystemAndCategory
     find_other_uuidtext).

(** C2 (as amended).  The level of every emitted firehose record follows
    from [logtype] as documented, except that a signpost ([logtype] in
    0x80..0xFF) keeps the level "Default": [logtype] 0x01 gives Activity
    when [(record_type & 0x0F) == 0x02] and Info otherwise, 0x02 Debug, 0x10
    Error, 0x11 Fault, anything else Default.  A signpost carries the info
    string "spid 0x<id>, <scope>, <type>" (system scope when
    [(logtype & 0xC0) == 0xC0], else process; end when
    [(logtype & 0x82) == 0x82], begin when [(logtype & 0x81) == 0x81], else
    event), every other record the empty info string. *)
Theorem tracepoint_level self tracepoint_data log_file_pos continuousTime
    catalog proc_info private_strings strings_v_offset size entry :
  parse self tracepoint_data log_file_pos continuousTime catalog proc_info
    private_strings strings_v_offset = Ret (size, Some entry) ->
  exists h,
    unpack_tracepoint_header tracepoint_data = Ret h
    /\ le_log_type entry
       = LevelSpec.emitted_level (record_type h) (logtype h)
    /\ if (0x80 <=? logtype h) && (logtype h <=? 0xFF)
       then exists pos spid,
              unpack_uint tracepoint_data pos 8 = Ret spid
              /\ le_signpost_string entry
                 = LevelSpec.signpost_info (logtype h) spid
       else le_signpost_string entry = "".
Proof.
  intros H.
  destruct (Tracev3Proofs.parse_emits_inv _ _ _ _ _ _ _ _ _ _ _ _ _ _ _ _ H)
    as (h & time & fl & Hh & Ht & Hd & Hb & ->).
  exists h. split; [exact Hh|].
  destruct (Tracev3Proofs.build_entry_inv _ _ _ _ _ _ _ _ _ _ _ Hb)
    as [Hlt Hss].
  destruct (Tracev3Proofs.decode_fields_inv _ _ _ _ _ _ _ _ _ _ _ _ Hd)
    as [Hlv (c & c' & Htr)].
  pose proof (Tracev3Proofs.header_logtype_range _ _ Hh) as Hr.
  split.
  - rewrite Hlt, Hlv. now apply Tracev3Proofs.derive_level_emitted.
  - rewrite <- (Tracev3Proofs.signpost_bit _ Hr).
    rewrite <- (Tracev3Proofs.derive_level_is_signpost (record_type h)).
    rewrite <- Hlv.
    destruct (is_signpost (f_level fl)) eqn:Hsp; [|exact Hss].
    assert (Hact : is_activity (f_level fl) = false).
    { rewrite Hlv. apply Tracev3Proofs.derive_level_signpost_not_activity.
      now rewrite <- Hlv. }
    destruct (Tracev3Proofs.read_trailer_signpost _ _ _ _ _ _ _ _ Htr Hsp Hact)
      as (pos & spid & Hu & Hf).
    exists pos, spid. split; [exact Hu|].
    rewrite Hss, Hf, Hlv. apply Tracev3Proofs.signpost_template.
    now rewrite <- Hlv.
Qed.

(** C4 (as amended).  Once the fixed header of a tracepoint is unpacked
    and its time converted, an exception raised while decoding it, other
    than [ImportError], [NameError] and [UnboundLocalError], emits no record
    and makes the decoder return the announced size [24 + log_data_len];
    the loop over the chunk then moves past the tracepoint, leaves [logs]
    as it was and goes on. *)
Theorem tracepoint_exception_skipped self chunk_data debug_file_pos
    continuousTime catalog proc_info private_strings strings_v_offset pos2
    logs h time e :
  unpack_tracepoint_header (py_slice_from chunk_data pos2) = Ret h ->
  time_from_continuoustime (boot_uuid_ts_list self)
    (tracepoint_ct continuousTime h) None = Ret time ->
  body self h (py_slice_from chunk_data pos2) (debug_file_pos + pos2)
    (tracepoint_ct continuousTime h) time catalog proc_info private_strings
    strings_v_offset = Raise e ->
  caught_by [ImportError; NameError; UnboundLocalError] e = false ->
  parse self (py_slice_from chunk_data pos2) (debug_file_pos + pos2)
    continuousTime catalog proc_info private_strings strings_v_offset
  = Ret (24 + log_data_len h, None)
  /\ exists next,
       step self chunk_data debug_file_pos continuousTime catalog proc_info
         private_strings strings_v_offset (pos2, logs) = Ret (next, logs)
       /\ pos2 + 24 + log_data_len h <= next < pos2 + 24 + log_data_len h + 8.
Proof.
  intros Hh Ht Hb He.
  assert (Hparse :
    parse self (py_slice_from chunk_data pos2) (debug_file_pos + pos2)
      continuousTime catalog proc_info private_strings strings_v_offset
    = Ret (24 + log_data_len h, None)).
  { rewrite (Tracev3Proofs.parse_unfold _ _ _ _ _ _ _ _ _ _ _ _ _ _ h time
               Hh Ht).
    rewrite Hb, He. reflexivity. }
  split; [exact Hparse|].
  unfold firehose_step. rewrite Hparse. simpl.
  eexists. split; [reflexivity|].
  pose proof (Z.mod_pos_bound
                (pos2 + (24 + log_data_len h) - pos2 mod 8) 8 ltac:(lia)).
  destruct (Z.eqb_spec ((pos2 + (24 + log_data_len h) - pos2 mod 8) mod 8) 0);
    simpl; lia.
Qed.

(** C8 (as amended).  Take a tracepoint that carries
    [HAS_OVERSIZE_DATA_REFERENCE], is not an activity tracepoint, and whose
    header, time and fields are read without an exception.  Its
    [data_ref_id] is then read from the tracepoint, and with the key
    [(data_ref_id << 64) | continuous_time]: when the key is absent from the
    store, or present with an empty payload, the record is still emitted and
    its message is "<decode: missing data>"; when the key is present with a
    payload that is not empty, and [ReadLogDataBuffer] and the
    reconstruction of the message return, the payload is what is read as
    the log-data buffer and the record is emitted with the message
    reconstructed from it.  An oversize chunk stores its payload under
    exactly [(data_ref_id << 64) | continuous_time]. *)
Theorem oversize_reference self tracepoint_data log_file_pos continuousTime
    catalog proc_info private_strings strings_v_offset h time fl :
  unpack_tracepoint_header tracepoint_data = Ret h ->
  time_from_continuoustime (boot_uuid_ts_list self)
    (tracepoint_ct continuousTime h) None = Ret time ->
  decode h tracepoint_data catalog proc_info private_strings strings_v_offset
  = Ret fl ->
  has_flag (flags h) _TRACEPOINT_FLAG_HAS_OVERSIZE_DATA_REFERENCE = true ->
  is_activity (derive_level (record_type h) (logtype h)) = false ->
  exists pos id,
    unpack_uint tracepoint_data pos 2 = Ret id
    /\ data_ref_id (f_trailer fl) = Some id
    /\ let key := Z.lor (Z.shiftl id 64) (tracepoint_ct continuousTime h) in
       (large_data self !! key = None \/ large_data self !! key = Some [] ->
        exists entry,
          parse self tracepoint_data log_file_pos continuousTime catalog
            proc_info private_strings strings_v_offset
          = Ret (24 + log_data_len h, Some entry)
          /\ le_log_msg entry = "<decode: missing data>")
       /\ (forall b payload items msg,
             large_data self !! key = Some (b :: payload) ->
             ReadLogDataBuffer (b :: payload)
               (Z.of_nat (length (b :: payload))) []
               (has_flag (flags h) _TRACEPOINT_FLAG_HAS_BACKTRACE)
             = Ret items ->
             match items with
             | item :: rest =>
                 RecreateMsgFromFmtStringAndData (format_str (f_resolved fl))
                   (item :: rest) log_file_pos
             | [] => Ret (format_str (f_resolved fl))
             end = Ret msg ->
             exists entry,
               parse self tracepoint_data log_file_pos continuousTime catalog
                 proc_info private_strings strings_v_offset
               = Ret (24 + log_data_len h, Some entry)
               /\ le_log_msg entry = msg)
       /\ (forall chunk_data pos self',
             _ParseOversizeChunkData _ReadAPFSTime self chunk_data pos
             = Ret self' ->
             let header := py_slice chunk_data 16 32 in
             large_data self'
             = <[Z.lor (Z.shiftl (uint_at header 8 4) 64) (uint_at header 0 8)
                 := py_slice chunk_data 32 (32 + uint_at header 12 4)]>
                 (large_data self)).
Proof.
  intros Hh Ht Hd Hflag Hact.
  destruct (Tracev3Proofs.decode_fields_inv _ _ _ _ _ _ _ _ _ _ _ _ Hd)
    as [Hlv (c & c' & Htr)].
  rewrite <- Hlv in Hact.
  destruct (Tracev3Proofs.read_trailer_oversize _ _ _ _ _ _ _ _ Htr Hflag Hact)
    as (pos & id & Hread & Hid).
  exists pos, id. split; [exact Hread|]. split; [exact Hid|].
  intros key. subst key.
  pose proof (Tracev3Proofs.decode_fields_act_id _ _ _ _ _ _ _ _ _ _ _ _ Hd)
    as Hlen.
  assert (Hrun : forall log_data fs msg,
    join_oversize LogDataItem ReadLogDataBuffer self h
      (tracepoint_ct continuousTime h) (data_ref_id (f_trailer fl))
      (f_log_data fl) (format_str (f_resolved fl)) = Ret (log_data, fs) ->
    match log_data with
    | Some (item :: rest) =>
        RecreateMsgFromFmtStringAndData fs (item :: rest) log_file_pos
    | _ => Ret fs
    end = Ret msg ->
    exists entry,
      parse self tracepoint_data log_file_pos continuousTime catalog
        proc_info private_strings strings_v_offset
      = Ret (24 + log_data_len h, Some entry)
      /\ le_log_msg entry = msg).
  { intros log_data fs msg Hjoin Hmsg.
    destruct (Tracev3Proofs.build_entry_emits LogDataItem ReadLogDataBuffer
                RecreateMsgFromFmtStringAndData self h log_file_pos
                (tracepoint_ct continuousTime h) time proc_info fl
                log_data fs msg Hlen Hjoin Hmsg) as (entry & Hb & Hmsg').
    exists entry. split; [|exact Hmsg'].
    rewrite (Tracev3Proofs.parse_unfold _ _ _ _ _ _ _ _ _ _ _ _ _ _ h time
               Hh Ht).
    unfold tracepoint_body. rewrite Hd. simpl. rewrite Hb. reflexivity. }
  split; [|split].
  - intros Hmiss. apply (Hrun None "<decode: missing data>"); [|reflexivity].
    unfold join_oversize. rewrite Hid. cbv beta iota zeta.
    destruct Hmiss as [-> | ->]; reflexivity.
  - intros b payload items msg Hhit Hitems Hmsg.
    apply (Hrun (Some items) (format_str (f_resolved fl))).
    + unfold join_oversize. rewrite Hid. cbv beta iota zeta.
      rewrite Hhit. cbv beta iota zeta. rewrite Hitems.
      reflexivity.
    + destruct items; exact Hmsg.
  - intros chunk_data pos' self' Hstore.
    unfold _ParseOversizeChunkData in Hstore.
    bind_inv Hstore. bind_inv Hstore. bind_inv Hstore.
    injection Hstore as <-. reflexivity.
Qed.

End TracepointClaims.

Lemma tracepoint_level_witness :
  Scenario.parse_tracepoint (Scenario.demo_self ∅)
    Scenario.signpost_tracepoint 1000
  = Ret (36, Some Scenario.signpost_entry)
  /\ exists h,
       unpack_tracepoint_header Scenario.signpost_tracepoint = Ret h
       /\ le_log_type Scenario.signpost_entry
          = LevelSpec.emitted_level (record_type h) (logtype h)
       /\ if (0x80 <=? logtype h) && (logtype h <=? 0xFF)
          then exists pos spid,
                 unpack_uint Scenario.signpost_tracepoint pos 8 = Ret spid
                 /\ le_signpost_string Scenario.signpost_entry
                    = LevelSpec.signpost_info (logtype h) spid
          else le_signpost_string Scenario.signpost_entry = ""%string.
Proof.
  assert (H : Scenario.parse_tracepoint (Scenario.demo_self ∅)
                Scenario.signpost_tracepoint 1000
              = Ret (36, Some Scenario.signpost_entry))
    by (vm_compute; reflexivity).
  split; [exact H|].
  exact (tracepoint_level _ _ _ _ _ _ _ _ _ _ _ _ _ _ _ _ H).
Defined.

(** C2 as stated fails: the tracepoint of scenario 5, with [logtype] 0x81
    and signpost id 0xDEADBEEF, is emitted with the documented info string
    but with level "Default", where the claim says "Signpost". *)
Lemma signpost_level_is_default :
  unpack_tracepoint_header Scenario.signpost_tracepoint
  = Ret Scenario.signpost_header
  /\ Scenario.parse_tracepoint (Scenario.demo_self ∅)
       Scenario.signpost_tracepoint 1000
     = Ret (36, Some Scenario.signpost_entry)
  /\ le_signpost_string Scenario.signpost_entry
     = "spid 0xdeadbeef, process, begin"%string
  /\ le_log_type Scenario.signpost_entry = "Default"%string
  /\ LevelSpec.claimed_level (record_type Scenario.signpost_header)
       (logtype Scenario.signpost_header) = "Signpost"%string.
Proof. repeat split; vm_compute; reflexivity. Qed.

Lemma tracepoint_exception_skipped_witness :
  (unpack_tracepoint_header (py_slice_from Scenario.header_only_chunk 32)
   = Ret Scenario.header_only_header
   /\ caught_by [ImportError; NameError; UnboundLocalError] StructError = false)
  /\ Scenario.parse_tracepoint (Scenario.demo_self ∅)
       (py_slice_from Scenario.header_only_chunk 32) 1000
     = Ret (24 + log_data_len Scenario.header_only_header, None)
  /\ exists next,
       firehose_step Scenario.Item Scenario.read_items Scenario.read_items2
         Scenario.recreate Scenario.no_subsystem Scenario.no_other_uuidtext
         (Scenario.demo_self ∅) Scenario.header_only_chunk (-32) 1000
         Scenario.demo_catalog Scenario.demo_proc_info [] 4096 (32, [])
       = Ret (next, [])
       /\ 32 + 24 + log_data_len Scenario.header_only_header <= next
          < 32 + 24 + log_data_len Scenario.header_only_header + 8.
Proof.
  assert (Hh : unpack_tracepoint_header
                 (py_slice_from Scenario.header_only_chunk 32)
               = Ret Scenario.header_only_header)
    by (vm_compute; reflexivity).
  assert (He : caught_by [ImportError; NameError; UnboundLocalError]
                 StructError = false) by reflexivity.
  split; [split; assumption|].
  refine (tracepoint_exception_skipped Scenario.Item Scenario.read_items
            Scenario.read_items2 Scenario.recreate Scenario.no_subsystem
            Scenario.no_other_uuidtext (Scenario.demo_self ∅)
            Scenario.header_only_chunk (-32) 1000 Scenario.demo_catalog
            Scenario.demo_proc_info [] 4096 32 []
            Scenario.header_only_header
            (S754_finite false 6250000000000000 8) StructError Hh _ _ He);
    vm_compute; reflexivity.
Defined.

(** C4 as stated fails: an exception raised before the guarded block
    leaves the decoder instead of being skipped.  Without a timesync list
    the time conversion of a well-formed tracepoint raises
    [AttributeError]; a tracepoint or a chunk that ends too early raises
    [struct.error] when the fixed header is unpacked. *)
Lemma tracepoint_exception_escapes :
  unpack_tracepoint_header Scenario.signpost_tracepoint
  = Ret Scenario.signpost_header
  /\ Scenario.parse_tracepoint Scenario.self_without_timesync
       Scenario.signpost_tracepoint 1000 = Raise AttributeError
  /\ Scenario.parse_tracepoint (Scenario.demo_self ∅)
       Scenario.truncated_tracepoint 1000 = Raise StructError
  /\ Scenario.parse_firehose_chunk (Scenario.demo_self ∅)
       Scenario.truncated_firehose_chunk = Raise StructError.
Proof. repeat split; vm_compute; reflexivity. Qed.

Lemma oversize_reference_witness :
  (unpack_tracepoint_header Scenario.oversize_tracepoint
   = Ret Scenario.oversize_header
   /\ has_flag (flags Scenario.oversize_header)
        _TRACEPOINT_FLAG_HAS_OVERSIZE_DATA_REFERENCE = true
   /\ is_activity (derive_level (record_type Scenario.oversize_header)
                     (logtype Scenario.oversize_header)) = false
   /\ large_data (Scenario.demo_self ∅) !! Scenario.oversize_key = None
   /\ large_data (Scenario.demo_self
                    {[ Scenario.oversize_key := Scenario.big_payload ]})
        !! Scenario.oversize_key = Some Scenario.big_payload)
  /\ (exists entry,
        Scenario.parse_tracepoint (Scenario.demo_self ∅)
          Scenario.oversize_tracepoint 100
        = Ret (24 + log_data_len Scenario.oversize_header, Some entry)
        /\ le_log_msg entry = "<decode: missing data>"%string)
  /\ (exists entry,
        Scenario.parse_tracepoint
          (Scenario.demo_self
             {[ Scenario.oversize_key := Scenario.big_payload ]})
          Scenario.oversize_tracepoint 100
        = Ret (24 + log_data_len Scenario.oversize_header, Some entry)
        /\ le_log_msg entry = "v=%s <- BIG"%string).
Proof.
  assert (Hh : unpack_tracepoint_header Scenario.oversize_tracepoint
               = Ret Scenario.oversize_header) by (vm_compute; reflexivity).
  assert (Hflag : has_flag (flags Scenario.oversize_header)
                    _TRACEPOINT_FLAG_HAS_OVERSIZE_DATA_REFERENCE = true)
    by reflexivity.
  assert (Hact : is_activity
                   (derive_level (record_type Scenario.oversize_header)
                      (logtype Scenario.oversize_header)) = false)
    by reflexivity.
  assert (Hmiss : large_data (Scenario.demo_self ∅) !! Scenario.oversize_key
                  = None) by (vm_compute; reflexivity).
  assert (Hhit : large_data
                   (Scenario.demo_self
                      {[ Scenario.oversize_key := Scenario.big_payload ]})
                   !! Scenario.oversize_key = Some Scenario.big_payload)
    by (vm_compute; reflexivity).
  assert (Hd : decode_fields Scenario.Item Scenario.read_items
                 Scenario.read_items2 Scenario.no_subsystem
                 Scenario.no_other_uuidtext Scenario.oversize_header
                 Scenario.oversize_tracepoint Scenario.demo_catalog
                 Scenario.demo_proc_info [] 4096
               = Ret Scenario.oversize_fields) by (vm_compute; reflexivity).
  assert (Ht : time_from_continuoustime (Some [scenario6_item])
                 (tracepoint_ct 100 Scenario.oversize_header) None
               = Ret (S754_finite false 6249999999999996 8))
    by (vm_compute; reflexivity).
  split; [repeat split; assumption|]. split.
  - destruct (oversize_reference Scenario.Item Scenario.read_items
                Scenario.read_items2 Scenario.recreate
                Scenario.no_subsystem Scenario.no_other_uuidtext
                Scenario.apfs_time (Scenario.demo_self ∅)
                Scenario.oversize_tracepoint 0 100 Scenario.demo_catalog
                Scenario.demo_proc_info [] 4096 Scenario.oversize_header
                _ Scenario.oversize_fields Hh Ht Hd Hflag Hact)
      as (pos & id & _ & Hid & Hmissing & _).
    change (Some 1 = Some id) in Hid. injection Hid as <-.
    apply Hmissing. left. exact Hmiss.
  - destruct (oversize_reference Scenario.Item Scenario.read_items
                Scenario.read_items2 Scenario.recreate
                Scenario.no_subsystem Scenario.no_other_uuidtext
                Scenario.apfs_time
                (Scenario.demo_self
                   {[ Scenario.oversize_key := Scenario.big_payload ]})
                Scenario.oversize_tracepoint 0 100 Scenario.demo_catalog
                Scenario.demo_proc_info [] 4096 Scenario.oversize_header
                _ Scenario.oversize_fields Hh Ht Hd Hflag Hact)
      as (pos & id & _ & Hid & _ & Hpresent & _).
    change (Some 1 = Some id) in Hid. injection Hid as <-.
    exact (Hpresent _ _ [Scenario.big_payload] "v=%s <- BIG"%string
             Hhit eq_refl eq_refl).
Defined.

(** C8 as stated fails: an oversize chunk with [data_len = 0] stores an
    empty payload under the key; the key is then present, yet the
    tracepoint that refers to it is rendered as "<decode: missing data>"
    and the payload is not read as a log-data buffer. *)
Lemma empty_oversize_payload_counts_as_missing :
  _ParseOversizeChunkData Scenario.apfs_time (Scenario.demo_self ∅)
    (Scenario.oversize_chunk []) 0
  = Ret (Scenario.demo_self {[ Scenario.oversize_key := [] ]})
  /\ large_data (Scenario.demo_self {[ Scenario.oversize_key := [] ]})
       !! Scenario.oversize_key = Some []
  /\ exists entry,
       Scenario.parse_tracepoint
         (Scenario.demo_self {[ Scenario.oversize_key := [] ]})
         Scenario.oversize_tracepoint 100 = Ret (30, Some entry)
       /\ le_log_msg entry = "<decode: missing data>"%string.
Proof.
  split; [vm_compute; reflexivity|].
  split; [vm_compute; reflexivity|].
  eexists. split; vm_compute; reflexivity.
Qed.

(** The conditions of the amended claim are needed.  With the flag that
    sends the format string to the dsc file ([0x0004]), for a process that
    has none, the decoding raises and the tracepoint is skipped although it
    carries the oversize flag and its key is absent.  An activity
    tracepoint with the oversize flag reads no data reference: it is
    emitted with a message of its own. *)
Example oversize_flag_alone_is_not_enough :
  let flagged :=
    Scenario.tracepoint_header 0x04 0x00 0x0804 0x20 7 0 0 6
      ++ le_bytes 4 0x10 ++ le_bytes 2 1 in
  let activity :=
    Scenario.tracepoint_header 0x02 0x01 0x0802 0x20 7 0 0 30
      ++ le_bytes 30 0 in
  large_data (Scenario.demo_self ∅) !! Scenario.oversize_key = None
  /\ (exists h, unpack_tracepoint_header flagged = Ret h
                /\ has_flag (flags h)
                     _TRACEPOINT_FLAG_HAS_OVERSIZE_DATA_REFERENCE = true)
  /\ Scenario.parse_tracepoint (Scenario.demo_self ∅) flagged 100
     = Ret (30, None)
  /\ (exists h, unpack_tracepoint_header activity = Ret h
                /\ has_flag (flags h)
                     _TRACEPOINT_FLAG_HAS_OVERSIZE_DATA_REFERENCE = true)
  /\ exists entry,
       Scenario.parse_tracepoint (Scenario.demo_self ∅) activity 100
       = Ret (54, Some entry)
       /\ le_log_type entry = "Activity"%string
       /\ le_log_msg entry <> "<decode: missing data>"%string.
Proof.
  cbv zeta. split; [vm_compute; reflexivity|].
  split; [eexists; split; vm_compute; reflexivity|].
  split; [vm_compute; reflexivity|].
  split; [eexists; split; vm_compute; reflexivity|].
  eexists. split; [vm_compute; reflexivity|].
  split; [vm_compute; reflexivity|]. vm_compute. discriminate.
Qed.

(** ** Properties of the chunk loops *)

Section ChunkClaims.

Local Open Scope list_scope.
Local Open Scope Z_scope.

Variable LogDataItem : Type.
Variable ReadLogDataBuffer :
  bytes -> Z -> bytes -> bool -> result (list LogDataItem).
Variable ReadLogDataBuffer2 : bytes -> Z -> bytes -> result (list LogDataItem).
Variable RecreateMsgFromFmtStringAndData :
  string -> list LogDataItem -> Z -> result string.
Variable GetSubSystemAndCategory : ProcInfo -> Z -> result (string * string).
Variable find_other_uuidtext : string -> result (option Uuidtext).
Variable _ReadAPFSTime : PyFloat.float -> result string.
Variable _ParseStateChunkData :
  TraceV3 -> bytes -> Catalog -> ProcInfo -> Z -> result (list LogEntry).
Variable _ParseSimpleDumpData :
  TraceV3 -> bytes -> Catalog -> ProcInfo -> Z -> result (list LogEntry).
Variable _ParseMetaChunk : TraceV3 -> bytes -> result Catalog.
Variable lz4_block_decompress : bytes -> Z -> bytes -> result bytes.

Local Abbreviation process_data_chunk :=
  (ProcessDataChunk LogDataItem ReadLogDataBuffer ReadLogDataBuffer2
     RecreateMsgFromFmtStringAndData GetSubSystemAndCategory
     find_other_uuidtext _ReadAPFSTime _ParseStateChunkData
     _ParseSimpleDumpData).
Local Abbreviation parse_file_object :=
  (_ParseFileObject LogDataItem ReadLogDataBuffer ReadLogDataBuffer2
     RecreateMsgFromFmtStringAndData GetSubSystemAndCategory
     find_other_uuidtext _ReadAPFSTime _ParseStateChunkData
     _ParseSimpleDumpData _ParseMetaChunk lz4_block_decompress).
Local Abbreviation parse :=
  (Parse LogDataItem ReadLogDataBuffer ReadLogDataBuffer2
     RecreateMsgFromFmtStringAndData GetSubSystemAndCategory
     find_other_uuidtext _ReadAPFSTime _ParseStateChunkData
     _ParseSimpleDumpData _ParseMetaChunk lz4_block_decompress).

(** C10.  When the first sub-chunk of a decompressed data chunk names a
    process that the current chunk meta does not list, [GetProcInfo]
    gives [None] and [ProcessDataChunk], after moving its position past the
    sub-chunk, evaluates [proc_info.pid] and raises [AttributeError]; the
    branch that was to skip the sub-chunk never goes on to the next one.
    [Parse] catches the [AttributeError] that comes out of
    [_ParseFileObject] and returns [False]: the file is abandoned. *)
Theorem missing_proc_info_aborts self chunk_data chunk_data_size catalog
    meta_chunk_index chunk_meta debug_file_pos logs tag subtag data_size :
  py_index (ChunkMetaInfo catalog) meta_chunk_index = Ret chunk_meta ->
  16 < chunk_data_size ->
  _ParseChunkHeaderData (py_slice chunk_data 0 16)
  = Ret (tag, subtag, data_size) ->
  struct_size (py_slice chunk_data 16 32) 16 = Ret tt ->
  GetProcInfo (uint_at (py_slice chunk_data 16 32) 0 8)
    (uint_at (py_slice chunk_data 16 32) 8 4) chunk_meta = None ->
  process_data_chunk self chunk_data chunk_data_size (Some catalog)
    meta_chunk_index debug_file_pos logs = Raise AttributeError
  /\ forall name ts_list file func,
       parse_file_object name ts_list file (Z.of_nat (length file)) func
       = Raise AttributeError ->
       parse name ts_list (Some file) func = Ret ReturnsFalse.
Proof.
  intros Hmeta Hsize Hhdr Hids Hnone. split.
  - unfold ProcessDataChunk. rewrite Hmeta. simpl.
    destruct (Z.to_nat chunk_data_size) as [|fuel] eqn:Hfuel; [lia|].
    rewrite while_loop_raise with (e := AttributeError); [reflexivity| |].
    + simpl. apply Z.ltb_lt. lia.
    + unfold data_chunk_step. cbn [dc_pos]. change (0 + 16) with 16.
      rewrite Hhdr. cbn [Py.bind]. change (16 + 16) with 32.
      rewrite Hids. cbn [Py.bind]. rewrite Hnone. reflexivity.
  - intros name ts_list file func Hraise. unfold Parse.
    rewrite Hraise. reflexivity.
Qed.

End ChunkClaims.

Lemma missing_proc_info_aborts_witness :
  (py_index (ChunkMetaInfo Scenario.demo_catalog) 0 = Ret demo_chunk_meta
   /\ 16 < Z.of_nat (length unknown_proc_chunk)
   /\ GetProcInfo 9 9 demo_chunk_meta = None)
  /\ ProcessDataChunk Scenario.Item Scenario.read_items Scenario.read_items2
       Scenario.recreate Scenario.no_subsystem Scenario.no_other_uuidtext
       Scenario.apfs_time Scenario.no_entries Scenario.no_entries
       (Scenario.demo_self ∅) unknown_proc_chunk
       (Z.of_nat (length unknown_proc_chunk)) (Some Scenario.demo_catalog)
       0 88 [] = Raise AttributeError
  /\ Scenario.parse_file Scenario.unknown_proc_file None = Ret ReturnsFalse.
Proof.
  assert (Hmeta : py_index (ChunkMetaInfo Scenario.demo_catalog) 0
                  = Ret demo_chunk_meta) by reflexivity.
  assert (Hsize : 16 < Z.of_nat (length unknown_proc_chunk))
    by (vm_compute; reflexivity).
  assert (Hnone : GetProcInfo 9 9 demo_chunk_meta = None)
    by (vm_compute; reflexivity).
  split; [repeat split; assumption|].
  assert (Hall :=
    missing_proc_info_aborts Scenario.Item Scenario.read_items
      Scenario.read_items2 Scenario.recreate Scenario.no_subsystem
      Scenario.no_other_uuidtext Scenario.apfs_time Scenario.no_entries
      Scenario.no_entries Scenario.demo_meta Scenario.no_lz4
      (Scenario.demo_self ∅) unknown_proc_chunk
      (Z.of_nat (length unknown_proc_chunk)) Scenario.demo_catalog 0
      demo_chunk_meta 88 [] 0x6001 0 32 Hmeta Hsize eq_refl eq_refl Hnone).
  split; [exact (proj1 Hall)|].
  apply (proj2 Hall). vm_compute. reflexivity.
Defined.

(** C5: the code diverges from the claim.  In [three_byte_chunk_file] the
    counter stands at 56 after the header chunk; the chunk of three bytes
    takes it to 75, and the alignment statement, which adds
    [8 - (chunk_data_size % 8)] after [chunk_data_size] itself was rounded
    up, adds 8: the counter ends at 83, not at a multiple of 8. *)
Theorem counter_not_aligned :
  exists final,
    Scenario.parse_file Scenario.three_byte_chunk_file None
    = Ret (ReturnsNone final)
    /\ fl_pos final = 80
    /\ fl_uncompressed_file_pos final = 83
    /\ fl_uncompressed_file_pos final mod 8 = 3.
Proof. eexists. repeat split; vm_compute; reflexivity. Qed.

(** The alignment statement never changes the counter modulo 8: a counter
    that is off after a chunk stays off. *)
Lemma alignment_keeps_residue (uncompressed_file_pos advance_by size : Z) :
  next_uncompressed_file_pos uncompressed_file_pos advance_by size mod 8
  = (uncompressed_file_pos + advance_by) mod 8.
Proof.
  unfold next_uncompressed_file_pos.
  assert (Hpad : (if negb (size mod 8 =? 0) then size + (8 - size mod 8)
                  else size) mod 8 = 0).
  { destruct (Z.eqb_spec (size mod 8) 0) as [H0|Hn]; simpl.
    - exact H0.
    - replace (size + (8 - size mod 8)) with (size - size mod 8 + 1 * 8)
        by lia.
      rewrite Z.mod_add by lia. rewrite Zminus_mod, Z.mod_mod by lia.
      rewrite Z.sub_diag. reflexivity. }
  rewrite Hpad.
  destruct (Z.eqb_spec ((uncompressed_file_pos + advance_by) mod 8) 0);
    simpl; [reflexivity|].
  replace (uncompressed_file_pos + advance_by + (8 - 0))
    with (uncompressed_file_pos + advance_by + 1 * 8) by lia.
  apply Z.mod_add. lia.
Qed.

(** ** Batching *)

Section BatchingClaims.

Import Batching.

Local Open Scope list_scope.
Local Open Scope Z_scope.

Variable LogDataItem : Type.
Variable ReadLogDataBuffer :
  bytes -> Z -> bytes -> bool -> result (list LogDataItem).
Variable ReadLogDataBuffer2 : bytes -> Z -> bytes -> result (list LogDataItem).
Variable RecreateMsgFromFmtStringAndData :
  string -> list LogDataItem -> Z -> result string.
Variable GetSubSystemAndCategory : ProcInfo -> Z -> result (string * string).
Variable find_other_uuidtext : string -> result (option Uuidtext).
Variable _ReadAPFSTime : PyFloat.float -> result string.
Variable _ParseStateChunkData :
  TraceV3 -> bytes -> Catalog -> ProcInfo -> Z -> result (list LogEntry).
Variable _ParseSimpleDumpData :
  TraceV3 -> bytes -> Catalog -> ProcInfo -> Z -> result (list LogEntry).
Variable _ParseMetaChunk : TraceV3 -> bytes -> result Catalog.
Variable lz4_block_decompress : bytes -> Z -> bytes -> result bytes.

Local Abbreviation loop_step :=
  (file_loop_step LogDataItem ReadLogDataBuffer ReadLogDataBuffer2
     RecreateMsgFromFmtStringAndData GetSubSystemAndCategory
     find_other_uuidtext _ReadAPFSTime _ParseStateChunkData
     _ParseSimpleDumpData _ParseMetaChunk lz4_block_decompress).
Local Abbreviation parse_file_object :=
  (_ParseFileObject LogDataItem ReadLogDataBuffer ReadLogDataBuffer2
     RecreateMsgFromFmtStringAndData GetSubSystemAndCategory
     find_other_uuidtext _ReadAPFSTime _ParseStateChunkData
     _ParseSimpleDumpData _ParseMetaChunk lz4_block_decompress).

Lemma deliver_app func calls calls' state :
  deliver func (calls ++ calls') state
  = let* state := deliver func calls state in deliver func calls' state.
Proof.
  revert state. induction calls as [|[logs self] calls IH]; intros state;
    cbn [app deliver]; [reflexivity|].
  destruct (func logs self state) as [state1|e]; cbn [Py.bind];
    [apply IH|reflexivity].
Qed.

Lemma flush_if_full_keeps_records func self logs delivered logs' delivered'
    calls held :
  flush_if_full (Some func) self logs delivered = Ret (logs', delivered') ->
  deliver func calls held = Ret delivered ->
  Forall (fun call => 100000 < Z.of_nat (length (fst call))) calls ->
  exists calls',
    deliver func calls' held = Ret delivered'
    /\ List.concat (map fst calls') ++ logs'
       = List.concat (map fst calls) ++ logs
    /\ Forall (fun call => 100000 < Z.of_nat (length (fst call))) calls'
    /\ Z.of_nat (length logs') <= 100000.
Proof.
  unfold flush_if_full. intros H Hcalls Hfull.
  destruct (Z.gtb_spec (Z.of_nat (length logs)) 100000) as [Hgt|Hle].
  - bind_inv H. injection H as <- <-.
    exists (calls ++ [(logs, self)]). split; [|split; [|split]].
    + rewrite deliver_app, Hcalls. cbn [Py.bind deliver]. rewrite Hm.
      reflexivity.
    + rewrite map_app, List.concat_app. simpl. now rewrite !app_nil_r.
    + apply Forall_app. split; [exact Hfull|]. now repeat constructor.
    + simpl. lia.
  - injection H as <- <-. exists calls. now repeat split.
Qed.

Lemma dispatch_chunk_appends self catalog index counter logs tag chunk_data
    chunk_data_size self' catalog' index' logs' advance_by :
  dispatch_chunk LogDataItem ReadLogDataBuffer ReadLogDataBuffer2
    RecreateMsgFromFmtStringAndData GetSubSystemAndCategory
    find_other_uuidtext _ReadAPFSTime _ParseStateChunkData
    _ParseSimpleDumpData _ParseMetaChunk lz4_block_decompress
    self catalog index counter logs tag chunk_data chunk_data_size
  = Ret (self', catalog', index', logs', advance_by) ->
  exists new,
    logs' = logs ++ new
    /\ forall l,
         dispatch_chunk LogDataItem ReadLogDataBuffer ReadLogDataBuffer2
           RecreateMsgFromFmtStringAndData GetSubSystemAndCategory
           find_other_uuidtext _ReadAPFSTime _ParseStateChunkData
           _ParseSimpleDumpData _ParseMetaChunk lz4_block_decompress
           self catalog index counter l tag chunk_data chunk_data_size
         = Ret (self', catalog', index', l ++ new, advance_by).
Proof.
  unfold dispatch_chunk. intros H.
  destruct (tag =? _CHUNK_TAG_METADATA).
  - bind_inv H. injection H as <- <- <- <- <-. exists [].
    rewrite app_nil_r. split; [reflexivity|]. intros l.
    now rewrite app_nil_r, Hm.
  - destruct (tag =? _CHUNK_TAG_COMPRESSED).
    + bind_inv H. bind_inv H. destruct a0 as [self1 logs1].
      injection H as <- <- <- <- <-.
      destruct (Tracev3Proofs.process_data_chunk_appends
                  _ _ _ _ _ _ _ _ _ _ _ _ _ _ _ _ _ _ Hm0)
        as (new & -> & Hl).
      exists new. split; [reflexivity|]. intros l. rewrite Hm.
      cbn [Py.bind]. rewrite Hl. reflexivity.
    + injection H as <- <- <- <- <-. exists [].
      rewrite app_nil_r. split; [reflexivity|]. intros l.
      now rewrite app_nil_r.
Qed.

(** A pass of the chunk loop: the records [new] that the chunk adds do not
    depend on what is pending nor on the callback, and the callback comes
    in only through the test after the chunk. *)
Lemma loop_step_shape file func s s' :
  loop_step file func s = Ret s' ->
  exists new,
    flush_if_full func (fl_self s') (fl_logs s ++ new) (fl_delivered s)
    = Ret (fl_logs s', fl_delivered s')
    /\ forall func' logs delivered,
         loop_step file func'
           (mkFileLoopState (fl_pos s) (fl_self s) (fl_catalog s)
              (fl_meta_chunk_index s) (fl_uncompressed_file_pos s) logs
              delivered)
         = let* (logs', delivered') :=
             flush_if_full func' (fl_self s') (logs ++ new) delivered in
           Ret (mkFileLoopState (fl_pos s') (fl_self s') (fl_catalog s')
                  (fl_meta_chunk_index s') (fl_uncompressed_file_pos s')
                  logs' delivered').
Proof.
  destruct s as [pos self catalog index counter logs0 delivered0].
  unfold file_loop_step. cbn [fl_pos fl_self fl_catalog fl_meta_chunk_index
    fl_uncompressed_file_pos fl_logs fl_delivered].
  read_fixed.
  destruct (file_read (file_seek (mkFileObj file 0) pos) 16)
    as [chunk_header_data f1].
  intros H. bind_inv H. destruct a as [[tag subtag] chunk_data_size].
  rewrite Hm. cbn [Py.bind].
  read_inv H. destruct rd as [chunk_data f2].
  rewrite (file_object_read_small _ _ Hsz), <- Hrd. cbn [Py.bind].
  bind_inv H. destruct a as [[[[self1 catalog1] index1] logs1] advance_by].
  bind_inv H. destruct a as [logs2 delivered2]. injection H as <-.
  cbn [fl_pos fl_self fl_catalog fl_meta_chunk_index
    fl_uncompressed_file_pos fl_logs fl_delivered].
  destruct (dispatch_chunk_appends _ _ _ _ _ _ _ _ _ _ _ _ _ Hm0)
    as (new & -> & Hrun).
  exists new. split; [exact Hm1|].
  intros func' logs delivered. rewrite Hrun. cbn [Py.bind]. reflexivity.
Qed.

(** A pass that raises: the exception comes from the chunk, whatever the
    callback is, or from the callback, called on the pending list. *)
Lemma loop_step_raises file func s e :
  loop_step file (Some func) s = Raise e ->
  loop_step file None s = Raise e
  \/ exists t new,
       loop_step file None s = Ret t
       /\ fl_logs t = fl_logs s ++ new
       /\ 100000 < Z.of_nat (length (fl_logs t))
       /\ func (fl_logs t) (fl_self t) (fl_delivered s) = Raise e.
Proof.
  unfold file_loop_step.
  destruct (file_object_read (file_seek (mkFileObj file 0) (fl_pos s)) 16)
    as [[chunk_header_data f1]|e1]; cbn [Py.bind]; [|now left].
  destruct (_ParseChunkHeaderData chunk_header_data)
    as [[[tag subtag] chunk_data_size]|e1]; cbn [Py.bind]; [|now left].
  destruct (file_object_read f1 chunk_data_size) as [[chunk_data f2]|e1];
    cbn [Py.bind]; [|now left].
  destruct (dispatch_chunk LogDataItem ReadLogDataBuffer ReadLogDataBuffer2
              RecreateMsgFromFmtStringAndData GetSubSystemAndCategory
              find_other_uuidtext _ReadAPFSTime _ParseStateChunkData
              _ParseSimpleDumpData _ParseMetaChunk lz4_block_decompress
              (fl_self s) (fl_catalog s) (fl_meta_chunk_index s)
              (fl_uncompressed_file_pos s) (fl_logs s) tag chunk_data
              chunk_data_size)
    as [[[[[self1 catalog1] index1] logs1] advance_by]|e1] eqn:Hd;
    cbn [Py.bind]; [|now left].
  destruct (dispatch_chunk_appends _ _ _ _ _ _ _ _ _ _ _ _ _ Hd)
    as (new & -> & _).
  unfold flush_if_full.
  destruct (Z.gtb_spec (Z.of_nat (length (fl_logs s ++ new))) 100000)
    as [Hgt|Hle]; cbn [Py.bind]; [|discriminate].
  destruct (func (fl_logs s ++ new) self1 (fl_delivered s)) as [d|e1] eqn:Hf;
    cbn [Py.bind]; [discriminate|].
  intros [= <-]. right. eexists. exists new.
  split; [reflexivity|]. cbn [fl_logs fl_self]. now repeat split.
Qed.

Lemma loop_step_corresponds file func s t s' :
  (exists calls, corresponds func calls s t) ->
  loop_step file (Some func) s = Ret s' ->
  exists t',
    loop_step file None t = Ret t'
    /\ exists calls, corresponds func calls s' t'.
Proof.
  intros (calls & [Hpos Hself Hcat Hidx Hctr Hdel Hcalls Hrec Hfull Hsmall])
    Hstep.
  destruct (loop_step_shape _ _ _ _ Hstep) as (new & Hflush & Hany).
  destruct t as [tpos tself tcatalog tindex tcounter tlogs tdelivered].
  simpl in Hpos, Hself, Hcat, Hidx, Hctr, Hdel, Hrec.
  subst tpos tself tcatalog tindex tcounter tdelivered tlogs.
  rewrite Hany. cbn [flush_if_full Py.bind].
  destruct (flush_if_full_keeps_records _ _ _ _ _ _ _ _ Hflush Hcalls Hfull)
    as (calls' & Hcalls' & Hrec' & Hfull' & Hsmall').
  eexists. split; [reflexivity|].
  exists calls'.
  constructor; cbn [fl_pos fl_self fl_catalog fl_meta_chunk_index
    fl_uncompressed_file_pos fl_logs fl_delivered]; try reflexivity;
    try assumption.
  rewrite Hrec'. now rewrite app_assoc.
Qed.

(** C9.  In a run of [_ParseFileObject] that is given a callback, the
    callback is called on a sequence of batches, one call after the other,
    and the state it ends in is the state that these calls produce.  Put end
    to end the batches are exactly the records that the same run collects
    when no callback is given: none is dropped and none is handed over
    twice.  Every batch but the last had more than 100,000 entries; the
    last one is what is pending after the last chunk, at most 100,000
    entries, handed over by the final flush exactly when it is not empty.
    In every pass of the chunk loop the chunk's records are appended to the
    pending list; if that list then has more than 100,000 entries the
    callback is called on it and the pending list is emptied, otherwise the
    callback is not called.  A pass that raises does so for the chunk, as
    the run without a callback does, or because the callback, called on a
    pending list of more than 100,000 entries, itself raises. *)
Theorem batches_partition_the_records name ts_list file file_size func final :
  parse_file_object name ts_list file file_size (Some func) = Ret final ->
  (exists unbatched calls full,
     parse_file_object name ts_list file file_size None = Ret unbatched
     /\ fl_delivered unbatched = []
     /\ deliver func calls [] = Ret (fl_delivered final)
     /\ List.concat (map fst calls) = fl_logs unbatched
     /\ calls
        = full ++ match fl_logs final with
                  | [] => []
                  | _ :: _ => [(fl_logs final, fl_self final)]
                  end
     /\ Forall (fun call => 100000 < Z.of_nat (length (fst call))) full
     /\ Z.of_nat (length (fl_logs final)) <= 100000)
  /\ (forall s s',
        loop_step file (Some func) s = Ret s' ->
        exists new,
          loop_step file None s
          = Ret (mkFileLoopState (fl_pos s') (fl_self s') (fl_catalog s')
                   (fl_meta_chunk_index s') (fl_uncompressed_file_pos s')
                   (fl_logs s ++ new) (fl_delivered s))
          /\ if Z.of_nat (length (fl_logs s ++ new)) >? 100000
             then fl_logs s' = []
                  /\ func (fl_logs s ++ new) (fl_self s') (fl_delivered s)
                     = Ret (fl_delivered s')
             else fl_logs s' = fl_logs s ++ new
                  /\ fl_delivered s' = fl_delivered s)
  /\ forall s e,
       loop_step file (Some func) s = Raise e ->
       loop_step file None s = Raise e
       \/ exists t new,
            loop_step file None s = Ret t
            /\ fl_logs t = fl_logs s ++ new
            /\ 100000 < Z.of_nat (length (fl_logs t))
            /\ func (fl_logs t) (fl_self t) (fl_delivered s) = Raise e.
Proof.
  intros H. split; [|split; [|apply loop_step_raises]].
  - revert H. unfold _ParseFileObject. read_fixed.
    destruct (file_read (mkFileObj file 0) 16) as [chunk_header_data f1].
    intros H. bind_inv H. destruct a as [[tag subtag] chunk_data_size].
    rewrite Hm. cbn [Py.bind].
    destruct (negb (tag =? 4096)); [discriminate|].
    destruct (negb (subtag =? 17)); [discriminate|].
    read_inv H. destruct rd as [file_header_data f2].
    rewrite (file_object_read_small _ _ Hsz), <- Hrd. cbn [Py.bind].
    bind_inv H. rewrite Hm0. cbn [Py.bind].
    bind_inv H. rewrite Hm1. cbn [Py.bind].
    bind_inv H. bind_inv H. injection H as <-.
    cbn [fl_pos fl_self fl_catalog fl_meta_chunk_index
      fl_uncompressed_file_pos fl_logs fl_delivered].
    eapply (while_loop_sim
              (fun s t => exists calls, corresponds func calls s t)) in Hm2.
    + destruct Hm2 as (t' & Hloop & calls & Hrel).
      destruct Hrel
        as [Hpos Hself Hcat Hidx Hctr Hdel Hcalls Hrec Hfull Hsmall].
      exists (mkFileLoopState (fl_pos t') (fl_self t') (fl_catalog t')
                (fl_meta_chunk_index t') (fl_uncompressed_file_pos t')
                (fl_logs t') (fl_delivered t')),
             (calls ++ match fl_logs a1 with
                       | [] => []
                       | _ :: _ => [(fl_logs a1, fl_self a1)]
                       end),
             calls.
      rewrite Hloop. cbn [Py.bind final_flush fl_logs fl_delivered].
      split; [reflexivity|]. split; [exact Hdel|].
      unfold final_flush in Hm3.
      split.
      { rewrite deliver_app, Hcalls. cbn [Py.bind].
        destruct (fl_logs a1) as [|entry rest] eqn:Hlogs.
        - simpl in Hm3. injection Hm3 as <-. reflexivity.
        - destruct (Z.gtb_spec (Z.of_nat (length (entry :: rest))) 0)
            as [_|Hle]; [|simpl in Hle; lia].
          cbn [deliver]. rewrite Hm3. reflexivity. }
      split.
      { rewrite Hrec, map_app, List.concat_app.
        destruct (fl_logs a1); simpl; now rewrite ?app_nil_r. }
      split; [reflexivity|]. split; [exact Hfull|exact Hsmall].
    + intros s t (calls & Hrel). cbv beta.
      now rewrite (same_pos _ _ s t Hrel).
    + intros s t s' Hrel _ Hstep. eapply loop_step_corresponds; eauto.
    + exists []. constructor; simpl; try reflexivity; [constructor|lia].
  - intros s s' Hstep.
    destruct (loop_step_shape _ _ _ _ Hstep) as (new & Hflush & Hany).
    exists new. split.
    + specialize (Hany None (fl_logs s) (fl_delivered s)).
      destruct s; exact Hany.
    + unfold flush_if_full in Hflush.
      destruct (Z.of_nat (length (fl_logs s ++ new)) >? 100000).
      * bind_inv Hflush. injection Hflush as <- <-. now split.
      * injection Hflush as <- <-. now split.
Qed.

End BatchingClaims.

Lemma pending_records_length :
  Z.of_nat (length Scenario.pending_records) = 100000.
Proof. unfold Scenario.pending_records. rewrite repeat_length. lia. Qed.

Lemma batches_partition_the_records_witness :
  (exists unbatched calls,
     Scenario.parse_file_object Scenario.signpost_file
       (Some Scenario.accept_all)
     = Ret (Scenario.after_data_chunk [Scenario.signpost_file_entry]
              [[Scenario.signpost_file_entry]])
     /\ Scenario.parse_file_object Scenario.signpost_file None = Ret unbatched
     /\ Batching.deliver Scenario.accept_all calls []
        = Ret [[Scenario.signpost_file_entry]]
     /\ List.concat (map fst calls) = fl_logs unbatched)
  /\ exists s',
       Scenario.loop_step Scenario.signpost_file (Some Scenario.accept_all)
         (Scenario.at_data_chunk Scenario.pending_records []) = Ret s'
       /\ fl_logs s' = []
       /\ fl_delivered s'
          = [Scenario.pending_records ++ [Scenario.signpost_file_entry]].
Proof.
  assert (H : Scenario.parse_file_object Scenario.signpost_file
                (Some Scenario.accept_all)
              = Ret (Scenario.after_data_chunk [Scenario.signpost_file_entry]
                       [[Scenario.signpost_file_entry]]))
    by (vm_compute; reflexivity).
  assert (H0 : Scenario.loop_step Scenario.signpost_file None
                 (Scenario.at_data_chunk [] [])
               = Ret (Scenario.after_data_chunk
                        [Scenario.signpost_file_entry] []))
    by (vm_compute; reflexivity).
  assert (Hstep : Scenario.loop_step Scenario.signpost_file
                    (Some Scenario.accept_all)
                    (Scenario.at_data_chunk Scenario.pending_records [])
                  = Ret (Scenario.after_data_chunk []
                           [Scenario.pending_records
                              ++ [Scenario.signpost_file_entry]])).
  { unfold Scenario.loop_step in *.
    destruct (loop_step_shape _ _ _ _ _ _ _ _ _ _ _ _ _ _ _ H0)
      as (new & Hflush & Hany).
    cbn [flush_if_full fl_logs fl_delivered Scenario.at_data_chunk
         Scenario.after_data_chunk app] in Hflush.
    injection Hflush as ->.
    specialize (Hany (Some Scenario.accept_all) Scenario.pending_records []).
    cbn [fl_pos fl_self fl_catalog fl_meta_chunk_index
         fl_uncompressed_file_pos Scenario.at_data_chunk
         Scenario.after_data_chunk] in Hany.
    unfold Scenario.at_data_chunk, Scenario.after_data_chunk.
    rewrite Hany. unfold flush_if_full.
    destruct (Z.gtb_spec
                (Z.of_nat (length (Scenario.pending_records
                                     ++ [Scenario.signpost_file_entry])))
                100000) as [_|Hle].
    - reflexivity.
    - rewrite length_app, Nat2Z.inj_add, pending_records_length in Hle.
      simpl in Hle. lia. }
  unfold Scenario.parse_file_object, Scenario.loop_step in *.
  destruct (batches_partition_the_records Scenario.Item Scenario.read_items
              Scenario.read_items2 Scenario.recreate Scenario.no_subsystem
              Scenario.no_other_uuidtext Scenario.apfs_time
              Scenario.no_entries Scenario.no_entries Scenario.demo_meta
              Scenario.no_lz4 "demo.tracev3"%string Scenario.demo_ts_list
              Scenario.signpost_file
              (Z.of_nat (length Scenario.signpost_file)) Scenario.accept_all
              _ H)
    as [(unbatched & calls & full & Hrun & _ & Hcalls & Hrecords & _)
          [Hpass _]].
  split.
  - exists unbatched, calls.
    split; [exact H|]. split; [exact Hrun|]. split; [exact Hcalls|].
    exact Hrecords.
  - eexists. split; [exact Hstep|].
    destruct (Hpass _ _ Hstep) as (new & Hnone & Hif).
    cbn [fl_logs fl_delivered Scenario.at_data_chunk
         Scenario.after_data_chunk] in Hif |- *.
    destruct (loop_step_shape _ _ _ _ _ _ _ _ _ _ _ _ _ _ _ H0)
      as (new0 & Hflush & Hany).
    cbn [flush_if_full fl_logs fl_delivered Scenario.at_data_chunk
         Scenario.after_data_chunk app] in Hflush.
    injection Hflush as ->.
    specialize (Hany None Scenario.pending_records []).
    cbn [fl_pos fl_self fl_catalog fl_meta_chunk_index
         fl_uncompressed_file_pos fl_logs fl_delivered
         Scenario.at_data_chunk Scenario.after_data_chunk flush_if_full
         Py.bind] in Hany, Hnone.
    unfold Scenario.at_data_chunk in Hnone. rewrite Hany in Hnone.
    apply (f_equal (fun r => match r with
                             | Ret t => fl_logs t
                             | Raise _ => []
                             end)) in Hnone.
    cbn [fl_logs] in Hnone. apply app_inv_head in Hnone. subst new.
    destruct (Z.gtb_spec
                (Z.of_nat (length (Scenario.pending_records
                                     ++ [Scenario.signpost_file_entry])))
                100000) as [_|Hle].
    + destruct Hif as [Hlogs _]. split; reflexivity.
    + rewrite length_app, Nat2Z.inj_add, pending_records_length in Hle.
      simpl in Hle. lia.
Defined.

(** The one record of [signpost_file] reaches the callback in the final
    flush, as a batch of its own. *)
Example signpost_file_batches :
  (let* final :=
     Scenario.parse_file_object Scenario.signpost_file
       (Some Scenario.accept_all) in
   Ret (List.map (List.map (fun e => (le_log_file_pos e, le_log_type e,
                                      le_signpost_string e)))
          (fl_delivered final)))
  = Ret [[(168, "Default", "spid 0xdeadbeef, process, begin")%string]].
Proof. vm_compute. reflexivity. Qed.

(** * Part III: further properties of the parsers *)

(** ** Bytes and slices *)

Lemma length_le_bytes (n : nat) (v : Z) : length (le_bytes n v) = n.
Proof.
  revert v. induction n as [|n IH]; intros v; simpl; [reflexivity|].
  now rewrite IH.
Qed.

Lemma byte_val_of_N (v : Z) :
  0 <= v < 256 ->
  byte_val (match Byte.of_N (Z.to_N v) with Some b => b | None => x00 end) = v.
Proof.
  intros Hv. destruct (Byte.of_N (Z.to_N v)) as [b|] eqn:E.
  - apply Byte.to_of_N in E. unfold byte_val. rewrite E. lia.
  - apply Byte.of_N_None_iff in E. lia.
Qed.

(** Decoding an encoded value gives it back, up to the width of the field. *)
Lemma le_uint_le_bytes_mod (n : nat) (v : Z) :
  0 <= v -> le_uint (le_bytes n v) = v mod 256 ^ Z.of_nat n.
Proof.
  revert v. induction n as [|n IH]; intros v Hv.
  - simpl. now rewrite Z.mod_1_r.
  - cbn [le_bytes le_uint].
    rewrite byte_val_of_N by (apply Z.mod_pos_bound; lia).
    rewrite IH by (apply Z.div_pos; lia).
    rewrite Nat2Z.inj_succ, Z.pow_succ_r by lia.
    rewrite Z.rem_mul_r by lia. reflexivity.
Qed.

Lemma le_uint_le_bytes (n : nat) (v : Z) :
  0 <= v < 256 ^ Z.of_nat n -> le_uint (le_bytes n v) = v.
Proof.
  intros Hv. rewrite le_uint_le_bytes_mod by lia. apply Z.mod_small. lia.
Qed.

Lemma le_uint_bound (bs : bytes) :
  0 <= le_uint bs < 256 ^ Z.of_nat (length bs).
Proof.
  induction bs as [|b rest IH]; [simpl; lia|].
  cbn [le_uint length]. rewrite Nat2Z.inj_succ, Z.pow_succ_r by lia.
  pose proof (Tracev3Proofs.byte_val_range b). lia.
Qed.

Lemma py_slice_nonneg {A} (l : list A) (lo hi : Z) :
  0 <= lo -> lo <= hi ->
  py_slice l lo hi = take (Z.to_nat (hi - lo)) (drop (Z.to_nat lo) l).
Proof.
  intros Hlo Hhi. unfold py_slice, py_norm.
  destruct (Z.ltb_spec lo 0); [lia|]. destruct (Z.ltb_spec hi 0); [lia|].
  destruct (Z.le_gt_cases lo (Z.of_nat (length l))) as [Hin|Hout].
  - rewrite (Z.min_l lo) by lia.
    destruct (Z.le_gt_cases hi (Z.of_nat (length l))) as [Hhin|Hhout].
    + now rewrite Z.min_l by lia.
    + rewrite Z.min_r by lia.
      rewrite !take_ge; [reflexivity| |]; rewrite length_drop; lia.
  - rewrite !Z.min_r by lia. rewrite Z.sub_diag. simpl.
    rewrite (drop_ge l (Z.to_nat lo)) by lia. now rewrite take_nil.
Qed.

Lemma py_slice_length {A} (l : list A) (lo n : Z) :
  0 <= lo -> 0 <= n -> lo + n <= Z.of_nat (length l) ->
  Z.of_nat (length (py_slice l lo (lo + n))) = n.
Proof.
  intros Hlo Hn Hfit. rewrite py_slice_nonneg by lia.
  rewrite length_take, length_drop. lia.
Qed.

(** A slice has the full length asked for only if the list reaches that
    far. *)
Lemma py_slice_length_inv {A} (l : list A) (lo n : Z) :
  0 <= lo -> 0 < n ->
  Z.of_nat (length (py_slice l lo (lo + n))) = n ->
  lo + n <= Z.of_nat (length l).
Proof.
  intros Hlo Hn. rewrite py_slice_nonneg by lia.
  rewrite length_take, length_drop. lia.
Qed.

Lemma py_slice_skip {A} (pre l : list A) (n lo hi lo' hi' : Z) :
  Z.of_nat (length pre) = n -> lo = n + lo' -> hi = n + hi' ->
  0 <= lo' -> lo' <= hi' ->
  py_slice (pre ++ l) lo hi = py_slice l lo' hi'.
Proof.
  intros Hn -> -> Hlo Hhi. rewrite !py_slice_nonneg by lia.
  replace (n + hi' - (n + lo')) with (hi' - lo') by lia.
  replace (Z.to_nat (n + lo')) with (length pre + Z.to_nat lo')%nat by lia.
  now rewrite drop_app_add.
Qed.

Lemma py_slice_take {A} (a b : list A) (hi : Z) :
  Z.of_nat (length a) = hi -> py_slice (a ++ b) 0 hi = a.
Proof.
  intros Hn. rewrite py_slice_nonneg by lia. simpl.
  rewrite Z.sub_0_r. apply take_app_length'. lia.
Qed.

Lemma py_slice_whole {A} (l : list A) (hi : Z) :
  Z.of_nat (length l) = hi -> py_slice l 0 hi = l.
Proof.
  intros Hn. rewrite <- (app_nil_r l) at 1. now apply py_slice_take.
Qed.

Lemma bytes_eqb_eq (a b : bytes) : bytes_eqb a b = true <-> a = b.
Proof.
  unfold bytes_eqb. split.
  - intros H. apply andb_prop in H. destruct H as [Hlen Hall].
    apply Nat.eqb_eq in Hlen. revert b Hlen Hall.
    induction a as [|x a IH]; intros [|y b] Hlen Hall; simpl in *;
      try discriminate; [reflexivity|].
    apply andb_prop in Hall. destruct Hall as [Hxy Hall].
    apply Byte.byte_dec_bl in Hxy. subst y. f_equal.
    apply IH; [lia|exact Hall].
  - intros <-. apply andb_true_intro. split; [apply Nat.eqb_refl|].
    induction a as [|x a IH]; simpl; [reflexivity|].
    rewrite IH, andb_true_r. apply Byte.byte_dec_lb. reflexivity.
Qed.

Lemma bytes_eqb_refl (a : bytes) : bytes_eqb a a = true.
Proof. now apply bytes_eqb_eq. Qed.

(** ** One pass of a [while] loop *)

Lemma while_loop_done {S : Type} (fuel : nat) (cond : S -> bool)
    (body : S -> result S) (s : S) :
  cond s = false -> while_loop fuel cond body s = Ret s.
Proof. intros Hc. destruct fuel; simpl; now rewrite Hc. Qed.

Lemma while_loop_step {S : Type} (fuel : nat) (cond : S -> bool)
    (body : S -> result S) (s : S) :
  cond s = true ->
  while_loop (Datatypes.S fuel) cond body s
  = match body s with
    | Ret s' => while_loop fuel cond body s'
    | Raise e => Raise e
    end.
Proof. intros Hc. simpl. now rewrite Hc. Qed.

(** ** Decompression of a data chunk *)

Section DecompressFacts.

Import Lz4Blocks.

Variable lz4_block_decompress : bytes -> Z -> bytes -> result bytes.

Local Abbreviation decompress := (_DecompressChunkData lz4_block_decompress).
Local Abbreviation step := (lz4_step lz4_block_decompress).
Local Abbreviation contents := (decode_blocks lz4_block_decompress).

Lemma encode_blocks_cons (b : Block) (blocks : list Block) :
  encode_blocks (b :: blocks) = encode_block b ++ encode_blocks blocks.
Proof. unfold encode_blocks. simpl. now rewrite <- app_assoc. Qed.

Lemma lz4_step_lz4_block (pre rest acc dict c : bytes) (n : Z) :
  0 <= n < 2 ^ 32 -> Z.of_nat (length c) < 2 ^ 32 ->
  step (pre ++ encode_block (Lz4Block n c) ++ rest)
    (mkLz4State acc dict (Z.of_nat (length pre)) bv41 false)
  = let* out := lz4_block_decompress c n dict in
    Ret (mkLz4State (acc ++ out) out
           (Z.of_nat (length (pre ++ encode_block (Lz4Block n c))))
           (py_slice rest 0 4) false).
Proof.
  intros Hn Hc. unfold lz4_step.
  cbn [comp_header comp_start last_uncompressed uncompressed].
  change (bytes_eqb bv41 bv41) with true. cbv iota.
  set (start := Z.of_nat (length pre)).
  set (sizes := le_bytes 4 n ++ le_bytes 4 (Z.of_nat (length c))).
  assert (Hchunk : pre ++ encode_block (Lz4Block n c) ++ rest
                   = (pre ++ bv41) ++ sizes ++ c ++ rest).
  { unfold sizes. simpl. now rewrite <- !app_assoc. }
  assert (Hpre4 : Z.of_nat (length (pre ++ bv41)) = start + 4).
  { rewrite length_app. subst start. simpl. lia. }
  assert (Hsizes : Z.of_nat (length sizes) = 8).
  { unfold sizes. now rewrite length_app, !length_le_bytes. }
  rewrite Hchunk.
  rewrite (py_slice_skip (pre ++ bv41) _ (start + 4) _ _ 0 8) by lia.
  rewrite (py_slice_take sizes) by exact Hsizes.
  unfold struct_size. rewrite Hsizes. cbn [Z.eqb Pos.eqb Py.bind].
  unfold uint_at.
  assert (H1 : py_slice sizes 0 (0 + 4) = le_bytes 4 n).
  { unfold sizes. apply py_slice_take. now rewrite length_le_bytes. }
  assert (H2 : py_slice sizes 4 (4 + 4)
               = le_bytes 4 (Z.of_nat (length c))).
  { unfold sizes.
    rewrite (py_slice_skip (le_bytes 4 n) _ 4 _ _ 0 4)
      by (rewrite ?length_le_bytes; lia).
    apply py_slice_whole. now rewrite length_le_bytes. }
  rewrite H1, H2. rewrite !le_uint_le_bytes by (simpl; lia).
  assert (Hpre12 : Z.of_nat (length ((pre ++ bv41) ++ sizes)) = start + 12).
  { rewrite length_app. lia. }
  assert (Hc' : py_slice ((pre ++ bv41) ++ sizes ++ c ++ rest) (start + 12)
                  (start + 12 + Z.of_nat (length c)) = c).
  { rewrite (app_assoc (pre ++ bv41)).
    rewrite (py_slice_skip ((pre ++ bv41) ++ sizes) _ (start + 12) _ _ 0
               (Z.of_nat (length c))) by lia.
    now apply py_slice_take. }
  rewrite Hc'.
  destruct (lz4_block_decompress c n dict) as [out|e]; [|reflexivity].
  cbn [Py.bind]. f_equal. f_equal.
  - unfold encode_block. rewrite !length_app, !length_le_bytes.
    change (length bv41) with 4%nat. subst start. lia.
  - rewrite (app_assoc (pre ++ bv41)), (app_assoc _ c).
    apply (py_slice_skip _ _ (start + (12 + Z.of_nat (length c)))); try lia.
    rewrite length_app. lia.
Qed.

Lemma lz4_step_stored_block (pre rest acc dict raw : bytes) :
  Z.of_nat (length raw) < 2 ^ 32 ->
  step (pre ++ encode_block (StoredBlock raw) ++ rest)
    (mkLz4State acc dict (Z.of_nat (length pre)) bv4_dash false)
  = Ret (mkLz4State (acc ++ raw) dict
           (Z.of_nat (length (pre ++ encode_block (StoredBlock raw))))
           (py_slice rest 0 4) false).
Proof.
  intros Hraw. unfold lz4_step.
  cbn [comp_header comp_start last_uncompressed uncompressed].
  change (bytes_eqb bv4_dash bv41) with false.
  change (bytes_eqb bv4_dash bv4_dash) with true. cbv iota.
  set (start := Z.of_nat (length pre)).
  set (size := le_bytes 4 (Z.of_nat (length raw))).
  assert (Hchunk : pre ++ encode_block (StoredBlock raw) ++ rest
                   = (pre ++ bv4_dash) ++ size ++ raw ++ rest).
  { unfold size. simpl. now rewrite <- !app_assoc. }
  assert (Hpre4 : Z.of_nat (length (pre ++ bv4_dash)) = start + 4).
  { rewrite length_app. subst start. simpl. lia. }
  assert (Hsize : Z.of_nat (length size) = 4).
  { unfold size. now rewrite length_le_bytes. }
  rewrite Hchunk. unfold unpack_uint.
  rewrite (py_slice_skip (pre ++ bv4_dash) _ (start + 4) _ _ 0 4) by lia.
  rewrite (py_slice_take size) by exact Hsize.
  unfold struct_size. rewrite Hsize. cbn [Z.eqb Pos.eqb Py.bind].
  assert (Hv : le_uint size = Z.of_nat (length raw))
    by (unfold size; apply le_uint_le_bytes; simpl; lia).
  rewrite !Hv.
  assert (Hpre8 : Z.of_nat (length ((pre ++ bv4_dash) ++ size)) = start + 8).
  { rewrite length_app. lia. }
  f_equal. f_equal.
  - f_equal. rewrite (app_assoc (pre ++ bv4_dash)).
    rewrite (py_slice_skip ((pre ++ bv4_dash) ++ size) _ (start + 8) _ _ 0
               (Z.of_nat (length raw))) by lia.
    now apply py_slice_take.
  - unfold encode_block. rewrite !length_app, !length_le_bytes.
    change (length bv4_dash) with 4%nat. subst start. lia.
  - rewrite (app_assoc (pre ++ bv4_dash)), (app_assoc _ raw).
    apply (py_slice_skip _ _ (start + (8 + Z.of_nat (length raw)))); try lia.
    rewrite length_app. lia.
Qed.

Lemma encode_blocks_magic (blocks : list Block) :
  py_slice (encode_blocks blocks) 0 4
  = match blocks with
    | [] => bv4_end
    | Lz4Block _ _ :: _ => bv41
    | StoredBlock _ :: _ => bv4_dash
    end.
Proof.
  destruct blocks as [|[n c|raw] blocks]; [reflexivity| |];
    rewrite encode_blocks_cons; unfold encode_block; rewrite <- !app_assoc;
    now apply py_slice_take.
Qed.

Lemma encode_blocks_length (blocks : list Block) :
  (4 <= length (encode_blocks blocks))%nat.
Proof. unfold encode_blocks. rewrite length_app. simpl. lia. Qed.

(** The block loop, started anywhere in a chunk at the head of a sequence
    of blocks, appends what the blocks hold. *)
Lemma lz4_loop_blocks (blocks : list Block) :
  forall (pre acc dict : bytes) (fuel : nat) (data_len : Z),
    Forall block_fits blocks ->
    data_len = Z.of_nat (length (pre ++ encode_blocks blocks)) ->
    (length blocks <= fuel)%nat ->
    (let* s :=
       while_loop fuel
         (fun s => negb (stopped s) && (data_len >? comp_start s)
                   && negb (bytes_eqb (comp_header s) bv4_end))
         (step (pre ++ encode_blocks blocks))
         (mkLz4State acc dict (Z.of_nat (length pre))
            (py_slice (encode_blocks blocks) 0 4) false) in
     Ret (uncompressed s))
    = (let* tail := contents dict blocks in Ret (acc ++ tail)).
Proof.
  induction blocks as [|b blocks IH];
    intros pre acc dict fuel data_len Hfit Hlen Hfuel.
  - rewrite while_loop_done.
    + simpl. now rewrite app_nil_r.
    + cbn [stopped comp_start comp_header]. rewrite encode_blocks_magic.
      rewrite bytes_eqb_refl. apply andb_false_r.
  - destruct fuel as [|fuel]; [simpl in Hfuel; lia|].
    apply Forall_cons in Hfit. destruct Hfit as [Hb Hfit].
    pose proof (encode_blocks_length (b :: blocks)) as Hlong.
    rewrite length_app in Hlen.
    rewrite while_loop_step.
    2:{ cbn [stopped comp_start comp_header]. rewrite encode_blocks_magic.
        destruct (Z.gtb_spec data_len (Z.of_nat (length pre))) as [_|?];
          [|lia].
        now destruct b. }
    rewrite encode_blocks_magic, encode_blocks_cons.
    assert (Hlen' : data_len
                    = Z.of_nat (length ((pre ++ encode_block b)
                                          ++ encode_blocks blocks))).
    { rewrite Hlen, encode_blocks_cons, !length_app. lia. }
    simpl in Hfuel.
    destruct b as [n c|raw]; simpl in Hb.
    + rewrite lz4_step_lz4_block by tauto. cbn [contents].
      destruct (lz4_block_decompress c n dict) as [out|e]; [|reflexivity].
      cbn [Py.bind]. rewrite app_assoc.
      rewrite (IH (pre ++ encode_block (Lz4Block n c)) (acc ++ out) out fuel
                 data_len Hfit Hlen') by lia.
      destruct (contents out blocks) as [tail|e]; [|reflexivity].
      simpl. now rewrite app_assoc.
    + rewrite lz4_step_stored_block by exact Hb. cbn [contents].
      rewrite app_assoc.
      rewrite (IH (pre ++ encode_block (StoredBlock raw)) (acc ++ raw) dict
                 fuel data_len Hfit Hlen') by lia.
      destruct (contents dict blocks) as [tail|e]; [|reflexivity].
      simpl. now rewrite app_assoc.
Qed.

(** X1.  A compressed chunk that consists of LZ4 and stored blocks closed
    by the end marker decompresses to what its blocks hold: each LZ4 block
    is decompressed with the output of the LZ4 block before it as
    dictionary, each stored block is copied, and the outputs are joined in
    order.  A failure of the LZ4 decompressor is passed on. *)
Theorem decompress_blocks (blocks : list Block) :
  Forall block_fits blocks ->
  decompress (encode_blocks blocks)
    (Z.of_nat (length (encode_blocks blocks)))
  = contents [] blocks.
Proof.
  intros Hfit. unfold _DecompressChunkData. cbv zeta.
  rewrite encode_blocks_magic.
  set (data_len := Z.of_nat (length (encode_blocks blocks))).
  assert (Hloop := lz4_loop_blocks blocks [] [] [] (Z.to_nat data_len)
                     data_len Hfit eq_refl).
  cbn [app] in Hloop. change (Z.of_nat (length [])) with 0 in Hloop.
  rewrite encode_blocks_magic in Hloop.
  assert (Hfuel : (length blocks <= Z.to_nat data_len)%nat).
  { subst data_len. rewrite Nat2Z.id. unfold encode_blocks.
    rewrite length_app.
    assert (length blocks <= length (concat (map encode_block blocks)))%nat;
      [|lia].
    clear. induction blocks as [|b blocks IH]; [simpl; lia|].
    cbn [map concat length]. rewrite length_app.
    assert (1 <= length (encode_block b))%nat; [|lia].
    destruct b; unfold encode_block; rewrite length_app; simpl; lia. }
  specialize (Hloop Hfuel).
  destruct blocks as [|[n c|raw] blocks].
  - reflexivity.
  - change (bytes_eqb bv41 bv41 || bytes_eqb bv41 bv4_dash) with true.
    cbv iota. rewrite Hloop.
    destruct (contents [] (Lz4Block n c :: blocks)); reflexivity.
  - change (bytes_eqb bv4_dash bv41 || bytes_eqb bv4_dash bv4_dash) with true.
    cbv iota. rewrite Hloop.
    destruct (contents [] (StoredBlock raw :: blocks)); reflexivity.
Qed.

End DecompressFacts.

Lemma decompress_blocks_witness :
  Forall Lz4Blocks.block_fits
    [Lz4Blocks.StoredBlock (list_byte_of_string "abc");
     Lz4Blocks.Lz4Block 5 (list_byte_of_string "xy");
     Lz4Blocks.StoredBlock []]
  /\ _DecompressChunkData (fun c n dict => Ret (dict ++ c))
       (Lz4Blocks.encode_blocks
          [Lz4Blocks.StoredBlock (list_byte_of_string "abc");
           Lz4Blocks.Lz4Block 5 (list_byte_of_string "xy");
           Lz4Blocks.StoredBlock []])
       (Z.of_nat
          (length
             (Lz4Blocks.encode_blocks
                [Lz4Blocks.StoredBlock (list_byte_of_string "abc");
                 Lz4Blocks.Lz4Block 5 (list_byte_of_string "xy");
                 Lz4Blocks.StoredBlock []])))
     = Ret (list_byte_of_string "abcxy").
Proof.
  assert (Hfit : Forall Lz4Blocks.block_fits
                   [Lz4Blocks.StoredBlock (list_byte_of_string "abc");
                    Lz4Blocks.Lz4Block 5 (list_byte_of_string "xy");
                    Lz4Blocks.StoredBlock []]).
  { repeat constructor; simpl; lia. }
  split; [exact Hfit|].
  rewrite (decompress_blocks (fun c n dict => Ret (dict ++ c)) _ Hfit).
  reflexivity.
Defined.

(** ** The dsc parser: the uuid table, truncated files and lookups *)

Section DscFacts.

Import DscFile DscSpec DscProofs DscLayout.

(** What the uuid loop keeps true of the list and the dict it builds. *)
Lemma uuid_entries_loop_inv n major off f entries dict entries' dict' f' :
  uuid_entries_loop n major off f entries dict = Ret (entries', dict', f') ->
  (forall k e, dict !! k = Some e -> u_v_off e = k /\ e ∈ entries) ->
  (forall e, e ∈ entries -> dict !! u_v_off e = Some e) ->
  NoDup (map u_v_off entries) ->
  (forall k e, dict' !! k = Some e -> u_v_off e = k /\ e ∈ entries')
  /\ (forall e, e ∈ entries' -> dict' !! u_v_off e = Some e)
  /\ NoDup (map u_v_off entries')
  /\ length entries' = (length entries + n)%nat.
Proof.
  revert off f entries dict.
  induction n as [|n IH]; intros off f entries dict Hrun Hown Hlisted Hnd.
  - simpl in Hrun. injection Hrun as <- <- <-.
    split; [exact Hown|]. split; [exact Hlisted|]. split; [exact Hnd|]. lia.
  - simpl in Hrun. bind_inv Hrun. destruct a as [[e off1] f1].
    destruct (dict !! u_v_off e) eqn:Hfresh; [discriminate|].
    apply IH in Hrun.
    + destruct Hrun as (H1 & H2 & H3 & H4).
      split; [exact H1|]. split; [exact H2|]. split; [exact H3|].
      rewrite H4, length_app. simpl. lia.
    + intros k e'. rewrite lookup_insert. case_decide as Hk.
      * intros [= <-]. split; [exact Hk|].
        apply elem_of_app. right. now apply list_elem_of_singleton.
      * intros He'. destruct (Hown k e' He'). split; [assumption|].
        apply elem_of_app. now left.
    + intros e' He'. apply elem_of_app in He'. destruct He' as [He'|He'].
      * rewrite lookup_insert_ne; [now apply Hlisted|].
        intros Heq. apply Hlisted in He'. congruence.
      * apply list_elem_of_singleton in He'. subst e'.
        now rewrite lookup_insert_eq.
    + rewrite map_app. apply NoDup_app. split; [exact Hnd|]. split.
      * intros k Hk Hk'. simpl in Hk'. apply list_elem_of_singleton in Hk'.
        subst k. apply list_elem_of_fmap in Hk.
        destruct Hk as (e' & Heq & He'). apply Hlisted in He'. congruence.
      * simpl. apply NoDup_singleton.
Qed.

(** A record read in full lies inside the file. *)
Lemma read_range_entry_offset major f e f' :
  read_range_entry major f = Ret (e, f') -> 0 <= offset f ->
  contents f' = contents f
  /\ offset f' = offset f + range_record_size major
  /\ offset f' <= Z.of_nat (length (contents f)).
Proof.
  unfold read_range_entry, range_record_size. intros H Hoff.
  read_fixed_in H. unfold file_read in H.
  destruct (major =? 1).
  - bind_inv H. injection H as <- <-. cbn [contents offset].
    unfold struct_size in Hm.
    destruct (Z.eqb_spec
                (Z.of_nat (length (py_slice (contents f) (offset f)
                                     (offset f + 16)))) 16) as [Hlen|];
      [|discriminate].
    split; [reflexivity|]. rewrite Hlen.
    apply py_slice_length_inv in Hlen; lia.
  - destruct (major =? 2); [|discriminate].
    bind_inv H. injection H as <- <-. cbn [contents offset].
    unfold struct_size in Hm.
    destruct (Z.eqb_spec
                (Z.of_nat (length (py_slice (contents f) (offset f)
                                     (offset f + 24)))) 24) as [Hlen|];
      [|discriminate].
    split; [reflexivity|]. rewrite Hlen.
    apply py_slice_length_inv in Hlen; lia.
Qed.

Lemma range_entries_loop_offset n major f entries entries' f' :
  range_entries_loop n major f entries = Ret (entries', f') ->
  0 <= offset f <= Z.of_nat (length (contents f)) ->
  contents f' = contents f
  /\ offset f' = offset f + Z.of_nat n * range_record_size major
  /\ offset f' <= Z.of_nat (length (contents f)).
Proof.
  revert f entries. induction n as [|n IH]; intros f entries Hrun Hoff.
  - simpl in Hrun. injection Hrun as <- <-. split; [reflexivity|]. lia.
  - simpl in Hrun. bind_inv Hrun. destruct a as [e f1].
    destruct (entries !! v_off e); [discriminate|].
    apply read_range_entry_offset in Hm; [|lia].
    destruct Hm as (Hc & Ho & Hle).
    assert (0 <= range_record_size major)
      by (unfold range_record_size; destruct (major =? 1); lia).
    apply IH in Hrun; [|rewrite Hc; lia].
    destruct Hrun as (Hc' & Ho' & Hle'). rewrite Hc in *.
    split; [exact Hc'|]. split; [|exact Hle']. lia.
Qed.

Lemma read_uuid_entry_offset major off f e off' f' :
  read_uuid_entry major off f = Ret (e, off', f') -> 0 <= off ->
  contents f' = contents f
  /\ off' = off + uuid_record_size major
  /\ off' <= Z.of_nat (length (contents f)).
Proof.
  unfold read_uuid_entry, uuid_record_size, file_seek. intros H Hoff.
  read_fixed_in H. unfold file_read in H. cbn [contents offset] in H.
  destruct (major =? 1).
  - bind_inv H. bind_inv H. bind_inv H. injection H as <- <- <-.
    cbn [contents]. split; [reflexivity|]. split; [reflexivity|].
    set (data := py_slice (contents f) off (off + 28)) in *.
    unfold struct_size in Hm1.
    destruct (Z.eqb_spec (Z.of_nat (length (py_slice_from data 24))) 4)
      as [Htail|]; [|discriminate].
    assert (Hdata : Z.of_nat (length data) = 28).
    { unfold py_slice_from, py_norm in Htail. rewrite length_drop in Htail.
      pose proof (Tracev3Proofs.py_slice_length_le (contents f) off
                    (off + 28) ltac:(lia) ltac:(lia)) as Hmax.
      fold data in Hmax. simpl in Htail. lia. }
    apply py_slice_length_inv in Hdata; lia.
  - destruct (major =? 2); [|discriminate].
    bind_inv H. bind_inv H. bind_inv H. injection H as <- <- <-.
    cbn [contents]. split; [reflexivity|]. split; [reflexivity|].
    set (data := py_slice (contents f) off (off + 32)) in *.
    unfold struct_size in Hm1.
    destruct (Z.eqb_spec (Z.of_nat (length (py_slice_from data 28))) 4)
      as [Htail|]; [|discriminate].
    assert (Hdata : Z.of_nat (length data) = 32).
    { unfold py_slice_from, py_norm in Htail. rewrite length_drop in Htail.
      pose proof (Tracev3Proofs.py_slice_length_le (contents f) off
                    (off + 32) ltac:(lia) ltac:(lia)) as Hmax.
      fold data in Hmax. simpl in Htail. lia. }
    apply py_slice_length_inv in Hdata; lia.
Qed.

Lemma uuid_entries_loop_offset n major off f entries dict entries' dict' f' :
  uuid_entries_loop n major off f entries dict = Ret (entries', dict', f') ->
  0 <= off <= Z.of_nat (length (contents f)) ->
  off + Z.of_nat n * uuid_record_size major <= Z.of_nat (length (contents f)).
Proof.
  revert off f entries dict.
  induction n as [|n IH]; intros off f entries dict Hrun Hoff.
  - lia.
  - simpl in Hrun. bind_inv Hrun. destruct a as [[e off1] f1].
    destruct (dict !! u_v_off e); [discriminate|].
    apply read_uuid_entry_offset in Hm; [|lia].
    destruct Hm as (Hc & Ho & Hle).
    assert (0 <= uuid_record_size major)
      by (unfold uuid_record_size; destruct (major =? 1); lia).
    apply IH in Hrun; [|rewrite Hc; lia]. rewrite Hc in Hrun. lia.
Qed.

Lemma uuid_entries_loop_size n major off f entries dict entries' dict' f' :
  uuid_entries_loop n major off f entries dict = Ret (entries', dict', f') ->
  size dict' = (size dict + n)%nat.
Proof.
  revert off f entries dict. induction n as [|n IH];
    intros off f entries dict Hrun.
  - simpl in Hrun. injection Hrun as <- <- <-. lia.
  - simpl in Hrun. bind_inv Hrun. destruct a as [[e off1] f1].
    destruct (dict !! u_v_off e) eqn:Hfresh; [discriminate|].
    apply IH in Hrun. rewrite Hrun, map_size_insert_None by exact Hfresh. lia.
Qed.

Lemma uint_at_nonneg_top (data : bytes) (off n : Z) : 0 <= uint_at data off n.
Proof. apply Tracev3Proofs.le_uint_nonneg. Qed.

(** The parts of a successful parse. *)
Lemma parse_ok_inv (f : FileObj) (d : Dsc) :
  _ParseFileObject f = Ret (true, d) ->
  exists major minor ranges f1 uuids dict f2,
    let fields := py_slice (fst (file_read f 16)) 4 16 in
    Z.of_nat (length fields) = 12
    /\ major = uint_at fields 0 2 /\ minor = uint_at fields 2 2
    /\ range_entries_loop (Z.to_nat (uint_at fields 4 4)) major
         (snd (file_read f 16)) ∅ = Ret (ranges, f1)
    /\ uuid_entries_loop (Z.to_nat (uint_at fields 8 4)) major (offset f1) f1
         [] ∅ = Ret (uuids, dict, f2)
    /\ d = mkDsc (Some (major, minor)) uuids dict (sorted_keys dict)
             (Z.of_nat (length (sorted_keys dict))) ranges
             (sorted_keys ranges) (Z.of_nat (length (sorted_keys ranges))).
Proof.
  unfold _ParseFileObject. read_fixed.
  destruct (file_read f 16) as [hdr f0].
  cbn [fst snd]. destruct (negb _).
  - simpl. discriminate.
  - intros H. bind_inv H.
    destruct (_ >? 2); [discriminate|].
    bind_inv H. destruct a0 as [ranges f1].
    bind_inv H. destruct a0 as [[uuids dict] f2].
    injection H as <-.
    exists (uint_at (py_slice hdr 4 16) 0 2), (uint_at (py_slice hdr 4 16) 2 2),
      ranges, f1, uuids, dict, f2.
    cbv zeta. repeat split; try assumption.
    unfold struct_size in Hm.
    destruct (Z.eqb_spec (Z.of_nat (length (py_slice hdr 4 16))) 12);
      [assumption|discriminate].
Qed.

(** X2.  The uuid table of a parsed dsc file: as many entries as the header
    announces, no two with the same [v_off], the same entries in the list
    and in the dict, and the offsets list strictly increasing and made of
    exactly the entries' [v_off] values. *)
Theorem parsed_uuid_entries_unique_sorted (f : FileObj) (d : Dsc) :
  _ParseFileObject f = Ret (true, d) ->
  Z.of_nat (length (uuid_entries d))
  = uint_at (py_slice (fst (file_read f 16)) 4 16) 8 4
  /\ num_uuid_entries d = Z.of_nat (length (uuid_entries d))
  /\ NoDup (map u_v_off (uuid_entries d))
  /\ (forall e, e ∈ uuid_entries d
                <-> uuid_entry_dict d !! u_v_off e = Some e)
  /\ StronglySorted Z.lt (uuid_entry_offsets d)
  /\ (forall k, k ∈ uuid_entry_offsets d
                <-> exists e, e ∈ uuid_entries d /\ u_v_off e = k).
Proof.
  intros Hparse.
  destruct (parse_ok_inv f d Hparse)
    as (major & minor & ranges & f1 & uuids & dict & f2 & Hlen & -> & ->
        & Hranges & Huuids & ->).
  cbn [uuid_entries num_uuid_entries uuid_entry_dict uuid_entry_offsets].
  pose proof (uuid_entries_loop_size _ _ _ _ _ _ _ _ _ Huuids) as Hsize.
  rewrite map_size_empty in Hsize.
  apply uuid_entries_loop_inv in Huuids.
  - destruct Huuids as (Hown & Hlisted & Hnd & Hcount).
    cbn [length] in Hcount.
    pose proof (uint_at_nonneg_top (py_slice (fst (file_read f 16)) 4 16) 8 4).
    split; [lia|]. split; [rewrite sorted_keys_length; lia|].
    split; [exact Hnd|]. split.
    { intros e. split; [apply Hlisted|]. intros He. now apply Hown in He. }
    split; [apply sorted_keys_lt|].
    intros k. rewrite elem_of_sorted_keys. split.
    + intros [e He]. exists e. destruct (Hown k e He). now split.
    + intros (e & He & <-). exists e. now apply Hlisted.
  - intros k e. rewrite lookup_empty. discriminate.
  - intros e He. now apply elem_of_nil in He.
  - constructor.
Qed.

Lemma parsed_uuid_table (f : FileObj) (d : Dsc) :
  _ParseFileObject f = Ret (true, d) ->
  uuid_entry_offsets d = sorted_keys (uuid_entry_dict d)
  /\ num_uuid_entries d = Z.of_nat (length (sorted_keys (uuid_entry_dict d)))
  /\ (forall k e, uuid_entry_dict d !! k = Some e ->
                  u_v_off e = k /\ e ∈ uuid_entries d)
  /\ (forall e, e ∈ uuid_entries d -> uuid_entry_dict d !! u_v_off e = Some e).
Proof.
  intros Hparse.
  destruct (parse_ok_inv f d Hparse)
    as (major & minor & ranges & f1 & uuids & dict & f2 & Hlen & -> & ->
        & Hranges & Huuids & ->).
  cbn [uuid_entries num_uuid_entries uuid_entry_dict uuid_entry_offsets].
  apply uuid_entries_loop_inv in Huuids.
  - destruct Huuids as (Hown & Hlisted & _). auto.
  - intros k e. rewrite lookup_empty. discriminate.
  - intros e He. now apply elem_of_nil in He.
  - constructor.
Qed.

Lemma parsed_uuid_entries_count (f : FileObj) (d : Dsc) :
  _ParseFileObject f = Ret (true, d) ->
  length (sorted_keys (uuid_entry_dict d))
  = Z.to_nat (uint_at (py_slice (fst (file_read f 16)) 4 16) 8 4).
Proof.
  intros Hparse.
  destruct (parse_ok_inv f d Hparse)
    as (major & minor & ranges & f1 & uuids & dict & f2 & Hlen & -> & ->
        & Hranges & Huuids & ->).
  cbn [uuid_entry_dict]. apply uuid_entries_loop_size in Huuids.
  now rewrite sorted_keys_length, Huuids, map_size_empty.
Qed.

(** X3.  On a parsed dsc file the uuid lookup never raises, and it answers
    with an entry exactly when that entry starts at or before the offset,
    reaches beyond it, and no other entry starts later at or before the
    offset; otherwise it answers [None]. *)
Theorem uuid_entry_from_virtual_offset (f : FileObj) (d : Dsc) (v_offset : Z) :
  _ParseFileObject f = Ret (true, d) ->
  exists r,
    GetUuidEntryFromVirtualOffset d v_offset = Ret r
    /\ forall b,
         r = Some b
         <-> b ∈ uuid_entries d
             /\ u_v_off b <= v_offset < u_v_off b + u_size b
             /\ forall b', b' ∈ uuid_entries d -> u_v_off b' <= v_offset ->
                           u_v_off b' <= u_v_off b.
Proof.
  intros Hparse.
  destruct (parsed_uuid_table f d Hparse) as (Hoff & Hnum & Hown & Hlisted).
  unfold GetUuidEntryFromVirtualOffset. rewrite Hnum, Hoff.
  destruct (bisect_right_spec (sorted_keys (uuid_entry_dict d)) v_offset)
    as (pos & Hr & Hpos & Hbelow & Habove); [apply sorted_keys_le|].
  rewrite Hr. cbn [Py.bind].
  assert (Hkeys : forall b, b ∈ uuid_entries d ->
                    exists i, sorted_keys (uuid_entry_dict d) !! i
                              = Some (u_v_off b)).
  { intros b Hb. apply list_elem_of_lookup_1, elem_of_sorted_keys.
    exists b. now apply Hlisted. }
  destruct (Z.gtb_spec pos 0) as [Hgt|Hle].
  - destruct (lookup_lt_is_Some_2 (sorted_keys (uuid_entry_dict d))
                (Z.to_nat (pos - 1))) as [k Hk]; [lia|].
    rewrite (py_index_nonneg _ (pos - 1) k) by (lia || exact Hk).
    cbn [Py.bind].
    assert (Hin : k ∈ sorted_keys (uuid_entry_dict d))
      by (eapply list_elem_of_lookup_2; eauto).
    apply elem_of_sorted_keys in Hin. destruct Hin as [a Ha].
    rewrite Ha. destruct (Hown k a Ha) as [Hka Hain].
    assert (Hle : u_v_off a <= v_offset).
    { rewrite Hka. apply (Hbelow (pos - 1)); [lia|exact Hk]. }
    assert (Hmax : forall b', b' ∈ uuid_entries d ->
                     u_v_off b' <= v_offset -> u_v_off b' <= u_v_off a).
    { intros b' Hb' Hb'le. destruct (Hkeys b' Hb') as [i Hi]. rewrite Hka.
      destruct (Z.lt_ge_cases (Z.of_nat i) pos) as [Hlt|Hge].
      - eapply (sorted_lookup_le (sorted_keys (uuid_entry_dict d)) i
                  (Z.to_nat (pos - 1)));
          [apply sorted_keys_le| |exact Hi|exact Hk]. lia.
      - specialize (Habove (Z.of_nat i) (u_v_off b') Hge).
        rewrite Nat2Z.id in Habove. specialize (Habove Hi). lia. }
    destruct (Z.gtb_spec (u_v_off a + u_size a) v_offset) as [Hin|Hout].
    + exists (Some a). split; [reflexivity|]. intros b. split.
      * intros [= <-]. split; [exact Hain|]. split; [lia|exact Hmax].
      * intros (Hb & Hbin & Hbmax). f_equal.
        assert (u_v_off a = u_v_off b).
        { apply Z.le_antisymm; [apply Hbmax; assumption|].
          apply Hmax; [assumption|lia]. }
        apply Hlisted in Hb. apply Hlisted in Hain. congruence.
    + exists None. split; [reflexivity|]. intros b. split; [discriminate|].
      intros (Hb & Hbin & Hbmax).
      assert (u_v_off a = u_v_off b).
      { apply Z.le_antisymm; [apply Hbmax; assumption|].
        apply Hmax; [assumption|lia]. }
      apply Hlisted in Hb. apply Hlisted in Hain.
      assert (a = b) by congruence. subst b. lia.
  - exists None. split; [reflexivity|]. intros b. split; [discriminate|].
    intros (Hb & Hbin & _). destruct (Hkeys b Hb) as [i Hi].
    assert (v_offset < u_v_off b); [|lia].
    apply (Habove (Z.of_nat i)); [lia|]. now rewrite Nat2Z.id.
Qed.

(** X4.  A dsc file is parsed only if it holds every record that its header
    announces: when [Parse] returns [True], the header, the range records
    and the uuid records of the parsed version fit in the file, and the
    virtual file is left as it was. *)
Theorem parsed_dsc_holds_announced_records (v v' : VirtualFile) (data : bytes)
    (d : Dsc) :
  file_data v = Some data ->
  Parse v = Ret (true, v', d) ->
  v' = v
  /\ exists major minor,
       format_version d = Some (major, minor)
       /\ 16 + range_record_size major * num_range_entries d
             + uuid_record_size major * num_uuid_entries d
          <= Z.of_nat (length data).
Proof.
  intros Hdata. unfold Parse. rewrite Hdata.
  destruct (_ParseFileObject (mkFileObj data 0)) as [[r d0]|e] eqn:Hparse.
  - cbn [Py.bind]. destruct r; [|discriminate]. intros [= <- <-].
    split; [reflexivity|].
    pose proof (parsed_uuid_entries_count _ _ Hparse) as Hcount.
    pose proof (parse_announced _ _ Hparse) as Hranges.
    destruct (parse_ok_inv _ _ Hparse)
      as (major & minor & ranges & f1 & uuids & dict & f2 & Hlen & -> & ->
          & Hrloop & Huloop & ->).
    eexists _, _. split; [reflexivity|].
    cbn [num_range_entries num_uuid_entries uuid_entries range_entries] in *.
    unfold file_read in *. cbn [contents offset fst snd] in *.
    set (hdr := py_slice data 0 (0 + 16)) in *.
    set (fields := py_slice hdr 4 16) in *.
    assert (Hhdr : Z.of_nat (length hdr) = 16).
    { pose proof (Tracev3Proofs.py_slice_length_le data 0 (0 + 16)
                    ltac:(lia) ltac:(lia)) as Hmax. fold hdr in Hmax.
      pose proof (Tracev3Proofs.py_slice_length_le hdr 4 16
                    ltac:(lia) ltac:(lia)) as Hmax'. fold fields in Hmax'.
      unfold fields in Hlen. rewrite py_slice_nonneg in Hlen by lia.
      rewrite length_take, length_drop in Hlen. lia. }
    assert (Hfits : 16 <= Z.of_nat (length data)).
    { unfold hdr in Hhdr. apply py_slice_length_inv in Hhdr; lia. }
    apply range_entries_loop_offset in Hrloop;
      cbn [contents offset]; [|lia].
    cbn [contents offset] in Hrloop. destruct Hrloop as (Hc & Ho & Hle).
    assert (0 <= range_record_size (uint_at fields 0 2))
      by (unfold range_record_size; destruct (_ =? 1); lia).
    apply uuid_entries_loop_offset in Huloop;
      [|rewrite Hc; cbn [contents]; nia].
    rewrite Hc in Huloop. cbn [contents] in Huloop.
    pose proof (uint_at_nonneg_top fields 4 4).
    pose proof (uint_at_nonneg_top fields 8 4).
    rewrite !sorted_keys_length, Hranges.
    rewrite Hhdr in Ho. rewrite Z2Nat.id in * by lia.
    rewrite sorted_keys_length in Hcount. cbn [uuid_entry_dict] in Hcount.
    replace (Z.of_nat (size dict)) with (uint_at fields 8 4) by lia.
    lia.
  - destruct (caught_by _ e); [|discriminate].
    cbn [Py.bind]. discriminate.
Qed.

End DscFacts.

Lemma parsed_uuid_entries_unique_sorted_witness :
  DscFile._ParseFileObject (mkFileObj two_library_dsc 0)
  = Ret (true, parsed_two_library_dsc)
  /\ NoDup (map DscFile.u_v_off (DscFile.uuid_entries parsed_two_library_dsc)).
Proof.
  assert (H : DscFile._ParseFileObject (mkFileObj two_library_dsc 0)
              = Ret (true, parsed_two_library_dsc))
    by (vm_compute; reflexivity).
  split; [exact H|].
  exact (proj1 (proj2 (proj2 (parsed_uuid_entries_unique_sorted _ _ H)))).
Defined.

Lemma uuid_entry_from_virtual_offset_witness :
  DscFile._ParseFileObject (mkFileObj two_library_dsc 0)
  = Ret (true, parsed_two_library_dsc)
  /\ exists r,
       DscFile.GetUuidEntryFromVirtualOffset parsed_two_library_dsc 5000
       = Ret r
       /\ forall b,
            r = Some b
            <-> b ∈ DscFile.uuid_entries parsed_two_library_dsc
                /\ DscFile.u_v_off b <= 5000
                   < DscFile.u_v_off b + DscFile.u_size b
                /\ forall b',
                     b' ∈ DscFile.uuid_entries parsed_two_library_dsc ->
                     DscFile.u_v_off b' <= 5000 ->
                     DscFile.u_v_off b' <= DscFile.u_v_off b.
Proof.
  assert (H : DscFile._ParseFileObject (mkFileObj two_library_dsc 0)
              = Ret (true, parsed_two_library_dsc))
    by (vm_compute; reflexivity).
  split; [exact H|].
  exact (uuid_entry_from_virtual_offset _ _ 5000 H).
Defined.

Lemma parsed_dsc_holds_announced_records_witness :
  DscFile.file_data (DscFile.mkVirtualFile (Some two_library_dsc) true)
  = Some two_library_dsc
  /\ DscFile.Parse (DscFile.mkVirtualFile (Some two_library_dsc) true)
     = Ret (true, DscFile.mkVirtualFile (Some two_library_dsc) true,
            parsed_two_library_dsc)
  /\ exists major minor,
       DscFile.format_version parsed_two_library_dsc = Some (major, minor)
       /\ 16 + DscLayout.range_record_size major
                * DscFile.num_range_entries parsed_two_library_dsc
             + DscLayout.uuid_record_size major
                * DscFile.num_uuid_entries parsed_two_library_dsc
          <= Z.of_nat (length two_library_dsc).
Proof.
  assert (H : DscFile.Parse (DscFile.mkVirtualFile (Some two_library_dsc) true)
              = Ret (true, DscFile.mkVirtualFile (Some two_library_dsc) true,
                     parsed_two_library_dsc))
    by (vm_compute; reflexivity).
  split; [reflexivity|]. split; [exact H|].
  exact (proj2 (parsed_dsc_holds_announced_records
                  (DscFile.mkVirtualFile (Some two_library_dsc) true) _
                  two_library_dsc _ eq_refl H)).
Defined.

Example two_library_lookup :
  DscFile.GetUuidEntryFromVirtualOffset parsed_two_library_dsc 5000
  = Ret (Some (DscFile.mkUuidEntry 4096 8192 (le_bytes 16 9)
                 "/usr/lib/libB.dylib" "libB.dylib"))
  /\ DscFile.GetUuidEntryFromVirtualOffset parsed_two_library_dsc 12288
     = Ret None.
Proof. split; vm_compute; reflexivity. Qed.

Section DscLookups.

Import DscFile DscSpec DscProofs DscLayout.

(** X5.  Reading a format string from a parsed dsc file: what is returned
    comes from a known range that contains the offset, paired with
    [uuid_entries[uuid_index]] of that range; and an offset that no known
    range contains raises [KeyError]. *)
Theorem read_fmt_string_range (f : FileObj) (d : Dsc) (file : bytes)
    (v_offset : Z) :
  _ParseFileObject f = Ret (true, d) ->
  (forall s a u,
     ReadFmtStringAndEntriesFromVirtualOffset d file v_offset = Ret (s, a, u) ->
     known_range d a /\ inside a v_offset
     /\ py_index (uuid_entries d) (uuid_index a) = Ret u)
  /\ ((forall a, known_range d a -> ~ inside a v_offset) ->
      ReadFmtStringAndEntriesFromVirtualOffset d file v_offset
      = Raise KeyError).
Proof.
  intros Hparse. apply parse_inv in Hparse.
  destruct (find_characterised d v_offset Hparse) as (g & Hg & Hfind).
  unfold ReadFmtStringAndEntriesFromVirtualOffset. rewrite Hfind.
  destruct Hg as [a Ha Hle Hmax|Hnone]; cbn [accept].
  - destruct (Z.gtb_spec (v_off a + data_len a) v_offset) as [Hin|Hout].
    + split.
      * intros s a' u H. bind_inv H. bind_inv Hm. injection Hm as <-.
        cbv beta iota in H.
        read_inv H. destruct rd as [cstring_data f'].
        injection H as _ <- <-.
        split; [exact Ha|]. split; [unfold inside; lia|exact Hm0].
      * intros Hno. exfalso. apply (Hno a Ha). unfold inside. lia.
    + split; [intros s a' u H; discriminate H|reflexivity].
  - split; [intros s a' u H; discriminate H|reflexivity].
Qed.

End DscLookups.

Lemma read_fmt_string_range_witness :
  DscFile._ParseFileObject (mkFileObj two_library_dsc 0)
  = Ret (true, parsed_two_library_dsc)
  /\ (forall a, DscSpec.known_range parsed_two_library_dsc a ->
                ~ DscSpec.inside a 100)
  /\ DscFile.ReadFmtStringAndEntriesFromVirtualOffset parsed_two_library_dsc
       two_library_dsc 100 = Raise KeyError.
Proof.
  assert (H : DscFile._ParseFileObject (mkFileObj two_library_dsc 0)
              = Ret (true, parsed_two_library_dsc))
    by (vm_compute; reflexivity).
  assert (Hout : forall a, DscSpec.known_range parsed_two_library_dsc a ->
                           ~ DscSpec.inside a 100).
  { intros a Ha [Hlo Hhi]. unfold DscSpec.known_range in Ha.
    destruct (Z.eq_dec (DscFile.v_off a) 4096) as [Heq|Hne].
    - lia.
    - assert (Hnone : DscFile.range_entries parsed_two_library_dsc
                        !! DscFile.v_off a = None); [|congruence].
      change (DscFile.range_entries parsed_two_library_dsc)
        with (<[4096 := DscFile.mkRangeEntry 1 4096 200 32]>
                (∅ : gmap Z DscFile.RangeEntry)).
      rewrite lookup_insert_ne by congruence. apply lookup_empty. }
  split; [exact H|]. split; [exact Hout|].
  exact (proj2 (read_fmt_string_range _ _ two_library_dsc 100 H) Hout).
Defined.

(** ** The dsc parser: a round trip through the range table *)

Section DscRoundTrip.

Import DscFile DscSpec DscProofs DscLayout.

Lemma uint_at_head (n : nat) (v w : Z) (rest : bytes) :
  w = Z.of_nat n -> 0 <= v < 256 ^ w ->
  uint_at (le_bytes n v ++ rest) 0 w = v.
Proof.
  intros -> Hv. unfold uint_at.
  rewrite py_slice_take by (rewrite length_le_bytes; lia).
  now apply le_uint_le_bytes.
Qed.

Lemma uint_at_skip (pre l : bytes) (k off off' n : Z) :
  Z.of_nat (length pre) = k -> off = k + off' -> 0 <= off' -> 0 <= n ->
  uint_at (pre ++ l) off n = uint_at l off' n.
Proof.
  intros Hk -> Hoff Hn. unfold uint_at.
  now rewrite (py_slice_skip pre l k _ _ off' (off' + n)) by lia.
Qed.

Lemma file_read_record (pre rec rest : bytes) (n : Z) :
  Z.of_nat (length rec) = n ->
  file_read (mkFileObj (pre ++ rec ++ rest) (Z.of_nat (length pre))) n
  = (rec, mkFileObj (pre ++ rec ++ rest) (Z.of_nat (length pre) + n)).
Proof.
  intros Hn. unfold file_read. cbn [contents offset].
  rewrite (py_slice_skip pre _ (Z.of_nat (length pre)) _ _ 0 n) by lia.
  rewrite py_slice_take by exact Hn. now rewrite Hn.
Qed.

Lemma read_range_entry_record (major : Z) (pre rest : bytes) (e : RangeEntry) :
  major = 1 \/ major = 2 -> range_fits major e ->
  read_range_entry major
    (mkFileObj (pre ++ range_record major e ++ rest) (Z.of_nat (length pre)))
  = Ret (e, mkFileObj (pre ++ range_record major e ++ rest)
              (Z.of_nat (length pre) + range_record_size major)).
Proof.
  intros Hmajor Hfit. unfold read_range_entry, range_record, range_record_size.
  unfold range_fits in Hfit. destruct e as [ui vo doff dlen].
  cbn [uuid_index v_off data_offset data_len] in Hfit.
  destruct Hmajor as [-> | ->]; cbn [Z.eqb Pos.eqb] in *; cbv iota.
  - read_fixed. rewrite file_read_record
      by (unfold range_v1; rewrite !length_app, !length_le_bytes; reflexivity).
    unfold struct_size, range_v1.
    cbn [uuid_index v_off data_offset data_len].
    rewrite !length_app, !length_le_bytes. cbn [Py.bind Z.eqb Pos.eqb
      Nat.add Z.of_nat Pos.of_succ_nat Pos.succ].
    rewrite (uint_at_head 4 ui 4) by (simpl; lia).
    rewrite (uint_at_skip (le_bytes 4 ui) _ 4 4 0 4)
      by (rewrite ?length_le_bytes; lia).
    rewrite (uint_at_head 4 vo 4) by (simpl; lia).
    rewrite (app_assoc (le_bytes 4 ui)).
    rewrite (uint_at_skip (le_bytes 4 ui ++ le_bytes 4 vo) _ 8 8 0 4)
      by (rewrite ?length_app, ?length_le_bytes; simpl; lia).
    rewrite (uint_at_head 4 doff 4) by (simpl; lia).
    rewrite (app_assoc (le_bytes 4 ui ++ le_bytes 4 vo)).
    rewrite <- (app_nil_r (le_bytes 4 dlen)).
    rewrite (uint_at_skip ((le_bytes 4 ui ++ le_bytes 4 vo) ++ le_bytes 4 doff)
               _ 12 12 0 4)
      by (rewrite ?length_app, ?length_le_bytes; simpl; lia).
    rewrite (uint_at_head 4 dlen 4) by (simpl; lia).
    reflexivity.
  - read_fixed. rewrite file_read_record
      by (unfold range_v2; rewrite !length_app, !length_le_bytes; reflexivity).
    unfold struct_size, range_v2.
    cbn [uuid_index v_off data_offset data_len].
    rewrite !length_app, !length_le_bytes. cbn [Py.bind Z.eqb Pos.eqb
      Nat.add Z.of_nat Pos.of_succ_nat Pos.succ].
    rewrite (uint_at_head 8 vo 8) by (simpl; lia).
    rewrite (uint_at_skip (le_bytes 8 vo) _ 8 8 0 4)
      by (rewrite ?length_le_bytes; lia).
    rewrite (uint_at_head 4 doff 4) by (simpl; lia).
    rewrite (app_assoc (le_bytes 8 vo)).
    rewrite (uint_at_skip (le_bytes 8 vo ++ le_bytes 4 doff) _ 12 12 0 4)
      by (rewrite ?length_app, ?length_le_bytes; simpl; lia).
    rewrite (uint_at_head 4 dlen 4) by (simpl; lia).
    rewrite (app_assoc (le_bytes 8 vo ++ le_bytes 4 doff)).
    rewrite <- (app_nil_r (le_bytes 8 ui)).
    rewrite (uint_at_skip ((le_bytes 8 vo ++ le_bytes 4 doff) ++ le_bytes 4 dlen)
               _ 16 16 0 8)
      by (rewrite ?length_app, ?length_le_bytes; simpl; lia).
    rewrite (uint_at_head 8 ui 8) by (simpl; lia).
    reflexivity.
Qed.

Lemma foldl_insert_lookup (es : list RangeEntry) :
  forall (m : gmap Z RangeEntry),
    NoDup (map v_off es) ->
    (forall e, e ∈ es -> m !! v_off e = None) ->
    forall k x,
      foldl (fun m e => <[v_off e := e]> m) m es !! k = Some x
      <-> m !! k = Some x \/ (x ∈ es /\ v_off x = k).
Proof.
  induction es as [|e es IH]; intros m Hnd Hfresh k x.
  - simpl. split; [now left|]. intros [H|[H _]]; [exact H|].
    now apply elem_of_nil in H.
  - cbn [foldl]. cbn [map] in Hnd. apply NoDup_cons in Hnd.
    destruct Hnd as [Hnotin Hnd].
    rewrite IH; [|exact Hnd|].
    + rewrite lookup_insert. case_decide as Hk.
      * split.
        -- intros [[= <-]|[Hx Hvx]]; right; split; auto;
             [apply list_elem_of_here|now apply list_elem_of_further].
        -- intros [Hm|[Hx Hvx]].
           ++ rewrite <- Hk, Hfresh in Hm by apply list_elem_of_here.
              discriminate.
           ++ apply elem_of_cons in Hx. destruct Hx as [->|Hx];
                [now left|right; now split].
      * split.
        -- intros [Hm|[Hx Hvx]]; [now left|].
           right. split; [now apply list_elem_of_further|exact Hvx].
        -- intros [Hm|[Hx Hvx]]; [now left|].
           apply elem_of_cons in Hx. destruct Hx as [->|Hx];
             [congruence|right; now split].
    + intros e' He'. rewrite lookup_insert_ne.
      * apply Hfresh. now apply list_elem_of_further.
      * intros Heq. apply Hnotin. rewrite Heq.
        apply list_elem_of_fmap. now exists e'.
Qed.

Lemma range_entries_loop_records (major : Z) (es : list RangeEntry) :
  forall (pre rest : bytes) (m : gmap Z RangeEntry),
    major = 1 \/ major = 2 ->
    Forall (range_fits major) es ->
    NoDup (map v_off es) ->
    (forall e, e ∈ es -> m !! v_off e = None) ->
    exists f',
      range_entries_loop (length es) major
        (mkFileObj (pre ++ concat (map (range_record major) es) ++ rest)
           (Z.of_nat (length pre))) m
      = Ret (foldl (fun m e => <[v_off e := e]> m) m es, f').
Proof.
  induction es as [|e es IH]; intros pre rest m Hmajor Hfit Hnd Hfresh.
  - simpl. eauto.
  - apply Forall_cons in Hfit. destruct Hfit as [He Hfit].
    cbn [map] in Hnd. apply NoDup_cons in Hnd. destruct Hnd as [Hnotin Hnd].
    cbn [length range_entries_loop map concat foldl].
    rewrite <- app_assoc.
    rewrite read_range_entry_record by assumption. cbn [Py.bind].
    rewrite Hfresh by apply list_elem_of_here.
    assert (Hlen : Z.of_nat (length pre) + range_record_size major
                   = Z.of_nat (length (pre ++ range_record major e))).
    { rewrite length_app. unfold range_record_size, range_record.
      destruct Hmajor as [-> | ->]; cbn [Z.eqb Pos.eqb];
        unfold range_v1, range_v2; rewrite !length_app, !length_le_bytes;
        lia. }
    rewrite Hlen, (app_assoc pre).
    apply IH; try assumption.
    intros e' He'. rewrite lookup_insert_ne.
    + apply Hfresh. now apply list_elem_of_further.
    + intros Heq. apply Hnotin. rewrite Heq.
      apply list_elem_of_fmap. now exists e'.
Qed.

(** X6.  Round trip through the range table: a file that consists of a
    version-1 or version-2 header announcing no uuid entries, followed by
    the records of range entries with pairwise different [v_off] (and by
    anything else), parses successfully; the object records the version, and
    its range table holds exactly the entries written, each under its own
    [v_off]. *)
Theorem range_table_round_trip (major minor : Z) (entries : list RangeEntry)
    (rest : bytes) :
  major = 1 \/ major = 2 -> 0 <= minor < 2 ^ 16 ->
  Z.of_nat (length entries) < 2 ^ 32 ->
  Forall (range_fits major) entries ->
  NoDup (map v_off entries) ->
  exists d,
    _ParseFileObject (mkFileObj (range_table_file major minor entries 0 rest) 0)
    = Ret (true, d)
    /\ format_version d = Some (major, minor)
    /\ (forall e, e ∈ entries <-> range_entries d !! v_off e = Some e)
    /\ num_range_entries d = Z.of_nat (length entries)
    /\ uuid_entries d = [].
Proof.
  intros Hmajor Hminor Hcount Hfit Hnd.
  set (hdr := dsc_header major minor (Z.of_nat (length entries)) 0).
  set (records := concat (map (range_record major) entries)).
  assert (Hhdr : Z.of_nat (length hdr) = 16).
  { unfold hdr, dsc_header. now rewrite !length_app, !length_le_bytes. }
  destruct (range_entries_loop_records major entries hdr rest ∅ Hmajor Hfit
              Hnd ltac:(intros; apply lookup_empty)) as [f1 Hloop].
  fold records in Hloop. rewrite Hhdr in Hloop.
  set (ranges := foldl (fun m e => <[v_off e := e]> m)
                   (∅ : gmap Z RangeEntry) entries) in *.
  exists (mkDsc (Some (major, minor)) [] ∅ (sorted_keys (∅ : gmap Z UuidEntry))
            (Z.of_nat (length (sorted_keys (∅ : gmap Z UuidEntry)))) ranges
            (sorted_keys ranges) (Z.of_nat (length (sorted_keys ranges)))).
  cbn [format_version range_entries num_range_entries uuid_entries].
  split; [|split; [reflexivity|split; [|split; [|reflexivity]]]].
  - unfold _ParseFileObject, range_table_file. fold hdr records.
    pose proof (file_read_record [] hdr (records ++ rest) 16 Hhdr) as Hread.
    change (file_read (mkFileObj (hdr ++ records ++ rest) 0) 16
            = (hdr, mkFileObj (hdr ++ records ++ rest) 16)) in Hread.
    read_fixed. rewrite Hread.
    assert (Hsig : py_slice hdr 0 4 = hcsd)
      by (unfold hdr, dsc_header; now apply py_slice_take).
    rewrite Hsig, bytes_eqb_refl. cbn [negb].
    set (fields := le_bytes 2 major ++ le_bytes 2 minor
                     ++ le_bytes 4 (Z.of_nat (length entries))
                     ++ le_bytes 4 0).
    assert (Hfields : py_slice hdr 4 16 = fields).
    { unfold hdr, dsc_header. fold fields.
      rewrite (py_slice_skip hcsd fields 4 4 16 0 12) by (simpl; lia).
      apply py_slice_whole. unfold fields.
      now rewrite !length_app, !length_le_bytes. }
    rewrite Hfields. unfold struct_size.
    assert (Hflen : Z.of_nat (length fields) = 12)
      by (unfold fields; now rewrite !length_app, !length_le_bytes).
    rewrite Hflen. cbn [Z.eqb Pos.eqb Py.bind].
    assert (Hmaj : uint_at fields 0 2 = major)
      by (unfold fields; apply uint_at_head; simpl; lia).
    assert (Hmin : uint_at fields 2 2 = minor).
    { unfold fields.
      rewrite (uint_at_skip (le_bytes 2 major) _ 2 2 0 2)
        by (rewrite ?length_le_bytes; lia).
      apply uint_at_head; simpl; lia. }
    assert (Hnr : uint_at fields 4 4 = Z.of_nat (length entries)).
    { unfold fields. rewrite (app_assoc (le_bytes 2 major)).
      rewrite (uint_at_skip (le_bytes 2 major ++ le_bytes 2 minor) _ 4 4 0 4)
        by (rewrite ?length_app, ?length_le_bytes; simpl; lia).
      apply uint_at_head; simpl; lia. }
    assert (Hnu : uint_at fields 8 4 = 0).
    { unfold fields. rewrite (app_assoc (le_bytes 2 major)).
      rewrite (app_assoc (le_bytes 2 major ++ le_bytes 2 minor)).
      rewrite <- (app_nil_r (le_bytes 4 0)).
      rewrite (uint_at_skip
                 ((le_bytes 2 major ++ le_bytes 2 minor)
                    ++ le_bytes 4 (Z.of_nat (length entries))) _ 8 8 0 4)
        by (rewrite ?length_app, ?length_le_bytes; simpl; lia).
      apply uint_at_head; simpl; lia. }
    rewrite Hmaj, Hmin, Hnr, Hnu.
    destruct (Z.gtb_spec major 2) as [?|_]; [lia|].
    rewrite Nat2Z.id, Hloop. reflexivity.
  - intros e. unfold ranges.
    rewrite (foldl_insert_lookup entries ∅ Hnd
               ltac:(intros; apply lookup_empty)).
    rewrite lookup_empty. split.
    + intros He. right. now split.
    + intros [H|[He _]]; [discriminate|exact He].
  - rewrite sorted_keys_length.
    pose proof (range_entries_loop_size _ _ _ _ _ _ Hloop) as Hsize.
    rewrite map_size_empty in Hsize. fold ranges in Hsize. lia.
Qed.

End DscRoundTrip.

Lemma range_table_round_trip_witness :
  exists d,
    DscFile._ParseFileObject
      (mkFileObj
         (DscLayout.range_table_file 2 1
            [DscFile.mkRangeEntry 0 4096 64 16; DscFile.mkRangeEntry 1 0 80 32]
            0 (le_bytes 48 0)) 0)
    = Ret (true, d)
    /\ DscFile.range_entries d !! 4096
       = Some (DscFile.mkRangeEntry 0 4096 64 16).
Proof.
  assert (Hfit : Forall (DscLayout.range_fits 2)
                   [DscFile.mkRangeEntry 0 4096 64 16;
                    DscFile.mkRangeEntry 1 0 80 32]).
  { repeat constructor; simpl; lia. }
  assert (Hnd : NoDup (map DscFile.v_off
                         [DscFile.mkRangeEntry 0 4096 64 16;
                          DscFile.mkRangeEntry 1 0 80 32])).
  { simpl. repeat constructor; set_unfold; lia. }
  destruct (range_table_round_trip 2 1
              [DscFile.mkRangeEntry 0 4096 64 16;
               DscFile.mkRangeEntry 1 0 80 32]
              (le_bytes 48 0) ltac:(now right) ltac:(lia)
              ltac:(simpl; lia) Hfit Hnd)
    as (d & Hparse & _ & Hlookup & _).
  exists d. split; [exact Hparse|].
  apply (Hlookup (DscFile.mkRangeEntry 0 4096 64 16)).
  apply list_elem_of_here.
Defined.

(** ** The timesync search *)

Section TimesyncFacts.

Import TimesyncSearch.

(** X7.  [_GetBootUuidTimeSyncList] answers with the items of the first
    record whose boot identifier is [uuid], and with [None] exactly when no
    record has that identifier. *)
Theorem boot_uuid_timesync_first_match (ts_list : list Timesync)
    (uuid : bytes) :
  match _GetBootUuidTimeSyncList ts_list uuid with
  | Some items =>
      exists pre ts post,
        ts_list = pre ++ ts :: post
        /\ boot_uuid ts = uuid /\ ts_items ts = items
        /\ Forall (fun t => boot_uuid t <> uuid) pre
  | None => Forall (fun t => boot_uuid t <> uuid) ts_list
  end.
Proof.
  induction ts_list as [|ts rest IH]; simpl; [constructor|].
  destruct (bytes_eqb (boot_uuid ts) uuid) eqn:Heq.
  - apply bytes_eqb_eq in Heq. exists [], ts, rest. auto.
  - assert (Hne : boot_uuid ts <> uuid).
    { intros H. apply bytes_eqb_eq in H. congruence. }
    destruct (_GetBootUuidTimeSyncList rest uuid) as [items|].
    + destruct IH as (pre & t & post & -> & Hu & Hi & Hpre).
      exists (ts :: pre), t, post. auto.
    + now constructor.
Qed.

(** X8.  Searching the whole timesync list for a boot identifier and a
    time gives the same item as first fetching the boot's item list and then
    searching that list, which is how a tracev3 file resolves its times. *)
Theorem find_closest_timesync_item_composes (ts_list : list Timesync)
    (uuid : bytes) (ct : Z) :
  _FindClosestTimesyncItem ts_list uuid ct
  = _FindClosestTimesyncItemInList (_GetBootUuidTimeSyncList ts_list uuid) ct.
Proof.
  induction ts_list as [|ts rest IH]; simpl; [reflexivity|].
  now destruct (bytes_eqb (boot_uuid ts) uuid).
Qed.

End TimesyncFacts.

(** ** The file header *)

Section HeaderFacts.

Import HeaderLayout.

Lemma encode_item_length (item : Z * bytes) :
  Z.of_nat (length (encode_item item)) = 8 + Z.of_nat (length (snd item)).
Proof.
  unfold encode_item. rewrite !length_app, !length_le_bytes. lia.
Qed.

(** One pass over an item that lies at [pos]. *)
Lemma header_item_step_item (pre rest : bytes) (item : Z * bytes)
    (system_boot_uuid : option bytes) :
  item_fits item ->
  header_item_step (pre ++ encode_item item ++ rest)
    (Z.of_nat (length pre), system_boot_uuid)
  = Ret (Z.of_nat (length (pre ++ encode_item item)),
         boot_uuid_after system_boot_uuid [item]).
Proof.
  destruct item as [item_id value]. intros (Hid & Hlen & H0 & H1 & H2 & H3).
  unfold header_item_step, encode_item, boot_uuid_after.
  cbn [fst snd foldl].
  set (pos := Z.of_nat (length pre)).
  set (n := Z.of_nat (length value)) in *.
  set (field := le_bytes 4 item_id ++ le_bytes 4 n).
  assert (Hdata : pre ++ (le_bytes 4 item_id ++ le_bytes 4 n ++ value) ++ rest
                  = (pre ++ field) ++ value ++ rest).
  { unfold field. now rewrite <- !app_assoc. }
  rewrite Hdata.
  assert (Hfield : Z.of_nat (length field) = 8)
    by (unfold field; now rewrite length_app, !length_le_bytes).
  assert (Hpre : Z.of_nat (length (pre ++ field)) = pos + 8)
    by (rewrite length_app; lia).
  rewrite <- (app_assoc pre field).
  rewrite (py_slice_skip pre _ pos pos (pos + 8) 0 8) by lia.
  rewrite (py_slice_take field) by exact Hfield.
  rewrite (app_assoc pre field).
  unfold struct_size at 1. rewrite Hfield. cbn [Z.eqb Pos.eqb Py.bind].
  assert (Hitem : uint_at field 0 4 = item_id)
    by (unfold field; apply uint_at_head; simpl; lia).
  assert (Hsize : uint_at field 4 4 = n).
  { unfold field. rewrite <- (app_nil_r (le_bytes 4 n)).
    rewrite (uint_at_skip (le_bytes 4 item_id) _ 4 4 0 4)
      by (rewrite ?length_le_bytes; lia).
    apply uint_at_head; simpl; lia. }
  rewrite Hitem, Hsize.
  assert (Hvalue : py_slice ((pre ++ field) ++ value ++ rest) (pos + 8)
                     (pos + 8 + n) = value).
  { rewrite (py_slice_skip (pre ++ field) _ (pos + 8) _ _ 0 n) by lia.
    now apply py_slice_take. }
  assert (Hend : pos + 8 + n
                 = Z.of_nat (length (pre ++ le_bytes 4 item_id
                                        ++ le_bytes 4 n ++ value))).
  { rewrite !length_app, !length_le_bytes. lia. }
  rewrite Hvalue, <- Hend. unfold struct_size.
  destruct (Z.eqb_spec item_id 0x6100) as [E0|N0].
  { rewrite (H0 E0), E0. reflexivity. }
  destruct (Z.eqb_spec item_id 0x6101) as [E1|N1].
  { rewrite E1. cbn [Z.eqb Pos.eqb].
    rewrite py_slice_nonneg by lia. unfold py_slice_from, py_norm.
    rewrite length_take, !length_drop, (H1 E1). reflexivity. }
  destruct (Z.eqb_spec item_id 0x6102) as [E2|N2].
  { assert (Hu : py_slice ((pre ++ field) ++ value ++ rest) (pos + 8)
                   (pos + 8 + 16) = take 16 value).
    { rewrite (py_slice_skip (pre ++ field) _ (pos + 8) _ _ 0 16) by lia.
      rewrite py_slice_nonneg by lia. simpl.
      apply take_app_le. rewrite (H2 E2). lia. }
    assert (Ht : py_slice ((pre ++ field) ++ value ++ rest) (pos + 8 + 16)
                   (pos + 8 + n) = drop 16 value).
    { assert (Hn : n = 24) by (unfold n; now rewrite (H2 E2)).
      rewrite (py_slice_skip (pre ++ field) _ (pos + 8) _ _ 16 n) by lia.
      rewrite py_slice_nonneg by lia. rewrite Hn. simpl Z.to_nat.
      rewrite drop_app_le by (rewrite (H2 E2); lia).
      apply take_app_length'. rewrite length_drop, (H2 E2). reflexivity. }
    rewrite Hu, Ht. unfold DscFile.UUID_of_bytes.
    rewrite length_take, length_drop, (H2 E2). reflexivity. }
  destruct (Z.eqb_spec item_id 0x6103) as [E3|N3].
  { rewrite (H3 E3). reflexivity. }
  reflexivity.
Qed.

Lemma header_loop_items (items : list (Z * bytes)) :
  forall (pre : bytes) (acc : option bytes) (fuel : nat),
    Forall item_fits items ->
    (length items <= fuel)%nat ->
    while_loop fuel
      (fun s : Z * option bytes =>
         fst s <? Z.of_nat (length (pre ++ concat (map encode_item items))))
      (header_item_step (pre ++ concat (map encode_item items)))
      (Z.of_nat (length pre), acc)
    = Ret (Z.of_nat (length (pre ++ concat (map encode_item items))),
           boot_uuid_after acc items).
Proof.
  induction items as [|item items IH]; intros pre acc fuel Hfit Hfuel.
  - cbn [map concat]. rewrite app_nil_r. apply while_loop_done.
    cbn [fst]. apply Z.ltb_irrefl.
  - destruct fuel as [|fuel]; [simpl in Hfuel; lia|].
    apply Forall_cons in Hfit. destruct Hfit as [Hitem Hfit].
    cbn [map concat]. rewrite while_loop_step.
    2:{ cbn [fst]. apply Z.ltb_lt. rewrite !length_app.
        pose proof (encode_item_length item). lia. }
    rewrite header_item_step_item by exact Hitem.
    rewrite (app_assoc pre). simpl in Hfuel.
    rewrite (IH (pre ++ encode_item item)
               (boot_uuid_after acc [item]) fuel Hfit) by lia.
    reflexivity.
Qed.

Lemma items_length_le (items : list (Z * bytes)) :
  (length items <= length (concat (map encode_item items)))%nat.
Proof.
  induction items as [|item items IH]; [simpl; lia|].
  cbn [map concat length]. rewrite length_app.
  pose proof (encode_item_length item). lia.
Qed.

(** X9.  A file header that consists of the 40 fixed bytes followed by
    items of the sizes the parser unpacks is read to its end, one item after
    the other by the announced lengths; items with another id are passed
    over, and [system_boot_uuid] becomes the UUID of the last [0x6102] item
    ([None] when there is none). *)
Theorem file_header_items (fixed : bytes) (items : list (Z * bytes)) :
  length fixed = 40%nat ->
  Forall item_fits items ->
  _ParseFileHeader (encode_header fixed items)
  = Ret (boot_uuid_after None items).
Proof.
  intros Hfixed Hfit. unfold _ParseFileHeader, encode_header. cbv zeta.
  rewrite py_slice_take by lia.
  unfold struct_size. rewrite Hfixed. cbn [Z.of_nat Pos.of_succ_nat Pos.succ
    Z.eqb Pos.eqb Py.bind].
  change 40 with (Z.of_nat 40). rewrite <- Hfixed.
  rewrite header_loop_items; [now rewrite ?Z.eqb_refl|exact Hfit|].
  rewrite Nat2Z.id, length_app. pose proof (items_length_le items). lia.
Qed.

End HeaderFacts.

Lemma file_header_items_witness :
  (length (le_bytes 40 0) = 40%nat
   /\ Forall HeaderLayout.item_fits
        [(0x6100, le_bytes 8 5); (0x6102, le_bytes 24 1);
         (0x7777, le_bytes 3 0); (0x6102, le_bytes 24 2)])
  /\ _ParseFileHeader
       (HeaderLayout.encode_header (le_bytes 40 0)
          [(0x6100, le_bytes 8 5); (0x6102, le_bytes 24 1);
           (0x7777, le_bytes 3 0); (0x6102, le_bytes 24 2)])
     = Ret (Some (le_bytes 16 2)).
Proof.
  assert (Hfit : Forall HeaderLayout.item_fits
                   [(0x6100, le_bytes 8 5); (0x6102, le_bytes 24 1);
                    (0x7777, le_bytes 3 0); (0x6102, le_bytes 24 2)]).
  { repeat constructor; simpl; try lia; intros; try reflexivity;
      discriminate. }
  split; [split; [reflexivity|exact Hfit]|].
  rewrite (file_header_items (le_bytes 40 0) _ eq_refl Hfit).
  reflexivity.
Defined.

(** ** Files that [Parse] turns away *)

Section RejectedFiles.

Local Open Scope list_scope.
Local Open Scope Z_scope.

Variable LogDataItem : Type.
Variable ReadLogDataBuffer :
  bytes -> Z -> bytes -> bool -> result (list LogDataItem).
Variable ReadLogDataBuffer2 : bytes -> Z -> bytes -> result (list LogDataItem).
Variable RecreateMsgFromFmtStringAndData :
  string -> list LogDataItem -> Z -> result string.
Variable GetSubSystemAndCategory : ProcInfo -> Z -> result (string * string).
Variable find_other_uuidtext : string -> result (option Uuidtext).
Variable _ReadAPFSTime : PyFloat.float -> result string.
Variable _ParseStateChunkData :
  TraceV3 -> bytes -> Catalog -> ProcInfo -> Z -> result (list LogEntry).
Variable _ParseSimpleDumpData :
  TraceV3 -> bytes -> Catalog -> ProcInfo -> Z -> result (list LogEntry).
Variable _ParseMetaChunk : TraceV3 -> bytes -> result Catalog.
Variable lz4_block_decompress : bytes -> Z -> bytes -> result bytes.

Local Abbreviation parse :=
  (Parse LogDataItem ReadLogDataBuffer ReadLogDataBuffer2
     RecreateMsgFromFmtStringAndData GetSubSystemAndCategory
     find_other_uuidtext _ReadAPFSTime _ParseStateChunkData
     _ParseSimpleDumpData _ParseMetaChunk lz4_block_decompress).

(** X10.  [Parse] returns [False], without an exception and without a call
    of the callback, for every file that is shorter than the 16 bytes of a
    chunk header (the empty file included), and for every file whose first
    chunk does not carry the tag [0x1000] or the subtag [0x11]. *)
Theorem parse_rejects_bad_start (name : string) (ts_list : list Timesync)
    (data : bytes) (func : option Sink) :
  Z.of_nat (length data) < 16
  \/ uint_at (py_slice data 0 16) 0 4 <> 0x1000
  \/ uint_at (py_slice data 0 16) 4 4 <> 0x11 ->
  parse name ts_list (Some data) func = Ret ReturnsFalse.
Proof.
  intros Hbad. unfold Parse, _ParseFileObject. read_fixed. unfold file_read.
  cbn [contents offset]. change (0 + 16) with 16.
  unfold _ParseChunkHeaderData, struct_size.
  destruct (Z.eqb_spec (Z.of_nat (length (py_slice data 0 16))) 16)
    as [Hlen|Hlen]; [|reflexivity].
  cbn [Py.bind].
  destruct Hbad as [Hshort|[Htag|Hsubtag]].
  - apply (py_slice_length_inv data 0 16) in Hlen; lia.
  - destruct (Z.eqb_spec (uint_at (py_slice data 0 16) 0 4) 0x1000);
      [contradiction|reflexivity].
  - destruct (uint_at (py_slice data 0 16) 0 4 =? 0x1000); [|reflexivity].
    destruct (Z.eqb_spec (uint_at (py_slice data 0 16) 4 4) 0x11);
      [contradiction|reflexivity].
Qed.

(** X11.  A file that holds its header chunk in full, and whose header
    names a boot UUID that no timesync record carries, is not parsed:
    [_ParseFileObject] raises [ValueError] right after the header, [Parse]
    returns [False], and no chunk after the header is looked at.  The file
    is one that Python can hold (its length is at most [sys.maxsize]), so
    that the announced size of the header is one that [read] accepts. *)
Theorem parse_needs_timesync_of_boot (name : string) (ts_list : list Timesync)
    (data : bytes) (func : option Sink) (size : Z) (uuid : bytes) :
  Z.of_nat (length data) <= PY_SSIZE_T_MAX ->
  _ParseChunkHeaderData (py_slice data 0 16) = Ret (0x1000, 0x11, size) ->
  16 + size <= Z.of_nat (length data) ->
  _ParseFileHeader (py_slice data 16 (16 + size)) = Ret (Some uuid) ->
  _GetBootUuidTimeSyncList ts_list uuid = None ->
  parse name ts_list (Some data) func = Ret ReturnsFalse
  /\ _ParseFileObject LogDataItem ReadLogDataBuffer ReadLogDataBuffer2
       RecreateMsgFromFmtStringAndData GetSubSystemAndCategory
       find_other_uuidtext _ReadAPFSTime _ParseStateChunkData
       _ParseSimpleDumpData _ParseMetaChunk lz4_block_decompress
       name ts_list data (Z.of_nat (length data)) func
     = Raise ValueError.
Proof.
  intros Hfile Hchunk Hfits Hheader Hnone.
  assert (Hrun :
    _ParseFileObject LogDataItem ReadLogDataBuffer ReadLogDataBuffer2
      RecreateMsgFromFmtStringAndData GetSubSystemAndCategory
      find_other_uuidtext _ReadAPFSTime _ParseStateChunkData
      _ParseSimpleDumpData _ParseMetaChunk lz4_block_decompress
      name ts_list data (Z.of_nat (length data)) func
    = Raise ValueError).
  { unfold _ParseFileObject. read_fixed. unfold file_read at 1.
    cbn [contents offset]. change (0 + 16) with 16.
    rewrite Hchunk. cbn [Py.bind negb Z.eqb Pos.eqb].
    rewrite file_object_read_small by lia. cbn [Py.bind].
    unfold file_read. cbn [contents offset].
    assert (Hlen : Z.of_nat (length (py_slice data 0 16)) = 16).
    { unfold _ParseChunkHeaderData, struct_size in Hchunk.
      destruct (Z.eqb_spec (Z.of_nat (length (py_slice data 0 16))) 16);
        [assumption|discriminate]. }
    rewrite Hlen. change (0 + 16) with 16.
    rewrite Hheader. cbn [Py.bind]. rewrite Hnone. reflexivity. }
  split; [|exact Hrun].
  unfold Parse. rewrite Hrun. reflexivity.
Qed.

End RejectedFiles.

Lemma parse_rejects_bad_start_witness :
  (Z.of_nat (length (le_bytes 3 0)) < 16
   \/ uint_at (py_slice (le_bytes 3 0) 0 16) 0 4 <> 0x1000
   \/ uint_at (py_slice (le_bytes 3 0) 0 16) 4 4 <> 0x11)
  /\ Scenario.parse_file (le_bytes 3 0) (Some Scenario.accept_all)
     = Ret ReturnsFalse.
Proof.
  assert (H : Z.of_nat (length (le_bytes 3 0)) < 16
              \/ uint_at (py_slice (le_bytes 3 0) 0 16) 0 4 <> 0x1000
              \/ uint_at (py_slice (le_bytes 3 0) 0 16) 4 4 <> 0x11)
    by (left; simpl; lia).
  split; [exact H|].
  exact (parse_rejects_bad_start Scenario.Item Scenario.read_items
           Scenario.read_items2 Scenario.recreate Scenario.no_subsystem
           Scenario.no_other_uuidtext Scenario.apfs_time Scenario.no_entries
           Scenario.no_entries Scenario.demo_meta Scenario.no_lz4
           "demo.tracev3"%string Scenario.demo_ts_list (le_bytes 3 0)
           (Some Scenario.accept_all) H).
Defined.

Lemma parse_needs_timesync_of_boot_witness :
  (Z.of_nat (length Scenario.signpost_file) <= PY_SSIZE_T_MAX
   /\ _ParseChunkHeaderData (py_slice Scenario.signpost_file 0 16)
      = Ret (0x1000, 0x11, 72)
   /\ 16 + 72 <= Z.of_nat (length Scenario.signpost_file)
   /\ _ParseFileHeader (py_slice Scenario.signpost_file 16 (16 + 72))
      = Ret (Some Scenario.demo_boot_uuid)
   /\ _GetBootUuidTimeSyncList [] Scenario.demo_boot_uuid = None)
  /\ Parse Scenario.Item Scenario.read_items Scenario.read_items2
       Scenario.recreate Scenario.no_subsystem Scenario.no_other_uuidtext
       Scenario.apfs_time Scenario.no_entries Scenario.no_entries
       Scenario.demo_meta Scenario.no_lz4 "demo.tracev3"%string []
       (Some Scenario.signpost_file) (Some Scenario.accept_all)
     = Ret ReturnsFalse.
Proof.
  assert (H0 : Z.of_nat (length Scenario.signpost_file) <= PY_SSIZE_T_MAX)
    by (vm_compute; discriminate).
  assert (H1 : _ParseChunkHeaderData (py_slice Scenario.signpost_file 0 16)
               = Ret (0x1000, 0x11, 72)) by (vm_compute; reflexivity).
  assert (Hfits : 16 + 72 <= Z.of_nat (length Scenario.signpost_file))
    by (vm_compute; discriminate).
  assert (H2 : _ParseFileHeader (py_slice Scenario.signpost_file 16 (16 + 72))
               = Ret (Some Scenario.demo_boot_uuid))
    by (vm_compute; reflexivity).
  assert (H3 : _GetBootUuidTimeSyncList [] Scenario.demo_boot_uuid = None)
    by reflexivity.
  split; [repeat split; assumption|].
  exact (proj1
           (parse_needs_timesync_of_boot Scenario.Item Scenario.read_items
              Scenario.read_items2 Scenario.recreate Scenario.no_subsystem
              Scenario.no_other_uuidtext Scenario.apfs_time
              Scenario.no_entries Scenario.no_entries Scenario.demo_meta
              Scenario.no_lz4 "demo.tracev3"%string [] Scenario.signpost_file
              (Some Scenario.accept_all) 72 Scenario.demo_boot_uuid
              H0 H1 Hfits H2 H3)).
Defined.

(** ** The log-data buffer readers *)

Section LogDataFacts.

Import LogData.

Lemma read_descriptors_spec (n : nat) (buffer : bytes) (start : Z) :
  forall (pos : Z) (ds ds' : list Z),
    read_descriptors n buffer pos ds = Ret ds' ->
    pos = start + Z.of_nat (length ds) ->
    (forall i s, ds !! i = Some s ->
                 unpack_uint buffer (start + Z.of_nat i) 1 = Ret s) ->
    forall i s, ds' !! i = Some s ->
                unpack_uint buffer (start + Z.of_nat i) 1 = Ret s.
Proof.
  induction n as [|n IH]; intros pos ds ds' Hrun Hpos Hds.
  - simpl in Hrun. now injection Hrun as <-.
  - simpl in Hrun. destruct (pos <=? 0).
    + now injection Hrun as <-.
    + bind_inv Hrun. eapply IH; [exact Hrun| |].
      * rewrite length_app. simpl. lia.
      * intros i s Hi. apply lookup_app_Some in Hi.
        destruct Hi as [Hi|[Hge Hi]]; [now apply Hds|].
        apply list_lookup_singleton_Some in Hi. destruct Hi as [Hi <-].
        replace (start + Z.of_nat i) with pos by lia. exact Hm.
Qed.

Lemma read_data_spec (n : nat) (buffer : bytes) (ds : list Z) :
  forall (items_read pos : Z) (data data' : list Item),
    read_data n buffer ds items_read pos data = Ret data' ->
    0 <= pos -> Forall (Z.le 0) ds ->
    items_read = Z.of_nat (length data) ->
    (forall i item, data !! i = Some item ->
                    exists s raw, item = Raw 0 s raw /\ ds !! i = Some s) ->
    concat (map item_bytes data) = take (Z.to_nat pos) buffer ->
    length data' = (length data + n)%nat
    /\ (forall i item, data' !! i = Some item ->
                       exists s raw, item = Raw 0 s raw /\ ds !! i = Some s)
    /\ concat (map item_bytes data') `prefix_of` buffer.
Proof.
  induction n as [|n IH];
    intros items_read pos data data' Hrun Hpos Hds Hread Hitems Hbytes.
  - simpl in Hrun. injection Hrun as <-. split; [lia|]. split; [exact Hitems|].
    rewrite Hbytes. apply prefix_take.
  - simpl in Hrun. bind_inv Hrun. rename a into size.
    apply py_index_ret_nonneg in Hm; [|lia]. destruct Hm as [Hsize _].
    assert (Hnonneg : 0 <= size).
    { rewrite Forall_forall in Hds. apply Hds.
      eapply list_elem_of_lookup_2; eauto. }
    apply IH in Hrun; try assumption; try lia.
    + destruct Hrun as (Hlen & Hall & Hpre). rewrite length_app in Hlen.
      simpl in Hlen. split; [lia|]. now split.
    + rewrite length_app. simpl. lia.
    + intros i item Hi. apply lookup_app_Some in Hi.
      destruct Hi as [Hi|[Hge Hi]]; [now apply Hitems|].
      apply list_lookup_singleton_Some in Hi. destruct Hi as [Hi <-].
      exists size, (py_slice buffer pos (pos + size)). split; [reflexivity|].
      replace i with (Z.to_nat items_read) by lia. exact Hsize.
    + rewrite map_app, concat_app, Hbytes. cbn [map concat item_bytes].
      rewrite app_nil_r, py_slice_nonneg by lia.
      replace (pos + size - pos) with size by lia.
      rewrite take_take_drop. f_equal. lia.
Qed.

Lemma read_descriptors_nonneg (n : nat) (buffer : bytes) :
  forall (pos : Z) (ds ds' : list Z),
    read_descriptors n buffer pos ds = Ret ds' ->
    Forall (Z.le 0) ds -> Forall (Z.le 0) ds'.
Proof.
  induction n as [|n IH]; intros pos ds ds' Hrun Hds.
  - simpl in Hrun. now injection Hrun as <-.
  - simpl in Hrun. destruct (pos <=? 0).
    + now injection Hrun as <-.
    + bind_inv Hrun. eapply IH; [exact Hrun|].
      apply Forall_app. split; [exact Hds|]. constructor; [|constructor].
      eapply Tracev3Proofs.unpack_uint_nonneg; eauto.
Qed.

Lemma unpack_uint_uint_at (buffer : bytes) (pos n size : Z) :
  unpack_uint buffer pos n = Ret size -> uint_at buffer pos n = size.
Proof.
  unfold unpack_uint, uint_at. intros H. bind_inv H. now injection H.
Qed.

(** The second loop cuts the items out of the buffer one after the other:
    item [i] starts where the sizes before it end. *)
Lemma read_data_items (n : nat) (buffer : bytes) (ds : list Z) (base : Z) :
  (forall i s, ds !! i = Some s ->
               uint_at buffer (base + Z.of_nat i) 1 = s) ->
  forall (items_read pos : Z) (data data' : list Item),
    read_data n buffer ds items_read pos data = Ret data' ->
    items_read = Z.of_nat (length data) ->
    pos = item_start buffer base (length data) ->
    (forall i item,
       data !! i = Some item ->
       exists s,
         ds !! i = Some s
         /\ item = Raw 0 s (py_slice buffer (item_start buffer base i)
                              (item_start buffer base i + s))) ->
    forall i item,
      data' !! i = Some item ->
      exists s,
        ds !! i = Some s
        /\ item = Raw 0 s (py_slice buffer (item_start buffer base i)
                             (item_start buffer base i + s)).
Proof.
  intros Hds. induction n as [|n IH];
    intros items_read pos data data' Hrun Hread Hpos Hitems.
  - simpl in Hrun. now injection Hrun as <-.
  - simpl in Hrun. bind_inv Hrun. rename a into size.
    apply py_index_ret_nonneg in Hm; [|lia]. destruct Hm as [Hsize _].
    replace (Z.to_nat items_read) with (length data) in Hsize by lia.
    apply (IH _ _ _ _ Hrun).
    + rewrite length_app. simpl. lia.
    + rewrite length_app. replace (length data + length [Raw 0 size
        (py_slice buffer pos (pos + size))])%nat with (S (length data))
        by (simpl; lia).
      cbn [item_start]. rewrite (Hds _ _ Hsize). lia.
    + intros i item Hi. apply lookup_app_Some in Hi.
      destruct Hi as [Hi|[Hge Hi]]; [now apply Hitems|].
      apply list_lookup_singleton_Some in Hi. destruct Hi as [Hi <-].
      assert (i = length data) by lia. subst i.
      exists size. split; [exact Hsize|]. now rewrite <- Hpos.
Qed.

(** X12.  What [ReadLogDataBuffer2] returns for a buffer of more than one
    byte: as many items as the last byte of the buffer says; item [i] has
    type 0, the size that its descriptor byte (at [buf_size - 1 -
    total_items + i]) gives, and as bytes the slice of the buffer that
    starts where the sizes of the items before it end and has that size.
    Joined, the items' bytes are a prefix of the buffer.  For a size of 0 or
    1 nothing is returned. *)
Theorem read_log_data_buffer2_items (buffer : bytes) (buf_size : Z)
    (strings_buffer : bytes) (data : list Item) :
  ReadLogDataBuffer2 buffer buf_size strings_buffer = Ret data ->
  (buf_size = 0 \/ buf_size = 1 -> data = [])
  /\ (buf_size <> 0 -> buf_size <> 1 ->
      let total_items := le_uint (py_slice_from buffer (-1)) in
      let base := buf_size - 1 - total_items in
      Z.of_nat (length data) = total_items
      /\ (forall i item,
            data !! i = Some item ->
            exists size,
              unpack_uint buffer (base + Z.of_nat i) 1 = Ret size
              /\ item
                 = Raw 0 size
                     (py_slice buffer (item_start buffer base i)
                        (item_start buffer base i + size)))
      /\ concat (map item_bytes data) `prefix_of` buffer).
Proof.
  unfold ReadLogDataBuffer2. intros Hrun.
  destruct (Z.eqb_spec buf_size 0) as [H0|H0].
  { injection Hrun as <-. split; [reflexivity|contradiction]. }
  bind_inv Hrun.
  destruct (Z.eqb_spec buf_size 1) as [H1|H1].
  { injection Hrun as <-. split; [reflexivity|contradiction]. }
  split; [intros [?|?]; contradiction|]. intros _ _.
  bind_inv Hrun. rename a0 into ds.
  set (total_items := le_uint (py_slice_from buffer (-1))) in *.
  pose proof (Tracev3Proofs.le_uint_nonneg (py_slice_from buffer (-1)))
    as Htotal. fold total_items in Htotal.
  pose proof (read_descriptors_nonneg _ _ _ _ _ Hm0 ltac:(constructor))
    as Hnonneg.
  pose proof (read_descriptors_spec _ _ (buf_size - 1 - total_items) _ _ _ Hm0
                ltac:(simpl; lia)
                ltac:(intros i s Hi; discriminate Hi)) as Hds.
  pose proof (read_data_items _ buffer ds (buf_size - 1 - total_items)
                ltac:(intros i s Hi; apply unpack_uint_uint_at;
                      now apply Hds)
                _ _ _ _ Hrun eq_refl eq_refl
                ltac:(intros i item Hi; discriminate Hi)) as Hcut.
  apply read_data_spec in Hrun; try assumption; try reflexivity; try lia.
  - destruct Hrun as (Hlen & Hall & Hpre). cbv zeta.
    split; [simpl in Hlen; lia|]. split; [|exact Hpre].
    intros i item Hi. destruct (Hcut i item Hi) as (s & Hs & ->).
    exists s. split; [now apply Hds|reflexivity].
  - intros i item Hi. discriminate Hi.
Qed.

(** X13.  When the count in the last byte of the buffer leaves no room
    for the size bytes before it ([buf_size - 1 <= total_items] with a count
    above zero), [ReadLogDataBuffer2] reads no descriptor and then raises
    [IndexError] at [descriptors[0]]. *)
Theorem read_log_data_buffer2_no_room (buffer : bytes) (buf_size : Z)
    (strings_buffer : bytes) (count : byte) :
  buf_size <> 0 -> buf_size <> 1 ->
  py_slice_from buffer (-1) = [count] ->
  0 < byte_val count -> buf_size - 1 <= byte_val count ->
  ReadLogDataBuffer2 buffer buf_size strings_buffer = Raise IndexError.
Proof.
  intros H0 H1 Hlast Hcount Hroom. unfold ReadLogDataBuffer2.
  destruct (Z.eqb_spec buf_size 0); [contradiction|].
  destruct (Z.eqb_spec buf_size 1); [contradiction|].
  rewrite Hlast. cbn [struct_size length Z.of_nat Pos.of_succ_nat Z.eqb
    Pos.eqb Py.bind le_uint].
  replace (byte_val count + 256 * 0) with (byte_val count) by lia.
  destruct (Z.to_nat (byte_val count)) as [|passes] eqn:Hn; [lia|].
  cbn [read_descriptors].
  destruct (Z.leb_spec (buf_size - 1 - byte_val count) 0) as [_|?]; [|lia].
  reflexivity.
Qed.

End LogDataFacts.

Lemma read_log_data_buffer2_items_witness :
  LogData.ReadLogDataBuffer2
    (list_byte_of_string "abcde" ++ [x02; x03; x02]) 8 []
  = Ret [LogData.Raw 0 2 (list_byte_of_string "ab");
         LogData.Raw 0 3 (list_byte_of_string "cde")]
  /\ concat (map LogData.item_bytes
               [LogData.Raw 0 2 (list_byte_of_string "ab");
                LogData.Raw 0 3 (list_byte_of_string "cde")])
     `prefix_of` (list_byte_of_string "abcde" ++ [x02; x03; x02]).
Proof.
  assert (H : LogData.ReadLogDataBuffer2
                (list_byte_of_string "abcde" ++ [x02; x03; x02]) 8 []
              = Ret [LogData.Raw 0 2 (list_byte_of_string "ab");
                     LogData.Raw 0 3 (list_byte_of_string "cde")])
    by (vm_compute; reflexivity).
  split; [exact H|].
  apply (proj2 (read_log_data_buffer2_items _ _ _ _ H)); lia.
Defined.

Lemma read_log_data_buffer2_no_room_witness :
  (3 <> 0 /\ 3 <> 1
   /\ py_slice_from [x61; x62; x05] (-1) = [x05]
   /\ 0 < byte_val x05 /\ 3 - 1 <= byte_val x05)
  /\ LogData.ReadLogDataBuffer2 [x61; x62; x05] 3 [] = Raise IndexError.
Proof.
  assert (H1 : py_slice_from [x61; x62; x05] (-1) = [x05]) by reflexivity.
  assert (H2 : 0 < byte_val x05) by (vm_compute; reflexivity).
  assert (H3 : 3 - 1 <= byte_val x05) by (vm_compute; discriminate).
  split; [repeat split; (lia || assumption)|].
  apply (read_log_data_buffer2_no_room [x61; x62; x05] 3 [] x05); auto; lia.
Defined.

Section LogDataResolved.

Import LogData.

Local Abbreviation index_of := (fun d : Descriptor => fst (fst (fst d))).

Lemma resolve_not_pending (buffer strings_buffer : bytes) (pos : Z)
    (desc : Descriptor) :
  resolve buffer strings_buffer pos desc <> Pending.
Proof.
  destruct desc as [[[data_index offset] size] data_type]. unfold resolve.
  repeat match goal with
         | |- context [if ?c then _ else _] => destruct c
         end; discriminate.
Qed.

(** The first loop keeps a descriptor for every place holder, and raises
    nothing but [struct.error]. *)
Lemma read_items_loop_inv (n : nat) (buffer : bytes) (buf_size : Z) :
  forall (pos : Z) (data : list Item) (descs : list Descriptor),
    Forall (fun d => 0 <= index_of d < Z.of_nat (length data)) descs ->
    (forall i, data !! i = Some Pending ->
               Z.of_nat i ∈ map index_of descs) ->
    match read_items_loop n buffer buf_size pos data descs with
    | Ret (pos', data', descs') =>
        Forall (fun d => 0 <= index_of d < Z.of_nat (length data')) descs'
        /\ (forall i, data' !! i = Some Pending ->
                      Z.of_nat i ∈ map index_of descs')
        /\ (length data' <= length data + n)%nat
    | Raise e => e = StructError
    end.
Proof.
  induction n as [|n IH]; intros pos data descs Hidx Hpend.
  - simpl. split; [exact Hidx|]. split; [exact Hpend|]. lia.
  - cbn [read_items_loop]. destruct (pos >=? buf_size).
    { split; [exact Hidx|]. split; [exact Hpend|]. lia. }
    unfold struct_size at 1.
    destruct (_ =? 2); [|reflexivity]. cbn [Py.bind].
    set (field := py_slice buffer pos (pos + 2)).
    set (item_type := uint_at field 0 1).
    set (item_size := uint_at field 1 1).
    assert (Hraw : forall raw,
              Forall (fun d => 0 <= index_of d
                               < Z.of_nat (length (data ++ [Raw item_type
                                                      item_size raw])))
                descs
              /\ (forall i, (data ++ [Raw item_type item_size raw]) !! i
                            = Some Pending ->
                            Z.of_nat i ∈ map index_of descs)).
    { intros raw. split.
      - eapply Forall_impl; [exact Hidx|]. intros d Hd.
        rewrite length_app. simpl in Hd |- *. lia.
      - intros i Hi. apply lookup_app_Some in Hi.
        destruct Hi as [Hi|[_ Hi]]; [now apply Hpend|].
        apply list_lookup_singleton_Some in Hi. destruct Hi as [_ Hi].
        discriminate Hi. }
    assert (Hnext : forall data1 descs1,
              Forall (fun d => 0 <= index_of d < Z.of_nat (length data1))
                descs1 ->
              (forall i, data1 !! i = Some Pending ->
                         Z.of_nat i ∈ map index_of descs1) ->
              (length data1 <= length data + 1)%nat ->
              match
                (if item_size =? 0 then Ret (pos + 2, data1, descs1)
                 else read_items_loop n buffer buf_size
                        (pos + 2 + item_size) data1 descs1)
              with
              | Ret (pos', data', descs') =>
                  Forall (fun d => 0 <= index_of d
                                   < Z.of_nat (length data')) descs'
                  /\ (forall i, data' !! i = Some Pending ->
                                Z.of_nat i ∈ map index_of descs')
                  /\ (length data' <= length data + S n)%nat
              | Raise e => e = StructError
              end).
    { intros data1 descs1 Hidx1 Hpend1 Hlen1.
      destruct (item_size =? 0).
      - split; [exact Hidx1|]. split; [exact Hpend1|]. lia.
      - specialize (IH (pos + 2 + item_size) data1 descs1 Hidx1 Hpend1).
        destruct (read_items_loop n buffer buf_size (pos + 2 + item_size)
                    data1 descs1) as [[[pos' data'] descs']|e];
          [|exact IH].
        destruct IH as (H1 & H2 & H3). split; [exact H1|].
        split; [exact H2|]. lia. }
    destruct ((item_type =? 0) || (item_type =? 1)).
    { cbn [Py.bind]. destruct (Hraw (py_slice buffer (pos + 2)
                                       (pos + 2 + item_size))).
      apply Hnext; auto. rewrite length_app. simpl. lia. }
    destruct (item_type =? 2).
    { cbn [Py.bind]. destruct (Hraw (py_slice buffer (pos + 2)
                                       (pos + 2 + item_size))).
      apply Hnext; auto. rewrite length_app. simpl. lia. }
    destruct (existsb (Z.eqb item_type) string_item_types).
    { unfold struct_size. destruct (_ =? 4); [|reflexivity]. cbn [Py.bind].
      apply Hnext.
      - apply Forall_app. split.
        + eapply Forall_impl; [exact Hidx|]. intros d Hd.
          rewrite length_app. simpl in Hd |- *. lia.
        + constructor; [|constructor]. cbn [fst].
          rewrite length_app. simpl. lia.
      - intros i Hi. rewrite map_app. apply elem_of_app.
        apply lookup_app_Some in Hi.
        destruct Hi as [Hi|[Hge Hi]]; [left; now apply Hpend|].
        right. apply list_lookup_singleton_Some in Hi. destruct Hi as [Hi _].
        cbn [map fst]. apply list_elem_of_singleton. lia.
      - rewrite length_app. simpl. lia. }
    destruct (Z.land item_type 240 =? 16).
    { unfold struct_size. destruct (_ =? 4); [|reflexivity]. cbn [Py.bind].
      apply Hnext; auto. lia. }
    cbn [Py.bind]. destruct (Hraw (py_slice buffer (pos + 2)
                                     (pos + 2 + item_size))).
    apply Hnext; auto. rewrite length_app. simpl. lia.
Qed.

(** The second loop replaces every place holder that has a descriptor. *)
Lemma resolve_loop_spec (buffer strings_buffer : bytes) (pos : Z)
    (descs : list Descriptor) :
  forall (data : list Item),
    Forall (fun d => 0 <= index_of d < Z.of_nat (length data)) descs ->
    exists data',
      resolve_loop buffer strings_buffer pos descs data = Ret data'
      /\ length data' = length data
      /\ forall i, data' !! i = Some Pending ->
                   data !! i = Some Pending
                   /\ Z.of_nat i ∉ map index_of descs.
Proof.
  induction descs as [|desc descs IH]; intros data Hidx.
  - exists data. split; [reflexivity|]. split; [reflexivity|].
    intros i Hi. split; [exact Hi|]. simpl. apply not_elem_of_nil.
  - apply Forall_cons in Hidx. destruct Hidx as [Hd Hidx].
    cbn [resolve_loop]. unfold py_setitem.
    destruct (Z.ltb_spec (index_of desc) 0) as [?|_]; [lia|].
    destruct (Z.leb_spec 0 (index_of desc)) as [_|?]; [|lia].
    destruct (Z.ltb_spec (index_of desc) (Z.of_nat (length data)))
      as [_|?]; [|lia].
    cbn [andb Py.bind].
    set (data1 := <[Z.to_nat (index_of desc)
                    := resolve buffer strings_buffer pos desc]> data).
    destruct (IH data1) as (data' & Hrun & Hlen & Hpend).
    { unfold data1. rewrite length_insert. exact Hidx. }
    exists data'. split; [exact Hrun|].
    split; [unfold data1 in Hlen; now rewrite length_insert in Hlen|].
    intros i Hi. destruct (Hpend i Hi) as [Hi1 Hnotin].
    unfold data1 in Hi1. apply list_lookup_insert_Some in Hi1.
    destruct Hi1 as [(_ & Hres & _)|[Hne Hi1]].
    + now apply resolve_not_pending in Hres.
    + split; [exact Hi1|]. cbn [map]. apply not_elem_of_cons.
      split; [lia|exact Hnotin].
Qed.

(** X14.  [ReadLogDataBuffer] resolves every string item: the list it
    returns holds no place holder, and it has no more elements than the
    item count in the second byte of the buffer.  The only exception it
    raises is [struct.error]. *)
Theorem read_log_data_buffer_resolved (buffer : bytes) (buf_size : Z)
    (strings_buffer : bytes) (has_context_data : bool) :
  match
    ReadLogDataBuffer buffer buf_size strings_buffer has_context_data
  with
  | Ret data =>
      (Pending ∉ data)
      /\ Z.of_nat (length data) <= uint_at (py_slice buffer 0 2) 1 1
  | Raise e => e = StructError
  end.
Proof.
  unfold ReadLogDataBuffer, struct_size.
  destruct (_ =? 2); [|reflexivity]. cbn [Py.bind].
  pose proof (read_items_loop_inv
                (Z.to_nat (uint_at (py_slice buffer 0 2) 1 1)) buffer
                buf_size 2 [] [] ltac:(constructor)
                ltac:(intros i Hi; discriminate Hi)) as Hloop.
  destruct (read_items_loop _ buffer buf_size 2 [] [])
    as [[[pos data] descs]|e]; [|exact Hloop].
  destruct Hloop as (Hidx & Hpend & Hlen). cbn [Py.bind].
  destruct (resolve_loop_spec buffer strings_buffer pos descs data Hidx)
    as (data' & -> & Hlen' & Hnone).
  split.
  - intros Hin. apply list_elem_of_lookup_1 in Hin. destruct Hin as [i Hi].
    destruct (Hnone i Hi) as [Hi0 Hnotin]. apply Hnotin, Hpend, Hi0.
  - pose proof (uint_at_nonneg_top (py_slice buffer 0 2) 1 1).
    simpl in Hlen. lia.
Qed.

End LogDataResolved.

Example read_log_data_buffer_strings :
  LogData.ReadLogDataBuffer
    ([x00; x03; x00; x04] ++ le_bytes 4 7
       ++ [x22; x04] ++ le_bytes 2 0 ++ le_bytes 2 2
       ++ [x41; x04] ++ le_bytes 2 1 ++ le_bytes 2 0
       ++ list_byte_of_string "hi")
    22 (list_byte_of_string "secret") false
  = Ret [LogData.Raw 0 4 (le_bytes 4 7);
         LogData.Raw 0x22 2 (list_byte_of_string "hi");
         LogData.Text 0x41 0 "<private>"].
Proof. vm_compute. reflexivity. Qed.

(** ** Simpledump chunks *)

Section SimpleDumpFacts.

Import SimpleDump.

Lemma raise_bind_inv {A B} (m : result A) (k : A -> result B) (e : exn) :
  Py.bind m k = Raise e ->
  m = Raise e \/ exists a, m = Ret a /\ k a = Raise e.
Proof. destruct m as [a|e']; simpl; [eauto|intros [= ->]; now left]. Qed.

Lemma struct_size_raise (data : bytes) (n : Z) (e : exn) :
  struct_size data n = Raise e -> e = StructError.
Proof. unfold struct_size. destruct (_ =? n); [discriminate|congruence]. Qed.

Lemma unpack_uint_raise (data : bytes) (pos n : Z) (e : exn) :
  unpack_uint data pos n = Raise e -> e = StructError.
Proof.
  unfold unpack_uint. intros H. apply raise_bind_inv in H.
  destruct H as [H|(a & _ & H)]; [now apply struct_size_raise in H|].
  discriminate.
Qed.

Lemma UUID_of_bytes_raise (b : bytes) (e : exn) :
  DscFile.UUID_of_bytes b = Raise e -> e = ValueError.
Proof.
  unfold DscFile.UUID_of_bytes. destruct (_ =? 16); [discriminate|congruence].
Qed.

Lemma py_index_raise {A} (l : list A) (i : Z) (e : exn) :
  py_index l i = Raise e -> e = IndexError.
Proof.
  unfold py_index. destruct (_ && _); [|congruence].
  destruct (l !! _); [discriminate|congruence].
Qed.

Lemma as_uuidtext_raise (o : FileObject) (e : exn) :
  as_uuidtext o = Raise e -> e = AttributeError.
Proof. destruct o; simpl; [congruence|discriminate]. Qed.

Lemma of_int_raise (n : Z) (e : exn) :
  PyFloat.of_int n = Raise e -> e = OverflowError.
Proof.
  unfold PyFloat.of_int. destruct (binary_normalize _ _ _ _ _);
    try discriminate. congruence.
Qed.

Lemma time_raise (ts_list : option (list TimesyncItem)) (ct : Z)
    (ts : option TimesyncItem) (e : exn) :
  time_from_continuoustime ts_list ct ts = Raise e ->
  e = AttributeError \/ e = OverflowError \/ e = ZeroDivisionError.
Proof.
  unfold time_from_continuoustime.
  destruct (match ts with Some t => Some t | None => _ end) as [t|];
    [|intros [= <-]; now left].
  unfold wall_clock. intros H.
  apply raise_bind_inv in H.
  destruct H as [H|(num & _ & H)]; [apply of_int_raise in H; auto|].
  apply raise_bind_inv in H.
  destruct H as [H|(delta & _ & H)]; [apply of_int_raise in H; auto|].
  apply raise_bind_inv in H.
  destruct H as [H|(den & _ & H)]; [apply of_int_raise in H; auto|].
  apply raise_bind_inv in H. destruct H as [H|(quot & _ & H)].
  { unfold PyFloat.div in H. destruct (PyFloat.is_zero den);
      [injection H as <-; auto|discriminate]. }
  apply raise_bind_inv in H.
  destruct H as [H|(stamp & _ & H)]; [apply of_int_raise in H; auto|].
  discriminate.
Qed.

(** No statement of the block after [ct] raises one of the exceptions that
    are raised again. *)
Lemma build_entry_raises_benign self chunk_data catalog proc_info
    log_file_pos ttl ct e :
  build_entry self chunk_data catalog proc_info log_file_pos ttl ct = Raise e ->
  caught_by [ImportError; NameError; UnboundLocalError] e = false.
Proof.
  unfold build_entry. intros H.
  apply raise_bind_inv in H. destruct H as [H|(time & _ & H)].
  { apply time_raise in H. destruct H as [->|[->| ->]]; reflexivity. }
  apply raise_bind_inv in H. destruct H as [H|(? & _ & H)].
  { apply struct_size_raise in H. now subst. }
  apply raise_bind_inv in H. destruct H as [H|(? & _ & H)].
  { apply struct_size_raise in H. now subst. }
  apply raise_bind_inv in H. destruct H as [H|(? & _ & H)].
  { apply UUID_of_bytes_raise in H. now subst. }
  apply raise_bind_inv in H. destruct H as [H|(? & _ & H)].
  { apply UUID_of_bytes_raise in H. now subst. }
  apply raise_bind_inv in H. destruct H as [H|(? & _ & H)].
  { apply unpack_uint_raise in H. now subst. }
  apply raise_bind_inv in H. destruct H as [H|(? & _ & H)].
  { apply unpack_uint_raise in H. now subst. }
  apply raise_bind_inv in H. destruct H as [H|(? & _ & H)].
  { apply unpack_uint_raise in H. now subst. }
  cbv zeta in H.
  apply raise_bind_inv in H. destruct H as [H|(? & _ & H)].
  { apply py_index_raise in H. now subst. }
  apply raise_bind_inv in H. destruct H as [H|(? & _ & H)].
  { apply as_uuidtext_raise in H. now subst. }
  discriminate.
Qed.

(** X15.  A simpledump chunk of fewer than 24 bytes makes
    [_ParseSimpleDumpData] raise [UnboundLocalError]: the [struct.error] of
    the truncated header is caught, but the handler's message uses [ct],
    which is not bound yet, and the exception of the handler leaves the
    function instead of the entry being skipped. *)
Theorem simple_dump_short_chunk_raises (self : TraceV3) (chunk_data : bytes)
    (catalog : Catalog) (proc_info : ProcInfo) (log_file_pos : Z) :
  Z.of_nat (length chunk_data) < 24 ->
  _ParseSimpleDumpData self chunk_data catalog proc_info log_file_pos
  = Raise UnboundLocalError.
Proof.
  intros Hshort. unfold _ParseSimpleDumpData.
  destruct (read_ct chunk_data) as [[ttl ct]|e] eqn:Hread.
  - exfalso. unfold read_ct in Hread. bind_inv Hread. bind_inv Hread.
    unfold unpack_uint in Hm0. bind_inv Hm0.
    unfold struct_size in Hm1.
    destruct (Z.eqb_spec
                (Z.of_nat (length (py_slice chunk_data 16 (16 + 8)))) 8)
      as [Hlen|]; [|discriminate].
    apply py_slice_length_inv in Hlen; lia.
  - unfold read_ct in Hread. apply raise_bind_inv in Hread.
    destruct Hread as [H|(? & _ & H)].
    { apply struct_size_raise in H. now subst. }
    apply raise_bind_inv in H. destruct H as [H|(? & _ & H)].
    { apply unpack_uint_raise in H. now subst. }
    discriminate.
Qed.

(** X16.  On a simpledump chunk of 24 bytes or more [_ParseSimpleDumpData]
    always returns: it appends one entry or, when any later statement
    fails, none.  The entry has the type "Default", the continuous time of
    bytes 16 to 24 and the time converted from it, the signed [ttl] byte
    at offset 12, the position passed in, and the pid and euid of the
    process. *)
Theorem simple_dump_long_chunk_returns (self : TraceV3) (chunk_data : bytes)
    (catalog : Catalog) (proc_info : ProcInfo) (log_file_pos : Z) :
  24 <= Z.of_nat (length chunk_data) ->
  exists entries,
    _ParseSimpleDumpData self chunk_data catalog proc_info log_file_pos
    = Ret entries
    /\ (length entries <= 1)%nat
    /\ forall entry, entry ∈ entries ->
         e_log_type entry = "Default"%string
         /\ e_ct entry = uint_at chunk_data 16 8
         /\ time_from_continuoustime (boot_uuid_ts_list self)
              (uint_at chunk_data 16 8) None = Ret (e_time entry)
         /\ e_ttl entry = sint_at (py_slice chunk_data 0 16) 12 1
         /\ e_filename entry = filename self
         /\ e_log_file_pos entry = log_file_pos
         /\ e_pid entry = pid proc_info /\ e_euid entry = euid proc_info
         /\ e_act_id entry = 0.
Proof.
  intros Hlong. unfold _ParseSimpleDumpData.
  assert (Hread : read_ct chunk_data
                  = Ret (sint_at (py_slice chunk_data 0 16) 12 1,
                         uint_at chunk_data 16 8)).
  { assert (H16 : Z.of_nat (length (py_slice chunk_data 0 16)) = 16)
      by (apply (py_slice_length chunk_data 0 16); lia).
    assert (H8 : Z.of_nat (length (py_slice chunk_data 16 (16 + 8))) = 8)
      by (apply (py_slice_length chunk_data 16 8); lia).
    unfold read_ct, unpack_uint, struct_size. rewrite H16, H8.
    reflexivity. }
  rewrite Hread.
  destruct (build_entry self chunk_data catalog proc_info log_file_pos _ _)
    as [entry|e] eqn:Hbuild.
  - exists [entry]. split; [reflexivity|]. split; [simpl; lia|].
    intros entry' Hin. apply list_elem_of_singleton in Hin. subst entry'.
    unfold build_entry in Hbuild.
    bind_inv Hbuild. rename a into time.
    do 7 (bind_inv Hbuild). cbv zeta in Hbuild.
    do 2 (bind_inv Hbuild). injection Hbuild as <-.
    cbn [e_log_type e_ct e_time e_ttl e_filename e_log_file_pos e_pid e_euid
         e_act_id].
    repeat split; try reflexivity. exact Hm.
  - exists []. rewrite (build_entry_raises_benign _ _ _ _ _ _ _ _ Hbuild).
    split; [reflexivity|]. split; [simpl; lia|].
    intros entry Hin. now apply elem_of_nil in Hin.
Qed.

End SimpleDumpFacts.

Lemma simple_dump_short_chunk_raises_witness :
  Z.of_nat (length (le_bytes 20 0)) < 24
  /\ SimpleDump._ParseSimpleDumpData (Scenario.demo_self ∅) (le_bytes 20 0)
       Scenario.demo_catalog Scenario.demo_proc_info 0
     = Raise UnboundLocalError.
Proof.
  assert (H : Z.of_nat (length (le_bytes 20 0)) < 24) by (simpl; lia).
  split; [exact H|].
  exact (simple_dump_short_chunk_raises (Scenario.demo_self ∅) (le_bytes 20 0)
           Scenario.demo_catalog Scenario.demo_proc_info 0 H).
Defined.

Lemma simple_dump_long_chunk_returns_witness :
  24 <= Z.of_nat (length demo_simple_dump)
  /\ exists entries,
       SimpleDump._ParseSimpleDumpData (Scenario.demo_self ∅)
         demo_simple_dump Scenario.demo_catalog Scenario.demo_proc_info 64
       = Ret entries
       /\ (length entries <= 1)%nat.
Proof.
  assert (H : 24 <= Z.of_nat (length demo_simple_dump))
    by (vm_compute; discriminate).
  split; [exact H|].
  destruct (simple_dump_long_chunk_returns (Scenario.demo_self ∅)
              demo_simple_dump Scenario.demo_catalog Scenario.demo_proc_info
              64 H) as (entries & Hrun & Hlen & _).
  exists entries. split; [exact Hrun|exact Hlen].
Defined.

Example demo_simple_dump_entry :
  match
    SimpleDump._ParseSimpleDumpData (Scenario.demo_self ∅) demo_simple_dump
      Scenario.demo_catalog Scenario.demo_proc_info 64
  with
  | Ret [entry] =>
      SimpleDump.e_log_msg entry = "hello"%string
      /\ SimpleDump.e_sub_sys entry = Some "sub"%string
      /\ SimpleDump.e_thread entry = 99 /\ SimpleDump.e_ttl entry = 3
      /\ SimpleDump.e_ct entry = 2000
  | _ => False
  end.
Proof. vm_compute. repeat split; reflexivity. Qed.

(** ** The chunk loop runs to the end of the file *)

Lemma while_loop_exits {S : Type} (cond : S -> bool) (body : S -> result S)
    (measure : S -> nat) :
  (forall s, cond s = true -> (0 < measure s)%nat) ->
  (forall s s', cond s = true -> body s = Ret s' ->
                (measure s' < measure s)%nat) ->
  forall fuel s s',
    (measure s <= fuel)%nat ->
    while_loop fuel cond body s = Ret s' -> cond s' = false.
Proof.
  intros Hpos Hdec fuel. induction fuel as [|fuel IH]; intros s s' Hfuel;
    simpl; destruct (cond s) eqn:Hc.
  - specialize (Hpos s Hc). lia.
  - now intros [= <-].
  - destruct (body s) as [s1|e] eqn:Hb; [|discriminate].
    apply IH. specialize (Hdec s s1 Hc Hb). lia.
  - now intros [= <-].
Qed.

Section WholeFile.

Local Open Scope list_scope.
Local Open Scope Z_scope.

Variable LogDataItem : Type.
Variable ReadLogDataBuffer :
  bytes -> Z -> bytes -> bool -> result (list LogDataItem).
Variable ReadLogDataBuffer2 : bytes -> Z -> bytes -> result (list LogDataItem).
Variable RecreateMsgFromFmtStringAndData :
  string -> list LogDataItem -> Z -> result string.
Variable GetSubSystemAndCategory : ProcInfo -> Z -> result (string * string).
Variable find_other_uuidtext : string -> result (option Uuidtext).
Variable _ReadAPFSTime : PyFloat.float -> result string.
Variable _ParseStateChunkData :
  TraceV3 -> bytes -> Catalog -> ProcInfo -> Z -> result (list LogEntry).
Variable _ParseSimpleDumpData :
  TraceV3 -> bytes -> Catalog -> ProcInfo -> Z -> result (list LogEntry).
Variable _ParseMetaChunk : TraceV3 -> bytes -> result Catalog.
Variable lz4_block_decompress : bytes -> Z -> bytes -> result bytes.

Local Abbreviation loop_step :=
  (file_loop_step LogDataItem ReadLogDataBuffer ReadLogDataBuffer2
     RecreateMsgFromFmtStringAndData GetSubSystemAndCategory
     find_other_uuidtext _ReadAPFSTime _ParseStateChunkData
     _ParseSimpleDumpData _ParseMetaChunk lz4_block_decompress).
Local Abbreviation parse_file_object :=
  (_ParseFileObject LogDataItem ReadLogDataBuffer ReadLogDataBuffer2
     RecreateMsgFromFmtStringAndData GetSubSystemAndCategory
     find_other_uuidtext _ReadAPFSTime _ParseStateChunkData
     _ParseSimpleDumpData _ParseMetaChunk lz4_block_decompress).

(** X17.  A run of [_ParseFileObject] that returns has gone through the
    whole file: every pass of the chunk loop moves the position forward by
    at least the 16 bytes of a chunk header, the loop is left only when the
    position has reached [_file_size], and the position then stands beyond
    the header chunk. *)
Theorem parse_reads_to_the_end (name : string) (ts_list : list Timesync)
    (file : bytes) (file_size : Z) (func : option Sink)
    (final : FileLoopState) :
  parse_file_object name ts_list file file_size func = Ret final ->
  file_size <= fl_pos final
  /\ 16 <= fl_pos final
  /\ forall s s', loop_step file func s = Ret s' -> fl_pos s + 16 <= fl_pos s'.
Proof.
  intros H.
  assert (Hadv : forall s s', loop_step file func s = Ret s' ->
                              fl_pos s + 16 <= fl_pos s').
  { intros s s'. apply Tracev3Proofs.file_loop_step_advances. }
  unfold _ParseFileObject in H. read_fixed_in H.
  destruct (file_read (mkFileObj file 0) 16) as [chunk_header_data f1].
  bind_inv H. destruct a as [[tag subtag] chunk_data_size].
  destruct (negb (tag =? 4096)); [discriminate|].
  destruct (negb (subtag =? 17)); [discriminate|].
  read_inv H. destruct rd as [file_header_data f2].
  bind_inv H. bind_inv H. bind_inv H. bind_inv H. injection H as <-.
  cbn [fl_pos].
  apply Tracev3Proofs.chunk_header_size_nonneg in Hm.
  assert (Hge : 16 + chunk_data_size <= fl_pos a1).
  { refine (while_loop_inv (fun s => fl_pos s <? file_size)
              (loop_step file func)
              (fun s => 16 + chunk_data_size <= fl_pos s) _ _ _ _ _ Hm2).
    - intros s s' Hs _ Hstep. apply Hadv in Hstep. lia.
    - simpl. lia. }
  split; [|split; [lia|exact Hadv]].
  apply (while_loop_exits (fun s => fl_pos s <? file_size)
           (loop_step file func)
           (fun s => Z.to_nat (file_size - fl_pos s))) in Hm2.
  - apply Z.ltb_ge in Hm2. exact Hm2.
  - intros s Hc. apply Z.ltb_lt in Hc. lia.
  - intros s s' Hc Hstep. apply Z.ltb_lt in Hc. apply Hadv in Hstep. lia.
  - cbn [fl_pos]. lia.
Qed.

End WholeFile.

Lemma parse_reads_to_the_end_witness :
  exists final,
    Scenario.parse_file_object Scenario.signpost_file None = Ret final
    /\ Z.of_nat (length Scenario.signpost_file) <= fl_pos final.
Proof.
  destruct (Scenario.parse_file_object Scenario.signpost_file None)
    as [final|e] eqn:Hrun.
  - exists final. split; [reflexivity|].
    unfold Scenario.parse_file_object in Hrun.
    exact (proj1 (parse_reads_to_the_end Scenario.Item Scenario.read_items
                    Scenario.read_items2 Scenario.recreate
                    Scenario.no_subsystem Scenario.no_other_uuidtext
                    Scenario.apfs_time Scenario.no_entries Scenario.no_entries
                    Scenario.demo_meta Scenario.no_lz4 "demo.tracev3"%string
                    Scenario.demo_ts_list Scenario.signpost_file
                    (Z.of_nat (length Scenario.signpost_file)) None final
                    Hrun)).
  - vm_compute in Hrun. discriminate Hrun.
Defined.

(** ** The oversize store *)

Section OversizeStore.

Variable _ReadAPFSTime : PyFloat.float -> result string.

(** The key [(data_ref_id << 64) | ct] determines both of its parts when
    [ct] is a 64-bit value. *)
Lemma oversize_key_parts (data_ref_id ct : Z) :
  0 <= ct < 2 ^ 64 ->
  Z.shiftr (Z.lor (Z.shiftl data_ref_id 64) ct) 64 = data_ref_id
  /\ Z.land (Z.lor (Z.shiftl data_ref_id 64) ct) (Z.ones 64) = ct.
Proof.
  intros Hct. split.
  - rewrite Z.shiftr_lor, Z.shiftr_shiftl_l by lia.
    rewrite Z.sub_diag, Z.shiftl_0_r, Z.shiftr_div_pow2 by lia.
    rewrite Z.div_small by lia. apply Z.lor_0_r.
  - rewrite Z.land_lor_distr_l, !Z.land_ones by lia.
    rewrite Z.shiftl_mul_pow2, Z.mod_mul by lia.
    rewrite Z.mod_small by lia. reflexivity.
Qed.

Lemma uint_at_bound (data : bytes) (off n : Z) :
  0 <= off -> 0 <= n -> 0 <= uint_at data off n < 256 ^ n.
Proof.
  intros Hoff Hn. unfold uint_at.
  pose proof (le_uint_bound (py_slice data off (off + n))) as [Hlo Hhi].
  split; [exact Hlo|].
  eapply Z.lt_le_trans; [exact Hhi|].
  apply Z.pow_le_mono_r; [lia|].
  pose proof (Tracev3Proofs.py_slice_length_le data off (off + n)
                ltac:(lia) ltac:(lia)). lia.
Qed.

Lemma oversize_chunk_store (self self' : TraceV3) (chunk_data : bytes)
    (log_file_pos : Z) :
  _ParseOversizeChunkData _ReadAPFSTime self chunk_data log_file_pos
  = Ret self' ->
  large_data self'
  = <[Z.lor (Z.shiftl (uint_at (py_slice chunk_data 16 32) 8 4) 64)
        (uint_at (py_slice chunk_data 16 32) 0 8)
      := py_slice chunk_data 32
           (32 + uint_at (py_slice chunk_data 16 32) 12 4)]>
      (large_data self).
Proof.
  unfold _ParseOversizeChunkData. intros H. bind_inv H. cbv zeta in H.
  bind_inv H. bind_inv H. injection H as <-. reflexivity.
Qed.

(** X18.  Two oversize chunks that differ in their reference id or in
    their continuous time never overwrite each other: after both are parsed,
    each payload is found under its own key [(data_ref_id << 64) | ct]. *)
Theorem oversize_chunks_do_not_collide (self self1 self2 : TraceV3)
    (chunk1 chunk2 : bytes) (pos1 pos2 : Z) :
  _ParseOversizeChunkData _ReadAPFSTime self chunk1 pos1 = Ret self1 ->
  _ParseOversizeChunkData _ReadAPFSTime self1 chunk2 pos2 = Ret self2 ->
  let header1 := py_slice chunk1 16 32 in
  let header2 := py_slice chunk2 16 32 in
  (uint_at header1 8 4, uint_at header1 0 8)
  <> (uint_at header2 8 4, uint_at header2 0 8) ->
  large_data self2
    !! Z.lor (Z.shiftl (uint_at header1 8 4) 64) (uint_at header1 0 8)
  = Some (py_slice chunk1 32 (32 + uint_at header1 12 4))
  /\ large_data self2
       !! Z.lor (Z.shiftl (uint_at header2 8 4) 64) (uint_at header2 0 8)
     = Some (py_slice chunk2 32 (32 + uint_at header2 12 4)).
Proof.
  intros H1 H2 header1 header2 Hdiff.
  apply oversize_chunk_store in H1. apply oversize_chunk_store in H2.
  fold header1 in H1. fold header2 in H2. rewrite H2, H1.
  split; [|apply lookup_insert_eq].
  rewrite lookup_insert_ne; [apply lookup_insert_eq|].
  intros Hkey. apply Hdiff.
  pose proof (uint_at_bound header1 0 8 ltac:(lia) ltac:(lia)) as Hb1.
  pose proof (uint_at_bound header2 0 8 ltac:(lia) ltac:(lia)) as Hb2.
  change (256 ^ 8) with (2 ^ 64) in Hb1, Hb2.
  destruct (oversize_key_parts (uint_at header1 8 4) (uint_at header1 0 8)
              Hb1) as [Ha1 Hc1].
  destruct (oversize_key_parts (uint_at header2 8 4) (uint_at header2 0 8)
              Hb2) as [Ha2 Hc2].
  rewrite Hkey in Ha2, Hc2. congruence.
Qed.

End OversizeStore.

Lemma oversize_chunks_do_not_collide_witness :
  exists self1 self2,
    large_data self2 !! Z.lor (Z.shiftl 1 64) 100
    = Some (list_byte_of_string "first")
    /\ large_data self2 !! Z.lor (Z.shiftl 1 64) 101
       = Some (list_byte_of_string "second")
    /\ _ParseOversizeChunkData Scenario.apfs_time (Scenario.demo_self ∅)
         (oversize_chunk_for 1 100 (list_byte_of_string "first")) 0
       = Ret self1
    /\ _ParseOversizeChunkData Scenario.apfs_time self1
         (oversize_chunk_for 1 101 (list_byte_of_string "second")) 64
       = Ret self2.
Proof.
  destruct (_ParseOversizeChunkData Scenario.apfs_time (Scenario.demo_self ∅)
              (oversize_chunk_for 1 100 (list_byte_of_string "first")) 0)
    as [self1|e] eqn:H1; [|vm_compute in H1; discriminate H1].
  destruct (_ParseOversizeChunkData Scenario.apfs_time self1
              (oversize_chunk_for 1 101 (list_byte_of_string "second")) 64)
    as [self2|e] eqn:H2.
  - exists self1, self2.
    assert (Hdiff :
      (uint_at (py_slice (oversize_chunk_for 1 100
                            (list_byte_of_string "first")) 16 32) 8 4,
       uint_at (py_slice (oversize_chunk_for 1 100
                            (list_byte_of_string "first")) 16 32) 0 8)
      <> (uint_at (py_slice (oversize_chunk_for 1 101
                               (list_byte_of_string "second")) 16 32) 8 4,
          uint_at (py_slice (oversize_chunk_for 1 101
                               (list_byte_of_string "second")) 16 32) 0 8))
      by (vm_compute; discriminate).
    destruct (oversize_chunks_do_not_collide Scenario.apfs_time _ _ _ _ _ _ _
                H1 H2 Hdiff) as [Hfirst Hsecond].
    split; [exact Hfirst|]. split; [exact Hsecond|].
    split; [reflexivity|exact H2].
  - exfalso. revert H2. injection H1 as <-. vm_compute. discriminate.
Defined.

(** ** Chunks of other kinds are walked over *)

Lemma file_read_at (file pre rec rest : bytes) (off n : Z) :
  file = pre ++ rec ++ rest -> off = Z.of_nat (length pre) ->
  Z.of_nat (length rec) = n ->
  file_read (mkFileObj file off) n = (rec, mkFileObj file (off + n)).
Proof. intros -> -> Hn. now apply file_read_record. Qed.

Lemma chunk_header_parse (tag subtag n : Z) :
  0 <= tag < 2 ^ 32 -> 0 <= subtag < 2 ^ 32 -> 0 <= n < 2 ^ 64 ->
  _ParseChunkHeaderData (le_bytes 4 tag ++ le_bytes 4 subtag ++ le_bytes 8 n)
  = Ret (tag, subtag, n).
Proof.
  intros Htag Hsub Hn. unfold _ParseChunkHeaderData, struct_size.
  rewrite !length_app, !length_le_bytes. cbn [Nat.add Z.of_nat Z.eqb].
  change (Z.of_nat 16 =? 16) with true. cbn [bind].
  rewrite uint_at_head by (try reflexivity; lia).
  rewrite (uint_at_skip (le_bytes 4 tag) _ 4 4 0 4)
    by (rewrite ?length_le_bytes; lia).
  rewrite uint_at_head by (try reflexivity; lia).
  rewrite (uint_at_skip (le_bytes 4 tag) _ 4 8 4 8)
    by (rewrite ?length_le_bytes; lia).
  rewrite (uint_at_skip (le_bytes 4 subtag) _ 4 4 0 8)
    by (rewrite ?length_le_bytes; lia).
  rewrite <- (app_nil_r (le_bytes 8 n)).
  rewrite uint_at_head by (try reflexivity; lia).
  reflexivity.
Qed.

Lemma chunk_length (tag subtag : Z) (data : bytes) :
  Z.of_nat (length (Scenario.chunk tag subtag data))
  = next_pos 0 (Z.of_nat (length data)).
Proof.
  unfold Scenario.chunk, next_pos. cbv zeta.
  rewrite !length_app, !length_le_bytes.
  pose proof (Z.mod_pos_bound (Z.of_nat (length data)) 8 ltac:(lia)) as Hm.
  destruct (Z.eqb_spec (Z.of_nat (length data) mod 8) 0) as [E|E];
    cbn [negb].
  - rewrite E. change ((8 - 0) mod 8) with 0. lia.
  - rewrite (Z.mod_small (8 - Z.of_nat (length data) mod 8) 8) by lia. lia.
Qed.

Lemma next_pos_shift (pos n : Z) : next_pos pos n = pos + next_pos 0 n.
Proof. unfold next_pos. cbv zeta. destruct (negb (n mod 8 =? 0)); lia. Qed.

Lemma chunks_length_le (chunks : list ChunkLayout.Chunk) :
  (length chunks <= length (concat (map ChunkLayout.encode_chunk chunks)))%nat.
Proof.
  induction chunks as [|[[tag subtag] data] chunks IH];
    cbn [map concat length]; [lia|].
  rewrite length_app.
  assert (16 <= length (ChunkLayout.encode_chunk (tag, subtag, data)))%nat.
  { unfold ChunkLayout.encode_chunk, Scenario.chunk. cbv zeta.
    rewrite !length_app, !length_le_bytes. lia. }
  lia.
Qed.

Section ChunkFraming.

Local Open Scope list_scope.
Local Open Scope Z_scope.

Variable LogDataItem : Type.
Variable ReadLogDataBuffer :
  bytes -> Z -> bytes -> bool -> result (list LogDataItem).
Variable ReadLogDataBuffer2 : bytes -> Z -> bytes -> result (list LogDataItem).
Variable RecreateMsgFromFmtStringAndData :
  string -> list LogDataItem -> Z -> result string.
Variable GetSubSystemAndCategory : ProcInfo -> Z -> result (string * string).
Variable find_other_uuidtext : string -> result (option Uuidtext).
Variable _ReadAPFSTime : PyFloat.float -> result string.
Variable _ParseStateChunkData :
  TraceV3 -> bytes -> Catalog -> ProcInfo -> Z -> result (list LogEntry).
Variable _ParseSimpleDumpData :
  TraceV3 -> bytes -> Catalog -> ProcInfo -> Z -> result (list LogEntry).
Variable _ParseMetaChunk : TraceV3 -> bytes -> result Catalog.
Variable lz4_block_decompress : bytes -> Z -> bytes -> result bytes.

Local Abbreviation loop_step :=
  (file_loop_step LogDataItem ReadLogDataBuffer ReadLogDataBuffer2
     RecreateMsgFromFmtStringAndData GetSubSystemAndCategory
     find_other_uuidtext _ReadAPFSTime _ParseStateChunkData
     _ParseSimpleDumpData _ParseMetaChunk lz4_block_decompress).
Local Abbreviation parse :=
  (Parse LogDataItem ReadLogDataBuffer ReadLogDataBuffer2
     RecreateMsgFromFmtStringAndData GetSubSystemAndCategory
     find_other_uuidtext _ReadAPFSTime _ParseStateChunkData
     _ParseSimpleDumpData _ParseMetaChunk lz4_block_decompress).

(** One pass of the chunk loop over such a chunk moves to the chunk after
    it and leaves the rest of the state alone. *)
Lemma loop_step_other (func : option Sink) (pre rest : bytes)
    (c : ChunkLayout.Chunk) (s : FileLoopState) :
  ChunkLayout.is_other c -> fl_pos s = Z.of_nat (length pre) -> fl_logs s = [] ->
  Z.of_nat (length (pre ++ ChunkLayout.encode_chunk c ++ rest))
  <= PY_SSIZE_T_MAX ->
  exists uncompressed_file_pos,
    loop_step (pre ++ ChunkLayout.encode_chunk c ++ rest) func s
    = Ret (mkFileLoopState
             (Z.of_nat (length (pre ++ ChunkLayout.encode_chunk c)))
             (fl_self s) (fl_catalog s) (fl_meta_chunk_index s)
             uncompressed_file_pos [] (fl_delivered s)).
Proof.
  destruct c as [[tag subtag] data].
  intros ((Htag & Hsub & Hlen) & Hmeta & Hcomp) Hpos Hlogs Hmax.
  cbn [ChunkLayout.chunk_tag fst] in Hmeta, Hcomp.
  assert (Hdata : Z.of_nat (length data) <= PY_SSIZE_T_MAX).
  { revert Hmax. unfold ChunkLayout.encode_chunk, Scenario.chunk. cbv zeta.
    rewrite !length_app. lia. }
  unfold file_loop_step, file_seek. cbn [contents]. read_fixed.
  set (n := Z.of_nat (length data)).
  set (pad := le_bytes (Z.to_nat ((8 - n mod 8) mod 8)) 0).
  set (hdr := le_bytes 4 tag ++ le_bytes 4 subtag ++ le_bytes 8 n).
  assert (Hfile : pre ++ ChunkLayout.encode_chunk (tag, subtag, data) ++ rest
                  = pre ++ hdr ++ (data ++ pad ++ rest)).
  { unfold ChunkLayout.encode_chunk, Scenario.chunk, hdr, pad, n.
    cbv zeta. now rewrite <- !app_assoc. }
  assert (Hhdr : Z.of_nat (length hdr) = 16).
  { unfold hdr. rewrite !length_app, !length_le_bytes. reflexivity. }
  rewrite (file_read_at _ pre hdr (data ++ pad ++ rest) (fl_pos s) 16
             Hfile Hpos Hhdr).
  unfold hdr at 1. rewrite chunk_header_parse by (unfold n; lia).
  cbn [bind].
  assert (Hfile2 : pre ++ ChunkLayout.encode_chunk (tag, subtag, data) ++ rest
                   = (pre ++ hdr) ++ data ++ (pad ++ rest)).
  { rewrite Hfile. now rewrite <- !app_assoc. }
  rewrite file_object_read_small by exact Hdata. cbn [bind].
  rewrite (file_read_at _ (pre ++ hdr) data (pad ++ rest) (fl_pos s + 16) n
             Hfile2)
    by (rewrite ?length_app; lia).
  unfold dispatch_chunk.
  destruct (Z.eqb_spec tag _CHUNK_TAG_METADATA) as [E|_]; [contradiction|].
  destruct (Z.eqb_spec tag _CHUNK_TAG_COMPRESSED) as [E|_]; [contradiction|].
  cbn [bind]. rewrite Hlogs.
  assert (Hflush : flush_if_full func (fl_self s) [] (fl_delivered s)
                   = Ret ([], fl_delivered s)).
  { unfold flush_if_full. destruct func; reflexivity. }
  rewrite Hflush. cbn [bind]. eexists. f_equal. f_equal.
  rewrite next_pos_shift, length_app, Nat2Z.inj_add, Hpos.
  unfold ChunkLayout.encode_chunk. now rewrite chunk_length.
Qed.

Lemma loop_other_chunks (func : option Sink)
    (chunks : list ChunkLayout.Chunk) (rest : bytes) :
  Forall ChunkLayout.is_other chunks ->
  forall (pre : bytes) (s : FileLoopState) (fuel : nat),
    fl_pos s = Z.of_nat (length pre) -> fl_logs s = [] ->
    let file := pre ++ concat (map ChunkLayout.encode_chunk chunks) ++ rest in
    Z.of_nat (length file) <= PY_SSIZE_T_MAX ->
    exists uncompressed_file_pos,
      while_loop (length chunks + fuel)
        (fun s => fl_pos s <? Z.of_nat (length file)) (loop_step file func) s
      = while_loop fuel
          (fun s => fl_pos s <? Z.of_nat (length file)) (loop_step file func)
          (mkFileLoopState
             (Z.of_nat (length (pre ++ concat (map ChunkLayout.encode_chunk
                                                 chunks))))
             (fl_self s) (fl_catalog s) (fl_meta_chunk_index s)
             uncompressed_file_pos [] (fl_delivered s)).
Proof.
  induction 1 as [|c chunks Hc _ IH]; intros pre s fuel Hpos Hlogs file Hmax;
    subst file; cbn [map concat length Nat.add] in *.
  - rewrite app_nil_r. exists (fl_uncompressed_file_pos s).
    destruct s; cbn in *. now subst.
  - assert (Hlt : 16 <= Z.of_nat (length (ChunkLayout.encode_chunk c))).
    { destruct c as [[tag subtag] data]. unfold ChunkLayout.encode_chunk.
      rewrite chunk_length. unfold next_pos. cbv zeta.
      pose proof (Z.mod_pos_bound (Z.of_nat (length data)) 8 ltac:(lia)).
      destruct (negb (Z.of_nat (length data) mod 8 =? 0)); lia. }
    rewrite <- app_assoc in Hmax |- *.
    rewrite while_loop_step
      by (cbn beta; rewrite Hpos, !length_app; apply Z.ltb_lt; lia).
    destruct (loop_step_other func pre
                (concat (map ChunkLayout.encode_chunk chunks) ++ rest) c s Hc
                Hpos Hlogs Hmax) as (upos & ->).
    rewrite !(app_assoc pre) in *.
    destruct (IH (pre ++ ChunkLayout.encode_chunk c)
                (mkFileLoopState
                   (Z.of_nat (length (pre ++ ChunkLayout.encode_chunk c)))
                   (fl_self s) (fl_catalog s) (fl_meta_chunk_index s) upos
                   [] (fl_delivered s))
                fuel eq_refl eq_refl Hmax) as (upos' & Hrun).
    cbn [fl_self fl_catalog fl_meta_chunk_index fl_delivered] in Hrun.
    exists upos'. rewrite <- !app_assoc in Hrun |- *. exact Hrun.
Qed.

(** X19.  A file whose chunks after the header chunk are neither catalog
    ([0x600B]) nor compressed data ([0x600D]) chunks is parsed to its last
    byte; [Parse] returns [None], with no catalog, no log entry and no call
    of the callback, whatever the chunks contain. *)
Theorem other_chunks_are_skipped (name : string) (ts_list : list Timesync)
    (file_header_data : bytes) (chunks : list ChunkLayout.Chunk)
    (func : option Sink) (system_boot_uuid : option bytes) :
  Z.of_nat (length (ChunkLayout.encode_file file_header_data chunks))
  <= PY_SSIZE_T_MAX ->
  _ParseFileHeader file_header_data = Ret system_boot_uuid ->
  (system_boot_uuid = None
   \/ is_Some (ChunkLayout.timesync_of ts_list system_boot_uuid)) ->
  Forall ChunkLayout.is_other chunks ->
  let file := ChunkLayout.encode_file file_header_data chunks in
  exists uncompressed_file_pos,
    parse name ts_list (Some file) func
    = Ret (ReturnsNone
             (mkFileLoopState (Z.of_nat (length file))
                (mkTraceV3 name
                   (ChunkLayout.timesync_of ts_list system_boot_uuid) ∅)
                None 0 uncompressed_file_pos [] [])).
Proof.
  intros Hmax Hheader Hts Hchunks file. fold file in Hmax.
  set (n := Z.of_nat (length file_header_data)).
  set (hdr := le_bytes 4 0x1000 ++ le_bytes 4 0x11 ++ le_bytes 8 n).
  set (body := concat (map ChunkLayout.encode_chunk chunks)).
  assert (Hfile : file = [] ++ hdr ++ (file_header_data ++ body)).
  { unfold file, ChunkLayout.encode_file, hdr, body, n.
    now rewrite <- !app_assoc. }
  assert (Hfile2 : file = hdr ++ file_header_data ++ body).
  { exact Hfile. }
  assert (Hfile3 : file = (hdr ++ file_header_data) ++ body).
  { rewrite Hfile2. now rewrite <- !app_assoc. }
  assert (Hhdr : Z.of_nat (length hdr) = 16).
  { unfold hdr. rewrite !length_app, !length_le_bytes. reflexivity. }
  assert (Hn : n <= PY_SSIZE_T_MAX).
  { revert Hmax. rewrite Hfile3, !length_app. unfold n. lia. }
  unfold Parse, _ParseFileObject. read_fixed.
  rewrite (file_read_at file [] hdr (file_header_data ++ body) 0 16 Hfile
             eq_refl Hhdr).
  unfold hdr at 1.
  rewrite chunk_header_parse by (unfold n, PY_SSIZE_T_MAX in *; lia).
  cbn [bind]. change (negb (4096 =? 4096)) with false.
  change (negb (17 =? 17)) with false. cbv iota.
  rewrite file_object_read_small by exact Hn. cbn [bind].
  rewrite (file_read_at file hdr file_header_data body (0 + 16) n Hfile2)
    by (try reflexivity; lia).
  rewrite Hheader. cbn [bind].
  set (self := mkTraceV3 name
                 (ChunkLayout.timesync_of ts_list system_boot_uuid) ∅).
  assert (Hself :
    match system_boot_uuid with
    | Some uuid =>
        match _GetBootUuidTimeSyncList ts_list uuid with
        | Some items =>
            Ret (mkTraceV3 (filename (TraceV3_init name)) (Some items)
                   (large_data (TraceV3_init name)))
        | None => Raise ValueError
        end
    | None => Ret (TraceV3_init name)
    end = Ret self).
  { unfold self. destruct system_boot_uuid as [uuid|].
    - destruct Hts as [Hts|[items Hts]]; [discriminate|].
      cbn [ChunkLayout.timesync_of] in Hts |- *. now rewrite Hts.
    - reflexivity. }
  rewrite Hself. cbn [bind].
  pose proof (chunks_length_le chunks) as Hfuel. fold body in Hfuel.
  assert (Hfile4 : file = (hdr ++ file_header_data) ++ body ++ []).
  { rewrite app_nil_r. exact Hfile3. }
  destruct (loop_other_chunks func chunks [] Hchunks (hdr ++ file_header_data)
              (mkFileLoopState (16 + n) self None 0 (16 + n) [] [])
              (Z.to_nat (Z.of_nat (length file)) - length chunks))
    as (upos & Hrun).
  - cbn [fl_pos]. rewrite length_app. lia.
  - reflexivity.
  - fold body. rewrite <- Hfile4. exact Hmax.
  - cbv zeta in Hrun. fold body in Hrun. rewrite <- Hfile4, <- Hfile3 in Hrun.
    replace (length chunks
             + (Z.to_nat (Z.of_nat (length file)) - length chunks))%nat
      with (Z.to_nat (Z.of_nat (length file))) in Hrun
      by (rewrite Hfile3, length_app; lia).
    rewrite Hrun.
    rewrite while_loop_done by (cbn [fl_pos]; apply Z.ltb_irrefl).
    cbn [bind fl_self fl_logs fl_delivered fl_pos fl_catalog
         fl_meta_chunk_index fl_uncompressed_file_pos].
    assert (Hflush : final_flush func self [] [] = Ret []).
    { unfold final_flush. destruct func; reflexivity. }
    rewrite Hflush. cbn [bind]. exists upos. reflexivity.
Qed.

(** A pass of the chunk loop over a chunk header that announces more bytes
    than [sys.maxsize]. *)
Lemma loop_step_overflow (func : option Sink) (pre rest : bytes)
    (tag subtag size : Z) (s : FileLoopState) :
  0 <= tag < 2 ^ 32 -> 0 <= subtag < 2 ^ 32 ->
  PY_SSIZE_T_MAX < size < 2 ^ 64 ->
  fl_pos s = Z.of_nat (length pre) ->
  loop_step (pre ++ ChunkLayout.chunk_header tag subtag size ++ rest) func s
  = Raise OverflowError.
Proof.
  intros Htag Hsub Hsize Hpos.
  unfold file_loop_step, file_seek. cbn [contents]. read_fixed.
  assert (Hhdr : Z.of_nat (length (ChunkLayout.chunk_header tag subtag size))
                 = 16).
  { unfold ChunkLayout.chunk_header.
    rewrite !length_app, !length_le_bytes. reflexivity. }
  rewrite (file_read_at _ pre (ChunkLayout.chunk_header tag subtag size) rest
             (fl_pos s) 16 eq_refl Hpos Hhdr).
  unfold ChunkLayout.chunk_header at 1.
  rewrite chunk_header_parse by (unfold PY_SSIZE_T_MAX in *; lia).
  cbn [bind].
  unfold file_object_read.
  destruct (Z.gtb_spec size PY_SSIZE_T_MAX) as [_|Hle]; [reflexivity|lia].
Qed.

(** X20.  A chunk header that announces more data than [sys.maxsize]
    bytes makes [read] raise [OverflowError], which [Parse] does not catch:
    the exception leaves [Parse], for the header chunk and for any chunk
    that follows chunks which are walked over. *)
Theorem oversized_chunk_raises_overflow (name : string)
    (ts_list : list Timesync) (file_header_data : bytes)
    (chunks : list ChunkLayout.Chunk) (func : option Sink)
    (system_boot_uuid : option bytes) (tag subtag size : Z) (rest : bytes) :
  0 <= tag < 2 ^ 32 -> 0 <= subtag < 2 ^ 32 ->
  PY_SSIZE_T_MAX < size < 2 ^ 64 ->
  parse name ts_list
    (Some (ChunkLayout.chunk_header 0x1000 0x11 size ++ rest)) func
  = Raise OverflowError
  /\ let file :=
       ChunkLayout.encode_file file_header_data chunks
         ++ ChunkLayout.chunk_header tag subtag size ++ rest in
     (Z.of_nat (length file) <= PY_SSIZE_T_MAX ->
      _ParseFileHeader file_header_data = Ret system_boot_uuid ->
      (system_boot_uuid = None
       \/ is_Some (ChunkLayout.timesync_of ts_list system_boot_uuid)) ->
      Forall ChunkLayout.is_other chunks ->
      parse name ts_list (Some file) func = Raise OverflowError).
Proof.
  intros Htag Hsub Hsize. split.
  - unfold Parse, _ParseFileObject. read_fixed.
    assert (Hhdr :
      Z.of_nat (length (ChunkLayout.chunk_header 0x1000 0x11 size)) = 16).
    { unfold ChunkLayout.chunk_header.
      rewrite !length_app, !length_le_bytes. reflexivity. }
    rewrite (file_read_at (ChunkLayout.chunk_header 0x1000 0x11 size ++ rest)
               [] (ChunkLayout.chunk_header 0x1000 0x11 size) rest 0 16
               eq_refl eq_refl Hhdr).
    unfold ChunkLayout.chunk_header at 1.
    rewrite chunk_header_parse by (unfold PY_SSIZE_T_MAX in *; lia).
    cbn [bind]. change (negb (4096 =? 4096)) with false.
    change (negb (17 =? 17)) with false. cbv iota.
    unfold file_object_read.
    destruct (Z.gtb_spec size PY_SSIZE_T_MAX) as [_|Hle]; [reflexivity|lia].
  - intros file Hmax Hheader Hts Hchunks.
    set (n := Z.of_nat (length file_header_data)).
    set (hdr := le_bytes 4 0x1000 ++ le_bytes 4 0x11 ++ le_bytes 8 n).
    set (body := concat (map ChunkLayout.encode_chunk chunks)).
    set (tail := ChunkLayout.chunk_header tag subtag size ++ rest).
    assert (Hfile : file = [] ++ hdr ++ (file_header_data ++ body ++ tail)).
    { unfold file, ChunkLayout.encode_file, hdr, body, n, tail.
      now rewrite <- !app_assoc. }
    assert (Hfile2 : file = hdr ++ file_header_data ++ body ++ tail).
    { exact Hfile. }
    assert (Hfile3 : file = (hdr ++ file_header_data) ++ body ++ tail).
    { rewrite Hfile2. now rewrite <- !app_assoc. }
    assert (Hhdr : Z.of_nat (length hdr) = 16).
    { unfold hdr. rewrite !length_app, !length_le_bytes. reflexivity. }
    assert (Hn : n <= PY_SSIZE_T_MAX).
    { revert Hmax. rewrite Hfile3, !length_app. unfold n. lia. }
    assert (Htail : 16 <= Z.of_nat (length tail)).
    { unfold tail, ChunkLayout.chunk_header.
      rewrite !length_app, !length_le_bytes. lia. }
    unfold Parse, _ParseFileObject. read_fixed.
    rewrite (file_read_at file [] hdr (file_header_data ++ body ++ tail) 0 16
               Hfile eq_refl Hhdr).
    unfold hdr at 1.
    rewrite chunk_header_parse by (unfold n, PY_SSIZE_T_MAX in *; lia).
    cbn [bind]. change (negb (4096 =? 4096)) with false.
    change (negb (17 =? 17)) with false. cbv iota.
    rewrite file_object_read_small by exact Hn. cbn [bind].
    rewrite (file_read_at file hdr file_header_data (body ++ tail) (0 + 16) n
               Hfile2)
      by (try reflexivity; lia).
    rewrite Hheader. cbn [bind].
    set (self := mkTraceV3 name
                   (ChunkLayout.timesync_of ts_list system_boot_uuid) ∅).
    assert (Hself :
      match system_boot_uuid with
      | Some uuid =>
          match _GetBootUuidTimeSyncList ts_list uuid with
          | Some items =>
              Ret (mkTraceV3 (filename (TraceV3_init name)) (Some items)
                     (large_data (TraceV3_init name)))
          | None => Raise ValueError
          end
      | None => Ret (TraceV3_init name)
      end = Ret self).
    { unfold self. destruct system_boot_uuid as [uuid|].
      - destruct Hts as [Hts|[items Hts]]; [discriminate|].
        cbn [ChunkLayout.timesync_of] in Hts |- *. now rewrite Hts.
      - reflexivity. }
    rewrite Hself. cbn [bind].
    pose proof (chunks_length_le chunks) as Hfuel. fold body in Hfuel.
    destruct (loop_other_chunks func chunks tail Hchunks
                (hdr ++ file_header_data)
                (mkFileLoopState (16 + n) self None 0 (16 + n) [] [])
                (S (Z.to_nat (Z.of_nat (length file)) - length chunks - 1)))
      as (upos & Hrun).
    + cbn [fl_pos]. rewrite length_app. lia.
    + reflexivity.
    + fold body. rewrite <- Hfile3. exact Hmax.
    + cbv zeta in Hrun. fold body in Hrun. rewrite <- Hfile3 in Hrun.
      replace (length chunks
               + S (Z.to_nat (Z.of_nat (length file)) - length chunks - 1))%nat
        with (Z.to_nat (Z.of_nat (length file))) in Hrun
        by (rewrite Hfile3, !length_app; lia).
      rewrite Hrun.
      rewrite while_loop_step
        by (cbn [fl_pos]; rewrite Hfile3, !length_app; apply Z.ltb_lt; lia).
      assert (Hstep :
        loop_step file func
          (mkFileLoopState
             (Z.of_nat (length ((hdr ++ file_header_data) ++ body)))
             self None 0 upos [] [])
        = Raise OverflowError).
      { replace file
          with (((hdr ++ file_header_data) ++ body)
                  ++ ChunkLayout.chunk_header tag subtag size ++ rest)
          by (rewrite Hfile3; unfold tail; now rewrite <- !app_assoc).
        now apply loop_step_overflow. }
      cbn [fl_self fl_catalog fl_meta_chunk_index fl_delivered].
      rewrite Hstep. reflexivity.
Qed.

End ChunkFraming.

Lemma other_chunks_are_skipped_witness :
  exists uncompressed_file_pos,
    Scenario.parse_file
      (ChunkLayout.encode_file demo_file_header other_chunks)
      (Some (fun _ _ _ => Raise ValueError))
    = Ret (ReturnsNone
             (mkFileLoopState 160
                (mkTraceV3 "demo.tracev3" (Some [scenario6_item]) ∅)
                None 0 uncompressed_file_pos [] [])).
Proof.
  assert (H1 : Z.of_nat (length (ChunkLayout.encode_file demo_file_header
                                    other_chunks)) <= PY_SSIZE_T_MAX)
    by (vm_compute; discriminate).
  assert (H2 : _ParseFileHeader demo_file_header
               = Ret (Some Scenario.demo_boot_uuid))
    by (vm_compute; reflexivity).
  assert (H3 : Some Scenario.demo_boot_uuid = None
               \/ is_Some (ChunkLayout.timesync_of Scenario.demo_ts_list
                             (Some Scenario.demo_boot_uuid))).
  { right. exists [scenario6_item]. vm_compute. reflexivity. }
  assert (H4 : Forall ChunkLayout.is_other other_chunks).
  { unfold other_chunks, ChunkLayout.is_other, ChunkLayout.chunk_fits,
      ChunkLayout.chunk_tag.
    repeat constructor; cbn; try lia; try discriminate. }
  destruct (other_chunks_are_skipped Scenario.Item Scenario.read_items
              Scenario.read_items2 Scenario.recreate Scenario.no_subsystem
              Scenario.no_other_uuidtext Scenario.apfs_time
              Scenario.no_entries Scenario.no_entries Scenario.demo_meta
              Scenario.no_lz4 "demo.tracev3" Scenario.demo_ts_list
              demo_file_header other_chunks
              (Some (fun _ _ _ => Raise ValueError))
              (Some Scenario.demo_boot_uuid) H1 H2 H3 H4) as (upos & Hrun).
  exists upos. exact Hrun.
Defined.

Lemma oversized_chunk_raises_overflow_witness :
  Scenario.parse_file
    (ChunkLayout.encode_file demo_file_header other_chunks
       ++ ChunkLayout.chunk_header 0x6001 0 (2 ^ 63) ++ [])
    (Some Scenario.accept_all)
  = Raise OverflowError.
Proof.
  assert (Hmax : Z.of_nat (length (ChunkLayout.encode_file demo_file_header
                                     other_chunks
                                     ++ ChunkLayout.chunk_header 0x6001 0
                                          (2 ^ 63) ++ []))
                 <= PY_SSIZE_T_MAX)
    by (vm_compute; discriminate).
  assert (H2 : _ParseFileHeader demo_file_header
               = Ret (Some Scenario.demo_boot_uuid))
    by (vm_compute; reflexivity).
  assert (H3 : Some Scenario.demo_boot_uuid = None
               \/ is_Some (ChunkLayout.timesync_of Scenario.demo_ts_list
                             (Some Scenario.demo_boot_uuid))).
  { right. exists [scenario6_item]. vm_compute. reflexivity. }
  assert (H4 : Forall ChunkLayout.is_other other_chunks).
  { unfold other_chunks, ChunkLayout.is_other, ChunkLayout.chunk_fits,
      ChunkLayout.chunk_tag.
    repeat constructor; cbn; try lia; try discriminate. }
  exact (proj2
           (oversized_chunk_raises_overflow Scenario.Item Scenario.read_items
              Scenario.read_items2 Scenario.recreate Scenario.no_subsystem
              Scenario.no_other_uuidtext Scenario.apfs_time
              Scenario.no_entries Scenario.no_entries Scenario.demo_meta
              Scenario.no_lz4 "demo.tracev3" Scenario.demo_ts_list
              demo_file_header other_chunks (Some Scenario.accept_all)
              (Some Scenario.demo_boot_uuid) 0x6001 0 (2 ^ 63) []
              ltac:(lia) ltac:(lia) ltac:(unfold PY_SSIZE_T_MAX; lia))
           Hmax H2 H3 H4).
Defined.
